(** * The Spotinst Elastigroup task of kops
    ([upup/pkg/fi/cloudup/spotinsttasks/elastigroup.go])

    A shallow embedding of the task's reconciliation code and the proofs
    of its specified properties.

    Conventions of the embedding.
    - A Go pointer or nil-able value is an [option]; dereferencing [None]
      is the outcome [Panic].  A nil slice or map is [None] and an empty
      one [Some] of the empty value; the elements of a slice of pointers
      are taken to be non-nil.
    - [int] and [int64] are integers of the same width on the supported
      (64-bit) platforms, so the conversions [int(x)] and [int64(x)] are
      the identity on [Z]; no arithmetic is done on them by this file.
    - [float64] values are only copied, never computed with; they are
      carried as their IEEE-754 bit pattern.
    - A Go [map[string]string] is a [gmap string string]; the order in
      which a [range] statement visits it is chosen by the Go runtime and
      is an input of the embedding (see [GoRuntime]).
    - Calls to collaborators (the Spotinst and AWS clients, the image
      resolver, the Terraform target) are answered by the oracles of
      [AWSCloud] and [TerraformTarget] and recorded, in order, in a trace
      of [event]s, together with the waits of [time.Sleep].  Of the log
      lines only the warning of [update] about changes that were not
      applied is recorded; the arguments of the others are still
      evaluated, so a nil dereference in one of them is a [Panic]. *)

From Stdlib Require Import ZArith String List Lia.
From stdpp Require Import gmap strings list fin_maps.

Local Open Scope string_scope.
Local Open Scope Z_scope.
Local Open Scope list_scope.

(** ** Go base values *)

Definition int := Z.
Definition int64 := Z.
Definition float64 := Z.

Definition int_of_int64 (x : int64) : int := x.
Definition int64_of_int (x : int) : int64 := x.

(** ** Errors *)

Module client.
(** [client.Error] of the Spotinst SDK: one sub-error of a structured
    error collection. *)
Record Error : Type := mkError { Code : string; Message : string; Field : string }.
End client.

(** Go [error] values met by this file.  An error built by [fmt.Errorf]
    keeps its format string, its string arguments and, where the format
    has a [%v] for one, the error or sub-error it wraps. *)
Inductive error : Type :=
| OpaqueError (msg : string)               (* an error value of another package *)
| ClientErrors (errs : list client.Error)  (* client.Errors *)
| Errorf (format : string) (args : list string)
| ErrorfWrap (format : string) (args : list string) (err : error)
| ErrorfSub (format : string) (sub : client.Error)
| RequiredField (name : string).           (* fi.RequiredField *)

(** ** Outcomes

    [Ok a]: normal return with [a] and a nil error; [Err e]: return with
    the error [e]; [Panic]: a run-time panic (nil dereference). *)
Inductive result (A : Type) : Type :=
| Ok (a : A)
| Err (e : error)
| Panic.
Arguments Ok {A} a.
Arguments Err {A} e.
Arguments Panic {A}.

Definition is_Ok {A} (r : result A) : bool :=
  match r with Ok _ => true | _ => false end.

(** ** fi helpers *)

Definition StringValue (p : option string) : string := default "" p.
Definition IntValue (p : option int) : int := default 0 p.
Definition Int64Value (p : option int64) : int64 := default 0 p.
Definition BoolValue (p : option bool) : bool := default false p.

(** [p == nil] and [p != nil]. *)
Definition is_nil {A} (p : option A) : bool :=
  match p with None => true | Some _ => false end.
Definition not_nil {A} (p : option A) : bool := negb (is_nil p).

(** [strings.Contains]. *)
Fixpoint Contains (s substr : string) : bool :=
  if String.prefix substr s then true
  else match s with
       | EmptyString => false
       | String _ s' => Contains s' substr
       end.

(** [strings.HasPrefix] and [strings.TrimPrefix]. *)
Definition HasPrefix (s pre : string) : bool := String.prefix pre s.
Definition TrimPrefix (s pre : string) : string :=
  if HasPrefix s pre
  then String.substring (String.length pre) (String.length s - String.length pre) s
  else s.

(** ** Data model

    Every Go struct is a record [t] in a module of the struct's name, with
    the Go field names; [new] is the zero value and [set_F] the assignment
    to field [F]. *)

(** AWS SDK, [service/ec2]: the fields of [ec2.Image] read here. *)
Module ec2.

Module Image.
Record t : Type := mk {
    ImageId : option string;
    RootDeviceName : option string }.
Definition new : t := mk None None.
End Image.

End ec2.

(** AWS SDK, [service/elb]. *)
Module elb.

Module LoadBalancerDescription.
Record t : Type := mk { LoadBalancerName : option string }.
Definition new : t := mk None.
End LoadBalancerDescription.

End elb.

(** AWS SDK, [service/elbv2]. *)
Module elbv2.

Module LoadBalancer.
Record t : Type := mk { LoadBalancerName : option string }.
Definition new : t := mk None.
End LoadBalancer.

End elbv2.

(** [awsup]: an entry of [info.EphemeralDevices()]. *)
Module awsup.

Module EphemeralDevice.
Record t : Type := mk { DeviceName : string; VirtualName : string }.
Definition new : t := mk "" "".
End EphemeralDevice.

End awsup.

(** [k8s.io/api/core/v1]. *)
Module corev1.

Module Taint.
Record t : Type := mk { Key : string; Value : string; Effect : string }.
Definition new : t := mk "" "" "".
End Taint.

End corev1.

(** The tasks of [awstasks] this task refers to, with the fields this file reads or writes. *)
Module awstasks.

Module IAMInstanceProfile.
Record t : Type := mk { Name : option string }.
Definition new : t := mk None.
End IAMInstanceProfile.

Module ClassicLoadBalancer.
Record t : Type := mk { Name : option string }.
Definition new : t := mk None.
End ClassicLoadBalancer.

Module SSHKey.
Record t : Type := mk { Name : option string }.
Definition new : t := mk None.
End SSHKey.

Module Subnet.
Record t : Type := mk { ID : option string }.
Definition new : t := mk None.
End Subnet.

Module SecurityGroup.
Record t : Type := mk { ID : option string }.
Definition new : t := mk None.
End SecurityGroup.

Module BlockDeviceMapping.
Record t : Type := mk {
    DeviceName : option string;
    VirtualName : option string;
    EbsDeleteOnTermination : option bool;
    EbsVolumeSize : option int64;
    EbsVolumeType : option string;
    EbsVolumeIops : option int64;
    EbsVolumeThroughput : option int64 }.
Definition new : t := mk None None None None None None None.
Definition set_EbsVolumeIops (v : option int64) (x : t) : t :=
    mk (DeviceName x) (VirtualName x) (EbsDeleteOnTermination x)
     (EbsVolumeSize x) (EbsVolumeType x) v (EbsVolumeThroughput x).
Definition set_EbsVolumeThroughput (v : option int64) (x : t) : t :=
    mk (DeviceName x) (VirtualName x) (EbsDeleteOnTermination x)
     (EbsVolumeSize x) (EbsVolumeType x) (EbsVolumeIops x) v.
End BlockDeviceMapping.

End awstasks.

(** Spotinst SDK, [service/elastigroup/providers/aws]: the provider-side group and its parts, with the fields this file reads or writes.  A setter [SetX(v)] of the SDK stores [v] in field [X]. *)
Module aws.

Module Capacity.
Record t : Type := mk {
    Minimum : option int;
    Maximum : option int;
    Target : option int }.
Definition new : t := mk None None None.
Definition set_Minimum (v : option int) (x : t) : t :=
    mk v (Maximum x) (Target x).
Definition set_Maximum (v : option int) (x : t) : t :=
    mk (Minimum x) v (Target x).
Definition set_Target (v : option int) (x : t) : t :=
    mk (Minimum x) (Maximum x) v.
End Capacity.

Module Strategy.
Record t : Type := mk {
    Risk : option float64;
    AvailabilityVsCost : option string;
    FallbackToOnDemand : option bool;
    UtilizeReservedInstances : option bool;
    DrainingTimeout : option int }.
Definition new : t := mk None None None None None.
Definition set_Risk (v : option float64) (x : t) : t :=
    mk v (AvailabilityVsCost x) (FallbackToOnDemand x)
     (UtilizeReservedInstances x) (DrainingTimeout x).
Definition set_AvailabilityVsCost (v : option string) (x : t) : t :=
    mk (Risk x) v (FallbackToOnDemand x) (UtilizeReservedInstances x)
     (DrainingTimeout x).
Definition set_FallbackToOnDemand (v : option bool) (x : t) : t :=
    mk (Risk x) (AvailabilityVsCost x) v (UtilizeReservedInstances x)
     (DrainingTimeout x).
Definition set_UtilizeReservedInstances (v : option bool) (x : t) : t :=
    mk (Risk x) (AvailabilityVsCost x) (FallbackToOnDemand x) v
     (DrainingTimeout x).
Definition set_DrainingTimeout (v : option int) (x : t) : t :=
    mk (Risk x) (AvailabilityVsCost x) (FallbackToOnDemand x)
     (UtilizeReservedInstances x) v.
End Strategy.

Module InstanceTypes.
Record t : Type := mk {
    OnDemand : option string;
    Spot : option (list string) }.
Definition new : t := mk None None.
Definition set_OnDemand (v : option string) (x : t) : t := mk v (Spot x).
Definition set_Spot (v : option (list string)) (x : t) : t :=
    mk (OnDemand x) v.
End InstanceTypes.

Module EBS.
Record t : Type := mk {
    DeleteOnTermination : option bool;
    VolumeType : option string;
    VolumeSize : option int;
    IOPS : option int;
    Throughput : option int;
    SnapshotID : option string }.
Definition new : t := mk None None None None None None.
Definition set_IOPS (v : option int) (x : t) : t :=
    mk (DeleteOnTermination x) (VolumeType x) (VolumeSize x) v (Throughput x)
     (SnapshotID x).
Definition set_Throughput (v : option int) (x : t) : t :=
    mk (DeleteOnTermination x) (VolumeType x) (VolumeSize x) (IOPS x) v
     (SnapshotID x).
End EBS.

Module BlockDeviceMapping.
Record t : Type := mk {
    DeviceName : option string;
    VirtualName : option string;
    EBS : option EBS.t }.
Definition new : t := mk None None None.
End BlockDeviceMapping.

Module NetworkInterface.
Record t : Type := mk {
    Description : option string;
    DeviceIndex : option int;
    DeleteOnTermination : option bool;
    AssociatePublicIPAddress : option bool }.
Definition new : t := mk None None None None.
End NetworkInterface.

Module LoadBalancer.
Record t : Type := mk { Name : option string; Type_ : option string }.
Definition new : t := mk None None.
End LoadBalancer.

Module LoadBalancersConfig.
Record t : Type := mk { LoadBalancers : option (list LoadBalancer.t) }.
Definition new : t := mk None.
End LoadBalancersConfig.

Module IAMInstanceProfile.
Record t : Type := mk { Name : option string }.
Definition new : t := mk None.
End IAMInstanceProfile.

Module Tag.
Record t : Type := mk { Key : option string; Value : option string }.
Definition new : t := mk None None.
End Tag.

Module AutoScaleLabel.
Record t : Type := mk { Key : option string; Value : option string }.
Definition new : t := mk None None.
End AutoScaleLabel.

Module AutoScaleHeadroom.
Record t : Type := mk {
    CPUPerUnit : option int;
    GPUPerUnit : option int;
    MemoryPerUnit : option int;
    NumOfUnits : option int }.
Definition new : t := mk None None None None.
End AutoScaleHeadroom.

Module AutoScaleDown.
Record t : Type := mk {
    MaxScaleDownPercentage : option float64;
    EvaluationPeriods : option int }.
Definition new : t := mk None None.
End AutoScaleDown.

Module AutoScaleKubernetes.
Record t : Type := mk {
    IsEnabled : option bool;
    IsAutoConfig : option bool;
    Cooldown : option int;
    Headroom : option AutoScaleHeadroom.t;
    Down : option AutoScaleDown.t;
    Labels : option (list AutoScaleLabel.t) }.
Definition new : t := mk None None None None None None.
Definition set_IsAutoConfig (v : option bool) (x : t) : t :=
    mk (IsEnabled x) v (Cooldown x) (Headroom x) (Down x) (Labels x).
Definition set_Headroom (v : option AutoScaleHeadroom.t) (x : t) : t :=
    mk (IsEnabled x) (IsAutoConfig x) (Cooldown x) v (Down x) (Labels x).
Definition set_Down (v : option AutoScaleDown.t) (x : t) : t :=
    mk (IsEnabled x) (IsAutoConfig x) (Cooldown x) (Headroom x) v (Labels x).
Definition set_Labels (v : option (list AutoScaleLabel.t)) (x : t) : t :=
    mk (IsEnabled x) (IsAutoConfig x) (Cooldown x) (Headroom x) (Down x) v.
End AutoScaleKubernetes.

Module KubernetesIntegration.
Record t : Type := mk {
    IntegrationMode : option string;
    ClusterIdentifier : option string;
    AutoScale : option AutoScaleKubernetes.t }.
Definition new : t := mk None None None.
Definition set_AutoScale (v : option AutoScaleKubernetes.t) (x : t) : t :=
    mk (IntegrationMode x) (ClusterIdentifier x) v.
End KubernetesIntegration.

Module Integration.
Record t : Type := mk { Kubernetes : option KubernetesIntegration.t }.
Definition new : t := mk None.
End Integration.

Module LaunchSpecification.
Record t : Type := mk {
    Monitoring : option bool;
    KeyPair : option string;
    Tenancy : option string;
    BlockDeviceMappings : option (list BlockDeviceMapping.t);
    ImageID : option string;
    UserData : option string;
    IAMInstanceProfile : option IAMInstanceProfile.t;
    SecurityGroupIDs : option (list string);
    NetworkInterfaces : option (list NetworkInterface.t);
    LoadBalancersConfig : option LoadBalancersConfig.t;
    Tags : option (list Tag.t);
    HealthCheckType : option string;
    EBSOptimized : option bool }.
Definition new : t := mk None None None None None None None None None None
    None None None.
Definition set_Monitoring (v : option bool) (x : t) : t :=
    mk v (KeyPair x) (Tenancy x) (BlockDeviceMappings x) (ImageID x)
     (UserData x) (IAMInstanceProfile x) (SecurityGroupIDs x)
     (NetworkInterfaces x) (LoadBalancersConfig x) (Tags x)
     (HealthCheckType x) (EBSOptimized x).
Definition set_KeyPair (v : option string) (x : t) : t :=
    mk (Monitoring x) v (Tenancy x) (BlockDeviceMappings x) (ImageID x)
     (UserData x) (IAMInstanceProfile x) (SecurityGroupIDs x)
     (NetworkInterfaces x) (LoadBalancersConfig x) (Tags x)
     (HealthCheckType x) (EBSOptimized x).
Definition set_Tenancy (v : option string) (x : t) : t :=
    mk (Monitoring x) (KeyPair x) v (BlockDeviceMappings x) (ImageID x)
     (UserData x) (IAMInstanceProfile x) (SecurityGroupIDs x)
     (NetworkInterfaces x) (LoadBalancersConfig x) (Tags x)
     (HealthCheckType x) (EBSOptimized x).
Definition set_BlockDeviceMappings (v : option (list BlockDeviceMapping.t)) (x : t) : t :=
    mk (Monitoring x) (KeyPair x) (Tenancy x) v (ImageID x) (UserData x)
     (IAMInstanceProfile x) (SecurityGroupIDs x) (NetworkInterfaces x)
     (LoadBalancersConfig x) (Tags x) (HealthCheckType x) (EBSOptimized x).
Definition set_ImageID (v : option string) (x : t) : t :=
    mk (Monitoring x) (KeyPair x) (Tenancy x) (BlockDeviceMappings x) v
     (UserData x) (IAMInstanceProfile x) (SecurityGroupIDs x)
     (NetworkInterfaces x) (LoadBalancersConfig x) (Tags x)
     (HealthCheckType x) (EBSOptimized x).
Definition set_UserData (v : option string) (x : t) : t :=
    mk (Monitoring x) (KeyPair x) (Tenancy x) (BlockDeviceMappings x)
     (ImageID x) v (IAMInstanceProfile x) (SecurityGroupIDs x)
     (NetworkInterfaces x) (LoadBalancersConfig x) (Tags x)
     (HealthCheckType x) (EBSOptimized x).
Definition set_IAMInstanceProfile (v : option IAMInstanceProfile.t) (x : t) : t :=
    mk (Monitoring x) (KeyPair x) (Tenancy x) (BlockDeviceMappings x)
     (ImageID x) (UserData x) v (SecurityGroupIDs x) (NetworkInterfaces x)
     (LoadBalancersConfig x) (Tags x) (HealthCheckType x) (EBSOptimized x).
Definition set_SecurityGroupIDs (v : option (list string)) (x : t) : t :=
    mk (Monitoring x) (KeyPair x) (Tenancy x) (BlockDeviceMappings x)
     (ImageID x) (UserData x) (IAMInstanceProfile x) v (NetworkInterfaces x)
     (LoadBalancersConfig x) (Tags x) (HealthCheckType x) (EBSOptimized x).
Definition set_NetworkInterfaces (v : option (list NetworkInterface.t)) (x : t) : t :=
    mk (Monitoring x) (KeyPair x) (Tenancy x) (BlockDeviceMappings x)
     (ImageID x) (UserData x) (IAMInstanceProfile x) (SecurityGroupIDs x) v
     (LoadBalancersConfig x) (Tags x) (HealthCheckType x) (EBSOptimized x).
Definition set_LoadBalancersConfig (v : option LoadBalancersConfig.t) (x : t) : t :=
    mk (Monitoring x) (KeyPair x) (Tenancy x) (BlockDeviceMappings x)
     (ImageID x) (UserData x) (IAMInstanceProfile x) (SecurityGroupIDs x)
     (NetworkInterfaces x) v (Tags x) (HealthCheckType x) (EBSOptimized x).
Definition set_Tags (v : option (list Tag.t)) (x : t) : t :=
    mk (Monitoring x) (KeyPair x) (Tenancy x) (BlockDeviceMappings x)
     (ImageID x) (UserData x) (IAMInstanceProfile x) (SecurityGroupIDs x)
     (NetworkInterfaces x) (LoadBalancersConfig x) v (HealthCheckType x)
     (EBSOptimized x).
Definition set_HealthCheckType (v : option string) (x : t) : t :=
    mk (Monitoring x) (KeyPair x) (Tenancy x) (BlockDeviceMappings x)
     (ImageID x) (UserData x) (IAMInstanceProfile x) (SecurityGroupIDs x)
     (NetworkInterfaces x) (LoadBalancersConfig x) (Tags x) v
     (EBSOptimized x).
Definition set_EBSOptimized (v : option bool) (x : t) : t :=
    mk (Monitoring x) (KeyPair x) (Tenancy x) (BlockDeviceMappings x)
     (ImageID x) (UserData x) (IAMInstanceProfile x) (SecurityGroupIDs x)
     (NetworkInterfaces x) (LoadBalancersConfig x) (Tags x)
     (HealthCheckType x) v.
End LaunchSpecification.

Module Compute.
Record t : Type := mk {
    Product : option string;
    InstanceTypes : option InstanceTypes.t;
    SubnetIDs : option (list string);
    LaunchSpecification : option LaunchSpecification.t }.
Definition new : t := mk None None None None.
Definition set_Product (v : option string) (x : t) : t :=
    mk v (InstanceTypes x) (SubnetIDs x) (LaunchSpecification x).
Definition set_InstanceTypes (v : option InstanceTypes.t) (x : t) : t :=
    mk (Product x) v (SubnetIDs x) (LaunchSpecification x).
Definition set_SubnetIDs (v : option (list string)) (x : t) : t :=
    mk (Product x) (InstanceTypes x) v (LaunchSpecification x).
Definition set_LaunchSpecification (v : option LaunchSpecification.t) (x : t) : t :=
    mk (Product x) (InstanceTypes x) (SubnetIDs x) v.
End Compute.

Module Group.
Record t : Type := mk {
    ID : option string;
    Name : option string;
    Description : option string;
    Region : option string;
    Capacity : option Capacity.t;
    Strategy : option Strategy.t;
    Compute : option Compute.t;
    Integration : option Integration.t }.
Definition new : t := mk None None None None None None None None.
Definition set_ID (v : option string) (x : t) : t :=
    mk v (Name x) (Description x) (Region x) (Capacity x) (Strategy x)
     (Compute x) (Integration x).
Definition set_Name (v : option string) (x : t) : t :=
    mk (ID x) v (Description x) (Region x) (Capacity x) (Strategy x)
     (Compute x) (Integration x).
Definition set_Description (v : option string) (x : t) : t :=
    mk (ID x) (Name x) v (Region x) (Capacity x) (Strategy x) (Compute x)
     (Integration x).
Definition set_Region (v : option string) (x : t) : t :=
    mk (ID x) (Name x) (Description x) v (Capacity x) (Strategy x) (Compute x)
     (Integration x).
Definition set_Capacity (v : option Capacity.t) (x : t) : t :=
    mk (ID x) (Name x) (Description x) (Region x) v (Strategy x) (Compute x)
     (Integration x).
Definition set_Strategy (v : option Strategy.t) (x : t) : t :=
    mk (ID x) (Name x) (Description x) (Region x) (Capacity x) v (Compute x)
     (Integration x).
Definition set_Compute (v : option Compute.t) (x : t) : t :=
    mk (ID x) (Name x) (Description x) (Region x) (Capacity x) (Strategy x) v
     (Integration x).
Definition set_Integration (v : option Integration.t) (x : t) : t :=
    mk (ID x) (Name x) (Description x) (Region x) (Capacity x) (Strategy x)
     (Compute x) v.
End Group.

End aws.

Module fi.
(** [fi.Lifecycle], a string type. *)
Definition Lifecycle := string.

(** [fi.Resource]: a resource is what [fi.ResourceAsString] returns for it. *)
Record Resource : Type := mkResource { ResourceAsString : result string }.
Definition NewStringResource (s : string) : Resource := mkResource (Ok s).
End fi.

(** [terraformWriter.Literal]. *)
Inductive Literal : Type :=
| LiteralProperty (kind name prop : string)
| LiteralFromStringValue (s : string).

(** *** The task and its option groups *)

Module RootVolumeOpts.
Record t : Type := mk {
    Type_ : option string;
    Size : option int64;
    IOPS : option int64;
    Throughput : option int64;
    Optimization : option bool }.
Definition new : t := mk None None None None None.
Definition set_Type_ (v : option string) (x : t) : t :=
    mk v (Size x) (IOPS x) (Throughput x) (Optimization x).
Definition set_Size (v : option int64) (x : t) : t :=
    mk (Type_ x) v (IOPS x) (Throughput x) (Optimization x).
Definition set_IOPS (v : option int64) (x : t) : t :=
    mk (Type_ x) (Size x) v (Throughput x) (Optimization x).
Definition set_Throughput (v : option int64) (x : t) : t :=
    mk (Type_ x) (Size x) (IOPS x) v (Optimization x).
Definition set_Optimization (v : option bool) (x : t) : t :=
    mk (Type_ x) (Size x) (IOPS x) (Throughput x) v.
End RootVolumeOpts.

Module AutoScalerHeadroomOpts.
Record t : Type := mk {
    CPUPerUnit : option int;
    GPUPerUnit : option int;
    MemPerUnit : option int;
    NumOfUnits : option int }.
Definition new : t := mk None None None None.
Definition set_CPUPerUnit (v : option int) (x : t) : t :=
    mk v (GPUPerUnit x) (MemPerUnit x) (NumOfUnits x).
Definition set_GPUPerUnit (v : option int) (x : t) : t :=
    mk (CPUPerUnit x) v (MemPerUnit x) (NumOfUnits x).
Definition set_MemPerUnit (v : option int) (x : t) : t :=
    mk (CPUPerUnit x) (GPUPerUnit x) v (NumOfUnits x).
Definition set_NumOfUnits (v : option int) (x : t) : t :=
    mk (CPUPerUnit x) (GPUPerUnit x) (MemPerUnit x) v.
End AutoScalerHeadroomOpts.

Module AutoScalerDownOpts.
Record t : Type := mk {
    MaxPercentage : option float64;
    EvaluationPeriods : option int }.
Definition new : t := mk None None.
End AutoScalerDownOpts.

Module AutoScalerResourceLimitsOpts.
Record t : Type := mk { MaxVCPU : option int; MaxMemory : option int }.
Definition new : t := mk None None.
End AutoScalerResourceLimitsOpts.

Module AutoScalerOpts.
Record t : Type := mk {
    Enabled : option bool;
    AutoConfig : option bool;
    AutoHeadroomPercentage : option int;
    ClusterID : option string;
    Cooldown : option int;
    Labels : option (gmap string string);
    Taints : option (list corev1.Taint.t);
    Headroom : option AutoScalerHeadroomOpts.t;
    Down : option AutoScalerDownOpts.t;
    ResourceLimits : option AutoScalerResourceLimitsOpts.t }.
Definition new : t := mk None None None None None None None None None None.
Definition set_Enabled (v : option bool) (x : t) : t :=
    mk v (AutoConfig x) (AutoHeadroomPercentage x) (ClusterID x) (Cooldown x)
     (Labels x) (Taints x) (Headroom x) (Down x) (ResourceLimits x).
Definition set_Cooldown (v : option int) (x : t) : t :=
    mk (Enabled x) (AutoConfig x) (AutoHeadroomPercentage x) (ClusterID x) v
     (Labels x) (Taints x) (Headroom x) (Down x) (ResourceLimits x).
Definition set_ClusterID (v : option string) (x : t) : t :=
    mk (Enabled x) (AutoConfig x) (AutoHeadroomPercentage x) v (Cooldown x)
     (Labels x) (Taints x) (Headroom x) (Down x) (ResourceLimits x).
Definition set_Labels (v : option (gmap string string)) (x : t) : t :=
    mk (Enabled x) (AutoConfig x) (AutoHeadroomPercentage x) (ClusterID x)
     (Cooldown x) v (Taints x) (Headroom x) (Down x) (ResourceLimits x).
Definition set_Headroom (v : option AutoScalerHeadroomOpts.t) (x : t) : t :=
    mk (Enabled x) (AutoConfig x) (AutoHeadroomPercentage x) (ClusterID x)
     (Cooldown x) (Labels x) (Taints x) v (Down x) (ResourceLimits x).
Definition set_Down (v : option AutoScalerDownOpts.t) (x : t) : t :=
    mk (Enabled x) (AutoConfig x) (AutoHeadroomPercentage x) (ClusterID x)
     (Cooldown x) (Labels x) (Taints x) (Headroom x) v (ResourceLimits x).
End AutoScalerOpts.

Module Elastigroup.
Record t : Type := mk {
    Name : option string;
    Lifecycle : option fi.Lifecycle;
    ID : option string;
    Region : option string;
    MinSize : option int64;
    MaxSize : option int64;
    SpotPercentage : option float64;
    UtilizeReservedInstances : option bool;
    FallbackToOnDemand : option bool;
    DrainingTimeout : option int64;
    HealthCheckType : option string;
    Product : option string;
    Orientation : option string;
    Tags : option (gmap string string);
    UserData : option fi.Resource;
    ImageID : option string;
    OnDemandInstanceType : option string;
    SpotInstanceTypes : option (list string);
    IAMInstanceProfile : option awstasks.IAMInstanceProfile.t;
    LoadBalancer : option awstasks.ClassicLoadBalancer.t;
    SSHKey : option awstasks.SSHKey.t;
    Subnets : option (list awstasks.Subnet.t);
    SecurityGroups : option (list awstasks.SecurityGroup.t);
    Monitoring : option bool;
    AssociatePublicIP : option bool;
    Tenancy : option string;
    RootVolumeOpts : option RootVolumeOpts.t;
    AutoScalerOpts : option AutoScalerOpts.t }.
Definition new : t := mk None None None None None None None None None None
    None None None None None None None None None None None None None None None
    None None None.
Definition set_Name (v : option string) (x : t) : t :=
    mk v (Lifecycle x) (ID x) (Region x) (MinSize x) (MaxSize x)
     (SpotPercentage x) (UtilizeReservedInstances x) (FallbackToOnDemand x)
     (DrainingTimeout x) (HealthCheckType x) (Product x) (Orientation x)
     (Tags x) (UserData x) (ImageID x) (OnDemandInstanceType x)
     (SpotInstanceTypes x) (IAMInstanceProfile x) (LoadBalancer x) (SSHKey x)
     (Subnets x) (SecurityGroups x) (Monitoring x) (AssociatePublicIP x)
     (Tenancy x) (RootVolumeOpts x) (AutoScalerOpts x).
Definition set_ID (v : option string) (x : t) : t :=
    mk (Name x) (Lifecycle x) v (Region x) (MinSize x) (MaxSize x)
     (SpotPercentage x) (UtilizeReservedInstances x) (FallbackToOnDemand x)
     (DrainingTimeout x) (HealthCheckType x) (Product x) (Orientation x)
     (Tags x) (UserData x) (ImageID x) (OnDemandInstanceType x)
     (SpotInstanceTypes x) (IAMInstanceProfile x) (LoadBalancer x) (SSHKey x)
     (Subnets x) (SecurityGroups x) (Monitoring x) (AssociatePublicIP x)
     (Tenancy x) (RootVolumeOpts x) (AutoScalerOpts x).
Definition set_Region (v : option string) (x : t) : t :=
    mk (Name x) (Lifecycle x) (ID x) v (MinSize x) (MaxSize x)
     (SpotPercentage x) (UtilizeReservedInstances x) (FallbackToOnDemand x)
     (DrainingTimeout x) (HealthCheckType x) (Product x) (Orientation x)
     (Tags x) (UserData x) (ImageID x) (OnDemandInstanceType x)
     (SpotInstanceTypes x) (IAMInstanceProfile x) (LoadBalancer x) (SSHKey x)
     (Subnets x) (SecurityGroups x) (Monitoring x) (AssociatePublicIP x)
     (Tenancy x) (RootVolumeOpts x) (AutoScalerOpts x).
Definition set_MinSize (v : option int64) (x : t) : t :=
    mk (Name x) (Lifecycle x) (ID x) (Region x) v (MaxSize x)
     (SpotPercentage x) (UtilizeReservedInstances x) (FallbackToOnDemand x)
     (DrainingTimeout x) (HealthCheckType x) (Product x) (Orientation x)
     (Tags x) (UserData x) (ImageID x) (OnDemandInstanceType x)
     (SpotInstanceTypes x) (IAMInstanceProfile x) (LoadBalancer x) (SSHKey x)
     (Subnets x) (SecurityGroups x) (Monitoring x) (AssociatePublicIP x)
     (Tenancy x) (RootVolumeOpts x) (AutoScalerOpts x).
Definition set_MaxSize (v : option int64) (x : t) : t :=
    mk (Name x) (Lifecycle x) (ID x) (Region x) (MinSize x) v
     (SpotPercentage x) (UtilizeReservedInstances x) (FallbackToOnDemand x)
     (DrainingTimeout x) (HealthCheckType x) (Product x) (Orientation x)
     (Tags x) (UserData x) (ImageID x) (OnDemandInstanceType x)
     (SpotInstanceTypes x) (IAMInstanceProfile x) (LoadBalancer x) (SSHKey x)
     (Subnets x) (SecurityGroups x) (Monitoring x) (AssociatePublicIP x)
     (Tenancy x) (RootVolumeOpts x) (AutoScalerOpts x).
Definition set_SpotPercentage (v : option float64) (x : t) : t :=
    mk (Name x) (Lifecycle x) (ID x) (Region x) (MinSize x) (MaxSize x) v
     (UtilizeReservedInstances x) (FallbackToOnDemand x) (DrainingTimeout x)
     (HealthCheckType x) (Product x) (Orientation x) (Tags x) (UserData x)
     (ImageID x) (OnDemandInstanceType x) (SpotInstanceTypes x)
     (IAMInstanceProfile x) (LoadBalancer x) (SSHKey x) (Subnets x)
     (SecurityGroups x) (Monitoring x) (AssociatePublicIP x) (Tenancy x)
     (RootVolumeOpts x) (AutoScalerOpts x).
Definition set_UtilizeReservedInstances (v : option bool) (x : t) : t :=
    mk (Name x) (Lifecycle x) (ID x) (Region x) (MinSize x) (MaxSize x)
     (SpotPercentage x) v (FallbackToOnDemand x) (DrainingTimeout x)
     (HealthCheckType x) (Product x) (Orientation x) (Tags x) (UserData x)
     (ImageID x) (OnDemandInstanceType x) (SpotInstanceTypes x)
     (IAMInstanceProfile x) (LoadBalancer x) (SSHKey x) (Subnets x)
     (SecurityGroups x) (Monitoring x) (AssociatePublicIP x) (Tenancy x)
     (RootVolumeOpts x) (AutoScalerOpts x).
Definition set_FallbackToOnDemand (v : option bool) (x : t) : t :=
    mk (Name x) (Lifecycle x) (ID x) (Region x) (MinSize x) (MaxSize x)
     (SpotPercentage x) (UtilizeReservedInstances x) v (DrainingTimeout x)
     (HealthCheckType x) (Product x) (Orientation x) (Tags x) (UserData x)
     (ImageID x) (OnDemandInstanceType x) (SpotInstanceTypes x)
     (IAMInstanceProfile x) (LoadBalancer x) (SSHKey x) (Subnets x)
     (SecurityGroups x) (Monitoring x) (AssociatePublicIP x) (Tenancy x)
     (RootVolumeOpts x) (AutoScalerOpts x).
Definition set_DrainingTimeout (v : option int64) (x : t) : t :=
    mk (Name x) (Lifecycle x) (ID x) (Region x) (MinSize x) (MaxSize x)
     (SpotPercentage x) (UtilizeReservedInstances x) (FallbackToOnDemand x) v
     (HealthCheckType x) (Product x) (Orientation x) (Tags x) (UserData x)
     (ImageID x) (OnDemandInstanceType x) (SpotInstanceTypes x)
     (IAMInstanceProfile x) (LoadBalancer x) (SSHKey x) (Subnets x)
     (SecurityGroups x) (Monitoring x) (AssociatePublicIP x) (Tenancy x)
     (RootVolumeOpts x) (AutoScalerOpts x).
Definition set_HealthCheckType (v : option string) (x : t) : t :=
    mk (Name x) (Lifecycle x) (ID x) (Region x) (MinSize x) (MaxSize x)
     (SpotPercentage x) (UtilizeReservedInstances x) (FallbackToOnDemand x)
     (DrainingTimeout x) v (Product x) (Orientation x) (Tags x) (UserData x)
     (ImageID x) (OnDemandInstanceType x) (SpotInstanceTypes x)
     (IAMInstanceProfile x) (LoadBalancer x) (SSHKey x) (Subnets x)
     (SecurityGroups x) (Monitoring x) (AssociatePublicIP x) (Tenancy x)
     (RootVolumeOpts x) (AutoScalerOpts x).
Definition set_Product (v : option string) (x : t) : t :=
    mk (Name x) (Lifecycle x) (ID x) (Region x) (MinSize x) (MaxSize x)
     (SpotPercentage x) (UtilizeReservedInstances x) (FallbackToOnDemand x)
     (DrainingTimeout x) (HealthCheckType x) v (Orientation x) (Tags x)
     (UserData x) (ImageID x) (OnDemandInstanceType x) (SpotInstanceTypes x)
     (IAMInstanceProfile x) (LoadBalancer x) (SSHKey x) (Subnets x)
     (SecurityGroups x) (Monitoring x) (AssociatePublicIP x) (Tenancy x)
     (RootVolumeOpts x) (AutoScalerOpts x).
Definition set_Orientation (v : option string) (x : t) : t :=
    mk (Name x) (Lifecycle x) (ID x) (Region x) (MinSize x) (MaxSize x)
     (SpotPercentage x) (UtilizeReservedInstances x) (FallbackToOnDemand x)
     (DrainingTimeout x) (HealthCheckType x) (Product x) v (Tags x)
     (UserData x) (ImageID x) (OnDemandInstanceType x) (SpotInstanceTypes x)
     (IAMInstanceProfile x) (LoadBalancer x) (SSHKey x) (Subnets x)
     (SecurityGroups x) (Monitoring x) (AssociatePublicIP x) (Tenancy x)
     (RootVolumeOpts x) (AutoScalerOpts x).
Definition set_Tags (v : option (gmap string string)) (x : t) : t :=
    mk (Name x) (Lifecycle x) (ID x) (Region x) (MinSize x) (MaxSize x)
     (SpotPercentage x) (UtilizeReservedInstances x) (FallbackToOnDemand x)
     (DrainingTimeout x) (HealthCheckType x) (Product x) (Orientation x) v
     (UserData x) (ImageID x) (OnDemandInstanceType x) (SpotInstanceTypes x)
     (IAMInstanceProfile x) (LoadBalancer x) (SSHKey x) (Subnets x)
     (SecurityGroups x) (Monitoring x) (AssociatePublicIP x) (Tenancy x)
     (RootVolumeOpts x) (AutoScalerOpts x).
Definition set_UserData (v : option fi.Resource) (x : t) : t :=
    mk (Name x) (Lifecycle x) (ID x) (Region x) (MinSize x) (MaxSize x)
     (SpotPercentage x) (UtilizeReservedInstances x) (FallbackToOnDemand x)
     (DrainingTimeout x) (HealthCheckType x) (Product x) (Orientation x)
     (Tags x) v (ImageID x) (OnDemandInstanceType x) (SpotInstanceTypes x)
     (IAMInstanceProfile x) (LoadBalancer x) (SSHKey x) (Subnets x)
     (SecurityGroups x) (Monitoring x) (AssociatePublicIP x) (Tenancy x)
     (RootVolumeOpts x) (AutoScalerOpts x).
Definition set_ImageID (v : option string) (x : t) : t :=
    mk (Name x) (Lifecycle x) (ID x) (Region x) (MinSize x) (MaxSize x)
     (SpotPercentage x) (UtilizeReservedInstances x) (FallbackToOnDemand x)
     (DrainingTimeout x) (HealthCheckType x) (Product x) (Orientation x)
     (Tags x) (UserData x) v (OnDemandInstanceType x) (SpotInstanceTypes x)
     (IAMInstanceProfile x) (LoadBalancer x) (SSHKey x) (Subnets x)
     (SecurityGroups x) (Monitoring x) (AssociatePublicIP x) (Tenancy x)
     (RootVolumeOpts x) (AutoScalerOpts x).
Definition set_OnDemandInstanceType (v : option string) (x : t) : t :=
    mk (Name x) (Lifecycle x) (ID x) (Region x) (MinSize x) (MaxSize x)
     (SpotPercentage x) (UtilizeReservedInstances x) (FallbackToOnDemand x)
     (DrainingTimeout x) (HealthCheckType x) (Product x) (Orientation x)
     (Tags x) (UserData x) (ImageID x) v (SpotInstanceTypes x)
     (IAMInstanceProfile x) (LoadBalancer x) (SSHKey x) (Subnets x)
     (SecurityGroups x) (Monitoring x) (AssociatePublicIP x) (Tenancy x)
     (RootVolumeOpts x) (AutoScalerOpts x).
Definition set_SpotInstanceTypes (v : option (list string)) (x : t) : t :=
    mk (Name x) (Lifecycle x) (ID x) (Region x) (MinSize x) (MaxSize x)
     (SpotPercentage x) (UtilizeReservedInstances x) (FallbackToOnDemand x)
     (DrainingTimeout x) (HealthCheckType x) (Product x) (Orientation x)
     (Tags x) (UserData x) (ImageID x) (OnDemandInstanceType x) v
     (IAMInstanceProfile x) (LoadBalancer x) (SSHKey x) (Subnets x)
     (SecurityGroups x) (Monitoring x) (AssociatePublicIP x) (Tenancy x)
     (RootVolumeOpts x) (AutoScalerOpts x).
Definition set_IAMInstanceProfile (v : option awstasks.IAMInstanceProfile.t) (x : t) : t :=
    mk (Name x) (Lifecycle x) (ID x) (Region x) (MinSize x) (MaxSize x)
     (SpotPercentage x) (UtilizeReservedInstances x) (FallbackToOnDemand x)
     (DrainingTimeout x) (HealthCheckType x) (Product x) (Orientation x)
     (Tags x) (UserData x) (ImageID x) (OnDemandInstanceType x)
     (SpotInstanceTypes x) v (LoadBalancer x) (SSHKey x) (Subnets x)
     (SecurityGroups x) (Monitoring x) (AssociatePublicIP x) (Tenancy x)
     (RootVolumeOpts x) (AutoScalerOpts x).
Definition set_LoadBalancer (v : option awstasks.ClassicLoadBalancer.t) (x : t) : t :=
    mk (Name x) (Lifecycle x) (ID x) (Region x) (MinSize x) (MaxSize x)
     (SpotPercentage x) (UtilizeReservedInstances x) (FallbackToOnDemand x)
     (DrainingTimeout x) (HealthCheckType x) (Product x) (Orientation x)
     (Tags x) (UserData x) (ImageID x) (OnDemandInstanceType x)
     (SpotInstanceTypes x) (IAMInstanceProfile x) v (SSHKey x) (Subnets x)
     (SecurityGroups x) (Monitoring x) (AssociatePublicIP x) (Tenancy x)
     (RootVolumeOpts x) (AutoScalerOpts x).
Definition set_SSHKey (v : option awstasks.SSHKey.t) (x : t) : t :=
    mk (Name x) (Lifecycle x) (ID x) (Region x) (MinSize x) (MaxSize x)
     (SpotPercentage x) (UtilizeReservedInstances x) (FallbackToOnDemand x)
     (DrainingTimeout x) (HealthCheckType x) (Product x) (Orientation x)
     (Tags x) (UserData x) (ImageID x) (OnDemandInstanceType x)
     (SpotInstanceTypes x) (IAMInstanceProfile x) (LoadBalancer x) v
     (Subnets x) (SecurityGroups x) (Monitoring x) (AssociatePublicIP x)
     (Tenancy x) (RootVolumeOpts x) (AutoScalerOpts x).
Definition set_Subnets (v : option (list awstasks.Subnet.t)) (x : t) : t :=
    mk (Name x) (Lifecycle x) (ID x) (Region x) (MinSize x) (MaxSize x)
     (SpotPercentage x) (UtilizeReservedInstances x) (FallbackToOnDemand x)
     (DrainingTimeout x) (HealthCheckType x) (Product x) (Orientation x)
     (Tags x) (UserData x) (ImageID x) (OnDemandInstanceType x)
     (SpotInstanceTypes x) (IAMInstanceProfile x) (LoadBalancer x) (SSHKey x)
     v (SecurityGroups x) (Monitoring x) (AssociatePublicIP x) (Tenancy x)
     (RootVolumeOpts x) (AutoScalerOpts x).
Definition set_SecurityGroups (v : option (list awstasks.SecurityGroup.t)) (x : t) : t :=
    mk (Name x) (Lifecycle x) (ID x) (Region x) (MinSize x) (MaxSize x)
     (SpotPercentage x) (UtilizeReservedInstances x) (FallbackToOnDemand x)
     (DrainingTimeout x) (HealthCheckType x) (Product x) (Orientation x)
     (Tags x) (UserData x) (ImageID x) (OnDemandInstanceType x)
     (SpotInstanceTypes x) (IAMInstanceProfile x) (LoadBalancer x) (SSHKey x)
     (Subnets x) v (Monitoring x) (AssociatePublicIP x) (Tenancy x)
     (RootVolumeOpts x) (AutoScalerOpts x).
Definition set_Monitoring (v : option bool) (x : t) : t :=
    mk (Name x) (Lifecycle x) (ID x) (Region x) (MinSize x) (MaxSize x)
     (SpotPercentage x) (UtilizeReservedInstances x) (FallbackToOnDemand x)
     (DrainingTimeout x) (HealthCheckType x) (Product x) (Orientation x)
     (Tags x) (UserData x) (ImageID x) (OnDemandInstanceType x)
     (SpotInstanceTypes x) (IAMInstanceProfile x) (LoadBalancer x) (SSHKey x)
     (Subnets x) (SecurityGroups x) v (AssociatePublicIP x) (Tenancy x)
     (RootVolumeOpts x) (AutoScalerOpts x).
Definition set_AssociatePublicIP (v : option bool) (x : t) : t :=
    mk (Name x) (Lifecycle x) (ID x) (Region x) (MinSize x) (MaxSize x)
     (SpotPercentage x) (UtilizeReservedInstances x) (FallbackToOnDemand x)
     (DrainingTimeout x) (HealthCheckType x) (Product x) (Orientation x)
     (Tags x) (UserData x) (ImageID x) (OnDemandInstanceType x)
     (SpotInstanceTypes x) (IAMInstanceProfile x) (LoadBalancer x) (SSHKey x)
     (Subnets x) (SecurityGroups x) (Monitoring x) v (Tenancy x)
     (RootVolumeOpts x) (AutoScalerOpts x).
Definition set_Tenancy (v : option string) (x : t) : t :=
    mk (Name x) (Lifecycle x) (ID x) (Region x) (MinSize x) (MaxSize x)
     (SpotPercentage x) (UtilizeReservedInstances x) (FallbackToOnDemand x)
     (DrainingTimeout x) (HealthCheckType x) (Product x) (Orientation x)
     (Tags x) (UserData x) (ImageID x) (OnDemandInstanceType x)
     (SpotInstanceTypes x) (IAMInstanceProfile x) (LoadBalancer x) (SSHKey x)
     (Subnets x) (SecurityGroups x) (Monitoring x) (AssociatePublicIP x) v
     (RootVolumeOpts x) (AutoScalerOpts x).
Definition set_RootVolumeOpts (v : option RootVolumeOpts.t) (x : t) : t :=
    mk (Name x) (Lifecycle x) (ID x) (Region x) (MinSize x) (MaxSize x)
     (SpotPercentage x) (UtilizeReservedInstances x) (FallbackToOnDemand x)
     (DrainingTimeout x) (HealthCheckType x) (Product x) (Orientation x)
     (Tags x) (UserData x) (ImageID x) (OnDemandInstanceType x)
     (SpotInstanceTypes x) (IAMInstanceProfile x) (LoadBalancer x) (SSHKey x)
     (Subnets x) (SecurityGroups x) (Monitoring x) (AssociatePublicIP x)
     (Tenancy x) v (AutoScalerOpts x).
Definition set_AutoScalerOpts (v : option AutoScalerOpts.t) (x : t) : t :=
    mk (Name x) (Lifecycle x) (ID x) (Region x) (MinSize x) (MaxSize x)
     (SpotPercentage x) (UtilizeReservedInstances x) (FallbackToOnDemand x)
     (DrainingTimeout x) (HealthCheckType x) (Product x) (Orientation x)
     (Tags x) (UserData x) (ImageID x) (OnDemandInstanceType x)
     (SpotInstanceTypes x) (IAMInstanceProfile x) (LoadBalancer x) (SSHKey x)
     (Subnets x) (SecurityGroups x) (Monitoring x) (AssociatePublicIP x)
     (Tenancy x) (RootVolumeOpts x) v.
End Elastigroup.

(** *** The Terraform resource *)

Module terraformKV.
Record t : Type := mk { Key : option string; Value : option string }.
Definition new : t := mk None None.
End terraformKV.

Module terraformElastigroupBlockDevice.
Record t : Type := mk {
    DeviceName : option string;
    VirtualName : option string;
    VolumeType : option string;
    VolumeSize : option int64;
    VolumeIOPS : option int64;
    VolumeThroughput : option int64;
    DeleteOnTermination : option bool }.
Definition new : t := mk None None None None None None None.
End terraformElastigroupBlockDevice.

Module terraformElastigroupNetworkInterface.
Record t : Type := mk {
    Description : option string;
    DeviceIndex : option int;
    AssociatePublicIPAddress : option bool;
    DeleteOnTermination : option bool }.
Definition new : t := mk None None None None.
End terraformElastigroupNetworkInterface.

Module terraformAutoScalerHeadroom.
Record t : Type := mk {
    CPUPerUnit : option int;
    GPUPerUnit : option int;
    MemPerUnit : option int;
    NumOfUnits : option int }.
Definition new : t := mk None None None None.
End terraformAutoScalerHeadroom.

Module terraformAutoScalerDown.
Record t : Type := mk {
    MaxPercentage : option float64;
    EvaluationPeriods : option int }.
Definition new : t := mk None None.
End terraformAutoScalerDown.

Module terraformElastigroupIntegration.
Record t : Type := mk {
    IntegrationMode : option string;
    ClusterIdentifier : option string;
    Enabled : option bool;
    AutoConfig : option bool;
    Cooldown : option int;
    Headroom : option terraformAutoScalerHeadroom.t;
    Down : option terraformAutoScalerDown.t;
    Labels : option (list terraformKV.t) }.
Definition new : t := mk None None None None None None None None.
Definition set_Enabled (v : option bool) (x : t) : t :=
    mk (IntegrationMode x) (ClusterIdentifier x) v (AutoConfig x) (Cooldown x)
     (Headroom x) (Down x) (Labels x).
Definition set_AutoConfig (v : option bool) (x : t) : t :=
    mk (IntegrationMode x) (ClusterIdentifier x) (Enabled x) v (Cooldown x)
     (Headroom x) (Down x) (Labels x).
Definition set_Cooldown (v : option int) (x : t) : t :=
    mk (IntegrationMode x) (ClusterIdentifier x) (Enabled x) (AutoConfig x) v
     (Headroom x) (Down x) (Labels x).
Definition set_Headroom (v : option terraformAutoScalerHeadroom.t) (x : t) : t :=
    mk (IntegrationMode x) (ClusterIdentifier x) (Enabled x) (AutoConfig x)
     (Cooldown x) v (Down x) (Labels x).
Definition set_Down (v : option terraformAutoScalerDown.t) (x : t) : t :=
    mk (IntegrationMode x) (ClusterIdentifier x) (Enabled x) (AutoConfig x)
     (Cooldown x) (Headroom x) v (Labels x).
Definition set_Labels (v : option (list terraformKV.t)) (x : t) : t :=
    mk (IntegrationMode x) (ClusterIdentifier x) (Enabled x) (AutoConfig x)
     (Cooldown x) (Headroom x) (Down x) v.
End terraformElastigroupIntegration.

Module terraformElastigroup.
Record t : Type := mk {
    Name : option string;
    Description : option string;
    Product : option string;
    Region : option string;
    SubnetIDs : option (list Literal);
    LoadBalancers : option (list Literal);
    NetworkInterfaces : option (list terraformElastigroupNetworkInterface.t);
    RootBlockDevice : option terraformElastigroupBlockDevice.t;
    EphemeralBlockDevice : option (list terraformElastigroupBlockDevice.t);
    Integration : option terraformElastigroupIntegration.t;
    Tags : option (list terraformKV.t);
    MinSize : option int64;
    MaxSize : option int64;
    DesiredCapacity : option int64;
    CapacityUnit : option string;
    SpotPercentage : option float64;
    Orientation : option string;
    FallbackToOnDemand : option bool;
    UtilizeReservedInstances : option bool;
    DrainingTimeout : option int64;
    OnDemand : option string;
    Spot : option (list string);
    Monitoring : option bool;
    EBSOptimized : option bool;
    ImageID : option string;
    HealthCheckType : option string;
    SecurityGroups : option (list Literal);
    UserData : option Literal;
    IAMInstanceProfile : option Literal;
    KeyName : option Literal }.
Definition new : t := mk None None None None None None None None None None
    None None None None None None None None None None None None None None None
    None None None None None.
Definition set_SubnetIDs (v : option (list Literal)) (x : t) : t :=
    mk (Name x) (Description x) (Product x) (Region x) v (LoadBalancers x)
     (NetworkInterfaces x) (RootBlockDevice x) (EphemeralBlockDevice x)
     (Integration x) (Tags x) (MinSize x) (MaxSize x) (DesiredCapacity x)
     (CapacityUnit x) (SpotPercentage x) (Orientation x)
     (FallbackToOnDemand x) (UtilizeReservedInstances x) (DrainingTimeout x)
     (OnDemand x) (Spot x) (Monitoring x) (EBSOptimized x) (ImageID x)
     (HealthCheckType x) (SecurityGroups x) (UserData x)
     (IAMInstanceProfile x) (KeyName x).
Definition set_LoadBalancers (v : option (list Literal)) (x : t) : t :=
    mk (Name x) (Description x) (Product x) (Region x) (SubnetIDs x) v
     (NetworkInterfaces x) (RootBlockDevice x) (EphemeralBlockDevice x)
     (Integration x) (Tags x) (MinSize x) (MaxSize x) (DesiredCapacity x)
     (CapacityUnit x) (SpotPercentage x) (Orientation x)
     (FallbackToOnDemand x) (UtilizeReservedInstances x) (DrainingTimeout x)
     (OnDemand x) (Spot x) (Monitoring x) (EBSOptimized x) (ImageID x)
     (HealthCheckType x) (SecurityGroups x) (UserData x)
     (IAMInstanceProfile x) (KeyName x).
Definition set_NetworkInterfaces (v : option (list terraformElastigroupNetworkInterface.t)) (x : t) : t :=
    mk (Name x) (Description x) (Product x) (Region x) (SubnetIDs x)
     (LoadBalancers x) v (RootBlockDevice x) (EphemeralBlockDevice x)
     (Integration x) (Tags x) (MinSize x) (MaxSize x) (DesiredCapacity x)
     (CapacityUnit x) (SpotPercentage x) (Orientation x)
     (FallbackToOnDemand x) (UtilizeReservedInstances x) (DrainingTimeout x)
     (OnDemand x) (Spot x) (Monitoring x) (EBSOptimized x) (ImageID x)
     (HealthCheckType x) (SecurityGroups x) (UserData x)
     (IAMInstanceProfile x) (KeyName x).
Definition set_RootBlockDevice (v : option terraformElastigroupBlockDevice.t) (x : t) : t :=
    mk (Name x) (Description x) (Product x) (Region x) (SubnetIDs x)
     (LoadBalancers x) (NetworkInterfaces x) v (EphemeralBlockDevice x)
     (Integration x) (Tags x) (MinSize x) (MaxSize x) (DesiredCapacity x)
     (CapacityUnit x) (SpotPercentage x) (Orientation x)
     (FallbackToOnDemand x) (UtilizeReservedInstances x) (DrainingTimeout x)
     (OnDemand x) (Spot x) (Monitoring x) (EBSOptimized x) (ImageID x)
     (HealthCheckType x) (SecurityGroups x) (UserData x)
     (IAMInstanceProfile x) (KeyName x).
Definition set_EphemeralBlockDevice (v : option (list terraformElastigroupBlockDevice.t)) (x : t) : t :=
    mk (Name x) (Description x) (Product x) (Region x) (SubnetIDs x)
     (LoadBalancers x) (NetworkInterfaces x) (RootBlockDevice x) v
     (Integration x) (Tags x) (MinSize x) (MaxSize x) (DesiredCapacity x)
     (CapacityUnit x) (SpotPercentage x) (Orientation x)
     (FallbackToOnDemand x) (UtilizeReservedInstances x) (DrainingTimeout x)
     (OnDemand x) (Spot x) (Monitoring x) (EBSOptimized x) (ImageID x)
     (HealthCheckType x) (SecurityGroups x) (UserData x)
     (IAMInstanceProfile x) (KeyName x).
Definition set_Integration (v : option terraformElastigroupIntegration.t) (x : t) : t :=
    mk (Name x) (Description x) (Product x) (Region x) (SubnetIDs x)
     (LoadBalancers x) (NetworkInterfaces x) (RootBlockDevice x)
     (EphemeralBlockDevice x) v (Tags x) (MinSize x) (MaxSize x)
     (DesiredCapacity x) (CapacityUnit x) (SpotPercentage x) (Orientation x)
     (FallbackToOnDemand x) (UtilizeReservedInstances x) (DrainingTimeout x)
     (OnDemand x) (Spot x) (Monitoring x) (EBSOptimized x) (ImageID x)
     (HealthCheckType x) (SecurityGroups x) (UserData x)
     (IAMInstanceProfile x) (KeyName x).
Definition set_Tags (v : option (list terraformKV.t)) (x : t) : t :=
    mk (Name x) (Description x) (Product x) (Region x) (SubnetIDs x)
     (LoadBalancers x) (NetworkInterfaces x) (RootBlockDevice x)
     (EphemeralBlockDevice x) (Integration x) v (MinSize x) (MaxSize x)
     (DesiredCapacity x) (CapacityUnit x) (SpotPercentage x) (Orientation x)
     (FallbackToOnDemand x) (UtilizeReservedInstances x) (DrainingTimeout x)
     (OnDemand x) (Spot x) (Monitoring x) (EBSOptimized x) (ImageID x)
     (HealthCheckType x) (SecurityGroups x) (UserData x)
     (IAMInstanceProfile x) (KeyName x).
Definition set_Monitoring (v : option bool) (x : t) : t :=
    mk (Name x) (Description x) (Product x) (Region x) (SubnetIDs x)
     (LoadBalancers x) (NetworkInterfaces x) (RootBlockDevice x)
     (EphemeralBlockDevice x) (Integration x) (Tags x) (MinSize x) (MaxSize x)
     (DesiredCapacity x) (CapacityUnit x) (SpotPercentage x) (Orientation x)
     (FallbackToOnDemand x) (UtilizeReservedInstances x) (DrainingTimeout x)
     (OnDemand x) (Spot x) v (EBSOptimized x) (ImageID x) (HealthCheckType x)
     (SecurityGroups x) (UserData x) (IAMInstanceProfile x) (KeyName x).
Definition set_EBSOptimized (v : option bool) (x : t) : t :=
    mk (Name x) (Description x) (Product x) (Region x) (SubnetIDs x)
     (LoadBalancers x) (NetworkInterfaces x) (RootBlockDevice x)
     (EphemeralBlockDevice x) (Integration x) (Tags x) (MinSize x) (MaxSize x)
     (DesiredCapacity x) (CapacityUnit x) (SpotPercentage x) (Orientation x)
     (FallbackToOnDemand x) (UtilizeReservedInstances x) (DrainingTimeout x)
     (OnDemand x) (Spot x) (Monitoring x) v (ImageID x) (HealthCheckType x)
     (SecurityGroups x) (UserData x) (IAMInstanceProfile x) (KeyName x).
Definition set_ImageID (v : option string) (x : t) : t :=
    mk (Name x) (Description x) (Product x) (Region x) (SubnetIDs x)
     (LoadBalancers x) (NetworkInterfaces x) (RootBlockDevice x)
     (EphemeralBlockDevice x) (Integration x) (Tags x) (MinSize x) (MaxSize x)
     (DesiredCapacity x) (CapacityUnit x) (SpotPercentage x) (Orientation x)
     (FallbackToOnDemand x) (UtilizeReservedInstances x) (DrainingTimeout x)
     (OnDemand x) (Spot x) (Monitoring x) (EBSOptimized x) v
     (HealthCheckType x) (SecurityGroups x) (UserData x)
     (IAMInstanceProfile x) (KeyName x).
Definition set_HealthCheckType (v : option string) (x : t) : t :=
    mk (Name x) (Description x) (Product x) (Region x) (SubnetIDs x)
     (LoadBalancers x) (NetworkInterfaces x) (RootBlockDevice x)
     (EphemeralBlockDevice x) (Integration x) (Tags x) (MinSize x) (MaxSize x)
     (DesiredCapacity x) (CapacityUnit x) (SpotPercentage x) (Orientation x)
     (FallbackToOnDemand x) (UtilizeReservedInstances x) (DrainingTimeout x)
     (OnDemand x) (Spot x) (Monitoring x) (EBSOptimized x) (ImageID x) v
     (SecurityGroups x) (UserData x) (IAMInstanceProfile x) (KeyName x).
Definition set_SecurityGroups (v : option (list Literal)) (x : t) : t :=
    mk (Name x) (Description x) (Product x) (Region x) (SubnetIDs x)
     (LoadBalancers x) (NetworkInterfaces x) (RootBlockDevice x)
     (EphemeralBlockDevice x) (Integration x) (Tags x) (MinSize x) (MaxSize x)
     (DesiredCapacity x) (CapacityUnit x) (SpotPercentage x) (Orientation x)
     (FallbackToOnDemand x) (UtilizeReservedInstances x) (DrainingTimeout x)
     (OnDemand x) (Spot x) (Monitoring x) (EBSOptimized x) (ImageID x)
     (HealthCheckType x) v (UserData x) (IAMInstanceProfile x) (KeyName x).
Definition set_UserData (v : option Literal) (x : t) : t :=
    mk (Name x) (Description x) (Product x) (Region x) (SubnetIDs x)
     (LoadBalancers x) (NetworkInterfaces x) (RootBlockDevice x)
     (EphemeralBlockDevice x) (Integration x) (Tags x) (MinSize x) (MaxSize x)
     (DesiredCapacity x) (CapacityUnit x) (SpotPercentage x) (Orientation x)
     (FallbackToOnDemand x) (UtilizeReservedInstances x) (DrainingTimeout x)
     (OnDemand x) (Spot x) (Monitoring x) (EBSOptimized x) (ImageID x)
     (HealthCheckType x) (SecurityGroups x) v (IAMInstanceProfile x)
     (KeyName x).
Definition set_IAMInstanceProfile (v : option Literal) (x : t) : t :=
    mk (Name x) (Description x) (Product x) (Region x) (SubnetIDs x)
     (LoadBalancers x) (NetworkInterfaces x) (RootBlockDevice x)
     (EphemeralBlockDevice x) (Integration x) (Tags x) (MinSize x) (MaxSize x)
     (DesiredCapacity x) (CapacityUnit x) (SpotPercentage x) (Orientation x)
     (FallbackToOnDemand x) (UtilizeReservedInstances x) (DrainingTimeout x)
     (OnDemand x) (Spot x) (Monitoring x) (EBSOptimized x) (ImageID x)
     (HealthCheckType x) (SecurityGroups x) (UserData x) v (KeyName x).
Definition set_KeyName (v : option Literal) (x : t) : t :=
    mk (Name x) (Description x) (Product x) (Region x) (SubnetIDs x)
     (LoadBalancers x) (NetworkInterfaces x) (RootBlockDevice x)
     (EphemeralBlockDevice x) (Integration x) (Tags x) (MinSize x) (MaxSize x)
     (DesiredCapacity x) (CapacityUnit x) (SpotPercentage x) (Orientation x)
     (FallbackToOnDemand x) (UtilizeReservedInstances x) (DrainingTimeout x)
     (OnDemand x) (Spot x) (Monitoring x) (EBSOptimized x) (ImageID x)
     (HealthCheckType x) (SecurityGroups x) (UserData x)
     (IAMInstanceProfile x) v.
End terraformElastigroup.

(** ** Effects

    A computation returns the trace of the collaborator calls it made and
    its outcome. *)

Inductive event : Type :=
| Sleep (seconds : Z)                                   (* time.Sleep *)
| SpotinstList                                          (* Elastigroup().List *)
| SpotinstCreate (group : aws.Group.t)                  (* Elastigroup().Create *)
| SpotinstUpdate (group : aws.Group.t)                  (* Elastigroup().Update *)
| ResolveImageCall (name : string)
| FindELBByNameTagCall (name : string)
| FindELBV2ByNameTagCall (name : string)
| GetMachineTypeInfoCall (machineType : string)
| Warningf (format : string) (groupID : string) (changes : Elastigroup.t)
| AddOutputVariableArray (key : string) (literal : Literal)
| AddFileResource (kind name key : string) (r : fi.Resource)
| RenderResource (kind name : string) (tf : terraformElastigroup.t).

Definition M (A : Type) : Type := (list event * result A)%type.

Definition ret {A} (a : A) : M A := ([], Ok a).
Definition fail {A} (e : error) : M A := ([], Err e).
Definition panic {A} : M A := ([], Panic).
Definition bind {A B} (m : M A) (k : A -> M B) : M B :=
  match m with
  | (t, Ok a) => let '(t', r) := k a in (t ++ t', r)
  | (t, Err e) => (t, Err e)
  | (t, Panic) => (t, Panic)
  end.

Notation "'let*' x ':=' m 'in' k" := (bind m (fun x => k))
  (at level 10, x name, m at level 100, k at level 200).
Notation "m ';;;' k" := (bind m (fun _ => k))
  (at level 100, k at level 200, right associativity).

(** A collaborator call: the event, then the oracle's answer. *)
Definition call {A} (ev : event) (answer : result A) : M A := ([ev], answer).
Definition emit (ev : event) : M unit := ([ev], Ok tt).
(** [*p]. *)
Definition deref {A} (p : option A) : M A :=
  match p with Some a => ret a | None => panic end.
(** [if err != nil { return wrap(err) }] around a computation. *)
Definition wrap_err {A} (wrap : error -> error) (m : M A) : M A :=
  match m with
  | (t, Err e) => (t, Err (wrap e))
  | _ => m
  end.

Definition trace {A} (m : M A) : list event := fst m.
Definition outcome {A} (m : M A) : result A := snd m.

(** ** Collaborators *)

(** The cloud: the Spotinst Elastigroup service and the AWS lookups.  The
    answer of [Create] may change from one attempt to the next, so it is
    indexed by the number of the attempt (from 1). *)
Record AWSCloud : Type := mkAWSCloud {
    List : result (list aws.Group.t);
    Create : nat -> aws.Group.t -> result string;
    Update : aws.Group.t -> result unit;
    (* the error of [spotinst.NewElastigroup(cloud.ProviderID(), group)], if any *)
    NewElastigroup_error : option error;
    ResolveImage : string -> result (option ec2.Image.t);
    FindELBByNameTag : string -> result (option elb.LoadBalancerDescription.t);
    FindELBV2ByNameTag : string -> result (option elbv2.LoadBalancer.t);
    GetMachineTypeInfo : string -> result (list awsup.EphemeralDevice.t) }.

(** Functions and constants of other packages, taken as given. *)
Record Library : Type := mkLibrary {
    base64_EncodeToString : string -> string;
    base64_DecodeString : string -> result string;
    strings_ToLower : string -> string;
    StringSlicesEqualIgnoreOrder : list string -> list string -> bool;
    CloudTagInstanceGroupRolePrefix : string;
    SecurityGroup_TerraformLink : awstasks.SecurityGroup.t -> Literal;
    Subnet_TerraformLink : awstasks.Subnet.t -> Literal;
    IAMInstanceProfile_TerraformLink : awstasks.IAMInstanceProfile.t -> Literal;
    SSHKey_TerraformLink : awstasks.SSHKey.t -> Literal;
    ClassicLoadBalancer_TerraformLink : awstasks.ClassicLoadBalancer.t -> Literal }.

(** The [range] statements over a map, by place in the source. *)
Inductive range_site : Type :=
| RangeRoleTags              (* RenderTerraform, [for key := range e.Tags] *)
| RangeLabels                (* RenderTerraform, [for k, v := range labels] *)
| RangeBuildTags             (* buildTags *)
| RangeBuildAutoScaleLabels. (* buildAutoScaleLabels *)

(** The Go runtime picks the order in which a [range] visits a map. *)
Record GoRuntime : Type := mkGoRuntime {
    range_map : range_site -> gmap string string -> list (string * string) }.

(** Every entry of the map is visited exactly once. *)
Definition runtime_ok (rt : GoRuntime) : Prop :=
  forall site (m : gmap string string), range_map rt site m ≡ₚ map_to_list m.

(** The Terraform target: the answers of its three methods. *)
Record TerraformTarget : Type := mkTerraformTarget {
    AddOutputVariableArray_result : string -> Literal -> result unit;
    AddFileResource_result : string -> string -> string -> fi.Resource -> result Literal;
    RenderResource_result : string -> string -> terraformElastigroup.t -> result unit }.

(** ** The task's functions *)

Definition Orientation := string.
Definition OrientationBalanced : Orientation := "balanced".
Definition OrientationCost : Orientation := "costOriented".
Definition OrientationAvailability : Orientation := "availabilityOriented".
Definition OrientationEqualZoneDistribution : Orientation := "equalAzDistribution".

Definition normalizeOrientation (orientation : option string) : Orientation :=
  match orientation with
  | None => OrientationBalanced
  | Some o =>
      if String.eqb o "cost" then OrientationCost
      else if String.eqb o "availability" then OrientationAvailability
      else if String.eqb o "equal-distribution" then OrientationEqualZoneDistribution
      else OrientationBalanced
  end.

Definition nil_or_empty (p : option string) : bool :=
  match p with None => true | Some s => String.eqb s "" end.

Definition applyDefaults (e : Elastigroup.t) : Elastigroup.t :=
  let e := if is_nil (Elastigroup.FallbackToOnDemand e)
           then Elastigroup.set_FallbackToOnDemand (Some true) e else e in
  let e := if is_nil (Elastigroup.UtilizeReservedInstances e)
           then Elastigroup.set_UtilizeReservedInstances (Some true) e else e in
  let e := if nil_or_empty (Elastigroup.Product e)
           then Elastigroup.set_Product (Some "Linux/UNIX") e else e in
  let e := if nil_or_empty (Elastigroup.Orientation e)
           then Elastigroup.set_Orientation (Some "balanced") e else e in
  let e := if is_nil (Elastigroup.Monitoring e)
           then Elastigroup.set_Monitoring (Some false) e else e in
  let e := if is_nil (Elastigroup.HealthCheckType e)
           then Elastigroup.set_HealthCheckType (Some "K8S_NODE") e else e in
  e.

Definition resolveImage (cloud : AWSCloud) (name : string) : M ec2.Image.t :=
  let* image :=
    wrap_err (fun err => ErrorfWrap "spotinst: unable to resolve image %q: %v" [name] err)
             (call (ResolveImageCall name) (ResolveImage cloud name)) in
  match image with
  | None => fail (Errorf "spotinst: unable to resolve image %q: not found" [name])
  | Some image => ret image
  end.

Definition buildEphemeralDevices (cloud : AWSCloud) (machineType : option string)
  : M (list awstasks.BlockDeviceMapping.t) :=
  let* info := call (GetMachineTypeInfoCall (StringValue machineType))
                    (GetMachineTypeInfo cloud (StringValue machineType)) in
  ret (map (fun ed =>
              awstasks.BlockDeviceMapping.mk
                (Some (awsup.EphemeralDevice.DeviceName ed))
                (Some (awsup.EphemeralDevice.VirtualName ed))
                None None None None None) info).

Definition buildRootDevice (cloud : AWSCloud) (volumeOpts : option RootVolumeOpts.t)
    (imageID : option string) : M awstasks.BlockDeviceMapping.t :=
  let* img := resolveImage cloud (StringValue imageID) in
  let* volumeOpts := deref volumeOpts in
  let bdm := awstasks.BlockDeviceMapping.mk
               (ec2.Image.RootDeviceName img) None (Some true)
               (RootVolumeOpts.Size volumeOpts) (RootVolumeOpts.Type_ volumeOpts)
               None None in
  (* IOPS is not supported for gp2 volumes. *)
  let bdm :=
    if not_nil (RootVolumeOpts.IOPS volumeOpts)
       && negb (String.eqb (StringValue (RootVolumeOpts.Type_ volumeOpts)) "gp2")
    then awstasks.BlockDeviceMapping.set_EbsVolumeIops (RootVolumeOpts.IOPS volumeOpts) bdm
    else bdm in
  (* Throughput is only supported for gp3 volumes. *)
  let bdm :=
    if not_nil (RootVolumeOpts.Throughput volumeOpts)
       && String.eqb (StringValue (RootVolumeOpts.Type_ volumeOpts)) "gp3"
    then awstasks.BlockDeviceMapping.set_EbsVolumeThroughput
           (RootVolumeOpts.Throughput volumeOpts) bdm
    else bdm in
  ret bdm.

Definition convertBlockDeviceMapping (i : awstasks.BlockDeviceMapping.t)
  : aws.BlockDeviceMapping.t :=
  let ebs :=
    if not_nil (awstasks.BlockDeviceMapping.EbsDeleteOnTermination i)
       || not_nil (awstasks.BlockDeviceMapping.EbsVolumeSize i)
       || not_nil (awstasks.BlockDeviceMapping.EbsVolumeType i)
    then
      let ebs := aws.EBS.mk
                   (awstasks.BlockDeviceMapping.EbsDeleteOnTermination i)
                   (awstasks.BlockDeviceMapping.EbsVolumeType i)
                   (Some (int_of_int64 (Int64Value (awstasks.BlockDeviceMapping.EbsVolumeSize i))))
                   None None None in
      (* IOPS is not valid for gp2 volumes. *)
      let ebs :=
        if not_nil (awstasks.BlockDeviceMapping.EbsVolumeIops i)
           && negb (String.eqb (StringValue (awstasks.BlockDeviceMapping.EbsVolumeType i)) "gp2")
        then aws.EBS.set_IOPS
               (Some (int_of_int64 (Int64Value (awstasks.BlockDeviceMapping.EbsVolumeIops i)))) ebs
        else ebs in
      (* Throughput is only valid for gp3 volumes. *)
      let ebs :=
        if not_nil (awstasks.BlockDeviceMapping.EbsVolumeThroughput i)
           && String.eqb (StringValue (awstasks.BlockDeviceMapping.EbsVolumeType i)) "gp3"
        then aws.EBS.set_Throughput
               (Some (int_of_int64 (Int64Value (awstasks.BlockDeviceMapping.EbsVolumeThroughput i)))) ebs
        else ebs in
      Some ebs
    else None in
  aws.BlockDeviceMapping.mk
    (awstasks.BlockDeviceMapping.DeviceName i)
    (awstasks.BlockDeviceMapping.VirtualName i) ebs.

Definition buildTags (rt : GoRuntime) (e : Elastigroup.t) : list aws.Tag.t :=
  map (fun kv => aws.Tag.mk (Some (fst kv)) (Some (snd kv)))
      (range_map rt RangeBuildTags (default ∅ (Elastigroup.Tags e))).

Definition buildAutoScaleLabels (rt : GoRuntime) (labelsMap : gmap string string)
  : list aws.AutoScaleLabel.t :=
  map (fun kv => aws.AutoScaleLabel.mk (Some (fst kv)) (Some (snd kv)))
      (range_map rt RangeBuildAutoScaleLabels labelsMap).

Definition CheckChanges (a e changes : option Elastigroup.t) : result unit :=
  match e with
  | None => Panic
  | Some e =>
      match Elastigroup.Name e with
      | None => Err (RequiredField "Name")
      | Some _ => Ok tt
      end
  end.

Fixpoint find_in (groups : list aws.Group.t) (name : string) : option aws.Group.t :=
  match groups with
  | [] => None
  | group :: groups =>
      if String.eqb (StringValue (aws.Group.Name group)) name
      then Some group
      else find_in groups name
  end.

Definition find (cloud : AWSCloud) (name : string) : M aws.Group.t :=
  let* groups :=
    wrap_err (fun err => ErrorfWrap "spotinst: failed to find elastigroup %s: %v" [name] err)
             (call SpotinstList (List cloud)) in
  match find_in groups name with
  | None => fail (Errorf "spotinst: failed to find elastigroup %q" [name])
  | Some out => ret out
  end.

Definition CheckExisting (cloud : AWSCloud) (e : Elastigroup.t) : M bool :=
  let* name := deref (Elastigroup.Name e) in
  match find cloud name with
  | (t, Ok _) => (t, Ok true)
  | (t, Err _) => (t, Ok false)
  | (t, Panic) => (t, Panic)
  end.

(** [*x.ID] for every element of a slice of tasks. *)
Fixpoint deref_all {A} (ps : list (option A)) : M (list A) :=
  match ps with
  | [] => ret []
  | p :: ps => let* a := deref p in let* l := deref_all ps in ret (a :: l)
  end.

(** The network interface sent for [AssociatePublicIP]. *)
Definition eth0 (associatePublicIP : option bool) : aws.NetworkInterface.t :=
  aws.NetworkInterface.mk (Some "eth0") (Some 0) (Some true) associatePublicIP.

Definition loadBalancersConfig (name typ : option string) : aws.LoadBalancersConfig.t :=
  aws.LoadBalancersConfig.mk (Some [aws.LoadBalancer.mk name typ]).

(** [create], block "Block device mappings" (also used by [update]). *)
Definition blockDeviceMappings (cloud : AWSCloud) (opts : option RootVolumeOpts.t)
    (e : Elastigroup.t) : M (list aws.BlockDeviceMapping.t) :=
  let* rootDevice := buildRootDevice cloud opts (Elastigroup.ImageID e) in
  let* ephemeralDevices := buildEphemeralDevices cloud (Elastigroup.OnDemandInstanceType e) in
  ret (convertBlockDeviceMapping rootDevice :: map convertBlockDeviceMapping ephemeralDevices).

(** [create], block "Load balancer". *)
Definition create_LoadBalancer (cloud : AWSCloud) (e : Elastigroup.t)
  : M (option aws.LoadBalancersConfig.t) :=
  match Elastigroup.LoadBalancer e with
  | None => ret None
  | Some lb =>
      let name := StringValue (awstasks.ClassicLoadBalancer.Name lb) in
      let* elb := call (FindELBByNameTagCall name) (FindELBByNameTag cloud name) in
      let cfg :=
        match elb with
        | Some elb => Some (loadBalancersConfig (elb.LoadBalancerDescription.LoadBalancerName elb)
                                                (Some "CLASSIC"))
        | None => None
        end in
      let* nlb := call (FindELBV2ByNameTagCall name) (FindELBV2ByNameTag cloud name) in
      if not_nil elb && not_nil nlb then fail (Errorf "found both elb and nlb:" [])
      else
        match nlb with
        | Some nlb => ret (Some (loadBalancersConfig (elbv2.LoadBalancer.LoadBalancerName nlb)
                                                     (Some "NETWORK")))
        | None => ret cfg
        end
  end.

(** [create], block "Auto Scaler". *)
Definition create_Integration (rt : GoRuntime) (e : Elastigroup.t) : option aws.Integration.t :=
  match Elastigroup.AutoScalerOpts e with
  | None => None
  | Some opts =>
      let autoScale :=
        if not_nil (AutoScalerOpts.Enabled opts) then
          let autoScaler :=
            aws.AutoScaleKubernetes.mk (AutoScalerOpts.Enabled opts) (Some true)
              (AutoScalerOpts.Cooldown opts) None None None in
          (* Headroom. *)
          let autoScaler :=
            match AutoScalerOpts.Headroom opts with
            | Some headroom =>
                aws.AutoScaleKubernetes.set_Headroom
                  (Some (aws.AutoScaleHeadroom.mk
                           (AutoScalerHeadroomOpts.CPUPerUnit headroom)
                           (AutoScalerHeadroomOpts.GPUPerUnit headroom)
                           (AutoScalerHeadroomOpts.MemPerUnit headroom)
                           (AutoScalerHeadroomOpts.NumOfUnits headroom)))
                  (aws.AutoScaleKubernetes.set_IsAutoConfig (Some false) autoScaler)
            | None => autoScaler
            end in
          (* Scale down. *)
          let autoScaler :=
            match AutoScalerOpts.Down opts with
            | Some down =>
                aws.AutoScaleKubernetes.set_Down
                  (Some (aws.AutoScaleDown.mk
                           (AutoScalerDownOpts.MaxPercentage down)
                           (AutoScalerDownOpts.EvaluationPeriods down)))
                  autoScaler
            | None => autoScaler
            end in
          (* Labels. *)
          let autoScaler :=
            match AutoScalerOpts.Labels opts with
            | Some labels =>
                aws.AutoScaleKubernetes.set_Labels
                  (Some (buildAutoScaleLabels rt labels)) autoScaler
            | None => autoScaler
            end in
          Some autoScaler
        else None in
      Some (aws.Integration.mk
              (Some (aws.KubernetesIntegration.mk (Some "pod")
                       (AutoScalerOpts.ClusterID opts) autoScale)))
  end.

(** [create], from [e.applyDefaults()] to the end of block "Auto Scaler":
    the group sent to the provider.  [e] is the task after [applyDefaults]. *)
Definition create_group (lib : Library) (rt : GoRuntime) (cloud : AWSCloud)
    (e : Elastigroup.t) : M aws.Group.t :=
  (* Capacity. *)
  let* minSize := deref (Elastigroup.MinSize e) in
  let* maxSize := deref (Elastigroup.MaxSize e) in
  let capacity :=
    aws.Capacity.mk (Some (int_of_int64 minSize)) (Some (int_of_int64 maxSize))
                    (Some (int_of_int64 minSize)) in
  (* Strategy. *)
  let strategy :=
    aws.Strategy.mk
      (Elastigroup.SpotPercentage e)
      (Some (normalizeOrientation (Elastigroup.Orientation e)))
      (Elastigroup.FallbackToOnDemand e)
      (Elastigroup.UtilizeReservedInstances e)
      (match Elastigroup.DrainingTimeout e with
       | Some d => Some (int_of_int64 d)
       | None => None
       end) in
  (* Compute: instance types, subnets. *)
  let instanceTypes :=
    aws.InstanceTypes.mk (Elastigroup.OnDemandInstanceType e)
                         (Elastigroup.SpotInstanceTypes e) in
  let subnets :=
    map (fun subnet => StringValue (awstasks.Subnet.ID subnet))
        (default [] (Elastigroup.Subnets e)) in
  (* Launch Specification. *)
  let* sshKey := deref (Elastigroup.SSHKey e) in
  (* Block device mappings. *)
  let* mappings := blockDeviceMappings cloud (Elastigroup.RootVolumeOpts e) e in
  (* Image. *)
  let* image := resolveImage cloud (StringValue (Elastigroup.ImageID e)) in
  (* User data. *)
  let* userData :=
    match Elastigroup.UserData e with
    | Some r =>
        let* userData := ([], fi.ResourceAsString r) in
        if (0 <? String.length userData)%nat
        then ret (Some (base64_EncodeToString lib userData))
        else ret None
    | None => ret None
    end in
  (* IAM instance profile. *)
  let iprof :=
    match Elastigroup.IAMInstanceProfile e with
    | Some p => Some (aws.IAMInstanceProfile.mk (awstasks.IAMInstanceProfile.Name p))
    | None => None
    end in
  (* Security groups. *)
  let* securityGroupIDs :=
    match Elastigroup.SecurityGroups e with
    | Some sgs => let* ids := deref_all (map awstasks.SecurityGroup.ID sgs) in ret (Some ids)
    | None => ret None
    end in
  (* Public IP. *)
  let networkInterfaces :=
    if not_nil (Elastigroup.AssociatePublicIP e)
    then Some [eth0 (Elastigroup.AssociatePublicIP e)]
    else None in
  (* Load balancer. *)
  let* lbConfig := create_LoadBalancer cloud e in
  (* Tags. *)
  let tags :=
    if not_nil (Elastigroup.Tags e) then Some (buildTags rt e) else None in
  let launchSpecification :=
    {| aws.LaunchSpecification.Monitoring := Elastigroup.Monitoring e;
       aws.LaunchSpecification.KeyPair := awstasks.SSHKey.Name sshKey;
       aws.LaunchSpecification.Tenancy := Elastigroup.Tenancy e;
       aws.LaunchSpecification.BlockDeviceMappings := Some mappings;
       aws.LaunchSpecification.ImageID := ec2.Image.ImageId image;
       aws.LaunchSpecification.UserData := userData;
       aws.LaunchSpecification.IAMInstanceProfile := iprof;
       aws.LaunchSpecification.SecurityGroupIDs := securityGroupIDs;
       aws.LaunchSpecification.NetworkInterfaces := networkInterfaces;
       aws.LaunchSpecification.LoadBalancersConfig := lbConfig;
       aws.LaunchSpecification.Tags := tags;
       aws.LaunchSpecification.HealthCheckType := Elastigroup.HealthCheckType e;
       aws.LaunchSpecification.EBSOptimized := None |} in
  let compute :=
    aws.Compute.mk (Elastigroup.Product e) (Some instanceTypes) (Some subnets)
                   (Some launchSpecification) in
  ret {| aws.Group.ID := None;
         aws.Group.Name := Elastigroup.Name e;
         aws.Group.Description := Elastigroup.Name e;
         aws.Group.Region := Elastigroup.Region e;
         aws.Group.Capacity := Some capacity;
         aws.Group.Strategy := Some strategy;
         aws.Group.Compute := Some compute;
         aws.Group.Integration := create_Integration rt e |}.

Definition maxAttempts : nat := 10.
Definition transientMessage : string := "Invalid IAM Instance Profile name".

(** The first sub-error whose message has the transient pattern. *)
Definition firstTransient (errs : list client.Error) : option client.Error :=
  List.find (fun err => Contains (client.Message err) transientMessage) errs.

(** [create], the loop labelled [readyLoop], entered with the attempt
    counter at [attempt].  A Go [for] without condition has no bound of its
    own; [fuel] bounds the number of iterations that are unfolded, and the
    outcome is [None] when the loop is still running after them. *)
Fixpoint readyLoop (fuel : nat) (cloud : AWSCloud) (e : Elastigroup.t)
    (group : aws.Group.t) (attempt : nat)
  : list event * option (result Elastigroup.t) :=
  match fuel with
  | O => ([], None)
  | S fuel =>
      let attempt := S attempt in
      (* Wait for IAM instance profile to be ready. *)
      match NewElastigroup_error cloud with
      | Some err => ([Sleep 10], Some (Err err))
      | None =>
          let again :=
            let '(t, r) := readyLoop fuel cloud e group attempt in
            (Sleep 10 :: SpotinstCreate group :: t, r) in
          let stop (r : result Elastigroup.t) :=
            ([Sleep 10; SpotinstCreate group], Some r) in
          match Create cloud attempt group with
          | Ok id => stop (Ok (Elastigroup.set_ID (Some id) e))
          | Panic => stop Panic
          | Err (ClientErrors errs) =>
              match firstTransient errs with
              | Some err =>
                  if (maxAttempts <? attempt)%nat then
                    stop (Err (ErrorfSub
                      "IAM instance profile not yet created/propagated (original error: %v)" err))
                  else if is_nil (Elastigroup.IAMInstanceProfile e) then stop Panic
                  else again
              | None =>
                  stop (Err (ErrorfWrap "spotinst: failed to create elastigroup: %v" []
                                        (ClientErrors errs)))
              end
          | Err _ => again
          end
      end
  end.

Definition create (lib : Library) (rt : GoRuntime) (cloud : AWSCloud) (fuel : nat)
    (a : option Elastigroup.t) (e : Elastigroup.t) (changes : option Elastigroup.t)
  : list event * option (result Elastigroup.t) :=
  match deref (Elastigroup.Name e) with
  | (_, Ok _) =>
      let e := applyDefaults e in
      match create_group lib rt cloud e with
      | (t, Ok group) =>
          let '(t', r) := readyLoop fuel cloud e group 0 in (t ++ t', r)
      | (t, Err err) => (t, Some (Err err))
      | (t, Panic) => (t, Some Panic)
      end
  | _ => ([], Some Panic)
  end.

(** *** update *)

(** The state [update] threads through its blocks: the changes still to
    handle, the partial group to send and the flag [changed]. *)
Record update_state : Type := mkUpdateState {
    changes_of : Elastigroup.t;
    group_of : aws.Group.t;
    changed_of : bool }.

(** [if group.X == nil { group.X = new(aws.X) }], then an update of it. *)
Definition with_Strategy (f : aws.Strategy.t -> aws.Strategy.t) (group : aws.Group.t) :=
  aws.Group.set_Strategy
    (Some (f (default aws.Strategy.new (aws.Group.Strategy group)))) group.
Definition with_Capacity (f : aws.Capacity.t -> aws.Capacity.t) (group : aws.Group.t) :=
  aws.Group.set_Capacity
    (Some (f (default aws.Capacity.new (aws.Group.Capacity group)))) group.
Definition with_Compute (f : aws.Compute.t -> aws.Compute.t) (group : aws.Group.t) :=
  aws.Group.set_Compute
    (Some (f (default aws.Compute.new (aws.Group.Compute group)))) group.
Definition with_InstanceTypes (f : aws.InstanceTypes.t -> aws.InstanceTypes.t) :=
  with_Compute (fun c =>
    aws.Compute.set_InstanceTypes
      (Some (f (default aws.InstanceTypes.new (aws.Compute.InstanceTypes c)))) c).
Definition with_LaunchSpecification
    (f : aws.LaunchSpecification.t -> aws.LaunchSpecification.t) :=
  with_Compute (fun c =>
    aws.Compute.set_LaunchSpecification
      (Some (f (default aws.LaunchSpecification.new (aws.Compute.LaunchSpecification c)))) c).

(** A handled change: the group is updated, the change field cleared and
    [changed] set. *)
Definition handled (clear : Elastigroup.t -> Elastigroup.t)
    (f : aws.Group.t -> aws.Group.t) (s : update_state) : update_state :=
  mkUpdateState (clear (changes_of s)) (f (group_of s)) true.
Definition cleared (clear : Elastigroup.t -> Elastigroup.t) (s : update_state) :=
  mkUpdateState (clear (changes_of s)) (group_of s) (changed_of s).
Definition sent (f : aws.Group.t -> aws.Group.t) (s : update_state) :=
  mkUpdateState (changes_of s) (f (group_of s)) true.

(** [if changes.F != nil { ... }]. *)
Definition when_changed {A} (field : Elastigroup.t -> option A)
    (block : update_state -> M update_state) (s : update_state) : M update_state :=
  if not_nil (field (changes_of s)) then block s else ret s.

Definition update_Region (e : Elastigroup.t) :=
  when_changed Elastigroup.Region (fun s =>
    ret (handled (Elastigroup.set_Region None)
                 (aws.Group.set_Region (Elastigroup.Region e)) s)).

Definition update_SpotPercentage (e : Elastigroup.t) :=
  when_changed Elastigroup.SpotPercentage (fun s =>
    ret (handled (Elastigroup.set_SpotPercentage None)
                 (with_Strategy (aws.Strategy.set_Risk (Elastigroup.SpotPercentage e))) s)).

Definition update_Orientation (e : Elastigroup.t) :=
  when_changed Elastigroup.Orientation (fun s =>
    ret (handled (Elastigroup.set_Orientation None)
                 (with_Strategy (aws.Strategy.set_AvailabilityVsCost
                    (Some (normalizeOrientation (Elastigroup.Orientation e))))) s)).

Definition update_FallbackToOnDemand (e : Elastigroup.t) :=
  when_changed Elastigroup.FallbackToOnDemand (fun s =>
    ret (handled (Elastigroup.set_FallbackToOnDemand None)
                 (with_Strategy (aws.Strategy.set_FallbackToOnDemand
                    (Elastigroup.FallbackToOnDemand e))) s)).

Definition update_UtilizeReservedInstances (e : Elastigroup.t) :=
  when_changed Elastigroup.UtilizeReservedInstances (fun s =>
    ret (handled (Elastigroup.set_UtilizeReservedInstances None)
                 (with_Strategy (aws.Strategy.set_UtilizeReservedInstances
                    (Elastigroup.UtilizeReservedInstances e))) s)).

Definition update_DrainingTimeout (e : Elastigroup.t) :=
  when_changed Elastigroup.DrainingTimeout (fun s =>
    let* d := deref (Elastigroup.DrainingTimeout e) in
    ret (handled (Elastigroup.set_DrainingTimeout None)
                 (with_Strategy (aws.Strategy.set_DrainingTimeout
                    (Some (int_of_int64 d)))) s)).

Definition update_Product (e : Elastigroup.t) :=
  when_changed Elastigroup.Product (fun s =>
    ret (handled (Elastigroup.set_Product None)
                 (with_Compute (aws.Compute.set_Product (Elastigroup.Product e))) s)).

Definition update_OnDemandInstanceType (e : Elastigroup.t) :=
  when_changed Elastigroup.OnDemandInstanceType (fun s =>
    ret (handled (Elastigroup.set_OnDemandInstanceType None)
                 (with_InstanceTypes (aws.InstanceTypes.set_OnDemand
                    (Elastigroup.OnDemandInstanceType e))) s)).

Definition update_SpotInstanceTypes (e : Elastigroup.t) :=
  when_changed Elastigroup.SpotInstanceTypes (fun s =>
    ret (handled (Elastigroup.set_SpotInstanceTypes None)
                 (with_InstanceTypes (aws.InstanceTypes.set_Spot
                    (Some (default [] (Elastigroup.SpotInstanceTypes e))))) s)).

Definition update_Subnets (e : Elastigroup.t) :=
  when_changed Elastigroup.Subnets (fun s =>
    let subnets := map (fun subnet => StringValue (awstasks.Subnet.ID subnet))
                       (default [] (Elastigroup.Subnets e)) in
    ret (handled (Elastigroup.set_Subnets None)
                 (with_Compute (aws.Compute.set_SubnetIDs (Some subnets))) s)).

Definition update_SecurityGroups (e : Elastigroup.t) :=
  when_changed Elastigroup.SecurityGroups (fun s =>
    let* securityGroupIDs :=
      deref_all (map awstasks.SecurityGroup.ID (default [] (Elastigroup.SecurityGroups e))) in
    ret (handled (Elastigroup.set_SecurityGroups None)
                 (with_LaunchSpecification
                    (aws.LaunchSpecification.set_SecurityGroupIDs (Some securityGroupIDs))) s)).

Definition update_UserData (lib : Library) (e : Elastigroup.t) :=
  when_changed Elastigroup.UserData (fun s =>
    let* r := deref (Elastigroup.UserData e) in
    let* userData := ([], fi.ResourceAsString r) in
    let s :=
      if (0 <? String.length userData)%nat then
        sent (with_LaunchSpecification
                (aws.LaunchSpecification.set_UserData
                   (Some (base64_EncodeToString lib userData)))) s
      else s in
    ret (cleared (Elastigroup.set_UserData None) s)).

Definition update_AssociatePublicIP :=
  when_changed Elastigroup.AssociatePublicIP (fun s =>
    let iface := eth0 (Elastigroup.AssociatePublicIP (changes_of s)) in
    ret (handled (Elastigroup.set_AssociatePublicIP None)
                 (with_LaunchSpecification
                    (aws.LaunchSpecification.set_NetworkInterfaces (Some [iface]))) s)).

Definition update_RootVolumeOpts (cloud : AWSCloud) (e : Elastigroup.t)
    (s : update_state) : M update_state :=
  match Elastigroup.RootVolumeOpts (changes_of s) with
  | None => ret s
  | Some opts =>
      (* Block device mappings. *)
      let* s :=
        if not_nil (RootVolumeOpts.Type_ opts) || not_nil (RootVolumeOpts.Size opts)
           || not_nil (RootVolumeOpts.IOPS opts)
        then
          let* mappings := blockDeviceMappings cloud (Some opts) e in
          ret (sent (with_LaunchSpecification
                       (aws.LaunchSpecification.set_BlockDeviceMappings (Some mappings))) s)
        else ret s in
      (* EBS optimization. *)
      let* s :=
        if not_nil (RootVolumeOpts.Optimization opts) then
          let* eopts := deref (Elastigroup.RootVolumeOpts e) in
          ret (sent (with_LaunchSpecification
                       (aws.LaunchSpecification.set_EBSOptimized
                          (RootVolumeOpts.Optimization eopts))) s)
        else ret s in
      ret (cleared (Elastigroup.set_RootVolumeOpts None) s)
  end.

Definition update_ImageID (cloud : AWSCloud) (actual : aws.Group.t) (e : Elastigroup.t) :=
  when_changed Elastigroup.ImageID (fun s =>
    let* image := resolveImage cloud (StringValue (Elastigroup.ImageID e)) in
    let* compute := deref (aws.Group.Compute actual) in
    let* lc := deref (aws.Compute.LaunchSpecification compute) in
    let* actualImageID := deref (aws.LaunchSpecification.ImageID lc) in
    let* imageId := deref (ec2.Image.ImageId image) in
    let s :=
      if negb (String.eqb actualImageID imageId) then
        sent (with_LaunchSpecification
                (aws.LaunchSpecification.set_ImageID (ec2.Image.ImageId image))) s
      else s in
    ret (cleared (Elastigroup.set_ImageID None) s)).

Definition update_Tags (rt : GoRuntime) (e : Elastigroup.t) :=
  when_changed Elastigroup.Tags (fun s =>
    ret (handled (Elastigroup.set_Tags None)
                 (with_LaunchSpecification
                    (aws.LaunchSpecification.set_Tags (Some (buildTags rt e)))) s)).

Definition update_IAMInstanceProfile (e : Elastigroup.t) :=
  when_changed Elastigroup.IAMInstanceProfile (fun s =>
    let* p := deref (Elastigroup.IAMInstanceProfile e) in
    let iprof := aws.IAMInstanceProfile.mk (awstasks.IAMInstanceProfile.Name p) in
    ret (handled (Elastigroup.set_IAMInstanceProfile None)
                 (with_LaunchSpecification
                    (aws.LaunchSpecification.set_IAMInstanceProfile (Some iprof))) s)).

Definition update_Monitoring (e : Elastigroup.t) :=
  when_changed Elastigroup.Monitoring (fun s =>
    ret (handled (Elastigroup.set_Monitoring None)
                 (with_LaunchSpecification
                    (aws.LaunchSpecification.set_Monitoring (Elastigroup.Monitoring e))) s)).

Definition update_SSHKey (e : Elastigroup.t) :=
  when_changed Elastigroup.SSHKey (fun s =>
    let* key := deref (Elastigroup.SSHKey e) in
    ret (handled (Elastigroup.set_SSHKey None)
                 (with_LaunchSpecification
                    (aws.LaunchSpecification.set_KeyPair (awstasks.SSHKey.Name key))) s)).

Definition update_LoadBalancer (cloud : AWSCloud) (e : Elastigroup.t) :=
  when_changed Elastigroup.LoadBalancer (fun s =>
    let* elb := deref (Elastigroup.LoadBalancer e) in
    let lbName := StringValue (awstasks.ClassicLoadBalancer.Name elb) in
    let* lb :=
      wrap_err (fun err => ErrorfWrap "spotinst: error looking for aws/elb: %v" [] err)
               (call (FindELBByNameTagCall lbName) (FindELBByNameTag cloud lbName)) in
    (* [found]: the name and type of the load balancer that was found *)
    let* found :=
      match lb with
      | Some lb => ret (Some (elb.LoadBalancerDescription.LoadBalancerName lb, Some "CLASSIC"))
      | None =>
          let* lb :=
            wrap_err (fun err => ErrorfWrap "spotinst: error looking for aws/nlb: %v" [] err)
                     (call (FindELBV2ByNameTagCall lbName) (FindELBV2ByNameTag cloud lbName)) in
          match lb with
          | Some lb => ret (Some (elbv2.LoadBalancer.LoadBalancerName lb, Some "NETWORK"))
          | None => ret None
          end
      end in
    match found with
    | Some (name, typ) =>
        ret (handled (Elastigroup.set_LoadBalancer None)
                     (with_LaunchSpecification
                        (aws.LaunchSpecification.set_LoadBalancersConfig
                           (Some (loadBalancersConfig name typ)))) s)
    | None => ret s
    end).

Definition update_Tenancy (e : Elastigroup.t) :=
  when_changed Elastigroup.Tenancy (fun s =>
    ret (handled (Elastigroup.set_Tenancy None)
                 (with_LaunchSpecification
                    (aws.LaunchSpecification.set_Tenancy (Elastigroup.Tenancy e))) s)).

Definition update_HealthCheckType (e : Elastigroup.t) :=
  when_changed Elastigroup.HealthCheckType (fun s =>
    ret (handled (Elastigroup.set_HealthCheckType None)
                 (with_LaunchSpecification
                    (aws.LaunchSpecification.set_HealthCheckType
                       (Elastigroup.HealthCheckType e))) s)).

Definition update_MinSize (actual : aws.Group.t) (e : Elastigroup.t) :=
  when_changed Elastigroup.MinSize (fun s =>
    let* minSize := deref (Elastigroup.MinSize e) in
    let s := handled (Elastigroup.set_MinSize None)
               (with_Capacity (aws.Capacity.set_Minimum (Some (int_of_int64 minSize)))) s in
    (* Scale up the target capacity, if needed. *)
    let* capacity := deref (aws.Group.Capacity actual) in
    let* target := deref (aws.Capacity.Target capacity) in
    if Z.ltb (int64_of_int target) minSize then
      ret (sent (with_Capacity (aws.Capacity.set_Target (Some (int_of_int64 minSize)))) s)
    else ret s).

Definition update_MaxSize (e : Elastigroup.t) :=
  when_changed Elastigroup.MaxSize (fun s =>
    let* maxSize := deref (Elastigroup.MaxSize e) in
    ret (handled (Elastigroup.set_MaxSize None)
                 (with_Capacity (aws.Capacity.set_Maximum (Some (int_of_int64 maxSize)))) s)).

Definition update_AutoScalerOpts (rt : GoRuntime) (a e : Elastigroup.t)
    (s : update_state) : M update_state :=
  match Elastigroup.AutoScalerOpts (changes_of s) with
  | None => ret s
  | Some opts =>
      let* s :=
        if not_nil (AutoScalerOpts.Enabled opts) then
          let* eopts := deref (Elastigroup.AutoScalerOpts e) in
          let autoScaler :=
            aws.AutoScaleKubernetes.mk (AutoScalerOpts.Enabled eopts) None
              (AutoScalerOpts.Cooldown eopts) None None None in
          (* Headroom. *)
          let* autoScaler :=
            match AutoScalerOpts.Headroom opts with
            | Some _ =>
                let* headroom := deref (AutoScalerOpts.Headroom eopts) in
                ret (aws.AutoScaleKubernetes.set_Headroom
                       (Some (aws.AutoScaleHeadroom.mk
                                (AutoScalerHeadroomOpts.CPUPerUnit headroom)
                                (AutoScalerHeadroomOpts.GPUPerUnit headroom)
                                (AutoScalerHeadroomOpts.MemPerUnit headroom)
                                (AutoScalerHeadroomOpts.NumOfUnits headroom)))
                       (aws.AutoScaleKubernetes.set_IsAutoConfig (Some false) autoScaler))
            | None =>
                match Elastigroup.AutoScalerOpts a with
                | Some aopts =>
                    if not_nil (AutoScalerOpts.Headroom aopts) then
                      ret (aws.AutoScaleKubernetes.set_Headroom None
                             (aws.AutoScaleKubernetes.set_IsAutoConfig (Some true) autoScaler))
                    else ret autoScaler
                | None => ret autoScaler
                end
            end in
          (* Scale down. *)
          let* autoScaler :=
            match AutoScalerOpts.Down opts with
            | Some down =>
                ret (aws.AutoScaleKubernetes.set_Down
                       (Some (aws.AutoScaleDown.mk
                                (AutoScalerDownOpts.MaxPercentage down)
                                (AutoScalerDownOpts.EvaluationPeriods down)))
                       autoScaler)
            | None =>
                let* aopts := deref (Elastigroup.AutoScalerOpts a) in
                if not_nil (AutoScalerOpts.Down aopts)
                then ret (aws.AutoScaleKubernetes.set_Down None autoScaler)
                else ret autoScaler
            end in
          (* Labels. *)
          let* autoScaler :=
            match AutoScalerOpts.Labels opts with
            | Some _ =>
                ret (aws.AutoScaleKubernetes.set_Labels
                       (Some (buildAutoScaleLabels rt (default ∅ (AutoScalerOpts.Labels eopts))))
                       autoScaler)
            | None =>
                let* aopts := deref (Elastigroup.AutoScalerOpts a) in
                if not_nil (AutoScalerOpts.Labels aopts)
                then ret (aws.AutoScaleKubernetes.set_Labels None autoScaler)
                else ret autoScaler
            end in
          let k8s := aws.KubernetesIntegration.mk None None (Some autoScaler) in
          ret (sent (aws.Group.set_Integration (Some (aws.Integration.mk (Some k8s)))) s)
        else ret s in
      ret (cleared (Elastigroup.set_AutoScalerOpts None) s)
  end.

(** [reflect.DeepEqual(&Elastigroup{}, changes)]: every field of the
    changes is nil. *)
Definition isEmpty (c : Elastigroup.t) : bool :=
  is_nil (Elastigroup.Name c) && is_nil (Elastigroup.Lifecycle c)
  && is_nil (Elastigroup.ID c) && is_nil (Elastigroup.Region c)
  && is_nil (Elastigroup.MinSize c) && is_nil (Elastigroup.MaxSize c)
  && is_nil (Elastigroup.SpotPercentage c)
  && is_nil (Elastigroup.UtilizeReservedInstances c)
  && is_nil (Elastigroup.FallbackToOnDemand c)
  && is_nil (Elastigroup.DrainingTimeout c)
  && is_nil (Elastigroup.HealthCheckType c) && is_nil (Elastigroup.Product c)
  && is_nil (Elastigroup.Orientation c) && is_nil (Elastigroup.Tags c)
  && is_nil (Elastigroup.UserData c) && is_nil (Elastigroup.ImageID c)
  && is_nil (Elastigroup.OnDemandInstanceType c)
  && is_nil (Elastigroup.SpotInstanceTypes c)
  && is_nil (Elastigroup.IAMInstanceProfile c)
  && is_nil (Elastigroup.LoadBalancer c) && is_nil (Elastigroup.SSHKey c)
  && is_nil (Elastigroup.Subnets c) && is_nil (Elastigroup.SecurityGroups c)
  && is_nil (Elastigroup.Monitoring c) && is_nil (Elastigroup.AssociatePublicIP c)
  && is_nil (Elastigroup.Tenancy c) && is_nil (Elastigroup.RootVolumeOpts c)
  && is_nil (Elastigroup.AutoScalerOpts c).

(** [update], from "Region" to the end of "Auto Scaler": the blocks that
    consume the changes, in source order. *)
Definition update_blocks (lib : Library) (rt : GoRuntime) (cloud : AWSCloud)
    (actual : aws.Group.t) (a e : Elastigroup.t) (s : update_state) : M update_state :=
  let* s := update_Region e s in
  (* Strategy. *)
  let* s := update_SpotPercentage e s in
  let* s := update_Orientation e s in
  let* s := update_FallbackToOnDemand e s in
  let* s := update_UtilizeReservedInstances e s in
  let* s := update_DrainingTimeout e s in
  (* Compute. *)
  let* s := update_Product e s in
  let* s := update_OnDemandInstanceType e s in
  let* s := update_SpotInstanceTypes e s in
  let* s := update_Subnets e s in
  (* Launch specification. *)
  let* s := update_SecurityGroups e s in
  let* s := update_UserData lib e s in
  let* s := update_AssociatePublicIP s in
  let* s := update_RootVolumeOpts cloud e s in
  let* s := update_ImageID cloud actual e s in
  let* s := update_Tags rt e s in
  let* s := update_IAMInstanceProfile e s in
  let* s := update_Monitoring e s in
  let* s := update_SSHKey e s in
  let* s := update_LoadBalancer cloud e s in
  let* s := update_Tenancy e s in
  let* s := update_HealthCheckType e s in
  (* Capacity. *)
  let* s := update_MinSize actual e s in
  let* s := update_MaxSize e s in
  (* Auto Scaler. *)
  update_AutoScalerOpts rt a e s.

(** The state in which [update] enters its blocks. *)
Definition update_start (actual : aws.Group.t) (changes : Elastigroup.t) : update_state :=
  mkUpdateState changes (aws.Group.set_ID (aws.Group.ID actual) aws.Group.new) false.

(** [update], after its blocks: the coverage warning and the provider
    call. *)
Definition update_finish (cloud : AWSCloud) (s : update_state) (groupID : string)
  : M Elastigroup.t :=
  (if negb (isEmpty (changes_of s))
   then emit (Warningf "Not all changes applied to Elastigroup %q: %v" groupID (changes_of s))
   else ret tt);;;
  if negb (changed_of s) then ret (changes_of s)
  else
    (match NewElastigroup_error cloud with
     | Some err => fail err
     | None => ret tt
     end);;;
    wrap_err (fun err => ErrorfWrap "spotinst: failed to update elastigroup: %v" [] err)
             (call (SpotinstUpdate (group_of s)) (Update cloud (group_of s)));;;
    ret (changes_of s).

(** [update] returns the changes as it leaves them. *)
Definition update (lib : Library) (rt : GoRuntime) (cloud : AWSCloud)
    (a e changes : Elastigroup.t) : M Elastigroup.t :=
  let* name := deref (Elastigroup.Name e) in
  let* actual := find cloud name in
  let* s := update_blocks lib rt cloud actual a e (update_start actual changes) in
  let* groupID := deref (aws.Group.ID (group_of s)) in
  update_finish cloud s groupID.

(** [createOrUpdate] returns an error only; the outcome [Ok tt] is the
    nil error. *)
Definition forget {A} (r : result A) : result unit :=
  match r with Ok _ => Ok tt | Err err => Err err | Panic => Panic end.

Definition createOrUpdate (lib : Library) (rt : GoRuntime) (cloud : AWSCloud)
    (fuel : nat) (a : option Elastigroup.t) (e : Elastigroup.t)
    (changes : Elastigroup.t) : list event * option (result unit) :=
  match a with
  | None =>
      let '(t, r) := create lib rt cloud fuel a e (Some changes) in (t, forget <$> r)
  | Some a' =>
      let '(t, r) := update lib rt cloud a' e changes in (t, Some (forget r))
  end.

Definition RenderAWS := createOrUpdate.

(** *** Find *)

Definition subnetSlicesEqualIgnoreOrder (lib : Library)
    (l r : list awstasks.Subnet.t) : M bool :=
  let* lIDs := deref_all (map awstasks.Subnet.ID l) in
  if forallb (fun s => not_nil (awstasks.Subnet.ID s)) r then
    ret (StringSlicesEqualIgnoreOrder lib lIDs
           (map (fun s => StringValue (awstasks.Subnet.ID s)) r))
  else ret false.

(** A slice built by [append] from a nil slice: nil when nothing was
    appended. *)
Definition appended {A} (l : list A) : option (list A) :=
  match l with [] => None | _ => Some l end.

(** [Find], block "Image". *)
Definition Find_ImageID (cloud : AWSCloud) (e : Elastigroup.t)
    (lc : aws.LaunchSpecification.t) : M (option string) :=
  let actualImageID := aws.LaunchSpecification.ImageID lc in
  if not_nil (Elastigroup.ImageID e) && not_nil actualImageID
     && negb (String.eqb (StringValue actualImageID) (StringValue (Elastigroup.ImageID e)))
  then
    let* image := resolveImage cloud (StringValue (Elastigroup.ImageID e)) in
    if String.eqb (StringValue (ec2.Image.ImageId image))
                  (StringValue (aws.LaunchSpecification.ImageID lc))
    then ret (Elastigroup.ImageID e)
    else ret actualImageID
  else ret actualImageID.

(** [Find], block "Root volume options". *)
Definition Find_RootVolumeOpts (lib : Library) (lc : aws.LaunchSpecification.t)
  : option RootVolumeOpts.t :=
  let ensure (o : option RootVolumeOpts.t) := default RootVolumeOpts.new o in
  let step (acc : option RootVolumeOpts.t) (b : aws.BlockDeviceMapping.t) :=
    match aws.BlockDeviceMapping.EBS b with
    | None => acc
    | Some ebs =>
        if not_nil (aws.EBS.SnapshotID ebs) then acc (* not the root *)
        else
          let o := ensure acc in
          let o := match aws.EBS.VolumeType ebs with
                   | Some ty => RootVolumeOpts.set_Type_ (Some (strings_ToLower lib ty)) o
                   | None => o
                   end in
          let o := match aws.EBS.VolumeSize ebs with
                   | Some v => RootVolumeOpts.set_Size (Some (int64_of_int v)) o
                   | None => o
                   end in
          let o := match aws.EBS.IOPS ebs with
                   | Some v => RootVolumeOpts.set_IOPS (Some (int64_of_int v)) o
                   | None => o
                   end in
          let o := match aws.EBS.Throughput ebs with
                   | Some v => RootVolumeOpts.set_Throughput (Some (int64_of_int v)) o
                   | None => o
                   end in
          Some o
    end in
  let opts := fold_left step (default [] (aws.LaunchSpecification.BlockDeviceMappings lc)) None in
  (* EBS optimization. *)
  if BoolValue (aws.LaunchSpecification.EBSOptimized lc)
  then Some (RootVolumeOpts.set_Optimization (aws.LaunchSpecification.EBSOptimized lc)
                                              (ensure opts))
  else opts.

(** [Find], block "Load balancer". *)
Definition Find_LoadBalancer (cloud : AWSCloud) (e : Elastigroup.t)
    (lc : aws.LaunchSpecification.t) : M (option awstasks.ClassicLoadBalancer.t) :=
  match aws.LaunchSpecification.LoadBalancersConfig lc with
  | None => ret None
  | Some cfg =>
      match default [] (aws.LoadBalancersConfig.LoadBalancers cfg) with
      | [] => ret None
      | lb0 :: _ =>
          let name := aws.LoadBalancer.Name lb0 in
          let actualLB := Some (awstasks.ClassicLoadBalancer.mk name) in
          match Elastigroup.LoadBalancer e with
          | None => ret actualLB
          | Some elb' =>
              let ename := StringValue (awstasks.ClassicLoadBalancer.Name elb') in
              if negb (String.eqb (StringValue name) ename) then
                let* nlb := call (FindELBV2ByNameTagCall ename) (FindELBV2ByNameTag cloud ename) in
                let actualLB :=
                  match nlb with
                  | Some nlb' =>
                      if String.eqb (StringValue (elbv2.LoadBalancer.LoadBalancerName nlb'))
                                    (StringValue name)
                      then Elastigroup.LoadBalancer e else actualLB
                  | None => actualLB
                  end in
                let* elb := call (FindELBByNameTagCall ename) (FindELBByNameTag cloud ename) in
                match elb, nlb with
                | Some elb1, Some nlb1 =>
                    fail (Errorf "spotinst: found both aws/elb (%s) and aws/nlb (%s)"
                            [StringValue (elb.LoadBalancerDescription.LoadBalancerName elb1);
                             StringValue (elbv2.LoadBalancer.LoadBalancerName nlb1)])
                | Some elb1, None =>
                    if String.eqb (StringValue (elb.LoadBalancerDescription.LoadBalancerName elb1))
                                  (StringValue name)
                    then ret (Elastigroup.LoadBalancer e) else ret actualLB
                | None, _ => ret actualLB
                end
              else ret actualLB
          end
      end
  end.

(** The map built from a list of key-value pairs by successive assignment. *)
Definition map_of (kvs : list (option string * option string)) : gmap string string :=
  fold_left (fun m kv => <[StringValue (fst kv) := StringValue (snd kv)]> m) kvs ∅.

(** [Find], block "Auto Scaler". *)
Definition Find_AutoScalerOpts (group : aws.Group.t) : option AutoScalerOpts.t :=
  match aws.Group.Integration group with
  | None => None
  | Some i =>
      match aws.Integration.Kubernetes i with
      | None => None
      | Some integration =>
          let opts := AutoScalerOpts.set_ClusterID
                        (aws.KubernetesIntegration.ClusterIdentifier integration)
                        AutoScalerOpts.new in
          match aws.KubernetesIntegration.AutoScale integration with
          | None => Some opts
          | Some autoScale =>
              let opts := AutoScalerOpts.set_Enabled (aws.AutoScaleKubernetes.IsEnabled autoScale) opts in
              let opts := AutoScalerOpts.set_Cooldown (aws.AutoScaleKubernetes.Cooldown autoScale) opts in
              (* Headroom. *)
              let positive (v : option int) := if 0 <? IntValue v then v else None in
              let opts :=
                match aws.AutoScaleKubernetes.Headroom autoScale with
                | Some headroom =>
                    AutoScalerOpts.set_Headroom
                      (Some (AutoScalerHeadroomOpts.mk
                               (positive (aws.AutoScaleHeadroom.CPUPerUnit headroom))
                               (positive (aws.AutoScaleHeadroom.GPUPerUnit headroom))
                               (positive (aws.AutoScaleHeadroom.MemoryPerUnit headroom))
                               (positive (aws.AutoScaleHeadroom.NumOfUnits headroom)))) opts
                | None => opts
                end in
              (* Scale down. *)
              let opts :=
                match aws.AutoScaleKubernetes.Down autoScale with
                | Some down =>
                    AutoScalerOpts.set_Down
                      (Some (AutoScalerDownOpts.mk
                               (aws.AutoScaleDown.MaxScaleDownPercentage down)
                               (aws.AutoScaleDown.EvaluationPeriods down))) opts
                | None => opts
                end in
              (* Labels. *)
              let opts :=
                match aws.AutoScaleKubernetes.Labels autoScale with
                | Some labels =>
                    AutoScalerOpts.set_Labels
                      (Some (map_of (map (fun l => (aws.AutoScaleLabel.Key l,
                                                    aws.AutoScaleLabel.Value l)) labels))) opts
                | None => opts
                end in
              Some opts
          end
      end
  end.

Definition Find (lib : Library) (cloud : AWSCloud) (e : Elastigroup.t) : M Elastigroup.t :=
  let* name := deref (Elastigroup.Name e) in
  let* group := find cloud name in
  (* Capacity. *)
  let* capacity := deref (aws.Group.Capacity group) in
  (* Strategy. *)
  let* strategy := deref (aws.Group.Strategy group) in
  (* Compute. *)
  let* compute := deref (aws.Group.Compute group) in
  let* instanceTypes := deref (aws.Compute.InstanceTypes compute) in
  (* Subnets. *)
  let actualSubnets :=
    appended (map (fun subnetID => awstasks.Subnet.mk (Some subnetID))
                  (default [] (aws.Compute.SubnetIDs compute))) in
  let* same := subnetSlicesEqualIgnoreOrder lib (default [] actualSubnets)
                                            (default [] (Elastigroup.Subnets e)) in
  let subnets := if same then Elastigroup.Subnets e else actualSubnets in
  (* Launch specification. *)
  let* lc := deref (aws.Compute.LaunchSpecification compute) in
  let* imageID := Find_ImageID cloud e lc in
  (* Tags. *)
  let tags :=
    match aws.LaunchSpecification.Tags lc with
    | Some (tag :: tags') =>
        Some (map_of (map (fun tag => (aws.Tag.Key tag, aws.Tag.Value tag)) (tag :: tags')))
    | _ => None
    end in
  (* Security groups. *)
  let securityGroups :=
    appended (map (fun sgID => awstasks.SecurityGroup.mk (Some sgID))
                  (default [] (aws.LaunchSpecification.SecurityGroupIDs lc))) in
  (* Root volume options. *)
  let rootVolumeOpts := Find_RootVolumeOpts lib lc in
  (* User data. *)
  let* userData :=
    match aws.LaunchSpecification.UserData lc with
    | Some encoded => ([], base64_DecodeString lib encoded)
    | None => ret ""
    end in
  (* Network interfaces. *)
  let associatePublicIP :=
    existsb (fun iface => BoolValue (aws.NetworkInterface.AssociatePublicIPAddress iface))
            (default [] (aws.LaunchSpecification.NetworkInterfaces lc)) in
  (* Load balancer. *)
  let* loadBalancer := Find_LoadBalancer cloud e lc in
  ret {| Elastigroup.Name := aws.Group.Name group;
         Elastigroup.Lifecycle := Elastigroup.Lifecycle e; (* Avoid spurious changes *)
         Elastigroup.ID := aws.Group.ID group;
         Elastigroup.Region := aws.Group.Region group;
         Elastigroup.MinSize := Some (int64_of_int (IntValue (aws.Capacity.Minimum capacity)));
         Elastigroup.MaxSize := Some (int64_of_int (IntValue (aws.Capacity.Maximum capacity)));
         Elastigroup.SpotPercentage := aws.Strategy.Risk strategy;
         Elastigroup.UtilizeReservedInstances := aws.Strategy.UtilizeReservedInstances strategy;
         Elastigroup.FallbackToOnDemand := aws.Strategy.FallbackToOnDemand strategy;
         Elastigroup.DrainingTimeout :=
           match aws.Strategy.DrainingTimeout strategy with
           | Some d => Some (int64_of_int d)
           | None => None
           end;
         Elastigroup.HealthCheckType := aws.LaunchSpecification.HealthCheckType lc;
         Elastigroup.Product := aws.Compute.Product compute;
         Elastigroup.Orientation := aws.Strategy.AvailabilityVsCost strategy;
         Elastigroup.Tags := tags;
         Elastigroup.UserData := Some (fi.NewStringResource userData);
         Elastigroup.ImageID := imageID;
         Elastigroup.OnDemandInstanceType := aws.InstanceTypes.OnDemand instanceTypes;
         Elastigroup.SpotInstanceTypes := aws.InstanceTypes.Spot instanceTypes;
         Elastigroup.IAMInstanceProfile :=
           match aws.LaunchSpecification.IAMInstanceProfile lc with
           | Some p => Some (awstasks.IAMInstanceProfile.mk (aws.IAMInstanceProfile.Name p))
           | None => None
           end;
         Elastigroup.LoadBalancer := loadBalancer;
         Elastigroup.SSHKey :=
           match aws.LaunchSpecification.KeyPair lc with
           | Some k => Some (awstasks.SSHKey.mk (Some k))
           | None => None
           end;
         Elastigroup.Subnets := subnets;
         Elastigroup.SecurityGroups := securityGroups;
         Elastigroup.Monitoring := aws.LaunchSpecification.Monitoring lc;
         Elastigroup.AssociatePublicIP := Some associatePublicIP;
         Elastigroup.Tenancy := aws.LaunchSpecification.Tenancy lc;
         Elastigroup.RootVolumeOpts := rootVolumeOpts;
         Elastigroup.AutoScalerOpts := Find_AutoScalerOpts group |}.

(** *** RenderTerraform *)

(** [RenderTerraform], the loop over the tag keys that extracts the role,
    started with [role]; [keys] are the keys in the order of the visit. *)
Fixpoint roleOfTags (pre : string) (keys : list string) (role : string) : result string :=
  match keys with
  | [] => Ok role
  | key :: keys =>
      if HasPrefix key pre then
        let suffix := TrimPrefix key pre in
        if negb (String.eqb role "") && negb (String.eqb role suffix)
        then Err (Errorf "spotinst: found multiple role tags %q vs %q" [role; suffix])
        else roleOfTags pre keys suffix
      else roleOfTags pre keys role
  end.

(** The output variables of a list of links, added when a role was found. *)
Fixpoint addOutputVariables (t : TerraformTarget) (role : string) (suffix : string)
    (links : list Literal) : M unit :=
  match links with
  | [] => ret tt
  | link :: links =>
      (if negb (String.eqb role "")
       then call (AddOutputVariableArray (String.append role suffix) link)
                 (AddOutputVariableArray_result t (String.append role suffix) link)
       else ret tt);;;
      addOutputVariables t role suffix links
  end.

(** [RenderTerraform], block "Auto Scaler". *)
Definition RenderTerraform_Integration (rt : GoRuntime) (e : Elastigroup.t)
  : option terraformElastigroupIntegration.t :=
  match Elastigroup.AutoScalerOpts e with
  | None => None
  | Some opts =>
      let i := terraformElastigroupIntegration.mk (Some "pod") (AutoScalerOpts.ClusterID opts)
                 None None None None None None in
      if not_nil (AutoScalerOpts.Enabled opts) then
        let i := terraformElastigroupIntegration.set_Enabled (AutoScalerOpts.Enabled opts) i in
        let i := terraformElastigroupIntegration.set_AutoConfig (Some true) i in
        let i := terraformElastigroupIntegration.set_Cooldown (AutoScalerOpts.Cooldown opts) i in
        (* Headroom. *)
        let i :=
          match AutoScalerOpts.Headroom opts with
          | Some headroom =>
              terraformElastigroupIntegration.set_Headroom
                (Some (terraformAutoScalerHeadroom.mk
                         (AutoScalerHeadroomOpts.CPUPerUnit headroom)
                         (AutoScalerHeadroomOpts.GPUPerUnit headroom)
                         (AutoScalerHeadroomOpts.MemPerUnit headroom)
                         (AutoScalerHeadroomOpts.NumOfUnits headroom)))
                (terraformElastigroupIntegration.set_AutoConfig (Some false) i)
          | None => i
          end in
        (* Scale down. *)
        let i :=
          match AutoScalerOpts.Down opts with
          | Some down =>
              terraformElastigroupIntegration.set_Down
                (Some (terraformAutoScalerDown.mk
                         (AutoScalerDownOpts.MaxPercentage down)
                         (AutoScalerDownOpts.EvaluationPeriods down))) i
          | None => i
          end in
        (* Labels. *)
        let i :=
          match AutoScalerOpts.Labels opts with
          | Some labels =>
              terraformElastigroupIntegration.set_Labels
                (Some (map (fun kv => terraformKV.mk (Some (fst kv)) (Some (snd kv)))
                           (range_map rt RangeLabels labels))) i
          | None => i
          end in
        Some i
      else Some i
  end.

(** [RenderTerraform], block "Root volume options": the root device, the
    ephemeral devices and the EBS optimization. *)
Definition RenderTerraform_RootVolumeOpts (cloud : AWSCloud) (e : Elastigroup.t)
  : M (option terraformElastigroupBlockDevice.t
       * option (list terraformElastigroupBlockDevice.t) * option bool) :=
  match Elastigroup.RootVolumeOpts e with
  | None => ret (None, None, None)
  | Some opts =>
      let* rootDevice :=
        buildRootDevice cloud (Elastigroup.RootVolumeOpts e) (Elastigroup.ImageID e) in
      let root :=
        terraformElastigroupBlockDevice.mk
          (awstasks.BlockDeviceMapping.DeviceName rootDevice) None
          (awstasks.BlockDeviceMapping.EbsVolumeType rootDevice)
          (awstasks.BlockDeviceMapping.EbsVolumeSize rootDevice)
          (awstasks.BlockDeviceMapping.EbsVolumeIops rootDevice)
          (awstasks.BlockDeviceMapping.EbsVolumeThroughput rootDevice)
          (Some true) in
      let* ephemeralDevices :=
        buildEphemeralDevices cloud (Elastigroup.OnDemandInstanceType e) in
      let ephemeral :=
        appended (map (fun bdm =>
                         terraformElastigroupBlockDevice.mk
                           (awstasks.BlockDeviceMapping.DeviceName bdm)
                           (awstasks.BlockDeviceMapping.VirtualName bdm)
                           None None None None None) ephemeralDevices) in
      ret (Some root, ephemeral, RootVolumeOpts.Optimization opts)
  end.

(** [RenderTerraform], the calls on the target and the cloud that follow
    the extraction of the role, in source order: the output variables of
    the security groups, the user data file, the output variables of the
    subnets and the root volume.  None of them ranges over a map. *)
Definition RenderTerraform_calls (lib : Library) (cloud : AWSCloud)
    (t : TerraformTarget) (e : Elastigroup.t) (role : string)
  : M (option Literal
       * (option terraformElastigroupBlockDevice.t
          * option (list terraformElastigroupBlockDevice.t) * option bool)) :=
  (* Security groups. *)
  addOutputVariables t role "_security_groups"
    (map (SecurityGroup_TerraformLink lib) (default [] (Elastigroup.SecurityGroups e)));;;
  (* User data. *)
  let* userData :=
    match Elastigroup.UserData e with
    | Some r =>
        let* name := deref (Elastigroup.Name e) in
        let* l := call (AddFileResource "spotinst_elastigroup_aws" name "user_data" r)
                       (AddFileResource_result t "spotinst_elastigroup_aws" name "user_data" r) in
        ret (Some l)
    | None => ret None
    end in
  (* Subnets. *)
  addOutputVariables t role "_subnet_ids"
    (map (Subnet_TerraformLink lib) (default [] (Elastigroup.Subnets e)));;;
  (* Root volume options. *)
  let* rootVolume := RenderTerraform_RootVolumeOpts cloud e in
  ret (userData, rootVolume).

(** [RenderTerraform], the resource [tf] handed to [RenderResource]. *)
Definition RenderTerraform_tf (lib : Library) (rt : GoRuntime) (e : Elastigroup.t)
    (imageID : option string) (userData : option Literal)
    (rootVolume : option terraformElastigroupBlockDevice.t
                  * option (list terraformElastigroupBlockDevice.t) * option bool)
  : terraformElastigroup.t :=
  {| terraformElastigroup.Name := Elastigroup.Name e;
     terraformElastigroup.Description := Elastigroup.Name e;
     terraformElastigroup.Product := Elastigroup.Product e;
     terraformElastigroup.Region := Elastigroup.Region e;
     terraformElastigroup.SubnetIDs :=
       appended (map (Subnet_TerraformLink lib) (default [] (Elastigroup.Subnets e)));
     terraformElastigroup.LoadBalancers :=
       match Elastigroup.LoadBalancer e with
       | Some lb => Some [ClassicLoadBalancer_TerraformLink lib lb]
       | None => None
       end;
     terraformElastigroup.NetworkInterfaces :=
       if not_nil (Elastigroup.AssociatePublicIP e) then
         Some [terraformElastigroupNetworkInterface.mk (Some "eth0") (Some 0)
                 (Elastigroup.AssociatePublicIP e) (Some true)]
       else None;
     terraformElastigroup.RootBlockDevice := fst (fst rootVolume);
     terraformElastigroup.EphemeralBlockDevice := snd (fst rootVolume);
     terraformElastigroup.Integration := RenderTerraform_Integration rt e;
     terraformElastigroup.Tags :=
       if not_nil (Elastigroup.Tags e)
       then appended (map (fun tag => terraformKV.mk (aws.Tag.Key tag) (aws.Tag.Value tag))
                          (buildTags rt e))
       else None;
     terraformElastigroup.MinSize := Elastigroup.MinSize e;
     terraformElastigroup.MaxSize := Elastigroup.MaxSize e;
     terraformElastigroup.DesiredCapacity := Elastigroup.MinSize e;
     terraformElastigroup.CapacityUnit := Some "instance";
     terraformElastigroup.SpotPercentage := Elastigroup.SpotPercentage e;
     terraformElastigroup.Orientation :=
       Some (normalizeOrientation (Elastigroup.Orientation e));
     terraformElastigroup.FallbackToOnDemand := Elastigroup.FallbackToOnDemand e;
     terraformElastigroup.UtilizeReservedInstances := Elastigroup.UtilizeReservedInstances e;
     terraformElastigroup.DrainingTimeout := Elastigroup.DrainingTimeout e;
     terraformElastigroup.OnDemand := Elastigroup.OnDemandInstanceType e;
     terraformElastigroup.Spot := Elastigroup.SpotInstanceTypes e;
     terraformElastigroup.Monitoring := Elastigroup.Monitoring e;
     terraformElastigroup.EBSOptimized := snd rootVolume;
     terraformElastigroup.ImageID := imageID;
     terraformElastigroup.HealthCheckType := Elastigroup.HealthCheckType e;
     terraformElastigroup.SecurityGroups :=
       appended (map (SecurityGroup_TerraformLink lib)
                     (default [] (Elastigroup.SecurityGroups e)));
     terraformElastigroup.UserData := userData;
     terraformElastigroup.IAMInstanceProfile :=
       match Elastigroup.IAMInstanceProfile e with
       | Some p => Some (IAMInstanceProfile_TerraformLink lib p)
       | None => None
       end;
     terraformElastigroup.KeyName :=
       match Elastigroup.SSHKey e with
       | Some k => Some (SSHKey_TerraformLink lib k)
       | None => None
       end |}.

(** The assignments to the fields of [tf], which have no effect of their
    own, are gathered in [RenderTerraform_tf]; the calls keep their order. *)
Definition RenderTerraform (lib : Library) (rt : GoRuntime) (cloud : AWSCloud)
    (t : TerraformTarget) (a : option Elastigroup.t) (e : Elastigroup.t)
    (changes : option Elastigroup.t) : M unit :=
  let e := applyDefaults e in
  (* Image. *)
  let* imageID :=
    if not_nil (Elastigroup.ImageID e) then
      let* image := resolveImage cloud (StringValue (Elastigroup.ImageID e)) in
      ret (ec2.Image.ImageId image)
    else ret None in
  let* role :=
    ([], roleOfTags (CloudTagInstanceGroupRolePrefix lib)
           (map fst (range_map rt RangeRoleTags (default ∅ (Elastigroup.Tags e)))) "") in
  let* parts := RenderTerraform_calls lib cloud t e role in
  let tf := RenderTerraform_tf lib rt e imageID (fst parts) (snd parts) in
  let* name := deref (Elastigroup.Name e) in
  call (RenderResource "spotinst_elastigroup_aws" name tf)
       (RenderResource_result t "spotinst_elastigroup_aws" name tf).

(** ** The task in the task graph *)

(** [CompareWithID]: the identity under which the task is compared. *)
Definition CompareWithID (e : Elastigroup.t) : option string := Elastigroup.Name e.

(** The tasks an Elastigroup can depend on: the kinds it refers to, and
    the tasks of any other kind, told apart by their key in the task map. *)
Inductive Task : Type :=
| IAMInstanceProfileTask (p : awstasks.IAMInstanceProfile.t)
| ClassicLoadBalancerTask (lb : awstasks.ClassicLoadBalancer.t)
| SSHKeyTask (k : awstasks.SSHKey.t)
| SubnetTask (s : awstasks.Subnet.t)
| SecurityGroupTask (g : awstasks.SecurityGroup.t)
| OtherTask (key : string).

(** [GetDependencies]; [FindDependencies] is [fi.FindDependencies], which
    walks a resource for the tasks it refers to. *)
Definition GetDependencies
    (FindDependencies : gmap string Task -> fi.Resource -> list Task)
    (tasks : gmap string Task) (e : Elastigroup.t) : list Task :=
  let deps := [] in
  let deps := match Elastigroup.IAMInstanceProfile e with
              | Some p => deps ++ [IAMInstanceProfileTask p]
              | None => deps
              end in
  let deps := match Elastigroup.LoadBalancer e with
              | Some lb => deps ++ [ClassicLoadBalancerTask lb]
              | None => deps
              end in
  let deps := match Elastigroup.SSHKey e with
              | Some k => deps ++ [SSHKeyTask k]
              | None => deps
              end in
  let deps := match Elastigroup.Subnets e with
              | Some subnets => deps ++ map SubnetTask subnets
              | None => deps
              end in
  let deps := match Elastigroup.SecurityGroups e with
              | Some sgs => deps ++ map SecurityGroupTask sgs
              | None => deps
              end in
  let deps := match Elastigroup.UserData e with
              | Some r => deps ++ FindDependencies tasks r
              | None => deps
              end in
  deps.

(** [TerraformLink]: the reference other tasks render to this group. *)
Definition TerraformLink (e : Elastigroup.t) : result Literal :=
  match Elastigroup.Name e with
  | Some name => Ok (LiteralProperty "spotinst_elastigroup_aws" name "id")
  | None => Panic
  end.

(** ** Notions used by the statements *)

(** The orientation a provider group carries, if any. *)
Definition sentOrientation (g : aws.Group.t) : option string :=
  match aws.Group.Strategy g with
  | Some strategy => aws.Strategy.AvailabilityVsCost strategy
  | None => None
  end.

(** The read-only lookups: the events that are neither a mutation of the
    provider, nor a wait, nor an output. *)
Definition is_lookup (ev : event) : Prop :=
  match ev with
  | SpotinstList | ResolveImageCall _ | FindELBByNameTagCall _
  | FindELBV2ByNameTagCall _ | GetMachineTypeInfoCall _ => True
  | _ => False
  end.

(** The mutation calls: [Create] and [Update] of the provider. *)
Definition is_mutation (ev : event) : bool :=
  match ev with
  | SpotinstCreate _ | SpotinstUpdate _ => true
  | _ => false
  end.

Definition is_warning (ev : event) : bool :=
  match ev with Warningf _ _ _ => true | _ => false end.

(** The capacity a provider group carries, if any. *)
Definition sentMinimum (g : aws.Group.t) : option int :=
  match aws.Group.Capacity g with Some c => aws.Capacity.Minimum c | None => None end.
Definition sentMaximum (g : aws.Group.t) : option int :=
  match aws.Group.Capacity g with Some c => aws.Capacity.Maximum c | None => None end.
Definition sentTarget (g : aws.Group.t) : option int :=
  match aws.Group.Capacity g with Some c => aws.Capacity.Target c | None => None end.

(** What a block of [update] leaves alone in the group when it handles a
    change that is neither the orientation nor a capacity bound. *)
Definition group_frame (g g' : aws.Group.t) : Prop :=
  aws.Group.ID g' = aws.Group.ID g /\
  sentOrientation g' = sentOrientation g /\
  aws.Group.Capacity g' = aws.Group.Capacity g.


(** ** Fixtures: a library, runtimes and clouds for the examples *)

Definition exampleLibrary : Library :=
  {| base64_EncodeToString := fun s => s;
     base64_DecodeString := fun s => Ok s;
     strings_ToLower := fun s => s;
     StringSlicesEqualIgnoreOrder := fun l r => bool_decide (l = r);
     CloudTagInstanceGroupRolePrefix := "k8s.io/role/";
     SecurityGroup_TerraformLink := fun sg =>
       LiteralProperty "aws_security_group" (StringValue (awstasks.SecurityGroup.ID sg)) "id";
     Subnet_TerraformLink := fun sn =>
       LiteralProperty "aws_subnet" (StringValue (awstasks.Subnet.ID sn)) "id";
     IAMInstanceProfile_TerraformLink := fun p =>
       LiteralProperty "aws_iam_instance_profile"
                       (StringValue (awstasks.IAMInstanceProfile.Name p)) "id";
     SSHKey_TerraformLink := fun k =>
       LiteralProperty "aws_key_pair" (StringValue (awstasks.SSHKey.Name k)) "id";
     ClassicLoadBalancer_TerraformLink := fun lb =>
       LiteralProperty "aws_elb" (StringValue (awstasks.ClassicLoadBalancer.Name lb)) "id" |}.

(** A runtime that visits a map in the order of [map_to_list], and one
    that visits it in the reverse order. *)
Definition forwardRuntime : GoRuntime := mkGoRuntime (fun _ m => map_to_list m).
Definition backwardRuntime : GoRuntime := mkGoRuntime (fun _ m => rev (map_to_list m)).

Definition exampleImage : ec2.Image.t := ec2.Image.mk (Some "ami-1") (Some "/dev/xvda").

(** A live group named "nodes" with capacity [{Min:2, Max:4, Target:4}]. *)
Definition liveGroup : aws.Group.t :=
  {| aws.Group.ID := Some "sig-1";
     aws.Group.Name := Some "nodes";
     aws.Group.Description := Some "nodes";
     aws.Group.Region := Some "us-east-1";
     aws.Group.Capacity := Some (aws.Capacity.mk (Some 2) (Some 4) (Some 4));
     aws.Group.Strategy := Some aws.Strategy.new;
     aws.Group.Compute :=
       Some (aws.Compute.mk None (Some aws.InstanceTypes.new) None
                            (Some aws.LaunchSpecification.new));
     aws.Group.Integration := None |}.

(** A cloud in which the group "nodes" lives, every call succeeds and no
    load balancer exists. *)
Definition exampleCloud : AWSCloud :=
  {| List := Ok [liveGroup];
     Create := fun _ _ => Ok "sig-1";
     Update := fun _ => Ok tt;
     NewElastigroup_error := None;
     ResolveImage := fun _ => Ok (Some exampleImage);
     FindELBByNameTag := fun _ => Ok None;
     FindELBV2ByNameTag := fun _ => Ok None;
     GetMachineTypeInfo := fun _ => Ok [] |}.

(** The same cloud without any group. *)
Definition emptyCloud : AWSCloud :=
  {| List := Ok [];
     Create := Create exampleCloud;
     Update := Update exampleCloud;
     NewElastigroup_error := None;
     ResolveImage := ResolveImage exampleCloud;
     FindELBByNameTag := FindELBByNameTag exampleCloud;
     FindELBV2ByNameTag := FindELBV2ByNameTag exampleCloud;
     GetMachineTypeInfo := GetMachineTypeInfo exampleCloud |}.

(** A desired task named "nodes". *)
Definition nodes : Elastigroup.t :=
  Elastigroup.set_Name (Some "nodes")
    (Elastigroup.set_MinSize (Some 2)
       (Elastigroup.set_MaxSize (Some 5)
          (Elastigroup.set_SSHKey (Some (awstasks.SSHKey.mk (Some "key")))
             (Elastigroup.set_RootVolumeOpts
                (Some (RootVolumeOpts.mk (Some "gp2") (Some 64) (Some 3000) (Some 125) None))
                (Elastigroup.set_ImageID (Some "ami-1") Elastigroup.new))))).

Definition exampleTarget : TerraformTarget :=
  {| AddOutputVariableArray_result := fun _ _ => Ok tt;
     AddFileResource_result := fun kind name key _ => Ok (LiteralProperty kind name key);
     RenderResource_result := fun _ _ _ => Ok tt |}.

(** The task "nodes" with the orientation "cost". *)
Definition costNodes : Elastigroup.t := Elastigroup.set_Orientation (Some "cost") nodes.

(** A desired task with a name and no capacity bound. *)
Definition unsized : Elastigroup.t := Elastigroup.set_Name (Some "nodes") Elastigroup.new.

(** The update of a group that carries capacity fields only. *)
Definition capacityUpdate (groupID : string) (minimum maximum target : option int)
  : aws.Group.t :=
  aws.Group.set_Capacity (Some (aws.Capacity.mk minimum maximum target))
    (aws.Group.set_ID (Some groupID) aws.Group.new).

(** The Delta [{Max:5}] and the Delta [{Min:5, Max:5}]. *)
Definition deltaMax5 : Elastigroup.t := Elastigroup.set_MaxSize (Some 5) Elastigroup.new.
Definition deltaMin5Max5 : Elastigroup.t :=
  Elastigroup.set_MinSize (Some 5) (Elastigroup.set_MaxSize (Some 5) Elastigroup.new).

(** The coverage warning of [update]. *)
Definition coverageWarning (groupID : string) (changes : Elastigroup.t) : event :=
  Warningf "Not all changes applied to Elastigroup %q: %v" groupID changes.

(** A load balancer reference, the task "nodes" behind it, and the Delta
    that carries the load balancer and the maximum. *)
Definition apiLoadBalancer : awstasks.ClassicLoadBalancer.t :=
  awstasks.ClassicLoadBalancer.mk (Some "api").
Definition balancedNodes : Elastigroup.t :=
  Elastigroup.set_LoadBalancer (Some apiLoadBalancer) nodes.
Definition deltaLoadBalancer : Elastigroup.t :=
  Elastigroup.set_LoadBalancer (Some apiLoadBalancer) Elastigroup.new.

(** A cloud in which the name "api" resolves both to a classic and to a
    network load balancer. *)
Definition bothCloud : AWSCloud :=
  {| List := List exampleCloud;
     Create := Create exampleCloud;
     Update := Update exampleCloud;
     NewElastigroup_error := None;
     ResolveImage := ResolveImage exampleCloud;
     FindELBByNameTag := fun _ => Ok (Some (elb.LoadBalancerDescription.mk (Some "api")));
     FindELBV2ByNameTag := fun _ => Ok (Some (elbv2.LoadBalancer.mk (Some "api")));
     GetMachineTypeInfo := GetMachineTypeInfo exampleCloud |}.

(** The update of a group that carries a load balancer only. *)
Definition loadBalancerUpdate (groupID : string) (name typ : option string) : aws.Group.t :=
  aws.Group.set_Compute
    (Some (aws.Compute.mk None None None
             (Some (aws.LaunchSpecification.set_LoadBalancersConfig
                      (Some (loadBalancersConfig name typ))
                      aws.LaunchSpecification.new))))
    (aws.Group.set_ID (Some groupID) aws.Group.new).

(** The trace of [n] attempts of the retry loop: each waits ten seconds and
    calls [Create]. *)
Fixpoint attempts (n : nat) (group : aws.Group.t) : list event :=
  match n with
  | O => []
  | S n => Sleep 10 :: SpotinstCreate group :: attempts n group
  end.

(** The task "nodes" with an instance profile. *)
Definition profiledNodes : Elastigroup.t :=
  Elastigroup.set_IAMInstanceProfile
    (Some (awstasks.IAMInstanceProfile.mk (Some "nodes-profile"))) nodes.

Definition transientError : client.Error :=
  client.mkError "ValidationError" "Invalid IAM Instance Profile name: nodes-profile" "".
Definition quotaError : client.Error :=
  client.mkError "LimitExceeded" "Quota exceeded" "".

Definition withCreate (answer : nat -> aws.Group.t -> result string) : AWSCloud :=
  {| List := List emptyCloud;
     Create := answer;
     Update := Update exampleCloud;
     NewElastigroup_error := None;
     ResolveImage := ResolveImage exampleCloud;
     FindELBByNameTag := FindELBByNameTag exampleCloud;
     FindELBV2ByNameTag := FindELBV2ByNameTag exampleCloud;
     GetMachineTypeInfo := GetMachineTypeInfo exampleCloud |}.

(** Clouds whose [Create] fails on every attempt: with the transient
    structured error, with another structured error, and with an error that
    is not a structured collection (a failed connection). *)
Definition transientCloud : AWSCloud :=
  withCreate (fun _ _ => Err (ClientErrors [quotaError; transientError])).
Definition rejectingCloud : AWSCloud :=
  withCreate (fun _ _ => Err (ClientErrors [quotaError])).
Definition unreachableCloud : AWSCloud :=
  withCreate (fun _ _ => Err (OpaqueError "dial tcp: connection refused")).

(** An error is structured when it is a [client.Errors] collection. *)
Definition is_ClientErrors (err : error) : bool :=
  match err with ClientErrors _ => true | _ => false end.

(** The task "nodes" with two tags. *)
Definition twoTags : gmap string string := <["a" := "1"]> (<["b" := "2"]> ∅).
Definition taggedNodes : Elastigroup.t := Elastigroup.set_Tags (Some twoTags) nodes.

(** Two optional lists with the same entries, in any order. *)
Definition same_entries {A} (l1 l2 : option (list A)) : Prop :=
  match l1, l2 with
  | Some l1, Some l2 => l1 ≡ₚ l2
  | None, None => True
  | _, _ => False
  end.

(** Two integration blocks that differ at most in the order of their
    labels. *)
Definition integration_equiv (i1 i2 : option terraformElastigroupIntegration.t) : Prop :=
  match i1, i2 with
  | Some i1, Some i2 =>
      terraformElastigroupIntegration.set_Labels None i1 =
        terraformElastigroupIntegration.set_Labels None i2 /\
      same_entries (terraformElastigroupIntegration.Labels i1)
                   (terraformElastigroupIntegration.Labels i2)
  | None, None => True
  | _, _ => False
  end.

(** Two Terraform resources that differ at most in the order of their tags
    and of their auto-scaler labels. *)
Definition tf_equiv (tf1 tf2 : terraformElastigroup.t) : Prop :=
  terraformElastigroup.set_Tags None (terraformElastigroup.set_Integration None tf1) =
    terraformElastigroup.set_Tags None (terraformElastigroup.set_Integration None tf2) /\
  same_entries (terraformElastigroup.Tags tf1) (terraformElastigroup.Tags tf2) /\
  integration_equiv (terraformElastigroup.Integration tf1)
                    (terraformElastigroup.Integration tf2).

(** ** Further notions and fixtures *)

(** A cloud whose [Create] meets the transient error on the first [k]
    attempts and gives [answer] afterwards. *)
Definition settlingCloud (k : nat) (answer : result string) : AWSCloud :=
  withCreate (fun n _ =>
    if (n <=? k)%nat then Err (ClientErrors [quotaError; transientError]) else answer).

(** What [create] does to the outside: a lookup, the wait of ten seconds,
    or the [Create] call of [group]. *)
Definition is_create_step (group : option aws.Group.t) (ev : event) : Prop :=
  is_lookup ev \/ ev = Sleep 10 \/
  match group with Some g => ev = SpotinstCreate g | None => False end.

(** The lookups that resolve a reference of the task: an image, a load
    balancer or the devices of a machine type. *)
Definition is_reference_lookup (ev : event) : Prop :=
  match ev with
  | ResolveImageCall _ | FindELBByNameTagCall _ | FindELBV2ByNameTagCall _
  | GetMachineTypeInfoCall _ => True
  | _ => False
  end.

(** A cloud whose listing of the groups fails. *)
Definition offlineCloud : AWSCloud :=
  {| List := Err (OpaqueError "dial tcp: i/o timeout");
     Create := Create exampleCloud;
     Update := Update exampleCloud;
     NewElastigroup_error := None;
     ResolveImage := ResolveImage exampleCloud;
     FindELBByNameTag := FindELBByNameTag exampleCloud;
     FindELBV2ByNameTag := FindELBV2ByNameTag exampleCloud;
     GetMachineTypeInfo := GetMachineTypeInfo exampleCloud |}.

(** A cloud in which the group "nodes" lives and the provider rejects
    every update. *)
Definition frozenCloud : AWSCloud :=
  {| List := List exampleCloud;
     Create := Create exampleCloud;
     Update := fun _ => Err (OpaqueError "403 Forbidden");
     NewElastigroup_error := None;
     ResolveImage := ResolveImage exampleCloud;
     FindELBByNameTag := FindELBByNameTag exampleCloud;
     FindELBV2ByNameTag := FindELBV2ByNameTag exampleCloud;
     GetMachineTypeInfo := GetMachineTypeInfo exampleCloud |}.

(** The calls of [update] come in three stages: lookups, at most one
    warning about changes left over, at most one [Update] call. *)
Definition update_stages (t : list event) : Prop :=
  exists lookups warnings updates,
    t = lookups ++ warnings ++ updates /\
    Forall is_lookup lookups /\
    (warnings = [] \/ exists groupID left, warnings = [coverageWarning groupID left]) /\
    (updates = [] \/ exists g, updates = [SpotinstUpdate g]).

(** The parts of a provider group that the blocks of [update] fill in. *)
Inductive part : Type := PRegion | PStrategy | PCapacity | PCompute | PIntegration.

(** [g'] differs from [g] at most in the part [k]. *)
Definition touches_only (k : part) (g g' : aws.Group.t) : Prop :=
  aws.Group.ID g' = aws.Group.ID g /\
  aws.Group.Name g' = aws.Group.Name g /\
  aws.Group.Description g' = aws.Group.Description g /\
  (k <> PRegion -> aws.Group.Region g' = aws.Group.Region g) /\
  (k <> PStrategy -> aws.Group.Strategy g' = aws.Group.Strategy g) /\
  (k <> PCapacity -> aws.Group.Capacity g' = aws.Group.Capacity g) /\
  (k <> PCompute -> aws.Group.Compute g' = aws.Group.Compute g) /\
  (k <> PIntegration -> aws.Group.Integration g' = aws.Group.Integration g).

(** A block of [update] that handles the change [field] and writes to the
    part [k]: it touches that part only, and nothing when the change is not
    populated. *)
Definition block_of {A} (k : part) (field : Elastigroup.t -> option A)
    (s s' : update_state) : Prop :=
  touches_only k (group_of s) (group_of s') /\
  (field (changes_of s) = None -> group_of s' = group_of s).

(** The update of a group that carries an image only. *)
Definition imageUpdate (groupID : string) (imageID : option string) : aws.Group.t :=
  aws.Group.set_Compute
    (Some (aws.Compute.mk None None None
             (Some (aws.LaunchSpecification.set_ImageID imageID
                      aws.LaunchSpecification.new))))
    (aws.Group.set_ID (Some groupID) aws.Group.new).

(** A live group "nodes" that runs the image [imageID]. *)
Definition groupWithImage (imageID : string) : aws.Group.t :=
  aws.Group.set_Compute
    (Some (aws.Compute.mk None (Some aws.InstanceTypes.new) None
             (Some (aws.LaunchSpecification.set_ImageID (Some imageID)
                      aws.LaunchSpecification.new))))
    liveGroup.

(** The cloud in which the group "nodes" runs the image [imageID], and in
    which every image name resolves to ["ami-1"]. *)
Definition cloudWithImage (imageID : string) : AWSCloud :=
  {| List := Ok [groupWithImage imageID];
     Create := Create exampleCloud;
     Update := Update exampleCloud;
     NewElastigroup_error := None;
     ResolveImage := ResolveImage exampleCloud;
     FindELBByNameTag := FindELBByNameTag exampleCloud;
     FindELBV2ByNameTag := FindELBV2ByNameTag exampleCloud;
     GetMachineTypeInfo := GetMachineTypeInfo exampleCloud |}.

(** The Delta that carries the image only. *)
Definition deltaImage : Elastigroup.t :=
  Elastigroup.set_ImageID (Some "ami-1") Elastigroup.new.

(** What the Terraform rendering does to the outside: it resolves the
    image and the devices of the machine type, and calls the target. *)
Definition is_terraform_call (ev : event) : Prop :=
  match ev with
  | ResolveImageCall _ | GetMachineTypeInfoCall _ | AddOutputVariableArray _ _
  | AddFileResource _ _ _ _ | RenderResource _ _ _ => True
  | _ => False
  end.

(** The six fields [applyDefaults] may fill in. *)
Definition defaulted (e : Elastigroup.t) : bool :=
  not_nil (Elastigroup.FallbackToOnDemand e)
  && not_nil (Elastigroup.UtilizeReservedInstances e)
  && negb (nil_or_empty (Elastigroup.Product e))
  && negb (nil_or_empty (Elastigroup.Orientation e))
  && not_nil (Elastigroup.Monitoring e)
  && not_nil (Elastigroup.HealthCheckType e).

(** The task "nodes" with the tags of two roles. *)
Definition twoRoles : gmap string string :=
  <["k8s.io/role/master" := "1"]> (<["k8s.io/role/node" := "1"]> ∅).
Definition twoRoleNodes : Elastigroup.t := Elastigroup.set_Tags (Some twoRoles) nodes.

(** The output variables of the Terraform rendering. *)
Definition is_output_variable (ev : event) : bool :=
  match ev with AddOutputVariableArray _ _ => true | _ => false end.
Definition outputVariables (role suffix : string) (links : list Literal) : list event :=
  map (AddOutputVariableArray (String.append role suffix)) links.

(** The task "nodes" with the role tag "node", two security groups and a
    subnet. *)
Definition roleNodes : Elastigroup.t :=
  Elastigroup.set_Tags (Some (<["k8s.io/role/node" := "1"]> ∅))
    (Elastigroup.set_SecurityGroups
       (Some [awstasks.SecurityGroup.mk (Some "sg-1");
              awstasks.SecurityGroup.mk (Some "sg-2")])
       (Elastigroup.set_Subnets (Some [awstasks.Subnet.mk (Some "subnet-1")]) nodes)).

(** The Delta that carries the throughput of the root volume only. *)
Definition deltaThroughput (throughput : int64) : Elastigroup.t :=
  Elastigroup.set_RootVolumeOpts
    (Some (RootVolumeOpts.mk None None None (Some throughput) None)) Elastigroup.new.

(** The group that [create] sends for the task "nodes" with a public IP
    and two tags, and a cloud in which the provider has stored it under
    the ID "sig-7". *)
Definition publicNodes : Elastigroup.t :=
  Elastigroup.set_AssociatePublicIP (Some true) taggedNodes.
Definition createdGroup : aws.Group.t :=
  match outcome (create_group exampleLibrary forwardRuntime emptyCloud
                   (applyDefaults publicNodes)) with
  | Ok g => g
  | _ => aws.Group.new
  end.
Definition createdCloud : AWSCloud :=
  {| List := Ok [aws.Group.set_ID (Some "sig-7") createdGroup];
     Create := Create exampleCloud;
     Update := Update exampleCloud;
     NewElastigroup_error := None;
     ResolveImage := ResolveImage exampleCloud;
     FindELBByNameTag := FindELBByNameTag exampleCloud;
     FindELBV2ByNameTag := FindELBV2ByNameTag exampleCloud;
     GetMachineTypeInfo := GetMachineTypeInfo exampleCloud |}.

(** A live group "nodes" in the subnets [ids], and the cloud that lists
    it. *)
Definition groupInSubnets (ids : list string) : aws.Group.t :=
  aws.Group.set_Compute
    (Some (aws.Compute.mk None (Some aws.InstanceTypes.new) (Some ids)
             (Some aws.LaunchSpecification.new)))
    liveGroup.
Definition cloudInSubnets (ids : list string) : AWSCloud :=
  {| List := Ok [groupInSubnets ids];
     Create := Create exampleCloud;
     Update := Update exampleCloud;
     NewElastigroup_error := None;
     ResolveImage := ResolveImage exampleCloud;
     FindELBByNameTag := FindELBByNameTag exampleCloud;
     FindELBV2ByNameTag := FindELBV2ByNameTag exampleCloud;
     GetMachineTypeInfo := GetMachineTypeInfo exampleCloud |}.

(** A library that compares two slices of strings as sets of two
    elements at most, enough for the examples. *)
Definition swapLibrary : Library :=
  {| base64_EncodeToString := base64_EncodeToString exampleLibrary;
     base64_DecodeString := base64_DecodeString exampleLibrary;
     strings_ToLower := strings_ToLower exampleLibrary;
     StringSlicesEqualIgnoreOrder := fun l r =>
       bool_decide (l = r) || bool_decide (l = rev r);
     CloudTagInstanceGroupRolePrefix := CloudTagInstanceGroupRolePrefix exampleLibrary;
     SecurityGroup_TerraformLink := SecurityGroup_TerraformLink exampleLibrary;
     Subnet_TerraformLink := Subnet_TerraformLink exampleLibrary;
     IAMInstanceProfile_TerraformLink := IAMInstanceProfile_TerraformLink exampleLibrary;
     SSHKey_TerraformLink := SSHKey_TerraformLink exampleLibrary;
     ClassicLoadBalancer_TerraformLink := ClassicLoadBalancer_TerraformLink exampleLibrary |}.

(** The task "nodes" in the subnets "subnet-b" and "subnet-a". *)
Definition subnetNodes : Elastigroup.t :=
  Elastigroup.set_Subnets
    (Some [awstasks.Subnet.mk (Some "subnet-b"); awstasks.Subnet.mk (Some "subnet-a")])
    nodes.

(** What a provider integration says, as a Terraform integration block. *)
Definition integration_as_terraform (i : aws.Integration.t)
  : option terraformElastigroupIntegration.t :=
  match aws.Integration.Kubernetes i with
  | None => None
  | Some k8s =>
      let field {A} (f : aws.AutoScaleKubernetes.t -> option A) : option A :=
        match aws.KubernetesIntegration.AutoScale k8s with
        | Some autoScale => f autoScale
        | None => None
        end in
      Some {| terraformElastigroupIntegration.IntegrationMode :=
                aws.KubernetesIntegration.IntegrationMode k8s;
              terraformElastigroupIntegration.ClusterIdentifier :=
                aws.KubernetesIntegration.ClusterIdentifier k8s;
              terraformElastigroupIntegration.Enabled :=
                field aws.AutoScaleKubernetes.IsEnabled;
              terraformElastigroupIntegration.AutoConfig :=
                field aws.AutoScaleKubernetes.IsAutoConfig;
              terraformElastigroupIntegration.Cooldown :=
                field aws.AutoScaleKubernetes.Cooldown;
              terraformElastigroupIntegration.Headroom :=
                match field aws.AutoScaleKubernetes.Headroom with
                | Some h =>
                    Some (terraformAutoScalerHeadroom.mk
                            (aws.AutoScaleHeadroom.CPUPerUnit h)
                            (aws.AutoScaleHeadroom.GPUPerUnit h)
                            (aws.AutoScaleHeadroom.MemoryPerUnit h)
                            (aws.AutoScaleHeadroom.NumOfUnits h))
                | None => None
                end;
              terraformElastigroupIntegration.Down :=
                match field aws.AutoScaleKubernetes.Down with
                | Some d =>
                    Some (terraformAutoScalerDown.mk
                            (aws.AutoScaleDown.MaxScaleDownPercentage d)
                            (aws.AutoScaleDown.EvaluationPeriods d))
                | None => None
                end;
              terraformElastigroupIntegration.Labels :=
                match field aws.AutoScaleKubernetes.Labels with
                | Some labels =>
                    Some (map (fun l => terraformKV.mk (aws.AutoScaleLabel.Key l)
                                                      (aws.AutoScaleLabel.Value l)) labels)
                | None => None
                end |}
  end.

(** The task "nodes" with an auto scaler that has a headroom and two
    labels. *)
Definition scaledNodes : Elastigroup.t :=
  Elastigroup.set_AutoScalerOpts
    (Some (AutoScalerOpts.set_Labels (Some twoTags)
             (AutoScalerOpts.set_Headroom
                (Some (AutoScalerHeadroomOpts.mk (Some 100) None (Some 512) (Some 2)))
                (AutoScalerOpts.set_Enabled (Some true)
                   (AutoScalerOpts.set_ClusterID (Some "cluster.example.com")
                      AutoScalerOpts.new)))))
    nodes.

(** ** The Delta of a pass *)

(** Equality of the values a task holds is decidable. *)
#[export] Instance client_Error_eq_dec : EqDecision client.Error.
Proof. solve_decision. Defined.
#[export] Instance error_eq_dec : EqDecision error.
Proof. solve_decision. Defined.
#[export] Instance result_eq_dec {A} `{EqDecision A} : EqDecision (result A).
Proof. solve_decision. Defined.
#[export] Instance Resource_eq_dec : EqDecision fi.Resource.
Proof. solve_decision. Defined.
#[export] Instance IAMInstanceProfile_eq_dec : EqDecision awstasks.IAMInstanceProfile.t.
Proof. solve_decision. Defined.
#[export] Instance ClassicLoadBalancer_eq_dec : EqDecision awstasks.ClassicLoadBalancer.t.
Proof. solve_decision. Defined.
#[export] Instance SSHKey_eq_dec : EqDecision awstasks.SSHKey.t.
Proof. solve_decision. Defined.
#[export] Instance Subnet_eq_dec : EqDecision awstasks.Subnet.t.
Proof. solve_decision. Defined.
#[export] Instance SecurityGroup_eq_dec : EqDecision awstasks.SecurityGroup.t.
Proof. solve_decision. Defined.
#[export] Instance Taint_eq_dec : EqDecision corev1.Taint.t.
Proof. solve_decision. Defined.

(** Modelled from the spec: the field-wise diff of the executor
    ([fi.BuildChanges], called by [fi.DefaultDeltaRunMethod] from [Run]) is
    not in the source file.  "Per field, desired value is recorded in the
    Delta iff it differs from actual by that field's equality rule", value
    equality by default. *)
Definition changed {A} `{EqDecision A} (actual desired : option A) : option A :=
  if decide (desired = actual) then None else desired.

(** Modelled from the spec: a nested option group of the Delta is present
    when one of its sub-fields is populated ("recursive per-sub-field diff
    for nested option groups"). *)
Definition some_if_populated {A} (empty : A -> bool) (d : A) : option A :=
  if empty d then None else Some d.

(** Modelled from the spec: the per-sub-field diff of the root volume
    options, part of the missing [fi.BuildChanges]. *)
Definition changedRootVolumeOpts (actual desired : option RootVolumeOpts.t)
  : option RootVolumeOpts.t :=
  match desired with
  | None => None
  | Some e =>
      let a := default RootVolumeOpts.new actual in
      some_if_populated
        (fun d => is_nil (RootVolumeOpts.Type_ d) && is_nil (RootVolumeOpts.Size d)
                  && is_nil (RootVolumeOpts.IOPS d) && is_nil (RootVolumeOpts.Throughput d)
                  && is_nil (RootVolumeOpts.Optimization d))
        (RootVolumeOpts.mk
           (changed (RootVolumeOpts.Type_ a) (RootVolumeOpts.Type_ e))
           (changed (RootVolumeOpts.Size a) (RootVolumeOpts.Size e))
           (changed (RootVolumeOpts.IOPS a) (RootVolumeOpts.IOPS e))
           (changed (RootVolumeOpts.Throughput a) (RootVolumeOpts.Throughput e))
           (changed (RootVolumeOpts.Optimization a) (RootVolumeOpts.Optimization e)))
  end.

(** Modelled from the spec: the per-sub-field diff of the headroom, part
    of the missing [fi.BuildChanges]. *)
Definition changedHeadroom (actual desired : option AutoScalerHeadroomOpts.t)
  : option AutoScalerHeadroomOpts.t :=
  match desired with
  | None => None
  | Some e =>
      let a := default AutoScalerHeadroomOpts.new actual in
      some_if_populated
        (fun d => is_nil (AutoScalerHeadroomOpts.CPUPerUnit d)
                  && is_nil (AutoScalerHeadroomOpts.GPUPerUnit d)
                  && is_nil (AutoScalerHeadroomOpts.MemPerUnit d)
                  && is_nil (AutoScalerHeadroomOpts.NumOfUnits d))
        (AutoScalerHeadroomOpts.mk
           (changed (AutoScalerHeadroomOpts.CPUPerUnit a) (AutoScalerHeadroomOpts.CPUPerUnit e))
           (changed (AutoScalerHeadroomOpts.GPUPerUnit a) (AutoScalerHeadroomOpts.GPUPerUnit e))
           (changed (AutoScalerHeadroomOpts.MemPerUnit a) (AutoScalerHeadroomOpts.MemPerUnit e))
           (changed (AutoScalerHeadroomOpts.NumOfUnits a) (AutoScalerHeadroomOpts.NumOfUnits e)))
  end.

(** Modelled from the spec: the per-sub-field diff of the scale-down
    thresholds, part of the missing [fi.BuildChanges]. *)
Definition changedDown (actual desired : option AutoScalerDownOpts.t)
  : option AutoScalerDownOpts.t :=
  match desired with
  | None => None
  | Some e =>
      let a := default AutoScalerDownOpts.new actual in
      some_if_populated
        (fun d => is_nil (AutoScalerDownOpts.MaxPercentage d)
                  && is_nil (AutoScalerDownOpts.EvaluationPeriods d))
        (AutoScalerDownOpts.mk
           (changed (AutoScalerDownOpts.MaxPercentage a) (AutoScalerDownOpts.MaxPercentage e))
           (changed (AutoScalerDownOpts.EvaluationPeriods a)
                    (AutoScalerDownOpts.EvaluationPeriods e)))
  end.

(** Modelled from the spec: the per-sub-field diff of the resource limits,
    part of the missing [fi.BuildChanges]. *)
Definition changedResourceLimits (actual desired : option AutoScalerResourceLimitsOpts.t)
  : option AutoScalerResourceLimitsOpts.t :=
  match desired with
  | None => None
  | Some e =>
      let a := default AutoScalerResourceLimitsOpts.new actual in
      some_if_populated
        (fun d => is_nil (AutoScalerResourceLimitsOpts.MaxVCPU d)
                  && is_nil (AutoScalerResourceLimitsOpts.MaxMemory d))
        (AutoScalerResourceLimitsOpts.mk
           (changed (AutoScalerResourceLimitsOpts.MaxVCPU a)
                    (AutoScalerResourceLimitsOpts.MaxVCPU e))
           (changed (AutoScalerResourceLimitsOpts.MaxMemory a)
                    (AutoScalerResourceLimitsOpts.MaxMemory e)))
  end.

(** Modelled from the spec: the per-sub-field diff of the auto scaler
    policy, part of the missing [fi.BuildChanges]. *)
Definition changedAutoScalerOpts (actual desired : option AutoScalerOpts.t)
  : option AutoScalerOpts.t :=
  match desired with
  | None => None
  | Some e =>
      let a := default AutoScalerOpts.new actual in
      some_if_populated
        (fun d => is_nil (AutoScalerOpts.Enabled d) && is_nil (AutoScalerOpts.AutoConfig d)
                  && is_nil (AutoScalerOpts.AutoHeadroomPercentage d)
                  && is_nil (AutoScalerOpts.ClusterID d) && is_nil (AutoScalerOpts.Cooldown d)
                  && is_nil (AutoScalerOpts.Labels d) && is_nil (AutoScalerOpts.Taints d)
                  && is_nil (AutoScalerOpts.Headroom d) && is_nil (AutoScalerOpts.Down d)
                  && is_nil (AutoScalerOpts.ResourceLimits d))
        (AutoScalerOpts.mk
           (changed (AutoScalerOpts.Enabled a) (AutoScalerOpts.Enabled e))
           (changed (AutoScalerOpts.AutoConfig a) (AutoScalerOpts.AutoConfig e))
           (changed (AutoScalerOpts.AutoHeadroomPercentage a)
                    (AutoScalerOpts.AutoHeadroomPercentage e))
           (changed (AutoScalerOpts.ClusterID a) (AutoScalerOpts.ClusterID e))
           (changed (AutoScalerOpts.Cooldown a) (AutoScalerOpts.Cooldown e))
           (changed (AutoScalerOpts.Labels a) (AutoScalerOpts.Labels e))
           (changed (AutoScalerOpts.Taints a) (AutoScalerOpts.Taints e))
           (changedHeadroom (AutoScalerOpts.Headroom a) (AutoScalerOpts.Headroom e))
           (changedDown (AutoScalerOpts.Down a) (AutoScalerOpts.Down e))
           (changedResourceLimits (AutoScalerOpts.ResourceLimits a)
                                  (AutoScalerOpts.ResourceLimits e)))
  end.

(** Modelled from the spec: "set equality for collections such as subnet
    membership", the equality rule of the subnets in the missing
    [fi.BuildChanges]. *)
Definition sameSubnets (l r : list awstasks.Subnet.t) : bool :=
  forallb (fun s => bool_decide (s ∈ r)) l && forallb (fun s => bool_decide (s ∈ l)) r.

(** Modelled from the spec: the subnets of the Delta, part of the missing
    [fi.BuildChanges]. *)
Definition changedSubnets (actual desired : option (list awstasks.Subnet.t))
  : option (list awstasks.Subnet.t) :=
  match actual, desired with
  | Some l, Some r => if sameSubnets l r then None else desired
  | _, _ => changed actual desired
  end.

(** Modelled from the spec: [fi.BuildChanges], which is not in the source
    file.  The Delta is "a Task-shaped sparse value; a field is populated
    only if desired ≠ actual under a field-specific equality (value
    equality by default; set equality for collections such as subnet
    membership; recursive per-sub-field diff for nested option groups)". *)
Definition BuildChanges (a e : Elastigroup.t) : Elastigroup.t :=
  {| Elastigroup.Name := changed (Elastigroup.Name a) (Elastigroup.Name e);
     Elastigroup.Lifecycle := changed (Elastigroup.Lifecycle a) (Elastigroup.Lifecycle e);
     Elastigroup.ID := changed (Elastigroup.ID a) (Elastigroup.ID e);
     Elastigroup.Region := changed (Elastigroup.Region a) (Elastigroup.Region e);
     Elastigroup.MinSize := changed (Elastigroup.MinSize a) (Elastigroup.MinSize e);
     Elastigroup.MaxSize := changed (Elastigroup.MaxSize a) (Elastigroup.MaxSize e);
     Elastigroup.SpotPercentage :=
       changed (Elastigroup.SpotPercentage a) (Elastigroup.SpotPercentage e);
     Elastigroup.UtilizeReservedInstances :=
       changed (Elastigroup.UtilizeReservedInstances a) (Elastigroup.UtilizeReservedInstances e);
     Elastigroup.FallbackToOnDemand :=
       changed (Elastigroup.FallbackToOnDemand a) (Elastigroup.FallbackToOnDemand e);
     Elastigroup.DrainingTimeout :=
       changed (Elastigroup.DrainingTimeout a) (Elastigroup.DrainingTimeout e);
     Elastigroup.HealthCheckType :=
       changed (Elastigroup.HealthCheckType a) (Elastigroup.HealthCheckType e);
     Elastigroup.Product := changed (Elastigroup.Product a) (Elastigroup.Product e);
     Elastigroup.Orientation := changed (Elastigroup.Orientation a) (Elastigroup.Orientation e);
     Elastigroup.Tags := changed (Elastigroup.Tags a) (Elastigroup.Tags e);
     Elastigroup.UserData := changed (Elastigroup.UserData a) (Elastigroup.UserData e);
     Elastigroup.ImageID := changed (Elastigroup.ImageID a) (Elastigroup.ImageID e);
     Elastigroup.OnDemandInstanceType :=
       changed (Elastigroup.OnDemandInstanceType a) (Elastigroup.OnDemandInstanceType e);
     Elastigroup.SpotInstanceTypes :=
       changed (Elastigroup.SpotInstanceTypes a) (Elastigroup.SpotInstanceTypes e);
     Elastigroup.IAMInstanceProfile :=
       changed (Elastigroup.IAMInstanceProfile a) (Elastigroup.IAMInstanceProfile e);
     Elastigroup.LoadBalancer := changed (Elastigroup.LoadBalancer a) (Elastigroup.LoadBalancer e);
     Elastigroup.SSHKey := changed (Elastigroup.SSHKey a) (Elastigroup.SSHKey e);
     Elastigroup.Subnets := changedSubnets (Elastigroup.Subnets a) (Elastigroup.Subnets e);
     Elastigroup.SecurityGroups :=
       changed (Elastigroup.SecurityGroups a) (Elastigroup.SecurityGroups e);
     Elastigroup.Monitoring := changed (Elastigroup.Monitoring a) (Elastigroup.Monitoring e);
     Elastigroup.AssociatePublicIP :=
       changed (Elastigroup.AssociatePublicIP a) (Elastigroup.AssociatePublicIP e);
     Elastigroup.Tenancy := changed (Elastigroup.Tenancy a) (Elastigroup.Tenancy e);
     Elastigroup.RootVolumeOpts :=
       changedRootVolumeOpts (Elastigroup.RootVolumeOpts a) (Elastigroup.RootVolumeOpts e);
     Elastigroup.AutoScalerOpts :=
       changedAutoScalerOpts (Elastigroup.AutoScalerOpts a) (Elastigroup.AutoScalerOpts e) |}.

(** The task "nodes" on a "gp3" root volume, the kind of volume for which
    [create] sends every option of the task, with the orientation spelled
    "balanced" and spelled "cost". *)
Definition gp3Nodes : Elastigroup.t :=
  Elastigroup.set_RootVolumeOpts
    (Some (RootVolumeOpts.mk (Some "gp3") (Some 64) (Some 3000) (Some 125) None)) nodes.
Definition steadyNodes : Elastigroup.t :=
  Elastigroup.set_Orientation (Some "balanced") gp3Nodes.
Definition thriftyNodes : Elastigroup.t :=
  Elastigroup.set_Orientation (Some "cost") gp3Nodes.

(** The group that [create] sends for a task on the cloud without any
    group, and the cloud after that pass: the provider lists the group
    under the ID "sig-1" that its Create call returned. *)
Definition groupSentFor (e : Elastigroup.t) : aws.Group.t :=
  match outcome (create_group exampleLibrary forwardRuntime emptyCloud (applyDefaults e)) with
  | Ok g => g
  | _ => aws.Group.new
  end.
Definition cloudAfterCreate (e : Elastigroup.t) : AWSCloud :=
  {| List := Ok [aws.Group.set_ID (Some "sig-1") (groupSentFor e)];
     Create := Create exampleCloud;
     Update := Update exampleCloud;
     NewElastigroup_error := None;
     ResolveImage := ResolveImage exampleCloud;
     FindELBByNameTag := FindELBByNameTag exampleCloud;
     FindELBV2ByNameTag := FindELBV2ByNameTag exampleCloud;
     GetMachineTypeInfo := GetMachineTypeInfo exampleCloud |}.

(** The update of a group that carries an orientation only. *)
Definition orientationUpdate (groupID : string) (orientation : string) : aws.Group.t :=
  with_Strategy (aws.Strategy.set_AvailabilityVsCost (Some orientation))
    (aws.Group.set_ID (Some groupID) aws.Group.new).

(** * Properties *)

(** ** The effect monad *)

Lemma outcome_bind {A B} (m : M A) (k : A -> M B) :
  outcome (bind m k) =
  match outcome m with
  | Ok a => outcome (k a)
  | Err e => Err e
  | Panic => Panic
  end.
Proof.
  destruct m as [t [a|e|]]; simpl; try reflexivity.
  destruct (k a); reflexivity.
Qed.

Lemma trace_bind {A B} (m : M A) (k : A -> M B) :
  trace (bind m k) =
  trace m ++ match outcome m with
             | Ok a => trace (k a)
             | _ => []
             end.
Proof.
  destruct m as [t [a|e|]]; simpl; rewrite ?app_nil_r; try reflexivity.
  destruct (k a); reflexivity.
Qed.

Lemma bind_Ok {A B} (m : M A) (k : A -> M B) (b : B) :
  outcome (bind m k) = Ok b ->
  exists a, outcome m = Ok a /\ outcome (k a) = Ok b.
Proof.
  rewrite outcome_bind. destruct (outcome m) as [a| |]; try discriminate.
  intros H. exists a. split; [reflexivity | exact H].
Qed.

Lemma deref_Ok {A} (p : option A) (a : A) : outcome (deref p) = Ok a -> p = Some a.
Proof. destruct p; simpl; congruence. Qed.

Lemma wrap_err_Ok {A} wrap (m : M A) (a : A) :
  outcome (wrap_err wrap m) = Ok a -> outcome m = Ok a.
Proof. destruct m as [t [x|e|]]; simpl; congruence. Qed.

Lemma trace_wrap_err {A} wrap (m : M A) : trace (wrap_err wrap m) = trace m.
Proof. destruct m as [t [x|e|]]; reflexivity. Qed.

(** Unfolds one successful [bind] in hypothesis [H]. *)
Ltac bind_inv H :=
  let a := fresh "x" in
  let H1 := fresh "Hm" in
  apply bind_Ok in H; destruct H as [a [H1 H]].

(** ** normalizeOrientation *)

Lemma normalizeOrientation_cases (o : option string) :
  normalizeOrientation o = OrientationBalanced \/
  (o = Some "cost" /\ normalizeOrientation o = OrientationCost) \/
  (o = Some "availability" /\ normalizeOrientation o = OrientationAvailability) \/
  (o = Some "equal-distribution" /\
   normalizeOrientation o = OrientationEqualZoneDistribution).
Proof.
  destruct o as [s|]; [|left; reflexivity].
  unfold normalizeOrientation.
  destruct (String.eqb s "cost") eqn:E1.
  { apply String.eqb_eq in E1. subst. right; left. split; reflexivity. }
  destruct (String.eqb s "availability") eqn:E2.
  { apply String.eqb_eq in E2. subst. right; right; left. split; reflexivity. }
  destruct (String.eqb s "equal-distribution") eqn:E3.
  { apply String.eqb_eq in E3. subst. right; right; right. split; reflexivity. }
  left; reflexivity.
Qed.

Lemma normalizeOrientation_default (o : option string) :
  o <> Some "cost" -> o <> Some "availability" -> o <> Some "equal-distribution" ->
  normalizeOrientation o = OrientationBalanced.
Proof.
  intros H1 H2 H3.
  destruct (normalizeOrientation_cases o) as [H|[[H _]|[[H _]|[H _]]]];
    [exact H | contradiction..].
Qed.

(** [applyDefaults] replaces a nil or empty orientation by "balanced",
    which is what nil and the empty string normalize to. *)
Lemma normalizeOrientation_applyDefaults (e : Elastigroup.t) :
  normalizeOrientation (Elastigroup.Orientation (applyDefaults e)) =
  normalizeOrientation (Elastigroup.Orientation e).
Proof.
  assert (H : Elastigroup.Orientation (applyDefaults e) =
              if nil_or_empty (Elastigroup.Orientation e)
              then Some "balanced" else Elastigroup.Orientation e).
  { destruct e as [? ? ? ? ? ? ? uri fod ? hct prod ori ? ? ? ? ? ? ? ? ? ? mon ? ? ? ?].
    unfold applyDefaults, nil_or_empty.
    destruct uri, fod, hct, mon, prod as [p|], ori as [o|]; cbn;
      try destruct (String.eqb p ""); cbn;
      try destruct (String.eqb o ""); reflexivity. }
  rewrite H. destruct (Elastigroup.Orientation e) as [s|]; cbn; [|reflexivity].
  destruct (String.eqb s "") eqn:E; [|reflexivity].
  apply String.eqb_eq in E. subst. reflexivity.
Qed.

(** ** Traces of the building blocks *)

Lemma Forall_trace_bind {A B} (P : event -> Prop) (m : M A) (k : A -> M B) :
  Forall P (trace m) ->
  (forall a, outcome m = Ok a -> Forall P (trace (k a))) ->
  Forall P (trace (bind m k)).
Proof.
  intros Hm Hk. rewrite trace_bind. apply Forall_app. split; [exact Hm|].
  destruct (outcome m) as [a| |]; [apply Hk; reflexivity | constructor..].
Qed.

Lemma Forall_trace_wrap_err {A} (P : event -> Prop) wrap (m : M A) :
  Forall P (trace m) -> Forall P (trace (wrap_err wrap m)).
Proof. rewrite trace_wrap_err. trivial. Qed.

Lemma trace_deref {A} (p : option A) : trace (deref p) = [].
Proof. destruct p; reflexivity. Qed.

Lemma trace_deref_all {A} (ps : list (option A)) : trace (deref_all ps) = [].
Proof.
  induction ps as [|p ps IH]; [reflexivity|].
  simpl. rewrite trace_bind, trace_deref. simpl.
  destruct (outcome (deref p)); [|reflexivity..].
  rewrite trace_bind, IH. simpl. destruct (outcome (deref_all ps)); reflexivity.
Qed.

(** Proves that every event of a computation built from the combinators
    satisfies a predicate that holds of the lookups. *)
Ltac trace_step :=
  match goal with
  | |- Forall _ (trace (bind _ _)) => apply Forall_trace_bind; [|intros ? ?]
  | |- Forall _ (trace (wrap_err _ _)) => apply Forall_trace_wrap_err
  | |- Forall _ (trace (ret _)) => constructor
  | |- Forall _ (trace (fail _)) => constructor
  | |- Forall _ (trace panic) => constructor
  | |- Forall _ (trace (deref _)) => rewrite trace_deref; constructor
  | |- Forall _ (trace (deref_all _)) => rewrite trace_deref_all; constructor
  | |- Forall _ (trace ([], _)) => constructor
  | |- Forall _ (trace (call _ _)) => repeat constructor
  | |- Forall _ (trace (if ?c then _ else _)) => destruct c
  | |- Forall _ (trace (match ?o with _ => _ end)) => destruct o
  end.

Lemma resolveImage_lookup cloud name : Forall is_lookup (trace (resolveImage cloud name)).
Proof. unfold resolveImage. repeat trace_step. Qed.

Lemma buildEphemeralDevices_lookup cloud machineType :
  Forall is_lookup (trace (buildEphemeralDevices cloud machineType)).
Proof. unfold buildEphemeralDevices. repeat trace_step. Qed.

Lemma buildRootDevice_lookup cloud volumeOpts imageID :
  Forall is_lookup (trace (buildRootDevice cloud volumeOpts imageID)).
Proof.
  unfold buildRootDevice.
  apply Forall_trace_bind; [apply resolveImage_lookup|intros ? ?].
  repeat trace_step.
Qed.

Lemma blockDeviceMappings_lookup cloud opts e :
  Forall is_lookup (trace (blockDeviceMappings cloud opts e)).
Proof.
  unfold blockDeviceMappings.
  apply Forall_trace_bind; [apply buildRootDevice_lookup|intros ? ?].
  apply Forall_trace_bind; [apply buildEphemeralDevices_lookup|intros ? ?].
  constructor.
Qed.

Lemma find_lookup cloud name : Forall is_lookup (trace (find cloud name)).
Proof. unfold find. repeat trace_step. Qed.

Lemma create_LoadBalancer_lookup cloud e :
  Forall is_lookup (trace (create_LoadBalancer cloud e)).
Proof. unfold create_LoadBalancer. repeat trace_step. Qed.

Lemma create_group_lookup lib rt cloud e :
  Forall is_lookup (trace (create_group lib rt cloud e)).
Proof.
  unfold create_group.
  repeat first
    [ apply Forall_trace_bind;
      [ first [ apply blockDeviceMappings_lookup | apply resolveImage_lookup
              | apply create_LoadBalancer_lookup ] | intros ? ? ]
    | trace_step ].
Qed.

Lemma ret_Ok {A} (a b : A) : outcome (ret a) = Ok b -> a = b.
Proof. simpl. congruence. Qed.

(** ** create *)

Lemma create_group_orientation lib rt cloud e group :
  outcome (create_group lib rt cloud e) = Ok group ->
  sentOrientation group = Some (normalizeOrientation (Elastigroup.Orientation e)).
Proof.
  unfold create_group. intros H.
  repeat bind_inv H. apply ret_Ok in H. subst group. reflexivity.
Qed.

(** The retry loop sends the one group it was given, and otherwise waits. *)
Lemma readyLoop_trace fuel cloud e group attempt :
  Forall (fun ev => ev = Sleep 10 \/ ev = SpotinstCreate group)
         (fst (readyLoop fuel cloud e group attempt)).
Proof.
  revert attempt. induction fuel as [|fuel IH]; intros attempt; simpl; [constructor|].
  specialize (IH (S attempt)).
  destruct (NewElastigroup_error cloud); [repeat constructor; auto|].
  destruct (readyLoop fuel cloud e group (S attempt)) as [t r]. simpl in IH.
  assert (Hagain : Forall (fun ev => ev = Sleep 10 \/ ev = SpotinstCreate group)
                          (Sleep 10 :: SpotinstCreate group :: t))
    by (repeat constructor; auto).
  assert (Hstop : Forall (fun ev => ev = Sleep 10 \/ ev = SpotinstCreate group)
                         [Sleep 10; SpotinstCreate group])
    by (repeat constructor; auto).
  destruct (Create cloud (S attempt) group) as [id|err|]; simpl; try exact Hstop.
  destruct err; simpl; try exact Hagain.
  destruct (firstTransient errs); simpl; try exact Hstop.
  destruct (maxAttempts <? S attempt)%nat; simpl; try exact Hstop.
  destruct (is_nil (Elastigroup.IAMInstanceProfile e)); simpl; [exact Hstop|exact Hagain].
Qed.

(** Every group that [create] sends to the provider is the group built
    from the task after [applyDefaults]. *)
Lemma create_sent lib rt cloud fuel a e changes g :
  SpotinstCreate g ∈ fst (create lib rt cloud fuel a e changes) ->
  outcome (create_group lib rt cloud (applyDefaults e)) = Ok g.
Proof.
  unfold create. destruct (Elastigroup.Name e) as [name|]; simpl;
    [|intros Hin; inversion Hin].
  pose proof (create_group_lookup lib rt cloud (applyDefaults e)) as Hl.
  rewrite Forall_forall in Hl.
  destruct (create_group lib rt cloud (applyDefaults e)) as [t [group|err|]];
    simpl in *; try (intros Hin; apply Hl in Hin; destruct Hin).
  pose proof (readyLoop_trace fuel cloud (applyDefaults e) group 0) as Hr.
  rewrite Forall_forall in Hr.
  destruct (readyLoop fuel cloud (applyDefaults e) group 0) as [t' r]; simpl in *.
  intros Hin. apply elem_of_app in Hin. destruct Hin as [Hin|Hin].
  - apply Hl in Hin. destruct Hin.
  - apply Hr in Hin. destruct Hin as [Hin|Hin]; [discriminate|]. congruence.
Qed.

(** ** The blocks of update *)

(** Inverts the hypotheses that a computation returned normally. *)
Ltac outcome_inv :=
  repeat match goal with
  | H : outcome (bind _ _) = Ok _ |- _ =>
      let a := fresh "x" in let H1 := fresh "Hm" in
      apply bind_Ok in H; destruct H as [a [H1 H]]
  | H : outcome (ret _) = Ok _ |- _ => apply ret_Ok in H
  | H : outcome (deref _) = Ok _ |- _ => apply deref_Ok in H
  | H : outcome (wrap_err _ _) = Ok _ |- _ => apply wrap_err_Ok in H
  | H : Ok _ = Ok _ |- _ => injection H as H
  | H : Err _ = Ok _ |- _ => discriminate H
  | H : Panic = Ok _ |- _ => discriminate H
  | H : outcome (_, _) = _ |- _ => unfold outcome in H; simpl in H
  | H : outcome (fail _) = Ok _ |- _ => discriminate H
  | H : outcome panic = Ok _ |- _ => discriminate H
  | H : outcome (if ?c then _ else _) = Ok _ |- _ => destruct c eqn:?
  | H : outcome (match ?o with _ => _ end) = Ok _ |- _ => destruct o eqn:?
  end.

(** Clearing a field that is nil changes nothing. *)
Ltac clear_nil :=
  match goal with
  | |- ?c = _ => destruct c; simpl in *;
      repeat match goal with
             | H : is_nil ?f = true |- _ => destruct f; [discriminate H|clear H]
             | H : negb (is_nil ?f) = false |- _ => destruct f; [discriminate H|clear H]
             | H : ?f = None |- _ => subst f
             end; reflexivity
  end.

Lemma group_frame_refl g : group_frame g g.
Proof. repeat split. Qed.

Lemma group_frame_trans g1 g2 g3 :
  group_frame g1 g2 -> group_frame g2 g3 -> group_frame g1 g3.
Proof. unfold group_frame. intros (?&?&?) (?&?&?). repeat split; congruence. Qed.

Lemma frame_with_Strategy f g :
  (forall x, aws.Strategy.AvailabilityVsCost (f x) = aws.Strategy.AvailabilityVsCost x) ->
  group_frame g (with_Strategy f g).
Proof.
  intros Hf. unfold group_frame, with_Strategy, sentOrientation. simpl.
  repeat split. rewrite Hf. destruct (aws.Group.Strategy g); reflexivity.
Qed.

Lemma frame_with_Compute f g : group_frame g (with_Compute f g).
Proof. repeat split. Qed.

Lemma frame_set_Region v g : group_frame g (aws.Group.set_Region v g).
Proof. repeat split. Qed.

Lemma frame_set_Integration v g : group_frame g (aws.Group.set_Integration v g).
Proof. repeat split. Qed.

(** Solves the frame goals left by the inversion of a block. *)
Ltac frame :=
  simpl;
  first [ apply group_frame_refl
        | apply frame_with_Compute
        | apply frame_set_Region
        | apply frame_set_Integration
        | apply frame_with_Strategy; intros ?; reflexivity ].

(** Inverts a block guarded by [when_changed]. *)
Ltac block_inv H :=
  unfold when_changed, not_nil in H;
  match type of H with
  | context [is_nil ?f] => destruct (is_nil f) eqn:?
  end; simpl in H; outcome_inv; subst; simpl.

Ltac plain_block :=
  intros H; block_inv H;
  repeat match goal with
         | |- context [if ?c then _ else _] => destruct c
         end;
  (split; [first [reflexivity | clear_nil] | frame]).

Lemma update_Region_frame e s s' :
  outcome (update_Region e s) = Ok s' ->
  changes_of s' = Elastigroup.set_Region None (changes_of s) /\
  group_frame (group_of s) (group_of s').
Proof. unfold update_Region. plain_block. Qed.

Lemma update_SpotPercentage_frame e s s' :
  outcome (update_SpotPercentage e s) = Ok s' ->
  changes_of s' = Elastigroup.set_SpotPercentage None (changes_of s) /\
  group_frame (group_of s) (group_of s').
Proof. unfold update_SpotPercentage. plain_block. Qed.

Lemma update_Orientation_spec e s s' :
  outcome (update_Orientation e s) = Ok s' ->
  changes_of s' = Elastigroup.set_Orientation None (changes_of s) /\
  aws.Group.ID (group_of s') = aws.Group.ID (group_of s) /\
  aws.Group.Capacity (group_of s') = aws.Group.Capacity (group_of s) /\
  sentOrientation (group_of s') =
    if not_nil (Elastigroup.Orientation (changes_of s))
    then Some (normalizeOrientation (Elastigroup.Orientation e))
    else sentOrientation (group_of s).
Proof.
  unfold update_Orientation. intros H. unfold when_changed in H.
  destruct (not_nil (Elastigroup.Orientation (changes_of s))) eqn:E;
    simpl in H; outcome_inv; subst; simpl.
  - repeat split.
  - repeat split. unfold not_nil in E. clear_nil.
Qed.

Lemma update_FallbackToOnDemand_frame e s s' :
  outcome (update_FallbackToOnDemand e s) = Ok s' ->
  changes_of s' = Elastigroup.set_FallbackToOnDemand None (changes_of s) /\
  group_frame (group_of s) (group_of s').
Proof. unfold update_FallbackToOnDemand. plain_block. Qed.

Lemma update_UtilizeReservedInstances_frame e s s' :
  outcome (update_UtilizeReservedInstances e s) = Ok s' ->
  changes_of s' = Elastigroup.set_UtilizeReservedInstances None (changes_of s) /\
  group_frame (group_of s) (group_of s').
Proof. unfold update_UtilizeReservedInstances. plain_block. Qed.

Lemma update_DrainingTimeout_frame e s s' :
  outcome (update_DrainingTimeout e s) = Ok s' ->
  changes_of s' = Elastigroup.set_DrainingTimeout None (changes_of s) /\
  group_frame (group_of s) (group_of s').
Proof. unfold update_DrainingTimeout. plain_block. Qed.

Lemma update_Product_frame e s s' :
  outcome (update_Product e s) = Ok s' ->
  changes_of s' = Elastigroup.set_Product None (changes_of s) /\
  group_frame (group_of s) (group_of s').
Proof. unfold update_Product. plain_block. Qed.

Lemma update_OnDemandInstanceType_frame e s s' :
  outcome (update_OnDemandInstanceType e s) = Ok s' ->
  changes_of s' = Elastigroup.set_OnDemandInstanceType None (changes_of s) /\
  group_frame (group_of s) (group_of s').
Proof. unfold update_OnDemandInstanceType. plain_block. Qed.

Lemma update_SpotInstanceTypes_frame e s s' :
  outcome (update_SpotInstanceTypes e s) = Ok s' ->
  changes_of s' = Elastigroup.set_SpotInstanceTypes None (changes_of s) /\
  group_frame (group_of s) (group_of s').
Proof. unfold update_SpotInstanceTypes. plain_block. Qed.

Lemma update_Subnets_frame e s s' :
  outcome (update_Subnets e s) = Ok s' ->
  changes_of s' = Elastigroup.set_Subnets None (changes_of s) /\
  group_frame (group_of s) (group_of s').
Proof. unfold update_Subnets. plain_block. Qed.

Lemma update_SecurityGroups_frame e s s' :
  outcome (update_SecurityGroups e s) = Ok s' ->
  changes_of s' = Elastigroup.set_SecurityGroups None (changes_of s) /\
  group_frame (group_of s) (group_of s').
Proof. unfold update_SecurityGroups. plain_block. Qed.


Lemma update_UserData_frame lib e s s' :
  outcome (update_UserData lib e s) = Ok s' ->
  changes_of s' = Elastigroup.set_UserData None (changes_of s) /\
  group_frame (group_of s) (group_of s').
Proof. unfold update_UserData. plain_block. Qed.

Lemma update_AssociatePublicIP_frame s s' :
  outcome (update_AssociatePublicIP s) = Ok s' ->
  changes_of s' = Elastigroup.set_AssociatePublicIP None (changes_of s) /\
  group_frame (group_of s) (group_of s').
Proof. unfold update_AssociatePublicIP. plain_block. Qed.

Lemma update_RootVolumeOpts_frame cloud e s s' :
  outcome (update_RootVolumeOpts cloud e s) = Ok s' ->
  changes_of s' = Elastigroup.set_RootVolumeOpts None (changes_of s) /\
  group_frame (group_of s) (group_of s').
Proof.
  unfold update_RootVolumeOpts. intros H. outcome_inv; subst; simpl;
    (split; [first [reflexivity | clear_nil] | ]);
    repeat first [ apply group_frame_refl
                 | eapply group_frame_trans; [|apply frame_with_Compute] ].
Qed.

Lemma update_ImageID_frame cloud actual e s s' :
  outcome (update_ImageID cloud actual e s) = Ok s' ->
  changes_of s' = Elastigroup.set_ImageID None (changes_of s) /\
  group_frame (group_of s) (group_of s').
Proof. unfold update_ImageID. plain_block. Qed.

Lemma update_Tags_frame rt e s s' :
  outcome (update_Tags rt e s) = Ok s' ->
  changes_of s' = Elastigroup.set_Tags None (changes_of s) /\
  group_frame (group_of s) (group_of s').
Proof. unfold update_Tags. plain_block. Qed.

Lemma update_IAMInstanceProfile_frame e s s' :
  outcome (update_IAMInstanceProfile e s) = Ok s' ->
  changes_of s' = Elastigroup.set_IAMInstanceProfile None (changes_of s) /\
  group_frame (group_of s) (group_of s').
Proof. unfold update_IAMInstanceProfile. plain_block. Qed.

Lemma update_Monitoring_frame e s s' :
  outcome (update_Monitoring e s) = Ok s' ->
  changes_of s' = Elastigroup.set_Monitoring None (changes_of s) /\
  group_frame (group_of s) (group_of s').
Proof. unfold update_Monitoring. plain_block. Qed.

Lemma update_SSHKey_frame e s s' :
  outcome (update_SSHKey e s) = Ok s' ->
  changes_of s' = Elastigroup.set_SSHKey None (changes_of s) /\
  group_frame (group_of s) (group_of s').
Proof. unfold update_SSHKey. plain_block. Qed.

(** The load balancer change is cleared only when a load balancer was
    found. *)
Lemma update_LoadBalancer_frame cloud e s s' :
  outcome (update_LoadBalancer cloud e s) = Ok s' ->
  (changes_of s' = Elastigroup.set_LoadBalancer None (changes_of s) \/
   changes_of s' = changes_of s) /\
  group_frame (group_of s) (group_of s').
Proof.
  unfold update_LoadBalancer. intros H. block_inv H;
    (split; [first [right; reflexivity | left; reflexivity] | frame]).
Qed.

Lemma update_Tenancy_frame e s s' :
  outcome (update_Tenancy e s) = Ok s' ->
  changes_of s' = Elastigroup.set_Tenancy None (changes_of s) /\
  group_frame (group_of s) (group_of s').
Proof. unfold update_Tenancy. plain_block. Qed.

Lemma update_HealthCheckType_frame e s s' :
  outcome (update_HealthCheckType e s) = Ok s' ->
  changes_of s' = Elastigroup.set_HealthCheckType None (changes_of s) /\
  group_frame (group_of s) (group_of s').
Proof. unfold update_HealthCheckType. plain_block. Qed.

Lemma update_AutoScalerOpts_frame rt a e s s' :
  outcome (update_AutoScalerOpts rt a e s) = Ok s' ->
  changes_of s' = Elastigroup.set_AutoScalerOpts None (changes_of s) /\
  group_frame (group_of s) (group_of s').
Proof.
  unfold update_AutoScalerOpts. intros H. outcome_inv; subst; simpl;
    (split; [first [reflexivity | clear_nil] | frame]).
Qed.

Ltac capacity_frame :=
  unfold sentMaximum, sentMinimum, sentTarget, with_Capacity,
         int_of_int64, int64_of_int in *; simpl;
  try match goal with
      | |- context [aws.Group.Capacity (group_of ?s)] =>
          destruct (aws.Group.Capacity (group_of s))
      end; try reflexivity; try eassumption; try (symmetry; eassumption);
  try congruence.

Lemma update_MinSize_spec actual e s s' :
  outcome (update_MinSize actual e s) = Ok s' ->
  changes_of s' = Elastigroup.set_MinSize None (changes_of s) /\
  aws.Group.ID (group_of s') = aws.Group.ID (group_of s) /\
  sentOrientation (group_of s') = sentOrientation (group_of s) /\
  sentMaximum (group_of s') = sentMaximum (group_of s) /\
  sentMinimum (group_of s') =
    (if not_nil (Elastigroup.MinSize (changes_of s))
     then Elastigroup.MinSize e else sentMinimum (group_of s)) /\
  (forall m t, Elastigroup.MinSize e = Some m -> sentTarget actual = Some t ->
     sentTarget (group_of s') =
       if not_nil (Elastigroup.MinSize (changes_of s)) && (t <? m)
       then Some m else sentTarget (group_of s)).
Proof.
  unfold update_MinSize, when_changed. intros H.
  destruct (not_nil (Elastigroup.MinSize (changes_of s))) eqn:E;
    simpl in H; outcome_inv; subst; simpl.
  3: { repeat split. unfold not_nil in E. clear_nil. }
  all: (split; [reflexivity|]); (split; [reflexivity|]); (split; [reflexivity|]);
    (split; [capacity_frame|]); (split; [capacity_frame|]).
  all: intros m t Em Et; unfold sentTarget in Et;
    match goal with
    | Hc : aws.Group.Capacity _ = Some _ |- _ => rewrite Hc in Et
    end; unfold int64_of_int, int_of_int64 in *; simplify_eq;
    match goal with
    | Hb : (_ <? _) = _ |- _ => rewrite Hb
    end; capacity_frame.
Qed.

Lemma update_MaxSize_spec e s s' :
  outcome (update_MaxSize e s) = Ok s' ->
  changes_of s' = Elastigroup.set_MaxSize None (changes_of s) /\
  aws.Group.ID (group_of s') = aws.Group.ID (group_of s) /\
  sentOrientation (group_of s') = sentOrientation (group_of s) /\
  sentMinimum (group_of s') = sentMinimum (group_of s) /\
  sentTarget (group_of s') = sentTarget (group_of s) /\
  sentMaximum (group_of s') =
    (if not_nil (Elastigroup.MaxSize (changes_of s))
     then Elastigroup.MaxSize e else sentMaximum (group_of s)).
Proof.
  unfold update_MaxSize, when_changed. intros H.
  destruct (not_nil (Elastigroup.MaxSize (changes_of s))) eqn:E;
    simpl in H; outcome_inv; subst; simpl.
  - repeat split; capacity_frame.
  - repeat split. unfold not_nil in E. clear_nil.
Qed.

(** Applies the specification of each block to the hypotheses left by the
    inversion of [update_blocks]. *)
Ltac blocks_specs :=
  repeat match goal with
  | H : outcome (update_Region _ _) = Ok _ |- _ => apply update_Region_frame in H
  | H : outcome (update_SpotPercentage _ _) = Ok _ |- _ => apply update_SpotPercentage_frame in H
  | H : outcome (update_Orientation _ _) = Ok _ |- _ => apply update_Orientation_spec in H
  | H : outcome (update_FallbackToOnDemand _ _) = Ok _ |- _ =>
      apply update_FallbackToOnDemand_frame in H
  | H : outcome (update_UtilizeReservedInstances _ _) = Ok _ |- _ =>
      apply update_UtilizeReservedInstances_frame in H
  | H : outcome (update_DrainingTimeout _ _) = Ok _ |- _ => apply update_DrainingTimeout_frame in H
  | H : outcome (update_Product _ _) = Ok _ |- _ => apply update_Product_frame in H
  | H : outcome (update_OnDemandInstanceType _ _) = Ok _ |- _ =>
      apply update_OnDemandInstanceType_frame in H
  | H : outcome (update_SpotInstanceTypes _ _) = Ok _ |- _ =>
      apply update_SpotInstanceTypes_frame in H
  | H : outcome (update_Subnets _ _) = Ok _ |- _ => apply update_Subnets_frame in H
  | H : outcome (update_SecurityGroups _ _) = Ok _ |- _ => apply update_SecurityGroups_frame in H
  | H : outcome (update_UserData _ _ _) = Ok _ |- _ => apply update_UserData_frame in H
  | H : outcome (update_AssociatePublicIP _) = Ok _ |- _ =>
      apply update_AssociatePublicIP_frame in H
  | H : outcome (update_RootVolumeOpts _ _ _) = Ok _ |- _ => apply update_RootVolumeOpts_frame in H
  | H : outcome (update_ImageID _ _ _ _) = Ok _ |- _ => apply update_ImageID_frame in H
  | H : outcome (update_Tags _ _ _) = Ok _ |- _ => apply update_Tags_frame in H
  | H : outcome (update_IAMInstanceProfile _ _) = Ok _ |- _ =>
      apply update_IAMInstanceProfile_frame in H
  | H : outcome (update_Monitoring _ _) = Ok _ |- _ => apply update_Monitoring_frame in H
  | H : outcome (update_SSHKey _ _) = Ok _ |- _ => apply update_SSHKey_frame in H
  | H : outcome (update_LoadBalancer _ _ _) = Ok _ |- _ => apply update_LoadBalancer_frame in H
  | H : outcome (update_Tenancy _ _) = Ok _ |- _ => apply update_Tenancy_frame in H
  | H : outcome (update_HealthCheckType _ _) = Ok _ |- _ => apply update_HealthCheckType_frame in H
  | H : outcome (update_MinSize _ _ _) = Ok _ |- _ => apply update_MinSize_spec in H
  | H : outcome (update_MaxSize _ _) = Ok _ |- _ => apply update_MaxSize_spec in H
  | H : outcome (update_AutoScalerOpts _ _ _ _) = Ok _ |- _ =>
      apply update_AutoScalerOpts_frame in H
  end.


(** Follows a chain of equations from the last state to the first. *)
Ltac chain :=
  repeat match goal with
         | H : ?l = _ |- context [?l] => rewrite H; clear H
         end; reflexivity.

Lemma update_blocks_group lib rt cloud actual a e s s' :
  outcome (update_blocks lib rt cloud actual a e s) = Ok s' ->
  aws.Group.ID (group_of s') = aws.Group.ID (group_of s) /\
  sentOrientation (group_of s') =
    (if not_nil (Elastigroup.Orientation (changes_of s))
     then Some (normalizeOrientation (Elastigroup.Orientation e))
     else sentOrientation (group_of s)) /\
  sentMinimum (group_of s') =
    (if not_nil (Elastigroup.MinSize (changes_of s))
     then Elastigroup.MinSize e else sentMinimum (group_of s)) /\
  sentMaximum (group_of s') =
    (if not_nil (Elastigroup.MaxSize (changes_of s))
     then Elastigroup.MaxSize e else sentMaximum (group_of s)) /\
  (forall m t, Elastigroup.MinSize e = Some m -> sentTarget actual = Some t ->
     sentTarget (group_of s') =
       if not_nil (Elastigroup.MinSize (changes_of s)) && (t <? m)
       then Some m else sentTarget (group_of s)).
Proof.
  unfold update_blocks. intros H. repeat bind_inv H. blocks_specs.
  unfold group_frame, sentMinimum, sentMaximum, sentTarget in *.
  repeat match goal with
         | H : _ /\ _ |- _ => destruct H
         end.
  repeat match goal with
         | x : update_state |- _ => destruct x
         end; simpl in *.
  repeat match goal with
         | H : _ \/ _ |- _ => destruct H
         end; subst; simpl in *.
  all: unfold int, int64 in *.
  all: (split; [chain|]); (split; [chain|]); (split; [chain|]); (split; [chain|]).
  all: intros m t Em Et;
    repeat match goal with
           | H : forall _ _, _ -> _ -> _ |- _ => specialize (H m t Em Et)
           end; chain.
Qed.

(** The blocks of [update] only look things up. *)
Lemma update_blocks_lookup lib rt cloud actual a e s :
  Forall is_lookup (trace (update_blocks lib rt cloud actual a e s)).
Proof.
  unfold update_blocks,
    update_Region, update_SpotPercentage, update_Orientation, update_FallbackToOnDemand,
    update_UtilizeReservedInstances, update_DrainingTimeout, update_Product,
    update_OnDemandInstanceType, update_SpotInstanceTypes, update_Subnets,
    update_SecurityGroups, update_UserData, update_AssociatePublicIP,
    update_RootVolumeOpts, update_ImageID, update_Tags, update_IAMInstanceProfile,
    update_Monitoring, update_SSHKey, update_LoadBalancer, update_Tenancy,
    update_HealthCheckType, update_MinSize, update_MaxSize, update_AutoScalerOpts,
    when_changed.
  repeat first
    [ apply Forall_trace_bind;
      [ first [ apply blockDeviceMappings_lookup | apply resolveImage_lookup ]
      | intros ? ? ]
    | trace_step ].
Qed.


(** ** update as a whole *)

Lemma bind_ret_l {A B} (a : A) (k : A -> M B) : bind (ret a) k = k a.
Proof. unfold bind, ret. destruct (k a). reflexivity. Qed.

Lemma bind_run {A B} (m : M A) (k : A -> M B) (a : A) :
  outcome m = Ok a ->
  bind m k = (trace m ++ trace (k a), outcome (k a)).
Proof.
  destruct m as [t r]. simpl. intros ->. destruct (k a). reflexivity.
Qed.

(** A run of [update] whose lookups succeed is the lookup of the group,
    the blocks and the finish. *)
Lemma update_run lib rt cloud a e changes name actual s groupID :
  Elastigroup.Name e = Some name ->
  outcome (find cloud name) = Ok actual ->
  outcome (update_blocks lib rt cloud actual a e (update_start actual changes)) = Ok s ->
  aws.Group.ID actual = Some groupID ->
  update lib rt cloud a e changes =
    (trace (find cloud name)
       ++ trace (update_blocks lib rt cloud actual a e (update_start actual changes))
       ++ trace (update_finish cloud s groupID),
     outcome (update_finish cloud s groupID)).
Proof.
  intros Hname Hfind Hblocks Hid. unfold update. rewrite Hname.
  change (deref (Some name)) with (@ret string name).
  rewrite bind_ret_l. rewrite (bind_run _ _ _ Hfind).
  rewrite (bind_run _ _ _ Hblocks).
  apply update_blocks_group in Hblocks. destruct Hblocks as [Hg _].
  change (aws.Group.ID (group_of (update_start actual changes)))
    with (aws.Group.ID actual) in Hg.
  rewrite Hg, Hid.
  change (deref (Some groupID)) with (@ret string groupID).
  rewrite bind_ret_l.
  unfold trace, outcome; cbn [fst snd].
  destruct (update_finish cloud s groupID). reflexivity.
Qed.

Lemma elem_of_trace_bind {A B} (ev : event) (m : M A) (k : A -> M B) :
  ev ∈ trace (bind m k) ->
  ev ∈ trace m \/ exists a, outcome m = Ok a /\ ev ∈ trace (k a).
Proof.
  rewrite trace_bind. intros Hin. apply elem_of_app in Hin.
  destruct Hin as [Hin|Hin]; [left; exact Hin|].
  destruct (outcome m) as [a| |]; [right; eauto | inversion Hin..].
Qed.

Lemma lookup_not_mutation (t : list event) (ev : event) :
  Forall is_lookup t -> ev ∈ t -> is_mutation ev = false /\ is_warning ev = false.
Proof.
  rewrite Forall_forall. intros Hl Hin. apply Hl in Hin.
  destruct ev; simpl in *; tauto.
Qed.

(** Every group that [update] sends to the provider is the group its
    blocks built for the group that was found. *)
Lemma update_sent lib rt cloud a e changes g :
  SpotinstUpdate g ∈ trace (update lib rt cloud a e changes) ->
  exists name actual s,
    Elastigroup.Name e = Some name /\
    outcome (find cloud name) = Ok actual /\
    outcome (update_blocks lib rt cloud actual a e (update_start actual changes)) = Ok s /\
    g = group_of s.
Proof.
  unfold update. intros Hin.
  apply elem_of_trace_bind in Hin. destruct Hin as [Hin|(name & Hname & Hin)].
  { rewrite trace_deref in Hin. inversion Hin. }
  apply deref_Ok in Hname.
  apply elem_of_trace_bind in Hin. destruct Hin as [Hin|(actual & Hfind & Hin)].
  { apply (lookup_not_mutation _ _ (find_lookup cloud name)) in Hin.
    destruct Hin; discriminate. }
  apply elem_of_trace_bind in Hin. destruct Hin as [Hin|(s & Hblocks & Hin)].
  { apply (lookup_not_mutation _ _ (update_blocks_lookup _ _ _ _ _ _ _)) in Hin.
    destruct Hin; discriminate. }
  apply elem_of_trace_bind in Hin. destruct Hin as [Hin|(groupID & Hid & Hin)].
  { rewrite trace_deref in Hin. inversion Hin. }
  exists name, actual, s. repeat split; try assumption.
  unfold update_finish in Hin.
  apply elem_of_trace_bind in Hin. destruct Hin as [Hin|(? & _ & Hin)].
  { destruct (negb (isEmpty (changes_of s))); simpl in Hin.
    - apply list_elem_of_singleton in Hin. discriminate.
    - inversion Hin. }
  destruct (negb (changed_of s)); [inversion Hin|].
  apply elem_of_trace_bind in Hin. destruct Hin as [Hin|(? & _ & Hin)].
  { destruct (NewElastigroup_error cloud); inversion Hin. }
  apply elem_of_trace_bind in Hin. destruct Hin as [Hin|(? & _ & Hin)].
  - rewrite trace_wrap_err in Hin. simpl in Hin.
    apply list_elem_of_singleton in Hin. congruence.
  - inversion Hin.
Qed.

(** ** RenderTerraform *)

Lemma addOutputVariables_no_resource t role suffix links kind name tf :
  RenderResource kind name tf ∉ trace (addOutputVariables t role suffix links).
Proof.
  induction links as [|link links IH]; simpl; [intros Hin; inversion Hin|].
  intros Hin. apply elem_of_trace_bind in Hin. destruct Hin as [Hin|(? & _ & Hin)].
  - destruct (negb (String.eqb role "")); simpl in Hin; [|inversion Hin].
    apply list_elem_of_singleton in Hin. discriminate.
  - exact (IH Hin).
Qed.

Lemma lookup_not_resource (t : list event) kind name tf :
  Forall is_lookup t -> RenderResource kind name tf ∉ t.
Proof.
  rewrite Forall_forall. intros Hl Hin. apply Hl in Hin. exact Hin.
Qed.

Lemma RenderTerraform_RootVolumeOpts_lookup cloud e :
  Forall is_lookup (trace (RenderTerraform_RootVolumeOpts cloud e)).
Proof.
  unfold RenderTerraform_RootVolumeOpts.
  destruct (Elastigroup.RootVolumeOpts e); [|constructor].
  apply Forall_trace_bind; [apply buildRootDevice_lookup|intros ? ?].
  apply Forall_trace_bind; [apply buildEphemeralDevices_lookup|intros ? ?].
  constructor.
Qed.

Lemma RenderTerraform_calls_no_resource lib cloud t e role kind name tf :
  RenderResource kind name tf ∉ trace (RenderTerraform_calls lib cloud t e role).
Proof.
  unfold RenderTerraform_calls. intros Hin.
  apply elem_of_trace_bind in Hin. destruct Hin as [Hin|(? & _ & Hin)].
  { exact (addOutputVariables_no_resource _ _ _ _ _ _ _ Hin). }
  apply elem_of_trace_bind in Hin. destruct Hin as [Hin|(? & _ & Hin)].
  { destruct (Elastigroup.UserData e); [|inversion Hin].
    apply elem_of_trace_bind in Hin. destruct Hin as [Hin|(? & _ & Hin)].
    { rewrite trace_deref in Hin. inversion Hin. }
    apply elem_of_trace_bind in Hin. destruct Hin as [Hin|(? & _ & Hin)].
    - simpl in Hin. apply list_elem_of_singleton in Hin. discriminate.
    - inversion Hin. }
  apply elem_of_trace_bind in Hin. destruct Hin as [Hin|(? & _ & Hin)].
  { exact (addOutputVariables_no_resource _ _ _ _ _ _ _ Hin). }
  apply elem_of_trace_bind in Hin. destruct Hin as [Hin|(? & _ & Hin)].
  - exact (lookup_not_resource _ _ _ _ (RenderTerraform_RootVolumeOpts_lookup _ _) Hin).
  - inversion Hin.
Qed.

(** Every resource that [RenderTerraform] hands to the target is built by
    [RenderTerraform_tf] from the task after [applyDefaults]. *)
Lemma RenderTerraform_rendered lib rt cloud t a e changes kind name tf :
  RenderResource kind name tf ∈ trace (RenderTerraform lib rt cloud t a e changes) ->
  exists imageID userData rootVolume,
    tf = RenderTerraform_tf lib rt (applyDefaults e) imageID userData rootVolume.
Proof.
  unfold RenderTerraform. intros Hin.
  apply elem_of_trace_bind in Hin. destruct Hin as [Hin|(imageID & _ & Hin)].
  { exfalso. revert Hin. apply lookup_not_resource.
    destruct (not_nil _); [|constructor].
    apply Forall_trace_bind; [apply resolveImage_lookup|intros ? ?]. constructor. }
  apply elem_of_trace_bind in Hin. destruct Hin as [Hin|(role & _ & Hin)].
  { inversion Hin. }
  apply elem_of_trace_bind in Hin. destruct Hin as [Hin|(parts & _ & Hin)].
  { exfalso. exact (RenderTerraform_calls_no_resource _ _ _ _ _ _ _ _ Hin). }
  apply elem_of_trace_bind in Hin. destruct Hin as [Hin|(name' & _ & Hin)].
  { rewrite trace_deref in Hin. inversion Hin. }
  simpl in Hin. apply list_elem_of_singleton in Hin.
  exists imageID, (fst parts), (snd parts). congruence.
Qed.

(** ** What a renderer that returns has emitted *)

(** A [readyLoop] that ends with the created task has issued the Create
    call for the group. *)
Lemma readyLoop_Ok_sent fuel cloud e group attempt e' :
  snd (readyLoop fuel cloud e group attempt) = Some (Ok e') ->
  SpotinstCreate group ∈ fst (readyLoop fuel cloud e group attempt).
Proof.
  revert attempt. induction fuel as [|fuel IH]; intros attempt; simpl; [discriminate|].
  specialize (IH (S attempt)).
  destruct (NewElastigroup_error cloud); [discriminate|].
  destruct (readyLoop fuel cloud e group (S attempt)) as [t r]. simpl in IH.
  assert (Hstop : SpotinstCreate group ∈ [Sleep 10; SpotinstCreate group])
    by (apply list_elem_of_further, list_elem_of_here).
  assert (Hagain : r = Some (Ok e') ->
                   SpotinstCreate group ∈ Sleep 10 :: SpotinstCreate group :: t)
    by (intros _; apply list_elem_of_further, list_elem_of_here).
  destruct (Create cloud (S attempt) group) as [id|err|]; simpl; try (intros _; exact Hstop).
  destruct err; simpl; try exact Hagain.
  destruct (firstTransient errs); simpl; try (intros _; exact Hstop).
  destruct (maxAttempts <? S attempt)%nat; simpl; try (intros _; exact Hstop).
  destruct (is_nil (Elastigroup.IAMInstanceProfile e)); simpl;
    [intros _; exact Hstop|exact Hagain].
Qed.

(** A [create] that returns normally has issued the Create call for the
    group built from the task after [applyDefaults]. *)
Lemma create_Ok_sent lib rt cloud fuel a e changes e' :
  snd (create lib rt cloud fuel a e changes) = Some (Ok e') ->
  exists g,
    outcome (create_group lib rt cloud (applyDefaults e)) = Ok g /\
    SpotinstCreate g ∈ fst (create lib rt cloud fuel a e changes).
Proof.
  unfold create. destruct (Elastigroup.Name e) as [name|]; simpl; [|discriminate].
  destruct (create_group lib rt cloud (applyDefaults e)) as [t [group|err|]];
    simpl; try discriminate.
  pose proof (readyLoop_Ok_sent fuel cloud (applyDefaults e) group 0 e') as Hr.
  destruct (readyLoop fuel cloud (applyDefaults e) group 0) as [t' r]; simpl in *.
  intros Hrun. exists group. split; [reflexivity|].
  apply elem_of_app. right. exact (Hr Hrun).
Qed.

(** No block of [update] resets the flag [changed]. *)
Ltac keeps_changed :=
  let H := fresh "H" in let Hc := fresh "Hc" in
  intros H Hc; unfold when_changed, handled, cleared, sent in H;
  repeat (progress (cbv zeta in H; outcome_inv)); subst; cbn [changed_of];
  repeat match goal with
         | |- context [if ?c then _ else _] => destruct c
         end;
  cbn [changed_of]; first [reflexivity | assumption].

Lemma update_Region_changed e s s' :
  outcome (update_Region e s) = Ok s' -> changed_of s = true -> changed_of s' = true.
Proof. unfold update_Region. keeps_changed. Qed.
Lemma update_SpotPercentage_changed e s s' :
  outcome (update_SpotPercentage e s) = Ok s' -> changed_of s = true -> changed_of s' = true.
Proof. unfold update_SpotPercentage. keeps_changed. Qed.
Lemma update_Orientation_changed e s s' :
  outcome (update_Orientation e s) = Ok s' ->
  changed_of s = true \/ not_nil (Elastigroup.Orientation (changes_of s)) = true ->
  changed_of s' = true.
Proof.
  unfold update_Orientation, when_changed. intros H [Hc|Hc].
  - destruct (not_nil _); simpl in H; outcome_inv; subst; [reflexivity|exact Hc].
  - rewrite Hc in H. simpl in H. outcome_inv. subst. reflexivity.
Qed.
Lemma update_FallbackToOnDemand_changed e s s' :
  outcome (update_FallbackToOnDemand e s) = Ok s' -> changed_of s = true -> changed_of s' = true.
Proof. unfold update_FallbackToOnDemand. keeps_changed. Qed.
Lemma update_UtilizeReservedInstances_changed e s s' :
  outcome (update_UtilizeReservedInstances e s) = Ok s' ->
  changed_of s = true -> changed_of s' = true.
Proof. unfold update_UtilizeReservedInstances. keeps_changed. Qed.
Lemma update_DrainingTimeout_changed e s s' :
  outcome (update_DrainingTimeout e s) = Ok s' -> changed_of s = true -> changed_of s' = true.
Proof. unfold update_DrainingTimeout. keeps_changed. Qed.
Lemma update_Product_changed e s s' :
  outcome (update_Product e s) = Ok s' -> changed_of s = true -> changed_of s' = true.
Proof. unfold update_Product. keeps_changed. Qed.
Lemma update_OnDemandInstanceType_changed e s s' :
  outcome (update_OnDemandInstanceType e s) = Ok s' ->
  changed_of s = true -> changed_of s' = true.
Proof. unfold update_OnDemandInstanceType. keeps_changed. Qed.
Lemma update_SpotInstanceTypes_changed e s s' :
  outcome (update_SpotInstanceTypes e s) = Ok s' -> changed_of s = true -> changed_of s' = true.
Proof. unfold update_SpotInstanceTypes. keeps_changed. Qed.
Lemma update_Subnets_changed e s s' :
  outcome (update_Subnets e s) = Ok s' -> changed_of s = true -> changed_of s' = true.
Proof. unfold update_Subnets. keeps_changed. Qed.
Lemma update_SecurityGroups_changed e s s' :
  outcome (update_SecurityGroups e s) = Ok s' -> changed_of s = true -> changed_of s' = true.
Proof. unfold update_SecurityGroups. keeps_changed. Qed.
Lemma update_UserData_changed lib e s s' :
  outcome (update_UserData lib e s) = Ok s' -> changed_of s = true -> changed_of s' = true.
Proof. unfold update_UserData. keeps_changed. Qed.
Lemma update_AssociatePublicIP_changed s s' :
  outcome (update_AssociatePublicIP s) = Ok s' -> changed_of s = true -> changed_of s' = true.
Proof. unfold update_AssociatePublicIP. keeps_changed. Qed.
Lemma update_RootVolumeOpts_changed cloud e s s' :
  outcome (update_RootVolumeOpts cloud e s) = Ok s' ->
  changed_of s = true -> changed_of s' = true.
Proof. unfold update_RootVolumeOpts. keeps_changed. Qed.
Lemma update_ImageID_changed cloud actual e s s' :
  outcome (update_ImageID cloud actual e s) = Ok s' ->
  changed_of s = true -> changed_of s' = true.
Proof. unfold update_ImageID. keeps_changed. Qed.
Lemma update_Tags_changed rt e s s' :
  outcome (update_Tags rt e s) = Ok s' -> changed_of s = true -> changed_of s' = true.
Proof. unfold update_Tags. keeps_changed. Qed.
Lemma update_IAMInstanceProfile_changed e s s' :
  outcome (update_IAMInstanceProfile e s) = Ok s' ->
  changed_of s = true -> changed_of s' = true.
Proof. unfold update_IAMInstanceProfile. keeps_changed. Qed.
Lemma update_Monitoring_changed e s s' :
  outcome (update_Monitoring e s) = Ok s' -> changed_of s = true -> changed_of s' = true.
Proof. unfold update_Monitoring. keeps_changed. Qed.
Lemma update_SSHKey_changed e s s' :
  outcome (update_SSHKey e s) = Ok s' -> changed_of s = true -> changed_of s' = true.
Proof. unfold update_SSHKey. keeps_changed. Qed.
Lemma update_LoadBalancer_changed cloud e s s' :
  outcome (update_LoadBalancer cloud e s) = Ok s' ->
  changed_of s = true -> changed_of s' = true.
Proof. unfold update_LoadBalancer. keeps_changed. Qed.
Lemma update_Tenancy_changed e s s' :
  outcome (update_Tenancy e s) = Ok s' -> changed_of s = true -> changed_of s' = true.
Proof. unfold update_Tenancy. keeps_changed. Qed.
Lemma update_HealthCheckType_changed e s s' :
  outcome (update_HealthCheckType e s) = Ok s' -> changed_of s = true -> changed_of s' = true.
Proof. unfold update_HealthCheckType. keeps_changed. Qed.
Lemma update_MinSize_changed actual e s s' :
  outcome (update_MinSize actual e s) = Ok s' -> changed_of s = true -> changed_of s' = true.
Proof. unfold update_MinSize. keeps_changed. Qed.
Lemma update_MaxSize_changed e s s' :
  outcome (update_MaxSize e s) = Ok s' -> changed_of s = true -> changed_of s' = true.
Proof. unfold update_MaxSize. keeps_changed. Qed.
Lemma update_AutoScalerOpts_changed rt a e s s' :
  outcome (update_AutoScalerOpts rt a e s) = Ok s' ->
  changed_of s = true -> changed_of s' = true.
Proof. unfold update_AutoScalerOpts. keeps_changed. Qed.

Ltac changed_step :=
  first [ eapply update_AutoScalerOpts_changed; [eassumption|]
        | eapply update_MaxSize_changed; [eassumption|]
        | eapply update_MinSize_changed; [eassumption|]
        | eapply update_HealthCheckType_changed; [eassumption|]
        | eapply update_Tenancy_changed; [eassumption|]
        | eapply update_LoadBalancer_changed; [eassumption|]
        | eapply update_SSHKey_changed; [eassumption|]
        | eapply update_Monitoring_changed; [eassumption|]
        | eapply update_IAMInstanceProfile_changed; [eassumption|]
        | eapply update_Tags_changed; [eassumption|]
        | eapply update_ImageID_changed; [eassumption|]
        | eapply update_RootVolumeOpts_changed; [eassumption|]
        | eapply update_AssociatePublicIP_changed; [eassumption|]
        | eapply update_UserData_changed; [eassumption|]
        | eapply update_SecurityGroups_changed; [eassumption|]
        | eapply update_Subnets_changed; [eassumption|]
        | eapply update_SpotInstanceTypes_changed; [eassumption|]
        | eapply update_OnDemandInstanceType_changed; [eassumption|]
        | eapply update_Product_changed; [eassumption|]
        | eapply update_DrainingTimeout_changed; [eassumption|]
        | eapply update_UtilizeReservedInstances_changed; [eassumption|]
        | eapply update_FallbackToOnDemand_changed; [eassumption|] ].

(** A populated orientation change makes [update] send the group: the
    block "Orientation" sets [changed] and no later block resets it. *)
Lemma update_blocks_changed lib rt cloud actual a e s s' :
  outcome (update_blocks lib rt cloud actual a e s) = Ok s' ->
  not_nil (Elastigroup.Orientation (changes_of s)) = true ->
  changed_of s' = true.
Proof.
  unfold update_blocks. intros H Ho. repeat bind_inv H.
  repeat changed_step.
  eapply update_Orientation_changed; [eassumption|]. right.
  repeat match goal with
         | H : outcome (update_Region _ _) = Ok _ |- _ =>
             apply update_Region_frame in H; destruct H as [H _]
         | H : outcome (update_SpotPercentage _ _) = Ok _ |- _ =>
             apply update_SpotPercentage_frame in H; destruct H as [H _]
         end.
  repeat match goal with
         | H : changes_of _ = _ |- _ => rewrite H; clear H
         end.
  destruct (changes_of s). exact Ho.
Qed.

(** An [update] that returns normally with a populated orientation change
    has issued the provider's Update call. *)
Lemma update_Ok_sent lib rt cloud a e changes c :
  outcome (update lib rt cloud a e changes) = Ok c ->
  not_nil (Elastigroup.Orientation changes) = true ->
  exists g, SpotinstUpdate g ∈ trace (update lib rt cloud a e changes).
Proof.
  unfold update. intros H Ho.
  apply bind_Ok in H. destruct H as (name & Hname & H). rewrite (bind_run _ _ _ Hname).
  apply bind_Ok in H. destruct H as (actual & Hfind & H). rewrite (bind_run _ _ _ Hfind).
  apply bind_Ok in H. destruct H as (s & Hblocks & H). rewrite (bind_run _ _ _ Hblocks).
  apply bind_Ok in H. destruct H as (groupID & Hid & H). rewrite (bind_run _ _ _ Hid).
  pose proof (update_blocks_changed _ _ _ _ _ _ _ _ Hblocks Ho) as Hchanged.
  exists (group_of s). unfold trace. cbn [fst].
  repeat (apply elem_of_app; right).
  unfold update_finish in *. rewrite Hchanged in *. cbn [negb] in *.
  apply bind_Ok in H. destruct H as (u & Hwarn & H). rewrite (bind_run _ _ _ Hwarn).
  apply bind_Ok in H. destruct H as (u' & Hnew & H). rewrite (bind_run _ _ _ Hnew).
  apply bind_Ok in H. destruct H as (u'' & Hcall & H). rewrite (bind_run _ _ _ Hcall).
  unfold trace. cbn [fst].
  apply elem_of_app. right. apply elem_of_app. right. apply elem_of_app. left.
  fold (trace (wrap_err (fun err => ErrorfWrap "spotinst: failed to update elastigroup: %v" [] err)
                 (call (SpotinstUpdate (group_of s)) (Update cloud (group_of s))))).
  rewrite trace_wrap_err. apply list_elem_of_here.
Qed.

(** [applyDefaults] leaves the name alone. *)
Lemma applyDefaults_keeps_Name (e : Elastigroup.t) :
  Elastigroup.Name (applyDefaults e) = Elastigroup.Name e.
Proof.
  destruct e as [? ? ? ? ? ? ? uri fod ? hct prod ori ? ? ? ? ? ? ? ? ? ? mon ? ? ? ?].
  unfold applyDefaults, nil_or_empty.
  destruct uri, fod, hct, mon, prod as [p|], ori as [o|]; cbn;
    try destruct (String.eqb p ""); cbn;
    try destruct (String.eqb o ""); reflexivity.
Qed.

(** A [RenderTerraform] that returns normally has handed the group's
    resource to the target. *)
Lemma RenderTerraform_Ok_rendered lib rt cloud t a e changes :
  outcome (RenderTerraform lib rt cloud t a e changes) = Ok tt ->
  exists name tf,
    Elastigroup.Name e = Some name /\
    RenderResource "spotinst_elastigroup_aws" name tf
      ∈ trace (RenderTerraform lib rt cloud t a e changes).
Proof.
  unfold RenderTerraform. intros H.
  apply bind_Ok in H. destruct H as (imageID & Himage & H). rewrite (bind_run _ _ _ Himage).
  apply bind_Ok in H. destruct H as (role & Hrole & H). rewrite (bind_run _ _ _ Hrole).
  apply bind_Ok in H. destruct H as (parts & Hparts & H). rewrite (bind_run _ _ _ Hparts).
  apply bind_Ok in H. destruct H as (name & Hname & H). rewrite (bind_run _ _ _ Hname).
  apply deref_Ok in Hname.
  exists name. eexists. split.
  - rewrite <- Hname. symmetry. apply applyDefaults_keeps_Name.
  - unfold trace. cbn [fst]. repeat (apply elem_of_app; right). apply list_elem_of_here.
Qed.

(** ** Orientation (claim C10) *)

(** C10.  [normalizeOrientation] is total: "cost", "availability" and
    "equal-distribution" are mapped to the provider's names and every other
    input, nil and the empty string included, to "balanced"; a misspelled
    orientation is replaced, not rejected.  The same normalization of the
    task's orientation is what the direct-apply create sends in every group
    it creates, what the direct-apply update sends whenever the orientation
    changed, and what the Terraform rendering writes in every resource.
    And each of the three does send it: a create that returns the created
    task has issued a Create call with a group that carries it, an update
    that returns normally from a Delta with the orientation populated has
    issued an Update call with a group that carries it, and a rendering
    that returns normally has handed the target the resource of the group,
    under the task's name, with it. *)
Theorem normalizeOrientation_shared_by_renderers :
  (forall o : option string,
     (o = Some "cost" -> normalizeOrientation o = "costOriented") /\
     (o = Some "availability" -> normalizeOrientation o = "availabilityOriented") /\
     (o = Some "equal-distribution" -> normalizeOrientation o = "equalAzDistribution") /\
     (o <> Some "cost" -> o <> Some "availability" -> o <> Some "equal-distribution" ->
      normalizeOrientation o = "balanced")) /\
  normalizeOrientation None = "balanced" /\
  normalizeOrientation (Some "") = "balanced" /\
  normalizeOrientation (Some "cots") = "balanced" /\
  (forall lib rt cloud fuel a e changes g,
     SpotinstCreate g ∈ fst (create lib rt cloud fuel a e changes) ->
     sentOrientation g = Some (normalizeOrientation (Elastigroup.Orientation e))) /\
  (forall lib rt cloud a e changes g,
     SpotinstUpdate g ∈ trace (update lib rt cloud a e changes) ->
     sentOrientation g =
       if not_nil (Elastigroup.Orientation changes)
       then Some (normalizeOrientation (Elastigroup.Orientation e))
       else None) /\
  (forall lib rt cloud t a e changes kind name tf,
     RenderResource kind name tf ∈ trace (RenderTerraform lib rt cloud t a e changes) ->
     terraformElastigroup.Orientation tf =
       Some (normalizeOrientation (Elastigroup.Orientation e))) /\
  (forall lib rt cloud fuel a e changes e',
     snd (create lib rt cloud fuel a e changes) = Some (Ok e') ->
     exists g,
       SpotinstCreate g ∈ fst (create lib rt cloud fuel a e changes) /\
       sentOrientation g = Some (normalizeOrientation (Elastigroup.Orientation e))) /\
  (forall lib rt cloud a e changes left,
     outcome (update lib rt cloud a e changes) = Ok left ->
     not_nil (Elastigroup.Orientation changes) = true ->
     exists g,
       SpotinstUpdate g ∈ trace (update lib rt cloud a e changes) /\
       sentOrientation g = Some (normalizeOrientation (Elastigroup.Orientation e))) /\
  (forall lib rt cloud t a e changes,
     outcome (RenderTerraform lib rt cloud t a e changes) = Ok tt ->
     exists name tf,
       Elastigroup.Name e = Some name /\
       RenderResource "spotinst_elastigroup_aws" name tf
         ∈ trace (RenderTerraform lib rt cloud t a e changes) /\
       terraformElastigroup.Orientation tf =
         Some (normalizeOrientation (Elastigroup.Orientation e))).
Proof.
  assert (Hcreate : forall lib rt cloud fuel a e changes g,
    SpotinstCreate g ∈ fst (create lib rt cloud fuel a e changes) ->
    sentOrientation g = Some (normalizeOrientation (Elastigroup.Orientation e))).
  { intros lib rt cloud fuel a e changes g Hin.
    apply create_sent in Hin. apply create_group_orientation in Hin.
    rewrite Hin. f_equal. apply normalizeOrientation_applyDefaults. }
  assert (Hupdate : forall lib rt cloud a e changes g,
    SpotinstUpdate g ∈ trace (update lib rt cloud a e changes) ->
    sentOrientation g =
      if not_nil (Elastigroup.Orientation changes)
      then Some (normalizeOrientation (Elastigroup.Orientation e))
      else None).
  { intros lib rt cloud a e changes g Hin.
    apply update_sent in Hin. destruct Hin as (name & actual & s & _ & _ & Hblocks & ->).
    apply update_blocks_group in Hblocks. destruct Hblocks as (_ & Ho & _).
    exact Ho. }
  assert (Hrender : forall lib rt cloud t a e changes kind name tf,
    RenderResource kind name tf ∈ trace (RenderTerraform lib rt cloud t a e changes) ->
    terraformElastigroup.Orientation tf =
      Some (normalizeOrientation (Elastigroup.Orientation e))).
  { intros lib rt cloud t a e changes kind name tf Hin.
    apply RenderTerraform_rendered in Hin.
    destruct Hin as (imageID & userData & rootVolume & ->).
    simpl. f_equal. apply normalizeOrientation_applyDefaults. }
  repeat split; try reflexivity; try assumption.
  - intros ->. reflexivity.
  - intros ->. reflexivity.
  - intros ->. reflexivity.
  - apply normalizeOrientation_default.
  - intros lib rt cloud fuel a e changes e' Hrun.
    destruct (create_Ok_sent _ _ _ _ _ _ _ _ Hrun) as (g & _ & Hin).
    exists g. split; [exact Hin|]. exact (Hcreate _ _ _ _ _ _ _ _ Hin).
  - intros lib rt cloud a e changes left Hrun Ho.
    destruct (update_Ok_sent _ _ _ _ _ _ _ Hrun Ho) as (g & Hin).
    exists g. split; [exact Hin|].
    rewrite (Hupdate _ _ _ _ _ _ _ Hin), Ho. reflexivity.
  - intros lib rt cloud t a e changes Hrun.
    destruct (RenderTerraform_Ok_rendered _ _ _ _ _ _ _ Hrun) as (name & tf & Hname & Hin).
    exists name, tf. split; [exact Hname|]. split; [exact Hin|].
    exact (Hrender _ _ _ _ _ _ _ _ _ _ Hin).
Qed.

Lemma normalizeOrientation_shared_by_renderers_witness :
  normalizeOrientation (Some "cost") = "costOriented" /\
  (exists g,
     SpotinstCreate g ∈
       fst (create exampleLibrary forwardRuntime emptyCloud 1 None costNodes None) /\
     sentOrientation g = Some "costOriented") /\
  (exists g,
     SpotinstUpdate g ∈
       trace (update exampleLibrary forwardRuntime exampleCloud costNodes costNodes
                     (Elastigroup.set_Orientation (Some "cost") Elastigroup.new)) /\
     sentOrientation g = Some "costOriented") /\
  (exists name tf,
     RenderResource "spotinst_elastigroup_aws" name tf ∈
       trace (RenderTerraform exampleLibrary forwardRuntime exampleCloud exampleTarget
                              None costNodes None) /\
     terraformElastigroup.Orientation tf = Some "costOriented").
Proof.
  pose proof normalizeOrientation_shared_by_renderers as (Hn & _ & _ & _ & _ & _ & _ & Hc & Hu & Ht).
  split; [apply (Hn (Some "cost")); reflexivity|]. split; [|split].
  - destruct (Hc exampleLibrary forwardRuntime emptyCloud 1%nat None costNodes None
                 (Elastigroup.set_ID (Some "sig-1") (applyDefaults costNodes)) eq_refl)
      as (g & Hin & Ho).
    exists g. split; [exact Hin|exact Ho].
  - destruct (Hu exampleLibrary forwardRuntime exampleCloud costNodes costNodes
                 (Elastigroup.set_Orientation (Some "cost") Elastigroup.new)
                 Elastigroup.new eq_refl eq_refl)
      as (g & Hin & Ho).
    exists g. split; [exact Hin|exact Ho].
  - destruct (Ht exampleLibrary forwardRuntime exampleCloud exampleTarget None costNodes None
                 eq_refl)
      as (name & tf & _ & Hin & Ho).
    exists name, tf. split; [exact Hin|exact Ho].
Defined.

(** ** Root volume (claim C6) *)

(** What [convertBlockDeviceMapping] sends for any device: no IOPS for a
    "gp2" volume, a throughput for a "gp3" volume only. *)
Lemma convertBlockDeviceMapping_legal (i : awstasks.BlockDeviceMapping.t) ebs :
  aws.BlockDeviceMapping.EBS (convertBlockDeviceMapping i) = Some ebs ->
  aws.EBS.VolumeType ebs = awstasks.BlockDeviceMapping.EbsVolumeType i /\
  (aws.EBS.VolumeType ebs = Some "gp2" -> aws.EBS.IOPS ebs = None) /\
  (aws.EBS.Throughput ebs <> None -> aws.EBS.VolumeType ebs = Some "gp3").
Proof.
  destruct i as [dn vn dot size ty iops thr].
  unfold convertBlockDeviceMapping, StringValue. simpl.
  destruct dot, size, ty as [ty|], iops, thr; simpl; try discriminate;
    intros [= <-]; simpl;
    try (destruct (String.eqb ty "gp2") eqn:E2; destruct (String.eqb ty "gp3") eqn:E3);
    simpl; repeat split; intros; try reflexivity; try congruence;
    try (apply String.eqb_neq in E2; congruence);
    try (apply String.eqb_eq in E3; congruence).
Qed.

(** C6.  The root device built for a root-volume configuration carries the
    configured IOPS unless the volume type is "gp2", in which case it has
    none, and carries the configured throughput if the volume type is "gp3"
    and none otherwise; the device converted for the provider has an EBS
    part with the same omissions, so a field illegal for the volume type is
    not sent. *)
Theorem buildRootDevice_omits_illegal_fields
    cloud (volumeOpts : RootVolumeOpts.t) imageID bdm :
  outcome (buildRootDevice cloud (Some volumeOpts) imageID) = Ok bdm ->
  awstasks.BlockDeviceMapping.EbsVolumeType bdm = RootVolumeOpts.Type_ volumeOpts /\
  awstasks.BlockDeviceMapping.EbsVolumeIops bdm =
    (if String.eqb (StringValue (RootVolumeOpts.Type_ volumeOpts)) "gp2"
     then None else RootVolumeOpts.IOPS volumeOpts) /\
  awstasks.BlockDeviceMapping.EbsVolumeThroughput bdm =
    (if String.eqb (StringValue (RootVolumeOpts.Type_ volumeOpts)) "gp3"
     then RootVolumeOpts.Throughput volumeOpts else None) /\
  exists ebs,
    aws.BlockDeviceMapping.EBS (convertBlockDeviceMapping bdm) = Some ebs /\
    aws.EBS.VolumeType ebs = RootVolumeOpts.Type_ volumeOpts /\
    (aws.EBS.VolumeType ebs = Some "gp2" -> aws.EBS.IOPS ebs = None) /\
    (aws.EBS.Throughput ebs <> None -> aws.EBS.VolumeType ebs = Some "gp3").
Proof.
  unfold buildRootDevice. intros H. bind_inv H. bind_inv H.
  apply deref_Ok in Hm0. injection Hm0 as <-. apply ret_Ok in H. subst bdm.
  destruct volumeOpts as [ty size iops thr opt].
  unfold StringValue; simpl.
  destruct ty as [ty|], iops, thr; simpl;
    try (destruct (String.eqb ty "gp2") eqn:E2; destruct (String.eqb ty "gp3") eqn:E3);
    simpl; (split; [reflexivity|]); (split; [reflexivity|]); (split; [reflexivity|]);
    unfold convertBlockDeviceMapping, StringValue; simpl; rewrite ?E2, ?E3; simpl;
    (eexists; split; [reflexivity|]); simpl;
    repeat split; intros; try reflexivity; try congruence;
    try (apply String.eqb_neq in E2; congruence);
    try (apply String.eqb_eq in E3; congruence).
Qed.

Lemma buildRootDevice_omits_illegal_fields_witness :
  exists bdm ebs,
    outcome (buildRootDevice exampleCloud (Elastigroup.RootVolumeOpts nodes)
                             (Elastigroup.ImageID nodes)) = Ok bdm /\
    awstasks.BlockDeviceMapping.EbsVolumeIops bdm = None /\
    awstasks.BlockDeviceMapping.EbsVolumeThroughput bdm = None /\
    aws.BlockDeviceMapping.EBS (convertBlockDeviceMapping bdm) = Some ebs /\
    aws.EBS.IOPS ebs = None.
Proof.
  eexists.
  destruct (buildRootDevice_omits_illegal_fields exampleCloud
              (RootVolumeOpts.mk (Some "gp2") (Some 64) (Some 3000) (Some 125) None)
              (Some "ami-1") _ eq_refl) as (_ & Hi & Ht & ebs & He & Hty & Hgp2 & _).
  exists ebs. split; [reflexivity|].
  split; [exact Hi|]. split; [exact Ht|]. split; [exact He|].
  apply Hgp2. rewrite Hty. reflexivity.
Defined.

(** ** Precondition validation (claim C8) *)

(** A task without capacity bounds passes the validation, and its update
    against a live group succeeds. *)
Lemma CheckChanges_accepts_missing_capacity :
  Elastigroup.MinSize unsized = None /\
  Elastigroup.MaxSize unsized = None /\
  CheckChanges None (Some unsized) (Some unsized) = Ok tt /\
  update exampleLibrary forwardRuntime exampleCloud unsized unsized Elastigroup.new
    = ([SpotinstList], Ok Elastigroup.new).
Proof. repeat split. Qed.

(** C8, amended.  The precondition validation confirms that the identity
    field Name is set on the desired specification, whatever the actual
    state and the changes are: a missing Name is a required-field error, and
    nothing else is validated. *)
Theorem CheckChanges_requires_Name (a changes : option Elastigroup.t) (e : Elastigroup.t) :
  CheckChanges a (Some e) changes =
    match Elastigroup.Name e with
    | None => Err (RequiredField "Name")
    | Some _ => Ok tt
    end.
Proof. reflexivity. Qed.

(** ** Absence of the group (claim C3) *)

(** With a provider that lists no group, [Find] returns an error. *)
Lemma Find_absent_is_error :
  List emptyCloud = Ok [] /\
  Find exampleLibrary emptyCloud nodes =
    ([SpotinstList], Err (Errorf "spotinst: failed to find elastigroup %q" ["nodes"])).
Proof. split; reflexivity. Qed.

(** C3, amended.  When the provider's listing succeeds and holds no group
    of the desired name, [find] and [Find] return the error "failed to find
    elastigroup"; the absence is signalled by [CheckExisting], which returns
    false, and without an actual state [createOrUpdate] takes the create
    path. *)
Theorem absence_signalled_by_CheckExisting lib rt cloud e name groups :
  Elastigroup.Name e = Some name ->
  List cloud = Ok groups ->
  find_in groups name = None ->
  find cloud name =
    ([SpotinstList], Err (Errorf "spotinst: failed to find elastigroup %q" [name])) /\
  Find lib cloud e =
    ([SpotinstList], Err (Errorf "spotinst: failed to find elastigroup %q" [name])) /\
  CheckExisting cloud e = ([SpotinstList], Ok false) /\
  forall fuel changes,
    createOrUpdate lib rt cloud fuel None e changes =
      (fst (create lib rt cloud fuel None e (Some changes)),
       forget <$> snd (create lib rt cloud fuel None e (Some changes))).
Proof.
  intros Hname Hlist Habsent.
  assert (Hfind : find cloud name =
            ([SpotinstList], Err (Errorf "spotinst: failed to find elastigroup %q" [name]))).
  { unfold find, call. rewrite Hlist. simpl. rewrite Habsent. reflexivity. }
  split; [exact Hfind|]. split; [|split].
  - unfold Find. rewrite Hname. simpl deref. rewrite bind_ret_l, Hfind. reflexivity.
  - unfold CheckExisting. rewrite Hname. simpl deref. rewrite bind_ret_l, Hfind.
    reflexivity.
  - intros fuel changes. unfold createOrUpdate.
    destruct (create lib rt cloud fuel None e (Some changes)). reflexivity.
Qed.

Lemma absence_signalled_by_CheckExisting_witness :
  CheckExisting emptyCloud nodes = ([SpotinstList], Ok false) /\
  Find exampleLibrary emptyCloud nodes =
    ([SpotinstList], Err (Errorf "spotinst: failed to find elastigroup %q" ["nodes"])).
Proof.
  destruct (absence_signalled_by_CheckExisting exampleLibrary forwardRuntime emptyCloud
              nodes "nodes" [] eq_refl eq_refl eq_refl) as (_ & HFind & Hcheck & _).
  split; [exact Hcheck | exact HFind].
Defined.

(** ** Rendering an empty Delta (claim C5) *)

Lemma isEmpty_new (c : Elastigroup.t) : isEmpty c = true -> c = Elastigroup.new.
Proof.
  unfold isEmpty. intros H.
  repeat match goal with
         | H : _ && _ = true |- _ => apply andb_prop in H; destruct H
         end.
  destruct c; simpl in *.
  repeat match goal with
         | H : is_nil ?f = true |- _ => destruct f; [discriminate H|clear H]
         end.
  reflexivity.
Qed.

(** Without a change, no block of [update] does anything. *)
Lemma update_blocks_empty lib rt cloud actual a e :
  update_blocks lib rt cloud actual a e (update_start actual Elastigroup.new) =
  ret (update_start actual Elastigroup.new).
Proof. reflexivity. Qed.

(** Rendering an empty Delta is a no-op.  If no change field is populated,
    no event of [update] is a mutation call of the provider or a warning,
    whatever the provider answers; and when the group of the task's name is
    listed, [update] only lists the groups, issues no Update call and
    returns nil, leaving the changes empty. *)
Lemma update_empty_changes_is_noop lib rt cloud a e changes :
  isEmpty changes = true ->
  (forall ev, ev ∈ trace (update lib rt cloud a e changes) ->
     is_mutation ev = false /\ is_warning ev = false) /\
  (forall name groups actual groupID,
     Elastigroup.Name e = Some name ->
     List cloud = Ok groups ->
     find_in groups name = Some actual ->
     aws.Group.ID actual = Some groupID ->
     update lib rt cloud a e changes = ([SpotinstList], Ok changes) /\
     isEmpty changes = true).
Proof.
  intros Hempty. pose proof (isEmpty_new _ Hempty) as ->. split.
  - intros ev. apply lookup_not_mutation.
    unfold update.
    apply Forall_trace_bind; [rewrite trace_deref; constructor|intros name _].
    apply Forall_trace_bind; [apply find_lookup|intros actual _].
    rewrite update_blocks_empty, bind_ret_l.
    apply Forall_trace_bind; [rewrite trace_deref; constructor|intros groupID _].
    constructor.
  - intros name groups actual groupID Hname Hlist Hin Hid.
    assert (Hfind : find cloud name = ([SpotinstList], Ok actual)).
    { unfold find, call. rewrite Hlist. simpl. rewrite Hin. reflexivity. }
    split; [|reflexivity].
    rewrite (update_run lib rt cloud a e Elastigroup.new name actual
               (update_start actual Elastigroup.new) groupID Hname);
      [|rewrite Hfind; reflexivity|reflexivity|exact Hid].
    rewrite Hfind. reflexivity.
Qed.

Lemma update_empty_changes_is_noop_witness :
  update exampleLibrary forwardRuntime exampleCloud nodes nodes Elastigroup.new
    = ([SpotinstList], Ok Elastigroup.new).
Proof.
  destruct (update_empty_changes_is_noop exampleLibrary forwardRuntime exampleCloud
              nodes nodes Elastigroup.new eq_refl) as [_ H].
  destruct (H "nodes" [liveGroup] liveGroup "sig-1" eq_refl eq_refl eq_refl eq_refl)
    as [Hrun _].
  exact Hrun.
Defined.

(** ** The finish of update *)

Lemma find_listed cloud name groups actual :
  List cloud = Ok groups -> find_in groups name = Some actual ->
  find cloud name = ([SpotinstList], Ok actual).
Proof.
  intros Hlist Hin. unfold find, call. rewrite Hlist. simpl. rewrite Hin. reflexivity.
Qed.

(** The events of the finish: the coverage warning if changes are left,
    then the provider call if something changed. *)
Lemma update_finish_trace cloud s groupID :
  NewElastigroup_error cloud = None ->
  trace (update_finish cloud s groupID) =
    (if isEmpty (changes_of s) then [] else [coverageWarning groupID (changes_of s)])
      ++ (if changed_of s then [SpotinstUpdate (group_of s)] else []).
Proof.
  intros Hnew. unfold update_finish. rewrite Hnew.
  destruct (isEmpty (changes_of s)), (changed_of s); simpl;
    try reflexivity; destruct (Update cloud (group_of s)); reflexivity.
Qed.

(** The outcome of the finish does not depend on the changes that are
    left. *)
Lemma update_finish_outcome cloud s groupID :
  NewElastigroup_error cloud = None ->
  outcome (update_finish cloud s groupID) =
    if changed_of s then
      match Update cloud (group_of s) with
      | Ok _ => Ok (changes_of s)
      | Err err => Err (ErrorfWrap "spotinst: failed to update elastigroup: %v" [] err)
      | Panic => Panic
      end
    else Ok (changes_of s).
Proof.
  intros Hnew. unfold update_finish. rewrite Hnew.
  destruct (isEmpty (changes_of s)), (changed_of s); simpl;
    try reflexivity; destruct (Update cloud (group_of s)); reflexivity.
Qed.

(** ** Capacity (claim C2) *)

Lemma update_deltaMax5 lib rt cloud a e actual groupID m :
  aws.Group.ID actual = Some groupID ->
  Elastigroup.MinSize e = Some m ->
  Elastigroup.MaxSize e = Some 5 ->
  update_blocks lib rt cloud actual a e (update_start actual deltaMax5) =
    ret (mkUpdateState Elastigroup.new (capacityUpdate groupID None (Some 5) None) true).
Proof.
  destruct e, actual. simpl. intros -> -> ->. reflexivity.
Qed.

Lemma update_deltaMin5Max5 lib rt cloud a e actual groupID minimum maximum :
  aws.Group.ID actual = Some groupID ->
  aws.Group.Capacity actual = Some (aws.Capacity.mk minimum maximum (Some 4)) ->
  Elastigroup.MinSize e = Some 5 ->
  Elastigroup.MaxSize e = Some 5 ->
  update_blocks lib rt cloud actual a e (update_start actual deltaMin5Max5) =
    ret (mkUpdateState Elastigroup.new
           (capacityUpdate groupID (Some 5) (Some 5) (Some 5)) true).
Proof.
  destruct e, actual. simpl. intros -> -> -> ->. reflexivity.
Qed.

(** C2.  With a live group of capacity [{Min:2, Max:4, Target:4}]: for the
    desired [{Min:2, Max:5}], whose only populated change is MaxSize, the
    rendered update carries the capacity Maximum 5 and nothing else, so the
    Target is left as it is; for the desired [{Min:5, Max:5}], whose changes
    are MinSize and MaxSize, it carries Minimum 5, Maximum 5 and the Target
    raised to the desired Min.  In every update the Target is set only
    where a change of MinSize is handled, and then to the desired MinSize;
    when MinSize changed, and also when the desired MinSize is not above the
    actual Target (as it is when MinSize did not change and the live group
    has its Minimum at most its Target), the Target is raised if and only if
    the actual Target is strictly below the desired MinSize. *)
Theorem update_capacity_and_target :
  (forall lib rt cloud a e name groups actual groupID,
     Elastigroup.Name e = Some name ->
     List cloud = Ok groups ->
     find_in groups name = Some actual ->
     aws.Group.ID actual = Some groupID ->
     aws.Group.Capacity actual = Some (aws.Capacity.mk (Some 2) (Some 4) (Some 4)) ->
     NewElastigroup_error cloud = None ->
     (Elastigroup.MinSize e = Some 2 -> Elastigroup.MaxSize e = Some 5 ->
      trace (update lib rt cloud a e deltaMax5) =
        [SpotinstList; SpotinstUpdate (capacityUpdate groupID None (Some 5) None)]) /\
     (Elastigroup.MinSize e = Some 5 -> Elastigroup.MaxSize e = Some 5 ->
      trace (update lib rt cloud a e deltaMin5Max5) =
        [SpotinstList;
         SpotinstUpdate (capacityUpdate groupID (Some 5) (Some 5) (Some 5))])) /\
  (forall lib rt cloud a e changes name groups actual g m t,
     Elastigroup.Name e = Some name ->
     List cloud = Ok groups ->
     find_in groups name = Some actual ->
     Elastigroup.MinSize e = Some m ->
     sentTarget actual = Some t ->
     SpotinstUpdate g ∈ trace (update lib rt cloud a e changes) ->
     sentTarget g = (if not_nil (Elastigroup.MinSize changes) && (t <? m)
                     then Some m else None) /\
     (not_nil (Elastigroup.MinSize changes) = true \/ m <= t ->
      (sentTarget g = Some m <-> t < m) /\ (sentTarget g = None <-> m <= t))).
Proof.
  split.
  - intros lib rt cloud a e name groups actual groupID Hname Hlist Hin Hid Hcap Hnew.
    pose proof (find_listed _ _ _ _ Hlist Hin) as Hfind.
    split; intros Hmin Hmax.
    + pose proof (update_deltaMax5 lib rt cloud a e actual groupID 2 Hid Hmin Hmax)
        as Hblocks.
      rewrite (update_run lib rt cloud a e deltaMax5 name actual
                 (mkUpdateState Elastigroup.new
                    (capacityUpdate groupID None (Some 5) None) true) groupID Hname);
        [|rewrite Hfind; reflexivity|rewrite Hblocks; reflexivity|exact Hid].
      unfold trace at 1. cbn [fst]. rewrite Hfind, Hblocks.
      rewrite (update_finish_trace _ _ _ Hnew). reflexivity.
    + pose proof (update_deltaMin5Max5 lib rt cloud a e actual groupID _ _
                    Hid Hcap Hmin Hmax) as Hblocks.
      rewrite (update_run lib rt cloud a e deltaMin5Max5 name actual
                 (mkUpdateState Elastigroup.new
                    (capacityUpdate groupID (Some 5) (Some 5) (Some 5)) true)
                 groupID Hname);
        [|rewrite Hfind; reflexivity|rewrite Hblocks; reflexivity|exact Hid].
      unfold trace at 1. cbn [fst]. rewrite Hfind, Hblocks.
      rewrite (update_finish_trace _ _ _ Hnew). reflexivity.
  - intros lib rt cloud a e changes name groups actual g m t
           Hname Hlist Hin Hmin Htarget Hsent.
    pose proof (find_listed _ _ _ _ Hlist Hin) as Hfind.
    apply update_sent in Hsent.
    destruct Hsent as (name' & actual' & s & Hname' & Hfind' & Hblocks & ->).
    assert (name' = name) by congruence. subst name'.
    rewrite Hfind in Hfind'. injection Hfind' as <-.
    apply update_blocks_group in Hblocks.
    destruct Hblocks as (_ & _ & _ & _ & Ht).
    specialize (Ht m t Hmin Htarget).
    change (sentTarget (group_of (update_start actual changes))) with (@None int) in Ht.
    change (changes_of (update_start actual changes)) with changes in Ht.
    split; [exact Ht|].
    intros [Hchanged|Hle].
    + rewrite Hchanged in Ht. simpl in Ht. rewrite Ht.
      destruct (t <? m) eqn:E.
      * apply Z.ltb_lt in E. split; split; intros; try reflexivity; try lia; discriminate.
      * apply Z.ltb_ge in E. split; split; intros; try reflexivity; try lia; discriminate.
    + assert (E : (t <? m) = false) by (apply Z.ltb_ge; exact Hle).
      rewrite E, andb_false_r in Ht. rewrite Ht.
      split; split; intros; try reflexivity; try lia; discriminate.
Qed.

Lemma update_capacity_and_target_witness :
  trace (update exampleLibrary forwardRuntime exampleCloud nodes nodes deltaMax5) =
    [SpotinstList; SpotinstUpdate (capacityUpdate "sig-1" None (Some 5) None)] /\
  trace (update exampleLibrary forwardRuntime exampleCloud nodes
                (Elastigroup.set_MinSize (Some 5) nodes) deltaMin5Max5) =
    [SpotinstList; SpotinstUpdate (capacityUpdate "sig-1" (Some 5) (Some 5) (Some 5))].
Proof.
  destruct update_capacity_and_target as [Hscenario _].
  split.
  - apply (Hscenario exampleLibrary forwardRuntime exampleCloud nodes nodes
             "nodes" [liveGroup] liveGroup "sig-1"); reflexivity.
  - apply (Hscenario exampleLibrary forwardRuntime exampleCloud nodes
             (Elastigroup.set_MinSize (Some 5) nodes)
             "nodes" [liveGroup] liveGroup "sig-1"); reflexivity.
Defined.

(** ** Coverage of the changes (claim C4) *)

Lemma lookups_filtered (t : list event) :
  Forall is_lookup t -> List.filter is_warning t = [] /\ List.filter is_mutation t = [].
Proof.
  induction 1 as [|ev t Hev _ [IHw IHm]]; [split; reflexivity|].
  simpl. rewrite IHw, IHm. destruct ev; simpl in *; tauto.
Qed.



(** ** Load balancer ambiguity (claim C7) *)

(** [create] fails when the name resolves to both kinds. *)
Lemma create_LoadBalancer_ambiguous cloud e lb elb nlb :
  Elastigroup.LoadBalancer e = Some lb ->
  FindELBByNameTag cloud (StringValue (awstasks.ClassicLoadBalancer.Name lb)) = Ok (Some elb) ->
  FindELBV2ByNameTag cloud (StringValue (awstasks.ClassicLoadBalancer.Name lb)) = Ok (Some nlb) ->
  outcome (create_LoadBalancer cloud e) = Err (Errorf "found both elb and nlb:" []).
Proof.
  intros Hlb Helb Hnlb. unfold create_LoadBalancer, call. rewrite Hlb, Helb, Hnlb.
  reflexivity.
Qed.

(** [Find] fails when the name resolves to both kinds, provided the live
    group has a load balancer of another name. *)
Lemma Find_LoadBalancer_ambiguous cloud e lc cfg lb0 lbs lb elb nlb :
  aws.LaunchSpecification.LoadBalancersConfig lc = Some cfg ->
  aws.LoadBalancersConfig.LoadBalancers cfg = Some (lb0 :: lbs) ->
  Elastigroup.LoadBalancer e = Some lb ->
  StringValue (aws.LoadBalancer.Name lb0) <> StringValue (awstasks.ClassicLoadBalancer.Name lb) ->
  FindELBByNameTag cloud (StringValue (awstasks.ClassicLoadBalancer.Name lb)) = Ok (Some elb) ->
  FindELBV2ByNameTag cloud (StringValue (awstasks.ClassicLoadBalancer.Name lb)) = Ok (Some nlb) ->
  outcome (Find_LoadBalancer cloud e lc) =
    Err (Errorf "spotinst: found both aws/elb (%s) and aws/nlb (%s)"
           [StringValue (elb.LoadBalancerDescription.LoadBalancerName elb);
            StringValue (elbv2.LoadBalancer.LoadBalancerName nlb)]).
Proof.
  intros Hcfg Hlbs Hlb Hne Helb Hnlb. unfold Find_LoadBalancer, call.
  rewrite Hcfg, Hlbs, Hlb. simpl.
  apply String.eqb_neq in Hne. rewrite Hne. simpl. rewrite Hnlb, Helb. reflexivity.
Qed.

(** [update] takes the classic load balancer as soon as one is found and
    does not look for a network load balancer. *)
Lemma update_LoadBalancer_classic_first cloud e s lb elb :
  not_nil (Elastigroup.LoadBalancer (changes_of s)) = true ->
  Elastigroup.LoadBalancer e = Some lb ->
  FindELBByNameTag cloud (StringValue (awstasks.ClassicLoadBalancer.Name lb)) = Ok (Some elb) ->
  update_LoadBalancer cloud e s =
    ([FindELBByNameTagCall (StringValue (awstasks.ClassicLoadBalancer.Name lb))],
     Ok (handled (Elastigroup.set_LoadBalancer None)
           (with_LaunchSpecification
              (aws.LaunchSpecification.set_LoadBalancersConfig
                 (Some (loadBalancersConfig
                          (elb.LoadBalancerDescription.LoadBalancerName elb)
                          (Some "CLASSIC"))))) s)).
Proof.
  intros Hchanged Hlb Helb. unfold update_LoadBalancer, when_changed, call.
  rewrite Hchanged, Hlb. simpl. rewrite Helb. reflexivity.
Qed.

(** C7 (the code at the failing input).  The name "api" resolves both to a
    classic and to a network load balancer.  [create] fails with the
    ambiguity error; [update], for a Delta that carries the load balancer,
    asks for the classic load balancer only, sends it to the provider as
    "CLASSIC" and returns success. *)
Theorem update_ignores_load_balancer_ambiguity :
  FindELBByNameTag bothCloud "api" = Ok (Some (elb.LoadBalancerDescription.mk (Some "api"))) /\
  FindELBV2ByNameTag bothCloud "api" = Ok (Some (elbv2.LoadBalancer.mk (Some "api"))) /\
  snd (create exampleLibrary forwardRuntime bothCloud 1 None balancedNodes None) =
    Some (Err (Errorf "found both elb and nlb:" [])) /\
  update exampleLibrary forwardRuntime bothCloud balancedNodes balancedNodes
         deltaLoadBalancer =
    ([SpotinstList; FindELBByNameTagCall "api";
      SpotinstUpdate (loadBalancerUpdate "sig-1" (Some "api") (Some "CLASSIC"))],
     Ok Elastigroup.new).
Proof. repeat split. Qed.

(** ** The retry loop of create (claim C1) *)

(** A structured error without the transient pattern is fatal at once. *)
Lemma readyLoop_fatal fuel cloud e group attempt errs :
  NewElastigroup_error cloud = None ->
  Create cloud (S attempt) group = Err (ClientErrors errs) ->
  firstTransient errs = None ->
  readyLoop (S fuel) cloud e group attempt =
    (attempts 1 group,
     Some (Err (ErrorfWrap "spotinst: failed to create elastigroup: %v" []
                           (ClientErrors errs)))).
Proof. intros Hnew Hcreate Hnone. simpl. rewrite Hnew, Hcreate, Hnone. reflexivity. Qed.

(** A success ends the loop and records the identifier. *)
Lemma readyLoop_created fuel cloud e group attempt id :
  NewElastigroup_error cloud = None ->
  Create cloud (S attempt) group = Ok id ->
  readyLoop (S fuel) cloud e group attempt =
    (attempts 1 group, Some (Ok (Elastigroup.set_ID (Some id) e))).
Proof. intros Hnew Hcreate. simpl. rewrite Hnew, Hcreate. reflexivity. Qed.

(** The transient error on every attempt: the loop makes [maxAttempts + 1]
    attempts, that is [maxAttempts] retries, and fails with the transient
    sub-error of the last one. *)
Lemma readyLoop_transient_from cloud e group errs sub d :
  NewElastigroup_error cloud = None ->
  Elastigroup.IAMInstanceProfile e <> None ->
  (forall n, Create cloud n group = Err (ClientErrors (errs n))) ->
  (forall n, firstTransient (errs n) = Some (sub n)) ->
  forall attempt fuel,
    (attempt + d = maxAttempts)%nat -> (d < fuel)%nat ->
    readyLoop fuel cloud e group attempt =
      (attempts (S d) group,
       Some (Err (ErrorfSub
         "IAM instance profile not yet created/propagated (original error: %v)"
         (sub (S maxAttempts))))).
Proof.
  intros Hnew Hprofile Hcreate Hsub.
  induction d as [|d IH]; intros attempt fuel Hsum Hfuel;
    (destruct fuel as [|fuel]; [lia|]); simpl;
    rewrite Hnew, Hcreate, Hsub.
  - replace attempt with maxAttempts by lia. reflexivity.
  - assert (Hle : (maxAttempts <? S attempt)%nat = false)
      by (apply Nat.ltb_ge; lia).
    rewrite Hle.
    destruct (Elastigroup.IAMInstanceProfile e); [|contradiction]. simpl.
    rewrite (IH (S attempt) fuel) by lia. reflexivity.
Qed.

Lemma readyLoop_transient cloud e group errs sub fuel :
  NewElastigroup_error cloud = None ->
  Elastigroup.IAMInstanceProfile e <> None ->
  (forall n, Create cloud n group = Err (ClientErrors (errs n))) ->
  (forall n, firstTransient (errs n) = Some (sub n)) ->
  (maxAttempts < fuel)%nat ->
  readyLoop fuel cloud e group 0 =
    (attempts (S maxAttempts) group,
     Some (Err (ErrorfSub
       "IAM instance profile not yet created/propagated (original error: %v)"
       (sub (S maxAttempts))))).
Proof.
  intros Hnew Hprofile Hcreate Hsub Hfuel.
  apply (readyLoop_transient_from cloud e group errs sub maxAttempts); auto.
Qed.

(** An error that is not a structured collection on every attempt: the
    loop never ends; after any number of iterations it has made that many
    attempts and is still running. *)
Lemma readyLoop_unstructured cloud e group :
  NewElastigroup_error cloud = None ->
  (forall n, exists err, Create cloud n group = Err err /\ is_ClientErrors err = false) ->
  forall fuel attempt,
    readyLoop fuel cloud e group attempt = (attempts fuel group, None).
Proof.
  intros Hnew Hcreate.
  induction fuel as [|fuel IH]; intros attempt; [reflexivity|].
  simpl. rewrite Hnew. destruct (Hcreate (S attempt)) as (err & -> & Herr).
  rewrite IH. destruct err; try reflexivity. discriminate.
Qed.

Lemma filter_attempts n group :
  length (List.filter is_mutation (attempts n group)) = n.
Proof. induction n as [|n IH]; simpl; [reflexivity|]. rewrite IH. reflexivity. Qed.

(** The retry budget of [create], on examples: the transient error on every
    attempt gives eleven attempts and the failure with the last sub-error;
    another structured error gives one attempt and an immediate failure. *)
Lemma create_retry_examples :
  (forall fuel, (10 < fuel)%nat ->
     exists lookups group,
       create exampleLibrary forwardRuntime transientCloud fuel None profiledNodes None =
         (lookups ++ attempts 11 group,
          Some (Err (ErrorfSub
            "IAM instance profile not yet created/propagated (original error: %v)"
            transientError))) /\
       Forall is_lookup lookups) /\
  (forall fuel, (0 < fuel)%nat ->
     exists lookups group,
       create exampleLibrary forwardRuntime rejectingCloud fuel None profiledNodes None =
         (lookups ++ attempts 1 group,
          Some (Err (ErrorfWrap "spotinst: failed to create elastigroup: %v" []
                                (ClientErrors [quotaError])))) /\
       Forall is_lookup lookups).
Proof.
  split; intros fuel Hfuel.
  - unfold create. simpl deref. cbv iota beta.
    pose proof (create_group_lookup exampleLibrary forwardRuntime transientCloud
                  (applyDefaults profiledNodes)) as Hl.
    destruct (create_group exampleLibrary forwardRuntime transientCloud
                (applyDefaults profiledNodes)) as [t [group|err|]] eqn:E;
      [|vm_compute in E; discriminate E..].
    exists t, group.
    rewrite (readyLoop_transient transientCloud _ group
               (fun _ => [quotaError; transientError]) (fun _ => transientError));
      try reflexivity; try assumption.
    + split; [reflexivity|exact Hl].
    + discriminate.
  - unfold create. simpl deref. cbv iota beta.
    pose proof (create_group_lookup exampleLibrary forwardRuntime rejectingCloud
                  (applyDefaults profiledNodes)) as Hl.
    destruct (create_group exampleLibrary forwardRuntime rejectingCloud
                (applyDefaults profiledNodes)) as [t [group|err|]] eqn:E;
      [|vm_compute in E; discriminate E..].
    exists t, group. destruct fuel as [|fuel]; [lia|].
    rewrite (readyLoop_fatal fuel rejectingCloud _ group 0 [quotaError]);
      try reflexivity.
    split; [reflexivity|exact Hl].
Qed.

(** C1 (the code at the failing input).  When [Create] fails on every
    attempt with an error that is not a structured collection, here a
    refused connection, [create] does not fail: however many iterations of
    its loop are run, it has called [Create] once in each of them and is
    still running. *)
Theorem create_retries_unstructured_error_forever (fuel : nat) :
  snd (create exampleLibrary forwardRuntime unreachableCloud fuel None profiledNodes None)
    = None /\
  length (List.filter is_mutation
            (fst (create exampleLibrary forwardRuntime unreachableCloud fuel None
                         profiledNodes None))) = fuel.
Proof.
  unfold create. simpl deref. cbv iota beta.
  pose proof (create_group_lookup exampleLibrary forwardRuntime unreachableCloud
                (applyDefaults profiledNodes)) as Hl.
  destruct (create_group exampleLibrary forwardRuntime unreachableCloud
              (applyDefaults profiledNodes)) as [t [group|err|]] eqn:E;
    [|vm_compute in E; discriminate E..].
  rewrite (readyLoop_unstructured unreachableCloud _ group); try reflexivity.
  - unfold ret. cbv beta iota. cbn [fst snd]. split; [reflexivity|].
    rewrite List.filter_app, length_app, filter_attempts.
    unfold trace in Hl. cbn [fst] in Hl.
    destruct (lookups_filtered _ Hl) as [_ ->]. reflexivity.
  - intros n. eexists. split; reflexivity.
Qed.

(** ** Determinism of the Terraform rendering (claim C9) *)

Lemma forwardRuntime_ok : runtime_ok forwardRuntime.
Proof. intros site m. reflexivity. Qed.

Lemma backwardRuntime_ok : runtime_ok backwardRuntime.
Proof. intros site m. simpl. symmetry. apply Permutation_rev. Qed.

(** Two runs over the same task, each visiting the maps in an order the Go
    runtime may choose, both succeed and hand different resources to the
    target. *)
Lemma RenderTerraform_depends_on_map_order :
  runtime_ok forwardRuntime /\ runtime_ok backwardRuntime /\
  outcome (RenderTerraform exampleLibrary forwardRuntime exampleCloud exampleTarget
                           None taggedNodes None) = Ok tt /\
  outcome (RenderTerraform exampleLibrary backwardRuntime exampleCloud exampleTarget
                           None taggedNodes None) = Ok tt /\
  trace (RenderTerraform exampleLibrary forwardRuntime exampleCloud exampleTarget
                         None taggedNodes None) <>
  trace (RenderTerraform exampleLibrary backwardRuntime exampleCloud exampleTarget
                         None taggedNodes None).
Proof.
  split; [exact forwardRuntime_ok|]. split; [exact backwardRuntime_ok|].
  split; [vm_compute; reflexivity|]. split; [vm_compute; reflexivity|].
  intros H. vm_compute in H. discriminate H.
Qed.

(** A successful extraction of the role: every role tag has the role or an
    empty suffix, and the role is the initial one or the suffix of a tag. *)
Lemma roleOfTags_Ok pre keys : forall r0 r,
  roleOfTags pre keys r0 = Ok r ->
  (forall key, key ∈ keys -> HasPrefix key pre = true ->
     TrimPrefix key pre = "" \/ TrimPrefix key pre = r) /\
  (r = r0 \/ exists key, key ∈ keys /\ HasPrefix key pre = true /\ TrimPrefix key pre = r) /\
  (r0 <> "" -> r = r0).
Proof.
  induction keys as [|key keys IH]; intros r0 r H; simpl in H.
  - injection H as <-. repeat split; [|left; reflexivity].
    intros key Hin. inversion Hin.
  - destruct (HasPrefix key pre) eqn:Hpre.
    + destruct (String.eqb r0 "") eqn:E0; simpl in H.
      * apply String.eqb_eq in E0. subst r0.
        destruct (IH _ _ H) as (HA & HB & HC).
        split; [|split].
        -- intros key' Hin Hpre'. apply elem_of_cons in Hin. destruct Hin as [->|Hin].
           ++ destruct (String.eqb (TrimPrefix key pre) "") eqn:Es.
              ** left. apply String.eqb_eq. exact Es.
              ** right. symmetry. apply HC. apply String.eqb_neq. exact Es.
           ++ apply HA; assumption.
        -- right. destruct HB as [->|(key' & Hin & Hpre' & Hr)].
           ++ exists key. split; [left|split]; auto.
           ++ exists key'. split; [right|split]; auto.
        -- intros Hne. contradiction.
      * destruct (String.eqb r0 (TrimPrefix key pre)) eqn:Es; simpl in H; [|discriminate].
        apply String.eqb_eq in Es. apply String.eqb_neq in E0.
        destruct (IH _ _ H) as (HA & HB & HC).
        assert (Hr : r = r0) by (rewrite Es; apply HC; rewrite <- Es; exact E0).
        split; [|split].
        -- intros key' Hin Hpre'. apply elem_of_cons in Hin. destruct Hin as [->|Hin].
           ++ right. congruence.
           ++ apply HA; assumption.
        -- left. exact Hr.
        -- intros _. exact Hr.
    + destruct (IH _ _ H) as (HA & HB & HC).
      split; [|split].
      * intros key' Hin Hpre'. apply elem_of_cons in Hin. destruct Hin as [->|Hin].
        -- congruence.
        -- apply HA; assumption.
      * destruct HB as [->|(key' & Hin & Hpre' & Hr)]; [left; reflexivity|].
        right. exists key'. split; [right|split]; auto.
      * exact HC.
Qed.

(** The role does not depend on the order in which the tags are visited,
    when its extraction succeeds. *)
Lemma roleOfTags_order pre keys1 keys2 r1 r2 :
  keys1 ≡ₚ keys2 ->
  roleOfTags pre keys1 "" = Ok r1 ->
  roleOfTags pre keys2 "" = Ok r2 ->
  r1 = r2.
Proof.
  intros Hperm H1 H2.
  destruct (roleOfTags_Ok _ _ _ _ H1) as (HA1 & HB1 & _).
  destruct (roleOfTags_Ok _ _ _ _ H2) as (HA2 & HB2 & _).
  destruct HB1 as [->|(key1 & Hin1 & Hpre1 & Hr1)].
  - destruct HB2 as [->|(key2 & Hin2 & Hpre2 & Hr2)]; [reflexivity|].
    rewrite <- Hperm in Hin2. destruct (HA1 key2 Hin2 Hpre2); congruence.
  - rewrite Hperm in Hin1. destruct (HA2 key1 Hin1 Hpre1) as [He|He]; [|congruence].
    destruct HB2 as [->|(key2 & Hin2 & Hpre2 & Hr2)]; [congruence|].
    rewrite <- Hperm in Hin2. destruct (HA1 key2 Hin2 Hpre2); congruence.
Qed.

Lemma appended_same_entries {A B} (f : A -> B) (l1 l2 : list A) :
  l1 ≡ₚ l2 -> same_entries (appended (map f l1)) (appended (map f l2)).
Proof.
  intros Hperm. destruct l1 as [|a1 l1], l2 as [|a2 l2]; simpl.
  - exact I.
  - apply Permutation_nil_cons in Hperm. destruct Hperm.
  - symmetry in Hperm. apply Permutation_nil_cons in Hperm. destruct Hperm.
  - change (map f (a1 :: l1) ≡ₚ map f (a2 :: l2)). apply Permutation_map. exact Hperm.
Qed.

Lemma range_map_order (rt1 rt2 : GoRuntime) site (m : gmap string string) :
  runtime_ok rt1 -> runtime_ok rt2 ->
  range_map rt1 site m ≡ₚ range_map rt2 site m.
Proof. intros H1 H2. rewrite (H1 site m), (H2 site m). reflexivity. Qed.

(** The resources built by two runs differ at most in the order of the
    tags and of the labels. *)
Lemma RenderTerraform_tf_equiv lib rt1 rt2 e imageID userData rootVolume :
  runtime_ok rt1 -> runtime_ok rt2 ->
  tf_equiv (RenderTerraform_tf lib rt1 e imageID userData rootVolume)
           (RenderTerraform_tf lib rt2 e imageID userData rootVolume).
Proof.
  intros H1 H2. unfold tf_equiv. split; [reflexivity|]. split.
  - simpl. destruct (not_nil (Elastigroup.Tags e)); [|exact I].
    unfold buildTags. apply appended_same_entries. apply Permutation_map.
    apply range_map_order; assumption.
  - simpl. unfold RenderTerraform_Integration.
    destruct (Elastigroup.AutoScalerOpts e) as [opts|]; [|exact I].
    destruct (not_nil (AutoScalerOpts.Enabled opts)); [|split; [reflexivity|exact I]].
    destruct (AutoScalerOpts.Headroom opts), (AutoScalerOpts.Down opts),
      (AutoScalerOpts.Labels opts) as [labels|]; simpl;
      (split; [reflexivity|]); try exact I;
      apply Permutation_map; apply range_map_order; assumption.
Qed.

(** C9, amended.  The Terraform rendering is deterministic up to the order
    in which the Go runtime visits the Tags map and the auto-scaler Labels
    map: for a fixed desired specification, two runs that succeed make the
    same calls on the target before the resource is rendered and render,
    under the same name, resources that are equal in every field except
    that the entries of the tags list and of the labels list may come in a
    different order. *)
Theorem RenderTerraform_deterministic_up_to_map_order
    lib cloud t a e changes (rt1 rt2 : GoRuntime) :
  runtime_ok rt1 -> runtime_ok rt2 ->
  outcome (RenderTerraform lib rt1 cloud t a e changes) = Ok tt ->
  outcome (RenderTerraform lib rt2 cloud t a e changes) = Ok tt ->
  exists calls name tf1 tf2,
    trace (RenderTerraform lib rt1 cloud t a e changes) =
      calls ++ [RenderResource "spotinst_elastigroup_aws" name tf1] /\
    trace (RenderTerraform lib rt2 cloud t a e changes) =
      calls ++ [RenderResource "spotinst_elastigroup_aws" name tf2] /\
    tf_equiv tf1 tf2.
Proof.
  intros Hrt1 Hrt2 H1 H2. unfold RenderTerraform in *.
  apply bind_Ok in H1. destruct H1 as (img1 & Himg1 & H1).
  apply bind_Ok in H1. destruct H1 as (role1 & Hrole1 & H1).
  apply bind_Ok in H1. destruct H1 as (parts1 & Hparts1 & H1).
  apply bind_Ok in H1. destruct H1 as (name1 & Hname1 & _).
  apply bind_Ok in H2. destruct H2 as (img2 & Himg2 & H2).
  apply bind_Ok in H2. destruct H2 as (role2 & Hrole2 & H2).
  apply bind_Ok in H2. destruct H2 as (parts2 & Hparts2 & H2).
  apply bind_Ok in H2. destruct H2 as (name2 & Hname2 & _).
  assert (img2 = img1) by congruence. subst img2.
  assert (role2 = role1).
  { unfold outcome in Hrole1, Hrole2. cbn [snd] in Hrole1, Hrole2.
    symmetry. eapply roleOfTags_order; [|exact Hrole1|exact Hrole2].
    apply Permutation_map. apply range_map_order; assumption. }
  subst role2.
  assert (parts2 = parts1) by congruence. subst parts2.
  assert (name2 = name1) by congruence. subst name2.
  exists (trace (if not_nil (Elastigroup.ImageID (applyDefaults e))
                 then
                   let* image := resolveImage cloud
                                   (StringValue (Elastigroup.ImageID (applyDefaults e))) in
                   ret (ec2.Image.ImageId image)
                 else ret None)
          ++ trace (RenderTerraform_calls lib cloud t (applyDefaults e) role1)),
    name1,
    (RenderTerraform_tf lib rt1 (applyDefaults e) img1 parts1.1 parts1.2),
    (RenderTerraform_tf lib rt2 (applyDefaults e) img1 parts1.1 parts1.2).
  split; [|split].
  - rewrite trace_bind, Himg1, trace_bind, Hrole1, trace_bind, Hparts1,
      trace_bind, Hname1, trace_deref.
    simpl. rewrite <- app_assoc. reflexivity.
  - rewrite trace_bind, Himg1, trace_bind, Hrole2, trace_bind, Hparts1,
      trace_bind, Hname1, trace_deref.
    simpl. rewrite <- app_assoc. reflexivity.
  - apply RenderTerraform_tf_equiv; assumption.
Qed.

Lemma RenderTerraform_deterministic_up_to_map_order_witness :
  exists calls name tf1 tf2,
    trace (RenderTerraform exampleLibrary forwardRuntime exampleCloud exampleTarget
                           None taggedNodes None) =
      calls ++ [RenderResource "spotinst_elastigroup_aws" name tf1] /\
    trace (RenderTerraform exampleLibrary backwardRuntime exampleCloud exampleTarget
                           None taggedNodes None) =
      calls ++ [RenderResource "spotinst_elastigroup_aws" name tf2] /\
    tf_equiv tf1 tf2.
Proof.
  apply (RenderTerraform_deterministic_up_to_map_order exampleLibrary exampleCloud
           exampleTarget None taggedNodes None forwardRuntime backwardRuntime).
  - exact forwardRuntime_ok.
  - exact backwardRuntime_ok.
  - vm_compute. reflexivity.
  - vm_compute. reflexivity.
Defined.

(** ** Examples of the string helpers and of Find *)

Example Contains_transient :
  Contains "Invalid IAM Instance Profile name: nodes-profile" transientMessage = true /\
  Contains "Quota exceeded" transientMessage = false /\
  firstTransient [quotaError; transientError] = Some transientError.
Proof. repeat split. Qed.

Example roleOfTags_examples :
  TrimPrefix "k8s.io/role/node" "k8s.io/role/" = "node" /\
  roleOfTags "k8s.io/role/" ["Name"; "k8s.io/role/node"] "" = Ok "node" /\
  roleOfTags "k8s.io/role/" ["k8s.io/role/master"; "k8s.io/role/node"] "" =
    Err (Errorf "spotinst: found multiple role tags %q vs %q" ["master"; "node"]).
Proof. repeat split. Qed.

(** [Find] reports the orientation under the name the provider stores. *)
Lemma Find_reports_provider_orientation lib cloud e actual :
  outcome (Find lib cloud e) = Ok actual ->
  exists name group,
    Elastigroup.Name e = Some name /\
    outcome (find cloud name) = Ok group /\
    Elastigroup.Orientation actual = sentOrientation group.
Proof.
  unfold Find. intros H.
  apply bind_Ok in H. destruct H as (name & Hname & H). apply deref_Ok in Hname.
  apply bind_Ok in H. destruct H as (group & Hfind & H).
  exists name, group. split; [exact Hname|]. split; [exact Hfind|].
  apply bind_Ok in H. destruct H as (capacity & _ & H).
  apply bind_Ok in H. destruct H as (strategy & Hstrategy & H).
  apply deref_Ok in Hstrategy.
  repeat bind_inv H. apply ret_Ok in H. subst actual.
  unfold sentOrientation. rewrite Hstrategy. reflexivity.
Qed.

(** ** The second pass (claim C5) *)

(** A Delta with the orientation populated is not empty. *)
Lemma isEmpty_Orientation (c : Elastigroup.t) :
  Elastigroup.Orientation c <> None -> isEmpty c = false.
Proof.
  intros H. unfold isEmpty.
  destruct (Elastigroup.Orientation c); [|contradiction].
  cbn [is_nil]. rewrite Bool.andb_false_r. reflexivity.
Qed.

(** The ID under which the provider stores a group is no part of its
    strategy. *)
Lemma sentOrientation_set_ID id g :
  sentOrientation (aws.Group.set_ID id g) = sentOrientation g.
Proof. destruct g; reflexivity. Qed.

(** C5.  The second pass over an unchanged specification is not a no-op
    when the task spells its orientation "cost", "availability" or
    "equal-distribution".  [create] sends the provider's name for the
    orientation and [Find] reads that name back as it is: once the provider
    lists the group that a create sent, the orientation that a [Find] of
    the same task reports differs from the desired one, so the Delta has
    the orientation populated and is not empty.  For the task "nodes" on
    a "gp3" volume with the orientation "cost": the first pass returns the
    created task and its one mutation call creates the group with
    "costOriented"; in the second
    pass [Find] reports "costOriented", the Delta is the orientation "cost"
    alone, and [update] lists the groups and issues one Update call, a
    mutation call, which sends the orientation the provider already holds,
    so that the pass after it starts from the same state.  The same task
    with the orientation "balanced" is read back as it is and its second
    Delta is empty.  That an empty Delta is rendered without any mutation
    call is [update_empty_changes_is_noop]. *)
Theorem second_pass_resends_cost_orientation :
  (forall lib rt cloud cloud' fuel a e changes g name id groups actual,
     SpotinstCreate g ∈ fst (create lib rt cloud fuel a e changes) ->
     Elastigroup.Name e = Some name ->
     List cloud' = Ok groups ->
     find_in groups name = Some (aws.Group.set_ID (Some id) g) ->
     outcome (Find lib cloud' e) = Ok actual ->
     Elastigroup.Orientation e = Some "cost" \/
     Elastigroup.Orientation e = Some "availability" \/
     Elastigroup.Orientation e = Some "equal-distribution" ->
     Elastigroup.Orientation actual <> Elastigroup.Orientation e /\
     Elastigroup.Orientation (BuildChanges actual e) = Elastigroup.Orientation e /\
     isEmpty (BuildChanges actual e) = false) /\
  (exists created,
     snd (create exampleLibrary forwardRuntime emptyCloud 1 None thriftyNodes None) =
       Some (Ok created) /\
     Elastigroup.ID created = Some "sig-1" /\
     List.filter is_mutation
       (fst (create exampleLibrary forwardRuntime emptyCloud 1 None thriftyNodes None)) =
       [SpotinstCreate (groupSentFor thriftyNodes)] /\
     sentOrientation (groupSentFor thriftyNodes) = Some "costOriented") /\
  (exists actual,
     Find exampleLibrary (cloudAfterCreate thriftyNodes) thriftyNodes =
       ([SpotinstList], Ok actual) /\
     Elastigroup.Orientation thriftyNodes = Some "cost" /\
     Elastigroup.Orientation actual = Some "costOriented" /\
     BuildChanges actual thriftyNodes =
       Elastigroup.set_Orientation (Some "cost") Elastigroup.new /\
     isEmpty (BuildChanges actual thriftyNodes) = false /\
     update exampleLibrary forwardRuntime (cloudAfterCreate thriftyNodes) actual thriftyNodes
            (BuildChanges actual thriftyNodes) =
       ([SpotinstList; SpotinstUpdate (orientationUpdate "sig-1" "costOriented")],
        Ok Elastigroup.new) /\
     is_mutation (SpotinstUpdate (orientationUpdate "sig-1" "costOriented")) = true /\
     sentOrientation (orientationUpdate "sig-1" "costOriented") =
       sentOrientation (groupSentFor thriftyNodes)) /\
  (exists actual,
     Find exampleLibrary (cloudAfterCreate steadyNodes) steadyNodes =
       ([SpotinstList], Ok actual) /\
     BuildChanges actual steadyNodes = Elastigroup.new /\
     isEmpty (BuildChanges actual steadyNodes) = true).
Proof.
  split; [|split; [|split]].
  - intros lib rt cloud cloud' fuel a e changes g name id groups actual
           Hcreate Hname Hlist Hfind HFind Hcost.
    apply create_sent in Hcreate. apply create_group_orientation in Hcreate.
    rewrite normalizeOrientation_applyDefaults in Hcreate.
    apply Find_reports_provider_orientation in HFind.
    destruct HFind as (name' & group & Hname' & Hgroup & Ho).
    rewrite Hname in Hname'. injection Hname' as <-.
    rewrite (find_listed cloud' name groups _ Hlist Hfind) in Hgroup.
    injection Hgroup as <-.
    rewrite sentOrientation_set_ID, Hcreate in Ho.
    assert (Hne : Elastigroup.Orientation actual <> Elastigroup.Orientation e).
    { rewrite Ho. destruct Hcost as [->|[->| ->]]; discriminate. }
    assert (Hdelta : Elastigroup.Orientation (BuildChanges actual e)
                     = Elastigroup.Orientation e).
    { cbn [BuildChanges Elastigroup.Orientation]. unfold changed.
      destruct (decide _) as [Heq|_]; [|reflexivity].
      exfalso. apply Hne. symmetry. exact Heq. }
    split; [exact Hne|]. split; [exact Hdelta|].
    apply isEmpty_Orientation. rewrite Hdelta.
    destruct Hcost as [->|[->| ->]]; discriminate.
  - eexists. split; [vm_compute; reflexivity|].
    repeat apply conj; vm_compute; reflexivity.
  - eexists. split; [vm_compute; reflexivity|].
    repeat apply conj; vm_compute; reflexivity.
  - eexists. split; [vm_compute; reflexivity|].
    repeat apply conj; vm_compute; reflexivity.
Qed.

(** The options of a "gp2" volume that [buildRootDevice] leaves out, the
    IOPS and the throughput, are a further difference in every pass: for
    the task "nodes" they make up the second Delta. *)
Lemma second_pass_gp2_volume_options :
  exists actual,
    Find exampleLibrary (cloudAfterCreate nodes) nodes = ([SpotinstList], Ok actual) /\
    BuildChanges actual nodes =
      Elastigroup.set_RootVolumeOpts
        (Some (RootVolumeOpts.mk None None (Some 3000) (Some 125) None)) Elastigroup.new.
Proof.
  eexists. split; [vm_compute; reflexivity|]. vm_compute. reflexivity.
Qed.

(** * Further properties of the task *)

Lemma applyDefaults_fields (e : Elastigroup.t) :
  applyDefaults e =
  Elastigroup.set_HealthCheckType
    (Some (default "K8S_NODE" (Elastigroup.HealthCheckType e)))
    (Elastigroup.set_Monitoring (Some (default false (Elastigroup.Monitoring e)))
       (Elastigroup.set_Orientation
          (Some (if nil_or_empty (Elastigroup.Orientation e) then "balanced"
                 else StringValue (Elastigroup.Orientation e)))
          (Elastigroup.set_Product
             (Some (if nil_or_empty (Elastigroup.Product e) then "Linux/UNIX"
                    else StringValue (Elastigroup.Product e)))
             (Elastigroup.set_UtilizeReservedInstances
                (Some (default true (Elastigroup.UtilizeReservedInstances e)))
                (Elastigroup.set_FallbackToOnDemand
                   (Some (default true (Elastigroup.FallbackToOnDemand e))) e))))).
Proof.
  destruct e as [name lifecycle id region minSize maxSize spot utilize fallback
                 draining health product orientation tags userData image onDemand
                 spotTypes profile lb key subnets sgs monitoring publicIP tenancy
                 root autoScaler].
  unfold applyDefaults. cbn.
  destruct fallback, utilize, monitoring, health; cbn;
    destruct product as [p|]; cbn; try destruct (String.eqb p ""); cbn;
    destruct orientation as [o|]; cbn; try destruct (String.eqb o ""); reflexivity.
Qed.

Lemma create_run lib rt cloud fuel a e changes name group :
  Elastigroup.Name e = Some name ->
  outcome (create_group lib rt cloud (applyDefaults e)) = Ok group ->
  create lib rt cloud fuel a e changes =
    (trace (create_group lib rt cloud (applyDefaults e))
       ++ fst (readyLoop fuel cloud (applyDefaults e) group 0),
     snd (readyLoop fuel cloud (applyDefaults e) group 0)).
Proof.
  intros Hname Hgroup. unfold create. rewrite Hname. cbn [deref ret].
  destruct (create_group lib rt cloud (applyDefaults e)) as [t r].
  unfold outcome in Hgroup. cbn [snd] in Hgroup. subst r. unfold trace. cbn [fst].
  destruct (readyLoop fuel cloud (applyDefaults e) group 0). reflexivity.
Qed.

Lemma attempts_app n m group :
  attempts n group ++ attempts m group = attempts (n + m) group.
Proof. induction n as [|n IH]; cbn; [reflexivity|]. rewrite IH. reflexivity. Qed.

(** The loop goes on after every attempt that meets the transient error
    within the budget. *)
Lemma readyLoop_retries cloud e group errs sub :
  NewElastigroup_error cloud = None ->
  Elastigroup.IAMInstanceProfile e <> None ->
  forall k attempt fuel,
    (forall n, (attempt < n <= attempt + k)%nat ->
       Create cloud n group = Err (ClientErrors (errs n)) /\
       firstTransient (errs n) = Some (sub n)) ->
    (attempt + k <= maxAttempts)%nat ->
    readyLoop (k + fuel) cloud e group attempt =
      (attempts k group ++ fst (readyLoop fuel cloud e group (attempt + k)),
       snd (readyLoop fuel cloud e group (attempt + k))).
Proof.
  intros Hnew Hprofile. induction k as [|k IH]; intros attempt fuel Herrs Hk.
  - rewrite Nat.add_0_r. cbn. destruct (readyLoop fuel cloud e group attempt). reflexivity.
  - cbn [Nat.add readyLoop]. rewrite Hnew.
    destruct (Herrs (S attempt)) as [-> ->]; [lia|].
    destruct (Nat.ltb_spec maxAttempts (S attempt)) as [Hlt|_]; [lia|].
    destruct (Elastigroup.IAMInstanceProfile e) eqn:Ep; [|contradiction].
    cbn [is_nil].
    rewrite (IH (S attempt) fuel); [|intros n Hn; apply Herrs; lia|lia].
    replace (S attempt + k)%nat with (attempt + S k)%nat by lia. reflexivity.
Qed.

Lemma applyDefaults_IAMInstanceProfile e :
  Elastigroup.IAMInstanceProfile (applyDefaults e) = Elastigroup.IAMInstanceProfile e.
Proof. rewrite applyDefaults_fields. reflexivity. Qed.

(** ** The retry loop of create *)

(** X1.  [create] retries while the provider answers with the transient
    error of a missing instance profile: when the first [k] attempts
    ([k] at most ten) meet it and the next one succeeds, [create] has waited
    ten seconds before each of the [k + 1] calls, all of them with the same
    group, and returns nil with the ID of the provider recorded in the
    task. *)
Theorem create_succeeds_once_profile_is_ready
    lib rt cloud fuel a e changes name group errs sub k id :
  Elastigroup.Name e = Some name ->
  outcome (create_group lib rt cloud (applyDefaults e)) = Ok group ->
  NewElastigroup_error cloud = None ->
  Elastigroup.IAMInstanceProfile e <> None ->
  (forall n, (1 <= n <= k)%nat ->
     Create cloud n group = Err (ClientErrors (errs n)) /\
     firstTransient (errs n) = Some (sub n)) ->
  (k <= maxAttempts)%nat ->
  Create cloud (S k) group = Ok id ->
  (k < fuel)%nat ->
  create lib rt cloud fuel a e changes =
    (trace (create_group lib rt cloud (applyDefaults e)) ++ attempts (S k) group,
     Some (Ok (Elastigroup.set_ID (Some id) (applyDefaults e)))).
Proof.
  intros Hname Hgroup Hnew Hprofile Herrs Hk Hid Hfuel.
  rewrite (create_run _ _ _ _ _ _ _ name group Hname Hgroup).
  replace fuel with (k + S (fuel - S k))%nat by lia.
  rewrite (readyLoop_retries cloud _ group errs sub Hnew);
    [|rewrite applyDefaults_IAMInstanceProfile; exact Hprofile
     |intros n Hn; apply Herrs; lia|lia].
  rewrite (readyLoop_created _ cloud _ group (0 + k) id Hnew Hid).
  cbn [fst snd]. rewrite attempts_app. do 3 f_equal. lia.
Qed.

Lemma create_succeeds_once_profile_is_ready_witness :
  exists lookups group,
    create exampleLibrary forwardRuntime (settlingCloud 2 (Ok "sig-2")) 5 None
           profiledNodes None =
      (lookups ++ attempts 3 group,
       Some (Ok (Elastigroup.set_ID (Some "sig-2") (applyDefaults profiledNodes)))).
Proof.
  destruct (create_group exampleLibrary forwardRuntime (settlingCloud 2 (Ok "sig-2"))
              (applyDefaults profiledNodes)) as [t [group|err|]] eqn:E;
    [|vm_compute in E; discriminate E..].
  exists t, group.
  rewrite (create_succeeds_once_profile_is_ready exampleLibrary forwardRuntime
             (settlingCloud 2 (Ok "sig-2")) 5 None profiledNodes None "nodes" group
             (fun _ => [quotaError; transientError]) (fun _ => transientError) 2 "sig-2").
  - rewrite E. reflexivity.
  - reflexivity.
  - rewrite E. reflexivity.
  - reflexivity.
  - discriminate.
  - intros n Hn. unfold settlingCloud, withCreate. cbn [Create].
    destruct (Nat.leb_spec n 2) as [_|Hgt]; [|lia]. split; reflexivity.
  - unfold maxAttempts. lia.
  - reflexivity.
  - lia.
Defined.

(** X2.  A structured error without the transient message ends [create]
    at once, also after retries: when the first [k] attempts met the
    transient error and the next one meets a collection of errors none of
    which has the transient message, [create] makes no further attempt and
    returns that collection, wrapped. *)
Theorem create_structured_error_is_fatal
    lib rt cloud fuel a e changes name group errs sub k fatal :
  Elastigroup.Name e = Some name ->
  outcome (create_group lib rt cloud (applyDefaults e)) = Ok group ->
  NewElastigroup_error cloud = None ->
  Elastigroup.IAMInstanceProfile e <> None ->
  (forall n, (1 <= n <= k)%nat ->
     Create cloud n group = Err (ClientErrors (errs n)) /\
     firstTransient (errs n) = Some (sub n)) ->
  (k <= maxAttempts)%nat ->
  Create cloud (S k) group = Err (ClientErrors fatal) ->
  firstTransient fatal = None ->
  (k < fuel)%nat ->
  create lib rt cloud fuel a e changes =
    (trace (create_group lib rt cloud (applyDefaults e)) ++ attempts (S k) group,
     Some (Err (ErrorfWrap "spotinst: failed to create elastigroup: %v" []
                           (ClientErrors fatal)))).
Proof.
  intros Hname Hgroup Hnew Hprofile Herrs Hk Hfatal Hnone Hfuel.
  rewrite (create_run _ _ _ _ _ _ _ name group Hname Hgroup).
  replace fuel with (k + S (fuel - S k))%nat by lia.
  rewrite (readyLoop_retries cloud _ group errs sub Hnew);
    [|rewrite applyDefaults_IAMInstanceProfile; exact Hprofile
     |intros n Hn; apply Herrs; lia|lia].
  rewrite (readyLoop_fatal _ cloud _ group (0 + k) fatal Hnew Hfatal Hnone).
  cbn [fst snd]. rewrite attempts_app. do 3 f_equal. lia.
Qed.

Lemma create_structured_error_is_fatal_witness :
  exists lookups group,
    create exampleLibrary forwardRuntime
           (settlingCloud 1 (Err (ClientErrors [quotaError]))) 5 None profiledNodes None =
      (lookups ++ attempts 2 group,
       Some (Err (ErrorfWrap "spotinst: failed to create elastigroup: %v" []
                             (ClientErrors [quotaError])))).
Proof.
  destruct (create_group exampleLibrary forwardRuntime
              (settlingCloud 1 (Err (ClientErrors [quotaError])))
              (applyDefaults profiledNodes)) as [t [group|err|]] eqn:E;
    [|vm_compute in E; discriminate E..].
  exists t, group.
  rewrite (create_structured_error_is_fatal exampleLibrary forwardRuntime
             (settlingCloud 1 (Err (ClientErrors [quotaError]))) 5 None profiledNodes None
             "nodes" group
             (fun _ => [quotaError; transientError]) (fun _ => transientError) 1
             [quotaError]).
  - rewrite E. reflexivity.
  - reflexivity.
  - rewrite E. reflexivity.
  - reflexivity.
  - discriminate.
  - intros n Hn. unfold settlingCloud, withCreate. cbn [Create].
    destruct (Nat.leb_spec n 1) as [_|Hgt]; [|lia]. split; reflexivity.
  - unfold maxAttempts. lia.
  - reflexivity.
  - reflexivity.
  - lia.
Defined.

(** X3.  The retry budget: when the first eleven attempts all meet the
    transient error, [create] gives up after the eleventh (the test is
    [attempt > maxAttempts] with [maxAttempts] ten, so ten retries follow
    the first attempt) and returns the transient sub-error of that last
    attempt. *)
Theorem create_retry_budget lib rt cloud fuel a e changes name group errs sub :
  Elastigroup.Name e = Some name ->
  outcome (create_group lib rt cloud (applyDefaults e)) = Ok group ->
  NewElastigroup_error cloud = None ->
  Elastigroup.IAMInstanceProfile e <> None ->
  (forall n, (1 <= n <= S maxAttempts)%nat ->
     Create cloud n group = Err (ClientErrors (errs n)) /\
     firstTransient (errs n) = Some (sub n)) ->
  (maxAttempts < fuel)%nat ->
  create lib rt cloud fuel a e changes =
    (trace (create_group lib rt cloud (applyDefaults e)) ++ attempts 11 group,
     Some (Err (ErrorfSub
       "IAM instance profile not yet created/propagated (original error: %v)"
       (sub 11%nat)))).
Proof.
  intros Hname Hgroup Hnew Hprofile Herrs Hfuel.
  rewrite (create_run _ _ _ _ _ _ _ name group Hname Hgroup).
  replace fuel with (maxAttempts + S (fuel - S maxAttempts))%nat by lia.
  rewrite (readyLoop_retries cloud _ group errs sub Hnew);
    [|rewrite applyDefaults_IAMInstanceProfile; exact Hprofile
     |intros n Hn; apply Herrs; lia|lia].
  cbn [readyLoop]. rewrite Hnew.
  destruct (Herrs (S (0 + maxAttempts))) as [-> ->]; [lia|].
  cbn. reflexivity.
Qed.

Lemma create_retry_budget_witness :
  exists lookups group,
    create exampleLibrary forwardRuntime transientCloud 12 None profiledNodes None =
      (lookups ++ attempts 11 group,
       Some (Err (ErrorfSub
         "IAM instance profile not yet created/propagated (original error: %v)"
         transientError))).
Proof.
  destruct (create_group exampleLibrary forwardRuntime transientCloud
              (applyDefaults profiledNodes)) as [t [group|err|]] eqn:E;
    [|vm_compute in E; discriminate E..].
  exists t, group.
  rewrite (create_retry_budget exampleLibrary forwardRuntime transientCloud 12 None
             profiledNodes None "nodes" group
             (fun _ => [quotaError; transientError]) (fun _ => transientError)).
  - rewrite E. reflexivity.
  - reflexivity.
  - rewrite E. reflexivity.
  - reflexivity.
  - discriminate.
  - intros n Hn. split; reflexivity.
  - unfold maxAttempts. lia.
Defined.

(** X4.  A task without an instance profile does not survive the
    transient error: the message that announces the retry reads
    [e.IAMInstanceProfile.Name], so when an attempt within the budget meets
    the transient error and the task has no instance profile, [create]
    panics on a nil pointer instead of retrying. *)
Theorem create_transient_error_without_profile_panics
    lib rt cloud fuel a e changes name group errs sub :
  Elastigroup.Name e = Some name ->
  outcome (create_group lib rt cloud (applyDefaults e)) = Ok group ->
  NewElastigroup_error cloud = None ->
  Elastigroup.IAMInstanceProfile e = None ->
  Create cloud 1 group = Err (ClientErrors errs) ->
  firstTransient errs = Some sub ->
  (0 < fuel)%nat ->
  create lib rt cloud fuel a e changes =
    (trace (create_group lib rt cloud (applyDefaults e)) ++ attempts 1 group, Some Panic).
Proof.
  intros Hname Hgroup Hnew Hprofile Herr Hsub Hfuel.
  rewrite (create_run _ _ _ _ _ _ _ name group Hname Hgroup).
  destruct fuel as [|fuel]; [lia|].
  cbn [readyLoop]. rewrite Hnew, Herr, Hsub, applyDefaults_IAMInstanceProfile, Hprofile.
  cbn. reflexivity.
Qed.

Lemma create_transient_error_without_profile_panics_witness :
  exists lookups group,
    create exampleLibrary forwardRuntime transientCloud 3 None nodes None =
      (lookups ++ attempts 1 group, Some Panic).
Proof.
  destruct (create_group exampleLibrary forwardRuntime transientCloud
              (applyDefaults nodes)) as [t [group|err|]] eqn:E;
    [|vm_compute in E; discriminate E..].
  exists t, group.
  rewrite (create_transient_error_without_profile_panics exampleLibrary forwardRuntime
             transientCloud 3 None nodes None "nodes" group
             [quotaError; transientError] transientError).
  - rewrite E. reflexivity.
  - reflexivity.
  - rewrite E. reflexivity.
  - reflexivity.
  - reflexivity.
  - reflexivity.
  - reflexivity.
  - lia.
Defined.

(** The group [create] builds, field by field. *)
Lemma create_group_parts lib rt cloud e g :
  outcome (create_group lib rt cloud e) = Ok g ->
  exists minSize maxSize sshKey mappings image lc,
    Elastigroup.MinSize e = Some minSize /\
    Elastigroup.MaxSize e = Some maxSize /\
    Elastigroup.SSHKey e = Some sshKey /\
    outcome (blockDeviceMappings cloud (Elastigroup.RootVolumeOpts e) e) = Ok mappings /\
    outcome (resolveImage cloud (StringValue (Elastigroup.ImageID e))) = Ok image /\
    aws.LaunchSpecification.Monitoring lc = Elastigroup.Monitoring e /\
    aws.LaunchSpecification.KeyPair lc = awstasks.SSHKey.Name sshKey /\
    aws.LaunchSpecification.Tenancy lc = Elastigroup.Tenancy e /\
    aws.LaunchSpecification.BlockDeviceMappings lc = Some mappings /\
    aws.LaunchSpecification.ImageID lc = ec2.Image.ImageId image /\
    aws.LaunchSpecification.HealthCheckType lc = Elastigroup.HealthCheckType e /\
    aws.LaunchSpecification.Tags lc =
      (if not_nil (Elastigroup.Tags e) then Some (buildTags rt e) else None) /\
    aws.LaunchSpecification.EBSOptimized lc = None /\
    g = {| aws.Group.ID := None;
           aws.Group.Name := Elastigroup.Name e;
           aws.Group.Description := Elastigroup.Name e;
           aws.Group.Region := Elastigroup.Region e;
           aws.Group.Capacity :=
             Some (aws.Capacity.mk (Some minSize) (Some maxSize) (Some minSize));
           aws.Group.Strategy :=
             Some (aws.Strategy.mk
                     (Elastigroup.SpotPercentage e)
                     (Some (normalizeOrientation (Elastigroup.Orientation e)))
                     (Elastigroup.FallbackToOnDemand e)
                     (Elastigroup.UtilizeReservedInstances e)
                     (Elastigroup.DrainingTimeout e));
           aws.Group.Compute :=
             Some (aws.Compute.mk (Elastigroup.Product e)
                     (Some (aws.InstanceTypes.mk (Elastigroup.OnDemandInstanceType e)
                                                 (Elastigroup.SpotInstanceTypes e)))
                     (Some (map (fun subnet => StringValue (awstasks.Subnet.ID subnet))
                                (default [] (Elastigroup.Subnets e))))
                     (Some lc));
           aws.Group.Integration := create_Integration rt e |}.
Proof.
  unfold create_group. intros H.
  repeat bind_inv H. apply ret_Ok in H.
  apply deref_Ok in Hm, Hm0, Hm1.
  match goal with
  | H : _ = g |- _ =>
      match type of H with
      | context [aws.Compute.mk _ _ _ (Some ?l)] =>
          exists x, x0, x1, x2, x3, l
      end
  end.
  repeat (split; [first [assumption | reflexivity]|]).
  subst g. unfold int_of_int64. f_equal. f_equal. f_equal.
  destruct (Elastigroup.DrainingTimeout e); reflexivity.
Qed.

(** ** What create sends *)

(** X5.  A new group starts at its minimum: every group that [create]
    sends to the provider has no ID yet, carries the name of the task as
    its name and description, and has the desired MinSize both as its
    minimum and as its target capacity and the desired MaxSize as its
    maximum; in particular [create] sends nothing for a task without
    MinSize or MaxSize. *)
Theorem create_starts_at_minimum lib rt cloud fuel a e changes g :
  SpotinstCreate g ∈ fst (create lib rt cloud fuel a e changes) ->
  Elastigroup.MinSize e <> None /\
  Elastigroup.MaxSize e <> None /\
  sentMinimum g = Elastigroup.MinSize e /\
  sentTarget g = Elastigroup.MinSize e /\
  sentMaximum g = Elastigroup.MaxSize e /\
  aws.Group.ID g = None /\
  aws.Group.Name g = Elastigroup.Name e /\
  aws.Group.Description g = Elastigroup.Name e.
Proof.
  intros Hin. apply create_sent in Hin. apply create_group_parts in Hin.
  destruct Hin as (minSize & maxSize & sshKey & mappings & image & lc
                   & Hmin & Hmax & _ & _ & _ & _ & _ & _ & _ & _ & _ & _ & _ & ->).
  rewrite applyDefaults_fields in Hmin, Hmax. cbn in Hmin, Hmax.
  rewrite Hmin, Hmax, applyDefaults_fields. cbn.
  repeat (split; [first [discriminate | reflexivity]|]). reflexivity.
Qed.

Lemma create_starts_at_minimum_witness :
  exists g,
    SpotinstCreate g ∈
      fst (create exampleLibrary forwardRuntime emptyCloud 1 None nodes None) /\
    sentMinimum g = Some 2 /\ sentTarget g = Some 2 /\ sentMaximum g = Some 5.
Proof.
  eexists. split.
  - vm_compute.
    repeat first [apply list_elem_of_here | apply list_elem_of_further].
  - match goal with
    | |- sentMinimum ?g = _ /\ _ =>
        destruct (create_starts_at_minimum exampleLibrary forwardRuntime emptyCloud 1
                    None nodes None g) as (_ & _ & Hmin & Htarget & Hmax & _)
    end.
    + vm_compute.
      repeat first [apply list_elem_of_here | apply list_elem_of_further].
    + rewrite Hmin, Htarget, Hmax. repeat split.
Defined.

(** X6.  [create] fills in the defaults before it builds the group: the
    group sent always carries a product, both strategy flags, the
    monitoring flag and the health check type, with the values of the task
    where it sets them and otherwise ["Linux/UNIX"] (also for an empty
    product), [true], [true], [false] and ["K8S_NODE"]. *)
Theorem create_sends_defaults lib rt cloud fuel a e changes g :
  SpotinstCreate g ∈ fst (create lib rt cloud fuel a e changes) ->
  exists strategy compute lc,
    aws.Group.Strategy g = Some strategy /\
    aws.Group.Compute g = Some compute /\
    aws.Compute.LaunchSpecification compute = Some lc /\
    aws.Strategy.FallbackToOnDemand strategy =
      Some (default true (Elastigroup.FallbackToOnDemand e)) /\
    aws.Strategy.UtilizeReservedInstances strategy =
      Some (default true (Elastigroup.UtilizeReservedInstances e)) /\
    aws.Compute.Product compute =
      Some (if nil_or_empty (Elastigroup.Product e) then "Linux/UNIX"
            else StringValue (Elastigroup.Product e)) /\
    aws.LaunchSpecification.Monitoring lc =
      Some (default false (Elastigroup.Monitoring e)) /\
    aws.LaunchSpecification.HealthCheckType lc =
      Some (default "K8S_NODE" (Elastigroup.HealthCheckType e)).
Proof.
  intros Hin. apply create_sent in Hin. apply create_group_parts in Hin.
  destruct Hin as (minSize & maxSize & sshKey & mappings & image & lc
                   & _ & _ & _ & _ & _ & Hmon & _ & _ & _ & _ & Hhc & _ & _ & ->).
  eexists _, _, lc. cbn.
  repeat (split; [reflexivity|]).
  rewrite Hmon, Hhc, applyDefaults_fields. cbn. repeat split.
Qed.

Lemma create_sends_defaults_witness :
  exists g strategy compute lc,
    SpotinstCreate g ∈
      fst (create exampleLibrary forwardRuntime emptyCloud 1 None nodes None) /\
    aws.Group.Strategy g = Some strategy /\
    aws.Group.Compute g = Some compute /\
    aws.Compute.LaunchSpecification compute = Some lc /\
    aws.Strategy.FallbackToOnDemand strategy = Some true /\
    aws.Compute.Product compute = Some "Linux/UNIX" /\
    aws.LaunchSpecification.HealthCheckType lc = Some "K8S_NODE".
Proof.
  eexists.
  match goal with
  | |- exists strategy compute lc, SpotinstCreate ?g ∈ _ /\ _ =>
      assert (Hin : SpotinstCreate g ∈
                fst (create exampleLibrary forwardRuntime emptyCloud 1 None nodes None))
  end.
  - vm_compute.
    repeat first [apply list_elem_of_here | apply list_elem_of_further].
  - destruct (create_sends_defaults exampleLibrary forwardRuntime emptyCloud 1
                None nodes None _ Hin)
      as (strategy & compute & lc & Hs & Hc & Hl & Hf & _ & Hp & _ & Hh).
    exists strategy, compute, lc.
    split; [exact Hin|]. split; [exact Hs|]. split; [exact Hc|]. split; [exact Hl|].
    split; [exact Hf|]. split; [exact Hp|exact Hh].
Defined.

Lemma create_group_reference_lookup lib rt cloud e :
  Forall is_reference_lookup (trace (create_group lib rt cloud e)).
Proof.
  unfold create_group, blockDeviceMappings, buildRootDevice, buildEphemeralDevices,
         resolveImage, create_LoadBalancer.
  repeat trace_step.
Qed.

(** X7.  [create] resolves everything it needs before its first attempt,
    and every attempt sends the same group: its calls are lookups, followed
    by waits of ten seconds and [Create] calls of the one group built from
    the task with its defaults.  The lookups resolve the image, the machine
    type and the load balancer; [create] never lists or updates a group
    and never warns. *)
Theorem create_looks_up_then_attempts lib rt cloud fuel a e changes :
  exists lookups loop,
    fst (create lib rt cloud fuel a e changes) = lookups ++ loop /\
    Forall is_reference_lookup lookups /\
    Forall (fun ev =>
              ev = Sleep 10 \/
              exists g, outcome (create_group lib rt cloud (applyDefaults e)) = Ok g /\
                        ev = SpotinstCreate g) loop.
Proof.
  unfold create. destruct (Elastigroup.Name e) as [name|]; cbn [deref ret panic].
  2:{ exists [], []. repeat split; constructor. }
  pose proof (create_group_reference_lookup lib rt cloud (applyDefaults e)) as Hl.
  destruct (create_group lib rt cloud (applyDefaults e)) as [t [group|err|]];
    unfold trace in Hl; cbn [fst] in Hl.
  - pose proof (readyLoop_trace fuel cloud (applyDefaults e) group 0) as Hr.
    destruct (readyLoop fuel cloud (applyDefaults e) group 0) as [t' r].
    cbn [fst] in *. exists t, t'. repeat (split; [first [reflexivity|assumption]|]).
    eapply Forall_impl; [exact Hr|]. intros ev [->| ->]; [left; reflexivity|].
    right. exists group. split; reflexivity.
  - exists t, []. cbn [fst]. rewrite app_nil_r.
    repeat (split; [first [reflexivity|assumption]|]). constructor.
  - exists t, []. cbn [fst]. rewrite app_nil_r.
    repeat (split; [first [reflexivity|assumption]|]). constructor.
Qed.

(** ** The lookup of the live group *)

Lemma find_in_first groups name g :
  find_in groups name = Some g <->
  exists before after,
    groups = before ++ g :: after /\
    StringValue (aws.Group.Name g) = name /\
    Forall (fun other => StringValue (aws.Group.Name other) <> name) before.
Proof.
  induction groups as [|group groups IH]; cbn.
  - split; [discriminate|]. intros (before & after & Heq & _).
    destruct before; discriminate Heq.
  - destruct (String.eqb_spec (StringValue (aws.Group.Name group)) name) as [Heq|Hne].
    + split.
      * intros [= ->]. exists [], groups. repeat split; [exact Heq|constructor].
      * intros (before & after & Hl & Hname & Hbefore).
        destruct before as [|other before]; cbn in Hl.
        -- injection Hl as -> _. reflexivity.
        -- injection Hl as -> _. inversion Hbefore; subst. contradiction.
    + rewrite IH. split.
      * intros (before & after & -> & Hname & Hbefore).
        exists (group :: before), after. repeat split; [exact Hname|].
        constructor; assumption.
      * intros (before & after & Hl & Hname & Hbefore).
        destruct before as [|other before]; cbn in Hl.
        -- injection Hl as -> _. contradiction.
        -- injection Hl as -> ->. inversion Hbefore; subst.
           exists before, after. repeat split; assumption.
Qed.

(** [find] makes one call, whatever the listing answers. *)
Lemma find_trace cloud name : trace (find cloud name) = [SpotinstList].
Proof. unfold find, call, wrap_err. destruct (List cloud) as [groups| |]; cbn;
  [destruct (find_in groups name)|..]; reflexivity. Qed.

Lemma find_List_error cloud name err :
  List cloud = Err err ->
  outcome (find cloud name) =
    Err (ErrorfWrap "spotinst: failed to find elastigroup %s: %v" [name] err).
Proof. intros H. unfold find, call, wrap_err. rewrite H. reflexivity. Qed.

(** X8.  [find] lists the groups once and takes the first one whose name
    is the name asked for: it returns a group exactly when the listing
    succeeds and holds that group with no group of the same name before it,
    so that of two live groups with one name the later one is never seen.
    A listing that fails is reported with the name and the provider's
    error. *)
Theorem find_returns_first_group_of_name cloud name :
  trace (find cloud name) = [SpotinstList] /\
  (forall g,
     outcome (find cloud name) = Ok g <->
     exists before after,
       List cloud = Ok (before ++ g :: after) /\
       StringValue (aws.Group.Name g) = name /\
       Forall (fun other => StringValue (aws.Group.Name other) <> name) before) /\
  (forall err,
     List cloud = Err err ->
     outcome (find cloud name) =
       Err (ErrorfWrap "spotinst: failed to find elastigroup %s: %v" [name] err)).
Proof.
  unfold find, call, wrap_err. destruct (List cloud) as [groups|err|]; cbn.
  - destruct (find_in groups name) as [out|] eqn:E; cbn.
    + split; [reflexivity|]. split; [|discriminate]. intros g. split.
      * intros [= <-]. apply find_in_first in E.
        destruct E as (before & after & -> & Hname & Hbefore). eauto.
      * intros (before & after & [= ->] & Hname & Hbefore).
        assert (E' : find_in (before ++ g :: after) name = Some g)
          by (apply find_in_first; eauto).
        rewrite E in E'. injection E' as ->. reflexivity.
    + split; [reflexivity|]. split; [|discriminate]. intros g. split; [discriminate|].
      intros (before & after & [= ->] & Hname & Hbefore).
      assert (E' : find_in (before ++ g :: after) name = Some g)
        by (apply find_in_first; eauto).
      rewrite E in E'. discriminate E'.
  - split; [reflexivity|]. split.
    + intros g. split; [discriminate|]. intros (before & after & Hl & _). discriminate Hl.
    + intros err' [= ->]. reflexivity.
  - split; [reflexivity|]. split; [|discriminate].
    intros g. split; [discriminate|]. intros (before & after & Hl & _). discriminate Hl.
Qed.

(** X9.  [CheckExisting] turns every failure of the lookup into "absent":
    it never returns an error, it answers [true] exactly when [find] returns
    a group, and when the listing of the groups fails it answers [false]
    just as it does for a group that does not exist. *)
Theorem CheckExisting_reports_lookup_failure_as_absent cloud e name :
  Elastigroup.Name e = Some name ->
  trace (CheckExisting cloud e) = [SpotinstList] /\
  (outcome (CheckExisting cloud e) = Ok true <->
   exists g, outcome (find cloud name) = Ok g) /\
  (forall err, outcome (find cloud name) = Err err ->
     outcome (CheckExisting cloud e) = Ok false) /\
  (forall err, List cloud = Err err -> outcome (CheckExisting cloud e) = Ok false) /\
  (forall err, outcome (CheckExisting cloud e) <> Err err).
Proof.
  intros Hname. unfold CheckExisting. rewrite Hname. cbn [deref]. rewrite bind_ret_l.
  pose proof (find_trace cloud name) as Ht.
  pose proof (find_List_error cloud name) as Herr.
  destruct (find cloud name) as [t [g|err|]] eqn:E; unfold trace, outcome in *;
    cbn [fst snd] in *; subst t.
  - split; [reflexivity|]. split; [split; eauto|]. split; [discriminate|].
    split; [|discriminate]. intros err Hl. specialize (Herr err Hl). discriminate Herr.
  - split; [reflexivity|]. split.
    + split; [discriminate|]. intros [g Hg]. discriminate Hg.
    + split; [reflexivity|]. split; [reflexivity|discriminate].
  - split; [reflexivity|]. split.
    + split; [discriminate|]. intros [g Hg]. discriminate Hg.
    + split; [discriminate|]. split; [|discriminate].
      intros err Hl. specialize (Herr err Hl). discriminate Herr.
Qed.

Lemma CheckExisting_reports_lookup_failure_as_absent_witness :
  CheckExisting offlineCloud nodes = ([SpotinstList], Ok false) /\
  CheckExisting exampleCloud nodes = ([SpotinstList], Ok true).
Proof.
  destruct (CheckExisting_reports_lookup_failure_as_absent offlineCloud nodes "nodes")
    as (Ht & _ & _ & Hoff & _); [reflexivity|].
  destruct (CheckExisting_reports_lookup_failure_as_absent exampleCloud nodes "nodes")
    as (Ht' & Hfound & _); [reflexivity|].
  split.
  - specialize (Hoff _ eq_refl).
    destruct (CheckExisting offlineCloud nodes) as [t r]. cbn in Ht, Hoff.
    rewrite Ht, Hoff. reflexivity.
  - assert (Hok : outcome (CheckExisting exampleCloud nodes) = Ok true)
      by (apply Hfound; exists liveGroup; reflexivity).
    destruct (CheckExisting exampleCloud nodes) as [t r]. cbn in Ht', Hok.
    rewrite Ht', Hok. reflexivity.
Defined.

(** X10.  Discovery is read-only: [Find] and [CheckExisting] call the
    cloud only to look things up (the listing of the groups, the image,
    the load balancers); they never create or update a group, never wait
    and never warn. *)
Theorem Find_is_read_only lib cloud e :
  Forall is_lookup (trace (Find lib cloud e)) /\
  Forall is_lookup (trace (CheckExisting cloud e)).
Proof.
  split.
  - unfold Find, find, subnetSlicesEqualIgnoreOrder, Find_ImageID, resolveImage,
           Find_LoadBalancer.
    repeat trace_step.
  - unfold CheckExisting.
    apply Forall_trace_bind; [repeat trace_step|intros name _].
    pose proof (find_lookup cloud name) as Hl.
    destruct (find cloud name) as [t [g|err|]]; exact Hl.
Qed.

(** ** The calls of update *)

(** X11.  [update] needs the live group: when the lookup of the group
    fails, because the listing fails or because no group has the name,
    [update] returns the error of the lookup after that one call, whatever
    the changes are; it does not fall back to creating the group. *)
Theorem update_needs_the_live_group lib rt cloud a e changes name err :
  Elastigroup.Name e = Some name ->
  outcome (find cloud name) = Err err ->
  update lib rt cloud a e changes = ([SpotinstList], Err err).
Proof.
  intros Hname Hfind. unfold update. rewrite Hname. cbn [deref]. rewrite bind_ret_l.
  pose proof (find_trace cloud name) as Ht.
  destruct (find cloud name) as [t r]. unfold trace, outcome in *. cbn [fst snd] in *.
  subst t r. reflexivity.
Qed.

Lemma update_needs_the_live_group_witness :
  update exampleLibrary forwardRuntime emptyCloud nodes nodes deltaMax5 =
    ([SpotinstList], Err (Errorf "spotinst: failed to find elastigroup %q" ["nodes"])).
Proof.
  apply (update_needs_the_live_group exampleLibrary forwardRuntime emptyCloud nodes nodes
           deltaMax5 "nodes"); reflexivity.
Defined.

Lemma update_finish_shape cloud s groupID :
  exists warnings updates,
    trace (update_finish cloud s groupID) = warnings ++ updates /\
    (warnings = [] \/ warnings = [coverageWarning groupID (changes_of s)]) /\
    (updates = [] \/ updates = [SpotinstUpdate (group_of s)]).
Proof.
  unfold update_finish.
  destruct (isEmpty (changes_of s)), (changed_of s), (NewElastigroup_error cloud);
    cbn;
    try (destruct (Update cloud (group_of s)); cbn);
    first [ exists [], []; repeat split; left; reflexivity
          | exists [], [SpotinstUpdate (group_of s)]; repeat split;
            [left|right]; reflexivity
          | exists [coverageWarning groupID (changes_of s)], []; repeat split;
            [right|left]; reflexivity
          | exists [coverageWarning groupID (changes_of s)],
                   [SpotinstUpdate (group_of s)]; repeat split; right; reflexivity ].
Qed.

Lemma update_stages_lookups t : Forall is_lookup t -> update_stages t.
Proof.
  intros Hl. exists t, [], []. rewrite app_nil_r. repeat split; auto.
Qed.

Lemma update_stages_app t t' :
  Forall is_lookup t -> update_stages t' -> update_stages (t ++ t').
Proof.
  intros Hl (l & w & u & -> & Hl' & Hw & Hu). exists (t ++ l), w, u.
  rewrite app_assoc. repeat split; try assumption. apply Forall_app; split; assumption.
Qed.

(** X12.  Whatever the changes and the answers of the cloud, [update]
    makes its calls in three stages: lookups first; then at most one
    warning, about the changes it did not apply; then at most one [Update]
    call, which is its last call.  It never calls [Create], never waits and
    never sends a second update. *)
Theorem update_updates_at_most_once lib rt cloud a e changes :
  update_stages (trace (update lib rt cloud a e changes)).
Proof.
  unfold update. rewrite trace_bind, trace_deref.
  apply update_stages_app; [constructor|].
  destruct (outcome (deref (Elastigroup.Name e))) as [name| |];
    [|apply update_stages_lookups; constructor..].
  rewrite trace_bind. apply update_stages_app; [apply find_lookup|].
  destruct (outcome (find cloud name)) as [actual| |];
    [|apply update_stages_lookups; constructor..].
  rewrite trace_bind. apply update_stages_app; [apply update_blocks_lookup|].
  destruct (outcome (update_blocks lib rt cloud actual a e (update_start actual changes)))
    as [s| |]; [|apply update_stages_lookups; constructor..].
  rewrite trace_bind, trace_deref. apply update_stages_app; [constructor|].
  destruct (outcome (deref (aws.Group.ID (group_of s)))) as [groupID| |];
    [|apply update_stages_lookups; constructor..].
  destruct (update_finish_shape cloud s groupID) as (w & u & -> & Hw & Hu).
  exists [], w, u. split; [reflexivity|]. split; [constructor|]. split.
  - destruct Hw as [->| ->]; [left; reflexivity|right; eauto].
  - destruct Hu as [->| ->]; [left; reflexivity|right; eauto].
Qed.

(** X13.  An update the provider rejects fails the task: when the blocks
    of [update] changed the group and the [Update] call returns an error,
    [update] returns that error, wrapped as a failure to update the
    group, and the [Update] call was its last call. *)
Theorem update_provider_error_is_returned
    lib rt cloud a e changes name groups actual groupID s err :
  Elastigroup.Name e = Some name ->
  List cloud = Ok groups ->
  find_in groups name = Some actual ->
  aws.Group.ID actual = Some groupID ->
  outcome (update_blocks lib rt cloud actual a e (update_start actual changes)) = Ok s ->
  changed_of s = true ->
  NewElastigroup_error cloud = None ->
  Update cloud (group_of s) = Err err ->
  outcome (update lib rt cloud a e changes) =
    Err (ErrorfWrap "spotinst: failed to update elastigroup: %v" [] err) /\
  exists calls,
    trace (update lib rt cloud a e changes) = calls ++ [SpotinstUpdate (group_of s)].
Proof.
  intros Hname Hlist Hfind Hid Hblocks Hchanged Hnew Herr.
  pose proof (find_listed cloud name groups actual Hlist Hfind) as Hf.
  rewrite (update_run lib rt cloud a e changes name actual s groupID Hname
             ltac:(rewrite Hf; reflexivity) Hblocks Hid).
  unfold outcome at 1, trace at 1. cbn [fst snd].
  rewrite update_finish_outcome, update_finish_trace by exact Hnew.
  rewrite Hchanged, Herr. split; [reflexivity|].
  eexists. rewrite !app_assoc. reflexivity.
Qed.

Lemma update_provider_error_is_returned_witness :
  outcome (update exampleLibrary forwardRuntime frozenCloud nodes nodes deltaMax5) =
    Err (ErrorfWrap "spotinst: failed to update elastigroup: %v" []
                    (OpaqueError "403 Forbidden")).
Proof.
  refine (proj1 (update_provider_error_is_returned exampleLibrary forwardRuntime
                   frozenCloud nodes nodes deltaMax5 "nodes" [liveGroup] liveGroup "sig-1"
                   (mkUpdateState Elastigroup.new
                      (capacityUpdate "sig-1" None (Some 5) None) true)
                   (OpaqueError "403 Forbidden") _ _ _ _ _ _ _ _));
    reflexivity.
Defined.

(** ** The parts of the group update sends *)

Ltac part_goal :=
  split;
  [ unfold touches_only; repeat split; intros; first [reflexivity | congruence]
  | let Hnil := fresh "Hnil" in
    intros Hnil; first [reflexivity | congruence | rewrite Hnil in *; discriminate] ].

Ltac part_block :=
  let H := fresh "H" in
  intros H; block_inv H;
  repeat match goal with
         | |- context [if ?c then _ else _] => destruct c
         end;
  unfold block_of; part_goal.

Lemma update_Region_part e s s' :
  outcome (update_Region e s) = Ok s' -> block_of PRegion Elastigroup.Region s s'.
Proof. unfold update_Region. part_block. Qed.

Lemma update_SpotPercentage_part e s s' :
  outcome (update_SpotPercentage e s) = Ok s' ->
  block_of PStrategy Elastigroup.SpotPercentage s s'.
Proof. unfold update_SpotPercentage. part_block. Qed.

Lemma update_Orientation_part e s s' :
  outcome (update_Orientation e s) = Ok s' ->
  block_of PStrategy Elastigroup.Orientation s s'.
Proof. unfold update_Orientation. part_block. Qed.

Lemma update_FallbackToOnDemand_part e s s' :
  outcome (update_FallbackToOnDemand e s) = Ok s' ->
  block_of PStrategy Elastigroup.FallbackToOnDemand s s'.
Proof. unfold update_FallbackToOnDemand. part_block. Qed.

Lemma update_UtilizeReservedInstances_part e s s' :
  outcome (update_UtilizeReservedInstances e s) = Ok s' ->
  block_of PStrategy Elastigroup.UtilizeReservedInstances s s'.
Proof. unfold update_UtilizeReservedInstances. part_block. Qed.

Lemma update_DrainingTimeout_part e s s' :
  outcome (update_DrainingTimeout e s) = Ok s' ->
  block_of PStrategy Elastigroup.DrainingTimeout s s'.
Proof. unfold update_DrainingTimeout. part_block. Qed.

Lemma update_Product_part e s s' :
  outcome (update_Product e s) = Ok s' -> block_of PCompute Elastigroup.Product s s'.
Proof. unfold update_Product. part_block. Qed.

Lemma update_OnDemandInstanceType_part e s s' :
  outcome (update_OnDemandInstanceType e s) = Ok s' ->
  block_of PCompute Elastigroup.OnDemandInstanceType s s'.
Proof. unfold update_OnDemandInstanceType. part_block. Qed.

Lemma update_SpotInstanceTypes_part e s s' :
  outcome (update_SpotInstanceTypes e s) = Ok s' ->
  block_of PCompute Elastigroup.SpotInstanceTypes s s'.
Proof. unfold update_SpotInstanceTypes. part_block. Qed.

Lemma update_Subnets_part e s s' :
  outcome (update_Subnets e s) = Ok s' -> block_of PCompute Elastigroup.Subnets s s'.
Proof. unfold update_Subnets. part_block. Qed.

Lemma update_SecurityGroups_part e s s' :
  outcome (update_SecurityGroups e s) = Ok s' ->
  block_of PCompute Elastigroup.SecurityGroups s s'.
Proof. unfold update_SecurityGroups. part_block. Qed.

Lemma update_UserData_part lib e s s' :
  outcome (update_UserData lib e s) = Ok s' -> block_of PCompute Elastigroup.UserData s s'.
Proof. unfold update_UserData. part_block. Qed.

Lemma update_AssociatePublicIP_part s s' :
  outcome (update_AssociatePublicIP s) = Ok s' ->
  block_of PCompute Elastigroup.AssociatePublicIP s s'.
Proof. unfold update_AssociatePublicIP. part_block. Qed.

Lemma update_RootVolumeOpts_part cloud e s s' :
  outcome (update_RootVolumeOpts cloud e s) = Ok s' ->
  block_of PCompute Elastigroup.RootVolumeOpts s s'.
Proof.
  unfold update_RootVolumeOpts. intros H. outcome_inv; subst; simpl;
    unfold block_of; part_goal.
Qed.

Lemma update_ImageID_part cloud actual e s s' :
  outcome (update_ImageID cloud actual e s) = Ok s' ->
  block_of PCompute Elastigroup.ImageID s s'.
Proof. unfold update_ImageID. part_block. Qed.

Lemma update_Tags_part rt e s s' :
  outcome (update_Tags rt e s) = Ok s' -> block_of PCompute Elastigroup.Tags s s'.
Proof. unfold update_Tags. part_block. Qed.

Lemma update_IAMInstanceProfile_part e s s' :
  outcome (update_IAMInstanceProfile e s) = Ok s' ->
  block_of PCompute Elastigroup.IAMInstanceProfile s s'.
Proof. unfold update_IAMInstanceProfile. part_block. Qed.

Lemma update_Monitoring_part e s s' :
  outcome (update_Monitoring e s) = Ok s' -> block_of PCompute Elastigroup.Monitoring s s'.
Proof. unfold update_Monitoring. part_block. Qed.

Lemma update_SSHKey_part e s s' :
  outcome (update_SSHKey e s) = Ok s' -> block_of PCompute Elastigroup.SSHKey s s'.
Proof. unfold update_SSHKey. part_block. Qed.

Lemma update_LoadBalancer_part cloud e s s' :
  outcome (update_LoadBalancer cloud e s) = Ok s' ->
  block_of PCompute Elastigroup.LoadBalancer s s'.
Proof. unfold update_LoadBalancer. part_block. Qed.

Lemma update_Tenancy_part e s s' :
  outcome (update_Tenancy e s) = Ok s' -> block_of PCompute Elastigroup.Tenancy s s'.
Proof. unfold update_Tenancy. part_block. Qed.

Lemma update_HealthCheckType_part e s s' :
  outcome (update_HealthCheckType e s) = Ok s' ->
  block_of PCompute Elastigroup.HealthCheckType s s'.
Proof. unfold update_HealthCheckType. part_block. Qed.

Lemma update_MinSize_part actual e s s' :
  outcome (update_MinSize actual e s) = Ok s' ->
  block_of PCapacity Elastigroup.MinSize s s'.
Proof. unfold update_MinSize. part_block. Qed.

Lemma update_MaxSize_part e s s' :
  outcome (update_MaxSize e s) = Ok s' -> block_of PCapacity Elastigroup.MaxSize s s'.
Proof. unfold update_MaxSize. part_block. Qed.

Lemma update_AutoScalerOpts_part rt a e s s' :
  outcome (update_AutoScalerOpts rt a e s) = Ok s' ->
  block_of PIntegration Elastigroup.AutoScalerOpts s s'.
Proof.
  unfold update_AutoScalerOpts. intros H. outcome_inv; subst; simpl;
    unfold block_of; part_goal.
Qed.

Ltac blocks_parts :=
  repeat match goal with
  | H : outcome (update_Region _ _) = Ok _ |- _ =>
      pose proof (update_Region_part _ _ _ H); apply update_Region_frame in H
  | H : outcome (update_SpotPercentage _ _) = Ok _ |- _ =>
      pose proof (update_SpotPercentage_part _ _ _ H); apply update_SpotPercentage_frame in H
  | H : outcome (update_Orientation _ _) = Ok _ |- _ =>
      pose proof (update_Orientation_part _ _ _ H); apply update_Orientation_spec in H
  | H : outcome (update_FallbackToOnDemand _ _) = Ok _ |- _ =>
      pose proof (update_FallbackToOnDemand_part _ _ _ H);
      apply update_FallbackToOnDemand_frame in H
  | H : outcome (update_UtilizeReservedInstances _ _) = Ok _ |- _ =>
      pose proof (update_UtilizeReservedInstances_part _ _ _ H);
      apply update_UtilizeReservedInstances_frame in H
  | H : outcome (update_DrainingTimeout _ _) = Ok _ |- _ =>
      pose proof (update_DrainingTimeout_part _ _ _ H);
      apply update_DrainingTimeout_frame in H
  | H : outcome (update_Product _ _) = Ok _ |- _ =>
      pose proof (update_Product_part _ _ _ H); apply update_Product_frame in H
  | H : outcome (update_OnDemandInstanceType _ _) = Ok _ |- _ =>
      pose proof (update_OnDemandInstanceType_part _ _ _ H);
      apply update_OnDemandInstanceType_frame in H
  | H : outcome (update_SpotInstanceTypes _ _) = Ok _ |- _ =>
      pose proof (update_SpotInstanceTypes_part _ _ _ H);
      apply update_SpotInstanceTypes_frame in H
  | H : outcome (update_Subnets _ _) = Ok _ |- _ =>
      pose proof (update_Subnets_part _ _ _ H); apply update_Subnets_frame in H
  | H : outcome (update_SecurityGroups _ _) = Ok _ |- _ =>
      pose proof (update_SecurityGroups_part _ _ _ H);
      apply update_SecurityGroups_frame in H
  | H : outcome (update_UserData _ _ _) = Ok _ |- _ =>
      pose proof (update_UserData_part _ _ _ _ H); apply update_UserData_frame in H
  | H : outcome (update_AssociatePublicIP _) = Ok _ |- _ =>
      pose proof (update_AssociatePublicIP_part _ _ H);
      apply update_AssociatePublicIP_frame in H
  | H : outcome (update_RootVolumeOpts _ _ _) = Ok _ |- _ =>
      pose proof (update_RootVolumeOpts_part _ _ _ _ H);
      apply update_RootVolumeOpts_frame in H
  | H : outcome (update_ImageID _ _ _ _) = Ok _ |- _ =>
      pose proof (update_ImageID_part _ _ _ _ _ H); apply update_ImageID_frame in H
  | H : outcome (update_Tags _ _ _) = Ok _ |- _ =>
      pose proof (update_Tags_part _ _ _ _ H); apply update_Tags_frame in H
  | H : outcome (update_IAMInstanceProfile _ _) = Ok _ |- _ =>
      pose proof (update_IAMInstanceProfile_part _ _ _ H);
      apply update_IAMInstanceProfile_frame in H
  | H : outcome (update_Monitoring _ _) = Ok _ |- _ =>
      pose proof (update_Monitoring_part _ _ _ H); apply update_Monitoring_frame in H
  | H : outcome (update_SSHKey _ _) = Ok _ |- _ =>
      pose proof (update_SSHKey_part _ _ _ H); apply update_SSHKey_frame in H
  | H : outcome (update_LoadBalancer _ _ _) = Ok _ |- _ =>
      pose proof (update_LoadBalancer_part _ _ _ _ H); apply update_LoadBalancer_frame in H
  | H : outcome (update_Tenancy _ _) = Ok _ |- _ =>
      pose proof (update_Tenancy_part _ _ _ H); apply update_Tenancy_frame in H
  | H : outcome (update_HealthCheckType _ _) = Ok _ |- _ =>
      pose proof (update_HealthCheckType_part _ _ _ H);
      apply update_HealthCheckType_frame in H
  | H : outcome (update_MinSize _ _ _) = Ok _ |- _ =>
      pose proof (update_MinSize_part _ _ _ _ H); apply update_MinSize_spec in H
  | H : outcome (update_MaxSize _ _) = Ok _ |- _ =>
      pose proof (update_MaxSize_part _ _ _ H); apply update_MaxSize_spec in H
  | H : outcome (update_AutoScalerOpts _ _ _ _) = Ok _ |- _ =>
      pose proof (update_AutoScalerOpts_part _ _ _ _ _ H);
      apply update_AutoScalerOpts_frame in H
  end.

(** Uses the changes that are not populated, then follows the equations
    between the groups of successive states. *)
Ltac part_chain :=
  intros;
  repeat match goal with
         | H : ?P -> _, H' : ?P |- _ => specialize (H H')
         end;
  repeat match goal with
         | H : ?k <> ?k' -> _ |- _ =>
             first [ specialize (H ltac:(discriminate)) | clear H ]
         end;
  repeat match goal with
         | H : ?g' = ?g |- _ => is_var g'; is_var g; subst g'
         end;
  chain.

Lemma update_blocks_parts lib rt cloud actual a e s s' :
  outcome (update_blocks lib rt cloud actual a e s) = Ok s' ->
  aws.Group.Name (group_of s') = aws.Group.Name (group_of s) /\
  aws.Group.Description (group_of s') = aws.Group.Description (group_of s) /\
  (Elastigroup.Region (changes_of s) = None ->
   aws.Group.Region (group_of s') = aws.Group.Region (group_of s)) /\
  (Elastigroup.SpotPercentage (changes_of s) = None ->
   Elastigroup.Orientation (changes_of s) = None ->
   Elastigroup.FallbackToOnDemand (changes_of s) = None ->
   Elastigroup.UtilizeReservedInstances (changes_of s) = None ->
   Elastigroup.DrainingTimeout (changes_of s) = None ->
   aws.Group.Strategy (group_of s') = aws.Group.Strategy (group_of s)) /\
  (Elastigroup.MinSize (changes_of s) = None ->
   Elastigroup.MaxSize (changes_of s) = None ->
   aws.Group.Capacity (group_of s') = aws.Group.Capacity (group_of s)) /\
  (Elastigroup.Product (changes_of s) = None ->
   Elastigroup.OnDemandInstanceType (changes_of s) = None ->
   Elastigroup.SpotInstanceTypes (changes_of s) = None ->
   Elastigroup.Subnets (changes_of s) = None ->
   Elastigroup.SecurityGroups (changes_of s) = None ->
   Elastigroup.UserData (changes_of s) = None ->
   Elastigroup.AssociatePublicIP (changes_of s) = None ->
   Elastigroup.RootVolumeOpts (changes_of s) = None ->
   Elastigroup.ImageID (changes_of s) = None ->
   Elastigroup.Tags (changes_of s) = None ->
   Elastigroup.IAMInstanceProfile (changes_of s) = None ->
   Elastigroup.Monitoring (changes_of s) = None ->
   Elastigroup.SSHKey (changes_of s) = None ->
   Elastigroup.LoadBalancer (changes_of s) = None ->
   Elastigroup.Tenancy (changes_of s) = None ->
   Elastigroup.HealthCheckType (changes_of s) = None ->
   aws.Group.Compute (group_of s') = aws.Group.Compute (group_of s)) /\
  (Elastigroup.AutoScalerOpts (changes_of s) = None ->
   aws.Group.Integration (group_of s') = aws.Group.Integration (group_of s)).
Proof.
  unfold update_blocks. intros H. repeat bind_inv H. blocks_parts.
  unfold block_of, touches_only in *.
  repeat match goal with
         | H : _ /\ _ |- _ => destruct H as [H ?]
         end.
  repeat match goal with
         | H : sentOrientation _ = _ |- _ => clear H
         | H : sentMinimum _ = _ |- _ => clear H
         | H : sentMaximum _ = _ |- _ => clear H
         | H : sentTarget _ = _ |- _ => clear H
         | H : group_frame _ _ |- _ => clear H
         | H : forall _ _, _ -> _ -> _ |- _ => clear H
         end.
  repeat match goal with
         | x : update_state |- _ => destruct x
         end; simpl in *.
  repeat match goal with
         | H : _ \/ _ |- _ => destruct H
         end; subst; simpl in *.
  all: (split; [part_chain|]); (split; [part_chain|]); (split; [part_chain|]);
       (split; [part_chain|]); (split; [part_chain|]); (split; [part_chain|]);
       part_chain.
Qed.

(** X14.  [update] sends only what changed: the group of its [Update]
    call carries the ID of the live group and neither a name nor a
    description, and each of its parts (region, strategy, capacity, compute,
    integration) is absent unless one of the changes that belong to that
    part is populated.  An unchanged security-group list, for one, is never
    sent again because the capacity changed. *)
Theorem update_sends_only_changed_parts lib rt cloud a e changes g :
  SpotinstUpdate g ∈ trace (update lib rt cloud a e changes) ->
  (exists name actual,
     Elastigroup.Name e = Some name /\
     outcome (find cloud name) = Ok actual /\
     aws.Group.ID g = aws.Group.ID actual) /\
  aws.Group.Name g = None /\
  aws.Group.Description g = None /\
  (Elastigroup.Region changes = None -> aws.Group.Region g = None) /\
  (Elastigroup.SpotPercentage changes = None ->
   Elastigroup.Orientation changes = None ->
   Elastigroup.FallbackToOnDemand changes = None ->
   Elastigroup.UtilizeReservedInstances changes = None ->
   Elastigroup.DrainingTimeout changes = None ->
   aws.Group.Strategy g = None) /\
  (Elastigroup.MinSize changes = None ->
   Elastigroup.MaxSize changes = None ->
   aws.Group.Capacity g = None) /\
  (Elastigroup.Product changes = None ->
   Elastigroup.OnDemandInstanceType changes = None ->
   Elastigroup.SpotInstanceTypes changes = None ->
   Elastigroup.Subnets changes = None ->
   Elastigroup.SecurityGroups changes = None ->
   Elastigroup.UserData changes = None ->
   Elastigroup.AssociatePublicIP changes = None ->
   Elastigroup.RootVolumeOpts changes = None ->
   Elastigroup.ImageID changes = None ->
   Elastigroup.Tags changes = None ->
   Elastigroup.IAMInstanceProfile changes = None ->
   Elastigroup.Monitoring changes = None ->
   Elastigroup.SSHKey changes = None ->
   Elastigroup.LoadBalancer changes = None ->
   Elastigroup.Tenancy changes = None ->
   Elastigroup.HealthCheckType changes = None ->
   aws.Group.Compute g = None) /\
  (Elastigroup.AutoScalerOpts changes = None -> aws.Group.Integration g = None).
Proof.
  intros Hin. apply update_sent in Hin.
  destruct Hin as (name & actual & s & Hname & Hfind & Hblocks & ->).
  pose proof (update_blocks_group _ _ _ _ _ _ _ _ Hblocks) as (Hid & _).
  apply update_blocks_parts in Hblocks.
  destruct Hblocks as (Hn & Hd & Hr & Hs & Hc & Hm & Hi).
  split; [exists name, actual; repeat split; assumption|].
  split; [exact Hn|]. split; [exact Hd|]. split; [exact Hr|]. split; [exact Hs|].
  split; [exact Hc|]. split; [exact Hm|exact Hi].
Qed.

Lemma update_sends_only_changed_parts_witness :
  exists g,
    SpotinstUpdate g ∈
      trace (update exampleLibrary forwardRuntime exampleCloud nodes nodes deltaMax5) /\
    aws.Group.Strategy g = None /\
    aws.Group.Compute g = None /\
    aws.Group.Integration g = None.
Proof.
  eexists.
  match goal with
  | |- SpotinstUpdate ?g ∈ _ /\ _ =>
      assert (Hin : SpotinstUpdate g ∈
                trace (update exampleLibrary forwardRuntime exampleCloud nodes nodes
                              deltaMax5))
  end.
  - vm_compute.
    repeat first [apply list_elem_of_here | apply list_elem_of_further].
  - destruct (update_sends_only_changed_parts exampleLibrary forwardRuntime exampleCloud
                nodes nodes deltaMax5 _ Hin) as (_ & _ & _ & _ & Hs & _ & Hc & Hi).
    split; [exact Hin|]. split; [apply Hs; reflexivity|].
    split; [apply Hc; reflexivity|apply Hi; reflexivity].
Defined.

(** X15.  [update] compares the image before it sends it: for a Delta
    that carries the image only, it resolves the desired image name and
    sends the resolved ID, alone, exactly when it differs from the image ID
    of the live group; when the two are equal it makes no [Update] call.
    In both cases the change is consumed and no warning is emitted. *)
Theorem update_sends_image_only_if_it_differs
    lib rt cloud a e name groups actual groupID compute lc liveID image newID x :
  Elastigroup.Name e = Some name ->
  List cloud = Ok groups ->
  find_in groups name = Some actual ->
  aws.Group.ID actual = Some groupID ->
  aws.Group.Compute actual = Some compute ->
  aws.Compute.LaunchSpecification compute = Some lc ->
  aws.LaunchSpecification.ImageID lc = Some liveID ->
  ResolveImage cloud (StringValue (Elastigroup.ImageID e)) = Ok (Some image) ->
  ec2.Image.ImageId image = Some newID ->
  NewElastigroup_error cloud = None ->
  Update cloud (imageUpdate groupID (Some newID)) = Ok tt ->
  update lib rt cloud a e (Elastigroup.set_ImageID (Some x) Elastigroup.new) =
    ([SpotinstList; ResolveImageCall (StringValue (Elastigroup.ImageID e))]
       ++ (if String.eqb liveID newID then []
           else [SpotinstUpdate (imageUpdate groupID (Some newID))]),
     Ok Elastigroup.new).
Proof.
  intros Hname Hlist Hfind Hid Hcompute Hlc Hlive Hresolve Hnew Hwrap Hupdate.
  pose proof (find_listed cloud name groups actual Hlist Hfind) as Hf.
  assert (Hblocks :
    update_blocks lib rt cloud actual a e
      (update_start actual (Elastigroup.set_ImageID (Some x) Elastigroup.new)) =
    ([ResolveImageCall (StringValue (Elastigroup.ImageID e))],
     Ok (mkUpdateState Elastigroup.new
           (if String.eqb liveID newID
            then aws.Group.set_ID (Some groupID) aws.Group.new
            else imageUpdate groupID (Some newID))
           (negb (String.eqb liveID newID))))).
  { unfold update_blocks, update_ImageID, resolveImage, when_changed, call, wrap_err.
    cbn. rewrite Hresolve. cbn. rewrite Hcompute. cbn. rewrite Hlc. cbn.
    rewrite Hlive. cbn. rewrite Hnew. cbn. unfold update_start. rewrite Hid.
    destruct (String.eqb liveID newID); reflexivity. }
  rewrite (update_run lib rt cloud a e _ name actual _ groupID Hname
             ltac:(rewrite Hf; reflexivity) ltac:(rewrite Hblocks; reflexivity) Hid).
  rewrite update_finish_outcome, update_finish_trace by exact Hwrap.
  rewrite Hf, Hblocks. unfold trace. cbn [fst snd changes_of changed_of group_of].
  destruct (String.eqb liveID newID); cbn; [reflexivity|].
  rewrite Hupdate. reflexivity.
Qed.

Lemma update_sends_image_only_if_it_differs_witness :
  update exampleLibrary forwardRuntime (cloudWithImage "ami-1") nodes nodes deltaImage =
    ([SpotinstList; ResolveImageCall "ami-1"], Ok Elastigroup.new) /\
  update exampleLibrary forwardRuntime (cloudWithImage "ami-0") nodes nodes deltaImage =
    ([SpotinstList; ResolveImageCall "ami-1";
      SpotinstUpdate (imageUpdate "sig-1" (Some "ami-1"))], Ok Elastigroup.new).
Proof.
  split.
  - exact (update_sends_image_only_if_it_differs exampleLibrary forwardRuntime
             (cloudWithImage "ami-1") nodes nodes "nodes" [groupWithImage "ami-1"]
             (groupWithImage "ami-1") "sig-1" _ _ "ami-1" exampleImage "ami-1" "ami-1"
             eq_refl eq_refl eq_refl eq_refl eq_refl eq_refl eq_refl eq_refl eq_refl
             eq_refl eq_refl).
  - exact (update_sends_image_only_if_it_differs exampleLibrary forwardRuntime
             (cloudWithImage "ami-0") nodes nodes "nodes" [groupWithImage "ami-0"]
             (groupWithImage "ami-0") "sig-1" _ _ "ami-0" exampleImage "ami-1" "ami-1"
             eq_refl eq_refl eq_refl eq_refl eq_refl eq_refl eq_refl eq_refl eq_refl
             eq_refl eq_refl).
Defined.

(** ** applyDefaults *)

Lemma nil_or_empty_default (p : option string) (d : string) :
  d <> "" ->
  nil_or_empty (Some (if nil_or_empty p then d else StringValue p)) = false.
Proof.
  intros Hd. destruct p as [s|]; cbn.
  - destruct (String.eqb s "") eqn:E; [|exact E]. apply String.eqb_neq. exact Hd.
  - apply String.eqb_neq. exact Hd.
Qed.

Lemma applyDefaults_defaulted (e : Elastigroup.t) : defaulted (applyDefaults e) = true.
Proof.
  rewrite applyDefaults_fields. unfold defaulted.
  match goal with
  | |- context [Elastigroup.FallbackToOnDemand ?x] =>
      change (Elastigroup.FallbackToOnDemand x)
        with (Some (default true (Elastigroup.FallbackToOnDemand e)));
      change (Elastigroup.UtilizeReservedInstances x)
        with (Some (default true (Elastigroup.UtilizeReservedInstances e)));
      change (Elastigroup.Product x)
        with (Some (if nil_or_empty (Elastigroup.Product e) then "Linux/UNIX"
                    else StringValue (Elastigroup.Product e)));
      change (Elastigroup.Orientation x)
        with (Some (if nil_or_empty (Elastigroup.Orientation e) then "balanced"
                    else StringValue (Elastigroup.Orientation e)));
      change (Elastigroup.Monitoring x)
        with (Some (default false (Elastigroup.Monitoring e)));
      change (Elastigroup.HealthCheckType x)
        with (Some (default "K8S_NODE" (Elastigroup.HealthCheckType e)))
  end.
  rewrite !nil_or_empty_default by discriminate. reflexivity.
Qed.

Lemma applyDefaults_fixed (e : Elastigroup.t) : defaulted e = true -> applyDefaults e = e.
Proof.
  unfold defaulted. intros H.
  repeat match goal with
         | H : _ && _ = true |- _ => apply andb_prop in H; destruct H
         end.
  rewrite applyDefaults_fields.
  destruct e as [name lifecycle id region minSize maxSize spot utilize fallback
                 draining health product orientation tags userData image onDemand
                 spotTypes profile lb key subnets sgs monitoring publicIP tenancy
                 root autoScaler].
  cbn [Elastigroup.FallbackToOnDemand Elastigroup.UtilizeReservedInstances
       Elastigroup.Product Elastigroup.Orientation Elastigroup.Monitoring
       Elastigroup.HealthCheckType] in *.
  destruct fallback; [|discriminate]. destruct utilize; [|discriminate].
  destruct monitoring; [|discriminate]. destruct health; [|discriminate].
  destruct product as [p|]; [|discriminate]. destruct orientation as [o|]; [|discriminate].
  match goal with H : negb (nil_or_empty (Some p)) = true |- _ =>
    apply negb_true_iff in H; rewrite H end.
  match goal with H : negb (nil_or_empty (Some o)) = true |- _ =>
    apply negb_true_iff in H; rewrite H end.
  reflexivity.
Qed.

(** X16.  [applyDefaults] is idempotent: a second application changes
    nothing, so a task that went through [create] or [RenderTerraform] can
    go through them again. *)
Theorem applyDefaults_idempotent (e : Elastigroup.t) :
  applyDefaults (applyDefaults e) = applyDefaults e.
Proof. apply applyDefaults_fixed. apply applyDefaults_defaulted. Qed.

(** X17.  [applyDefaults] fills in only what the task leaves open: it
    leaves a task unchanged exactly when the task sets its two strategy
    flags, its monitoring flag and its health check type and gives a
    non-empty product and orientation; an empty product or orientation is
    replaced like a missing one, and no other field is ever touched. *)
Theorem applyDefaults_fills_only_unset_fields (e : Elastigroup.t) :
  (applyDefaults e = e <-> defaulted e = true) /\
  defaulted (applyDefaults e) = true /\
  Elastigroup.Product (applyDefaults (Elastigroup.set_Product (Some "") e)) =
    Some "Linux/UNIX" /\
  Elastigroup.Orientation (applyDefaults (Elastigroup.set_Orientation (Some "") e)) =
    Some "balanced" /\
  Elastigroup.set_FallbackToOnDemand None
    (Elastigroup.set_UtilizeReservedInstances None
       (Elastigroup.set_Product None
          (Elastigroup.set_Orientation None
             (Elastigroup.set_Monitoring None
                (Elastigroup.set_HealthCheckType None (applyDefaults e)))))) =
  Elastigroup.set_FallbackToOnDemand None
    (Elastigroup.set_UtilizeReservedInstances None
       (Elastigroup.set_Product None
          (Elastigroup.set_Orientation None
             (Elastigroup.set_Monitoring None
                (Elastigroup.set_HealthCheckType None e))))).
Proof.
  split; [|split; [|split; [|split]]].
  - split; [|apply applyDefaults_fixed].
    intros H. rewrite <- H. apply applyDefaults_defaulted.
  - apply applyDefaults_defaulted.
  - rewrite applyDefaults_fields. reflexivity.
  - rewrite applyDefaults_fields. reflexivity.
  - rewrite applyDefaults_fields. reflexivity.
Qed.

(** ** The Terraform rendering *)

(** The resource handed to the target, with what it was built from. *)
Lemma RenderTerraform_rendered_parts lib rt cloud t a e changes kind name tf :
  RenderResource kind name tf ∈ trace (RenderTerraform lib rt cloud t a e changes) ->
  exists imageID role parts,
    outcome (if not_nil (Elastigroup.ImageID (applyDefaults e)) then
               let* image :=
                 resolveImage cloud (StringValue (Elastigroup.ImageID (applyDefaults e))) in
               ret (ec2.Image.ImageId image)
             else ret None) = Ok imageID /\
    roleOfTags (CloudTagInstanceGroupRolePrefix lib)
      (map fst (range_map rt RangeRoleTags
                  (default ∅ (Elastigroup.Tags (applyDefaults e))))) "" = Ok role /\
    outcome (RenderTerraform_calls lib cloud t (applyDefaults e) role) = Ok parts /\
    Elastigroup.Name e = Some name /\
    kind = "spotinst_elastigroup_aws" /\
    tf = RenderTerraform_tf lib rt (applyDefaults e) imageID (fst parts) (snd parts).
Proof.
  unfold RenderTerraform. intros Hin.
  apply elem_of_trace_bind in Hin. destruct Hin as [Hin|(imageID & Himage & Hin)].
  { exfalso. revert Hin. apply lookup_not_resource.
    destruct (not_nil _); [|constructor].
    apply Forall_trace_bind; [apply resolveImage_lookup|intros ? ?]. constructor. }
  apply elem_of_trace_bind in Hin. destruct Hin as [Hin|(role & Hrole & Hin)].
  { inversion Hin. }
  apply elem_of_trace_bind in Hin. destruct Hin as [Hin|(parts & Hparts & Hin)].
  { exfalso. exact (RenderTerraform_calls_no_resource _ _ _ _ _ _ _ _ Hin). }
  apply elem_of_trace_bind in Hin. destruct Hin as [Hin|(name' & Hname & Hin)].
  { rewrite trace_deref in Hin. inversion Hin. }
  cbn in Hin. apply list_elem_of_singleton in Hin. injection Hin as -> -> ->.
  apply deref_Ok in Hname. rewrite applyDefaults_fields in Hname.
  exists imageID, role, parts. repeat split; assumption.
Qed.

Lemma addOutputVariables_terraform t role suffix links :
  Forall is_terraform_call (trace (addOutputVariables t role suffix links)).
Proof.
  induction links as [|link links IH]; cbn [addOutputVariables]; [constructor|].
  apply Forall_trace_bind; [|intros ? ?; exact IH].
  destruct (negb (String.eqb role "")); repeat constructor.
Qed.

(** X18.  The Terraform rendering leaves the provider alone: it calls the
    cloud only to resolve the image and the devices of the machine type,
    and otherwise only the target; it never lists, creates or updates a
    group, never looks for a load balancer, never waits and never warns. *)
Theorem RenderTerraform_makes_no_provider_call lib rt cloud t a e changes :
  Forall is_terraform_call (trace (RenderTerraform lib rt cloud t a e changes)).
Proof.
  unfold RenderTerraform, RenderTerraform_calls, RenderTerraform_RootVolumeOpts,
         buildRootDevice, buildEphemeralDevices, resolveImage.
  repeat first [ apply Forall_trace_bind;
                 [apply addOutputVariables_terraform|intros ? ?]
               | trace_step ].
Qed.

(** X19.  The link other tasks render to this group names the resource
    that [RenderTerraform] renders: every resource handed to the target is
    of the kind and under the name that [TerraformLink] refers to, and the
    name is the task's identity of [CompareWithID]. *)
Theorem TerraformLink_names_the_rendered_resource
    lib rt cloud t a e changes kind name tf :
  RenderResource kind name tf ∈ trace (RenderTerraform lib rt cloud t a e changes) ->
  TerraformLink e = Ok (LiteralProperty kind name "id") /\
  CompareWithID e = Some name /\
  terraformElastigroup.Name tf = Some name.
Proof.
  intros Hin. apply RenderTerraform_rendered_parts in Hin.
  destruct Hin as (imageID & role & parts & _ & _ & _ & Hname & -> & ->).
  unfold TerraformLink, CompareWithID. rewrite Hname.
  repeat split. cbn. rewrite applyDefaults_fields. exact Hname.
Qed.

Lemma TerraformLink_names_the_rendered_resource_witness :
  exists tf,
    RenderResource "spotinst_elastigroup_aws" "nodes" tf ∈
      trace (RenderTerraform exampleLibrary forwardRuntime exampleCloud exampleTarget
                             None nodes None) /\
    TerraformLink nodes = Ok (LiteralProperty "spotinst_elastigroup_aws" "nodes" "id").
Proof.
  eexists.
  match goal with
  | |- ?ev ∈ ?tr /\ _ => assert (Hin : ev ∈ tr)
  end.
  - vm_compute.
    repeat first [apply list_elem_of_here | apply list_elem_of_further].
  - split; [exact Hin|].
    exact (proj1 (TerraformLink_names_the_rendered_resource _ _ _ _ _ _ _ _ _ _ Hin)).
Defined.

(** ** The role tag *)

Lemma roleOfTags_total pre keys : forall r0,
  (exists r, roleOfTags pre keys r0 = Ok r) \/ (exists err, roleOfTags pre keys r0 = Err err).
Proof.
  induction keys as [|key keys IH]; intros r0; cbn.
  - left. eauto.
  - destruct (HasPrefix key pre); [|apply IH].
    destruct (negb (String.eqb r0 "") && negb (String.eqb r0 (TrimPrefix key pre)));
      [right; eauto|apply IH].
Qed.

(** Two different non-empty roles among the keys fail the extraction,
    whatever the order of the keys. *)
Lemma roleOfTags_two_roles pre keys key1 key2 :
  key1 ∈ keys -> key2 ∈ keys ->
  HasPrefix key1 pre = true -> HasPrefix key2 pre = true ->
  TrimPrefix key1 pre <> "" -> TrimPrefix key2 pre <> "" ->
  TrimPrefix key1 pre <> TrimPrefix key2 pre ->
  exists err, roleOfTags pre keys "" = Err err.
Proof.
  intros Hin1 Hin2 Hpre1 Hpre2 Hne1 Hne2 Hdiff.
  destruct (roleOfTags_total pre keys "") as [[r Hr]|Herr]; [|exact Herr].
  exfalso. destruct (roleOfTags_Ok pre keys "" r Hr) as (Hall & _).
  destruct (Hall key1 Hin1 Hpre1) as [H1|H1]; [contradiction|].
  destruct (Hall key2 Hin2 Hpre2) as [H2|H2]; [contradiction|].
  congruence.
Qed.

Lemma applyDefaults_Tags e :
  Elastigroup.Tags (applyDefaults e) = Elastigroup.Tags e.
Proof. rewrite applyDefaults_fields. reflexivity. Qed.

(** X20.  A task tagged with two roles is not rendered: when two tag
    keys carry the role prefix with different non-empty roles,
    [RenderTerraform] fails, in whatever order the runtime visits the tags,
    and hands no resource to the target. *)
Theorem RenderTerraform_rejects_two_roles
    lib rt cloud t a e changes tags key1 key2 :
  runtime_ok rt ->
  Elastigroup.Tags e = Some tags ->
  is_Some (tags !! key1) -> is_Some (tags !! key2) ->
  HasPrefix key1 (CloudTagInstanceGroupRolePrefix lib) = true ->
  HasPrefix key2 (CloudTagInstanceGroupRolePrefix lib) = true ->
  TrimPrefix key1 (CloudTagInstanceGroupRolePrefix lib) <> "" ->
  TrimPrefix key2 (CloudTagInstanceGroupRolePrefix lib) <> "" ->
  TrimPrefix key1 (CloudTagInstanceGroupRolePrefix lib) <>
    TrimPrefix key2 (CloudTagInstanceGroupRolePrefix lib) ->
  outcome (RenderTerraform lib rt cloud t a e changes) <> Ok tt /\
  forall kind name tf,
    RenderResource kind name tf ∉ trace (RenderTerraform lib rt cloud t a e changes).
Proof.
  intros Hrt Htags [v1 Hv1] [v2 Hv2] Hpre1 Hpre2 Hne1 Hne2 Hdiff.
  assert (Hkeys : forall key v, tags !! key = Some v ->
            key ∈ map fst (range_map rt RangeRoleTags
                             (default ∅ (Elastigroup.Tags (applyDefaults e))))).
  { intros key v Hv. rewrite applyDefaults_Tags, Htags. cbn.
    apply list_elem_of_fmap. exists (key, v). split; [reflexivity|].
    rewrite (Hrt RangeRoleTags tags). apply elem_of_map_to_list. exact Hv. }
  destruct (roleOfTags_two_roles _ _ key1 key2 (Hkeys _ _ Hv1) (Hkeys _ _ Hv2)
              Hpre1 Hpre2 Hne1 Hne2 Hdiff) as [err Herr].
  split.
  - intros Hok. unfold RenderTerraform in Hok.
    apply bind_Ok in Hok. destruct Hok as (imageID & _ & Hok).
    apply bind_Ok in Hok. destruct Hok as (role & Hrole & _).
    unfold outcome in Hrole. cbn [snd] in Hrole. congruence.
  - intros kind name tf Hin. apply RenderTerraform_rendered_parts in Hin.
    destruct Hin as (imageID & role & parts & _ & Hrole & _). congruence.
Qed.

Lemma RenderTerraform_rejects_two_roles_witness :
  outcome (RenderTerraform exampleLibrary forwardRuntime exampleCloud exampleTarget
                           None twoRoleNodes None) <> Ok tt /\
  outcome (RenderTerraform exampleLibrary backwardRuntime exampleCloud exampleTarget
                           None twoRoleNodes None) <> Ok tt.
Proof.
  split.
  - refine (proj1 (RenderTerraform_rejects_two_roles exampleLibrary forwardRuntime
                     exampleCloud exampleTarget None twoRoleNodes None twoRoles
                     "k8s.io/role/master" "k8s.io/role/node"
                     forwardRuntime_ok eq_refl _ _ eq_refl eq_refl _ _ _));
      first [ eexists; reflexivity | vm_compute; discriminate ].
  - refine (proj1 (RenderTerraform_rejects_two_roles exampleLibrary backwardRuntime
                     exampleCloud exampleTarget None twoRoleNodes None twoRoles
                     "k8s.io/role/master" "k8s.io/role/node"
                     backwardRuntime_ok eq_refl _ _ eq_refl eq_refl _ _ _));
      first [ eexists; reflexivity | vm_compute; discriminate ].
Defined.

Lemma HasPrefix_append pre s : HasPrefix (String.append pre s) pre = true.
Proof.
  unfold HasPrefix. induction pre as [|c pre IH]; simpl.
  - destruct s; reflexivity.
  - destruct (Ascii.ascii_dec c c); [exact IH|contradiction].
Qed.

Lemma substring_all s : String.substring 0 (String.length s) s = s.
Proof. induction s as [|d s IHs]; simpl; [reflexivity|]. rewrite IHs. reflexivity. Qed.

Lemma substring_append pre s :
  String.substring (String.length pre)
                   (String.length (String.append pre s) - String.length pre)
                   (String.append pre s) = s.
Proof.
  induction pre as [|c pre IH].
  - change (String.append "" s) with s. change (String.length "") with 0%nat.
    rewrite Nat.sub_0_r. apply substring_all.
  - simpl. exact IH.
Qed.

Lemma TrimPrefix_append pre s : TrimPrefix (String.append pre s) pre = s.
Proof. unfold TrimPrefix. rewrite HasPrefix_append. apply substring_append. Qed.

(** X21.  Whether the role is found can depend on the order in which the
    tags are visited: with a tag whose key is the bare role prefix beside a
    tag that carries a role, the extraction succeeds with that role when the
    bare key is visited first, and fails with "multiple role tags" when it
    is visited last. *)
Theorem roleOfTags_bare_prefix_depends_on_order (pre role : string) :
  role <> "" ->
  roleOfTags pre [pre; String.append pre role] "" = Ok role /\
  roleOfTags pre [String.append pre role; pre] "" =
    Err (Errorf "spotinst: found multiple role tags %q vs %q" [role; ""]).
Proof.
  intros Hrole. apply String.eqb_neq in Hrole.
  pose proof (HasPrefix_append pre "") as Hp. pose proof (TrimPrefix_append pre "") as Ht.
  assert (Hnil : String.append pre "" = pre).
  { clear. induction pre as [|c pre IH]; [reflexivity|].
    change (String.append (String c pre) "") with (String c (String.append pre "")).
    rewrite IH. reflexivity. }
  rewrite Hnil in Hp, Ht.
  cbn [roleOfTags]. rewrite Hp, Ht, HasPrefix_append, TrimPrefix_append.
  cbn. rewrite Hrole. cbn. split; reflexivity.
Qed.

Lemma roleOfTags_bare_prefix_depends_on_order_witness :
  roleOfTags "k8s.io/role/" ["k8s.io/role/"; "k8s.io/role/node"] "" = Ok "node" /\
  roleOfTags "k8s.io/role/" ["k8s.io/role/node"; "k8s.io/role/"] "" =
    Err (Errorf "spotinst: found multiple role tags %q vs %q" ["node"; ""]).
Proof.
  apply (roleOfTags_bare_prefix_depends_on_order "k8s.io/role/" "node"). discriminate.
Defined.

(** ** The output variables *)

Lemma addOutputVariables_trace t role suffix links :
  outcome (addOutputVariables t role suffix links) = Ok tt ->
  trace (addOutputVariables t role suffix links) =
    if String.eqb role "" then [] else outputVariables role suffix links.
Proof.
  induction links as [|link links IH]; cbn [addOutputVariables].
  - intros _. destruct (String.eqb role ""); reflexivity.
  - intros H. apply bind_Ok in H. destruct H as (u & Hu & H).
    rewrite trace_bind, Hu, (IH H).
    destruct (String.eqb role ""); reflexivity.
Qed.

Lemma lookups_no_output (t : list event) :
  Forall is_lookup t -> List.filter is_output_variable t = [].
Proof.
  induction 1 as [|ev t Hev _ IH]; [reflexivity|].
  cbn. rewrite IH. destruct ev; cbn in Hev; try contradiction; reflexivity.
Qed.

Lemma filter_outputVariables role suffix links :
  List.filter is_output_variable (outputVariables role suffix links) =
    outputVariables role suffix links.
Proof.
  unfold outputVariables. induction links as [|l links IH]; cbn; [reflexivity|].
  rewrite IH. reflexivity.
Qed.

(** X22.  Output variables are added only for a task with a role: a
    rendering that succeeds adds no output variable when no tag carries a
    role, and otherwise one array entry per security group under
    [<role>_security_groups], followed by one per subnet under
    [<role>_subnet_ids], in the order of the task's lists. *)
Theorem RenderTerraform_output_variables lib rt cloud t a e changes role :
  outcome (RenderTerraform lib rt cloud t a e changes) = Ok tt ->
  roleOfTags (CloudTagInstanceGroupRolePrefix lib)
    (map fst (range_map rt RangeRoleTags (default ∅ (Elastigroup.Tags e)))) "" = Ok role ->
  List.filter is_output_variable (trace (RenderTerraform lib rt cloud t a e changes)) =
    if String.eqb role "" then []
    else outputVariables role "_security_groups"
           (map (SecurityGroup_TerraformLink lib) (default [] (Elastigroup.SecurityGroups e)))
         ++ outputVariables role "_subnet_ids"
              (map (Subnet_TerraformLink lib) (default [] (Elastigroup.Subnets e))).
Proof.
  intros Hok Hrole. rewrite <- applyDefaults_Tags in Hrole.
  replace (Elastigroup.SecurityGroups e)
    with (Elastigroup.SecurityGroups (applyDefaults e))
    by (rewrite applyDefaults_fields; reflexivity).
  replace (Elastigroup.Subnets e) with (Elastigroup.Subnets (applyDefaults e))
    by (rewrite applyDefaults_fields; reflexivity).
  unfold RenderTerraform in *.
  set (e' := applyDefaults e) in *. clearbody e'. clear e. rename e' into e.
  apply bind_Ok in Hok. destruct Hok as (imageID & Himage & Hok).
  apply bind_Ok in Hok. destruct Hok as (role' & Hrole' & Hok).
  unfold outcome in Hrole'. cbn [snd] in Hrole'.
  assert (role' = role) by congruence. subst role'.
  apply bind_Ok in Hok. destruct Hok as (parts & Hparts & Hok).
  apply bind_Ok in Hok. destruct Hok as (name & Hname & _).
  rewrite trace_bind, Himage, trace_bind.
  unfold outcome at 1. cbn [snd]. rewrite Hrole.
  unfold trace at 2. cbn [fst app].
  rewrite trace_bind, Hparts, trace_bind, Hname, trace_deref.
  cbn [app trace call fst].
  rewrite !List.filter_app. cbn [List.filter is_output_variable]. rewrite app_nil_r.
  rewrite lookups_no_output.
  2:{ destruct (not_nil _); [|constructor].
      apply Forall_trace_bind; [apply resolveImage_lookup|intros ? ?]. constructor. }
  cbn [app].
  unfold RenderTerraform_calls in *.
  apply bind_Ok in Hparts. destruct Hparts as (u1 & Hsg & Hparts).
  apply bind_Ok in Hparts. destruct Hparts as (userData & Hud & Hparts).
  apply bind_Ok in Hparts. destruct Hparts as (u2 & Hsn & Hparts).
  apply bind_Ok in Hparts. destruct Hparts as (rootVolume & Hroot & _).
  destruct u1, u2.
  rewrite trace_bind, Hsg, trace_bind, Hud, trace_bind, Hsn, trace_bind, Hroot.
  rewrite (addOutputVariables_trace _ _ _ _ Hsg), (addOutputVariables_trace _ _ _ _ Hsn).
  cbn [trace ret fst]. rewrite app_nil_r, !List.filter_app.
  rewrite (lookups_no_output _ (RenderTerraform_RootVolumeOpts_lookup cloud e)).
  rewrite app_nil_r.
  match goal with
  | |- context [List.filter is_output_variable (trace ?m)] =>
      assert (Hfile : List.filter is_output_variable (trace m) = [])
  end.
  { destruct (Elastigroup.UserData e); [|reflexivity].
    destruct (Elastigroup.Name e); [|reflexivity]. cbn.
    destruct (AddFileResource_result _ _ _ _ _); reflexivity. }
  rewrite Hfile. cbn [app].
  destruct (String.eqb role ""); [reflexivity|].
  rewrite !filter_outputVariables. reflexivity.
Qed.

Lemma RenderTerraform_output_variables_witness :
  List.filter is_output_variable
    (trace (RenderTerraform exampleLibrary forwardRuntime exampleCloud exampleTarget
                            None roleNodes None)) =
    [AddOutputVariableArray "node_security_groups"
       (LiteralProperty "aws_security_group" "sg-1" "id");
     AddOutputVariableArray "node_security_groups"
       (LiteralProperty "aws_security_group" "sg-2" "id");
     AddOutputVariableArray "node_subnet_ids" (LiteralProperty "aws_subnet" "subnet-1" "id")] /\
  List.filter is_output_variable
    (trace (RenderTerraform exampleLibrary forwardRuntime exampleCloud exampleTarget
                            None nodes None)) = [].
Proof.
  split.
  - rewrite (RenderTerraform_output_variables exampleLibrary forwardRuntime exampleCloud
               exampleTarget None roleNodes None "node"); reflexivity.
  - rewrite (RenderTerraform_output_variables exampleLibrary forwardRuntime exampleCloud
               exampleTarget None nodes None ""); reflexivity.
Defined.

(** ** Parity of the two renderers *)

Lemma RenderTerraform_imageID cloud e imageID :
  outcome (if not_nil (Elastigroup.ImageID e) then
             let* image := resolveImage cloud (StringValue (Elastigroup.ImageID e)) in
             ret (ec2.Image.ImageId image)
           else ret None) = Ok imageID ->
  Elastigroup.ImageID e <> None ->
  exists image,
    outcome (resolveImage cloud (StringValue (Elastigroup.ImageID e))) = Ok image /\
    imageID = ec2.Image.ImageId image.
Proof.
  intros H Hset. destruct (Elastigroup.ImageID e) as [name|]; [|contradiction].
  cbn [not_nil is_nil negb] in H. apply bind_Ok in H. destruct H as (image & Himage & H).
  apply ret_Ok in H. eauto.
Qed.

(** X23.  The two renderers describe the same group: for one task, a
    group that [create] sends and a resource that [RenderTerraform] renders
    agree on the name, the description, the region, the capacity (minimum,
    maximum, and the desired MinSize as the target, resp. desired,
    capacity), the strategy with the normalized orientation, the product,
    the instance types, the monitoring flag and the health check type, all
    after the same defaults; and, when the task names an image and both
    resolve it in the same cloud, on the resolved image ID. *)
Theorem renderers_agree_on_the_group
    lib rt cloud t fuel a a' e changes changes' g kind name tf :
  SpotinstCreate g ∈ fst (create lib rt cloud fuel a e changes) ->
  RenderResource kind name tf ∈ trace (RenderTerraform lib rt cloud t a' e changes') ->
  aws.Group.Name g = terraformElastigroup.Name tf /\
  aws.Group.Description g = terraformElastigroup.Description tf /\
  aws.Group.Region g = terraformElastigroup.Region tf /\
  sentMinimum g = terraformElastigroup.MinSize tf /\
  sentMaximum g = terraformElastigroup.MaxSize tf /\
  sentTarget g = terraformElastigroup.DesiredCapacity tf /\
  sentOrientation g = terraformElastigroup.Orientation tf /\
  exists strategy compute instanceTypes lc,
    aws.Group.Strategy g = Some strategy /\
    aws.Group.Compute g = Some compute /\
    aws.Compute.InstanceTypes compute = Some instanceTypes /\
    aws.Compute.LaunchSpecification compute = Some lc /\
    aws.Strategy.Risk strategy = terraformElastigroup.SpotPercentage tf /\
    aws.Strategy.FallbackToOnDemand strategy = terraformElastigroup.FallbackToOnDemand tf /\
    aws.Strategy.UtilizeReservedInstances strategy =
      terraformElastigroup.UtilizeReservedInstances tf /\
    aws.Strategy.DrainingTimeout strategy = terraformElastigroup.DrainingTimeout tf /\
    aws.Compute.Product compute = terraformElastigroup.Product tf /\
    aws.InstanceTypes.OnDemand instanceTypes = terraformElastigroup.OnDemand tf /\
    aws.InstanceTypes.Spot instanceTypes = terraformElastigroup.Spot tf /\
    aws.LaunchSpecification.Monitoring lc = terraformElastigroup.Monitoring tf /\
    aws.LaunchSpecification.HealthCheckType lc = terraformElastigroup.HealthCheckType tf /\
    (Elastigroup.ImageID e <> None ->
     aws.LaunchSpecification.ImageID lc = terraformElastigroup.ImageID tf).
Proof.
  intros Hcreate Hrender.
  apply create_sent in Hcreate. apply create_group_parts in Hcreate.
  destruct Hcreate as (minSize & maxSize & sshKey & mappings & image & lc
                       & Hmin & Hmax & _ & _ & Himage & Hmon & _ & _ & _ & Hid & Hhc
                       & _ & _ & ->).
  apply RenderTerraform_rendered_parts in Hrender.
  destruct Hrender as (imageID & role & parts & Himage' & _ & _ & _ & _ & ->).
  cbn. rewrite Hmin, Hmax.
  repeat (split; [reflexivity|]).
  eexists _, _, _, lc.
  repeat (split; [first [reflexivity | assumption]|]).
  intros Hset. rewrite Hid.
  destruct (RenderTerraform_imageID cloud (applyDefaults e) imageID Himage')
    as (image' & Himage'' & ->).
  { rewrite applyDefaults_fields. exact Hset. }
  congruence.
Qed.

Lemma renderers_agree_on_the_group_witness :
  exists g tf,
    SpotinstCreate g ∈
      fst (create exampleLibrary forwardRuntime emptyCloud 1 None costNodes None) /\
    RenderResource "spotinst_elastigroup_aws" "nodes" tf ∈
      trace (RenderTerraform exampleLibrary forwardRuntime emptyCloud exampleTarget
                             None costNodes None) /\
    sentTarget g = terraformElastigroup.DesiredCapacity tf /\
    sentOrientation g = terraformElastigroup.Orientation tf.
Proof.
  eexists. eexists.
  match goal with
  | |- ?ev1 ∈ ?t1 /\ ?ev2 ∈ ?t2 /\ _ =>
      assert (Hc : ev1 ∈ t1);
      [|assert (Hr : ev2 ∈ t2)]
  end.
  - vm_compute.
    repeat first [apply list_elem_of_here | apply list_elem_of_further].
  - vm_compute.
    repeat first [apply list_elem_of_here | apply list_elem_of_further].
  - destruct (renderers_agree_on_the_group _ _ _ _ _ _ _ _ _ _ _ _ _ _ Hc Hr)
      as (_ & _ & _ & _ & _ & Htarget & Horientation & _).
    split; [exact Hc|]. split; [exact Hr|]. split; assumption.
Defined.

Lemma buildRootDevice_parts cloud volumeOpts imageID bdm :
  outcome (buildRootDevice cloud volumeOpts imageID) = Ok bdm ->
  exists img opts,
    volumeOpts = Some opts /\
    outcome (resolveImage cloud (StringValue imageID)) = Ok img /\
    bdm = awstasks.BlockDeviceMapping.mk
            (ec2.Image.RootDeviceName img) None (Some true)
            (RootVolumeOpts.Size opts) (RootVolumeOpts.Type_ opts)
            (if not_nil (RootVolumeOpts.IOPS opts)
                && negb (String.eqb (StringValue (RootVolumeOpts.Type_ opts)) "gp2")
             then RootVolumeOpts.IOPS opts else None)
            (if not_nil (RootVolumeOpts.Throughput opts)
                && String.eqb (StringValue (RootVolumeOpts.Type_ opts)) "gp3"
             then RootVolumeOpts.Throughput opts else None).
Proof.
  unfold buildRootDevice. intros H.
  apply bind_Ok in H. destruct H as (img & Himg & H).
  apply bind_Ok in H. destruct H as (opts & Hopts & H).
  apply deref_Ok in Hopts. apply ret_Ok in H. subst bdm volumeOpts.
  exists img, opts. repeat split; [exact Himg|].
  destruct (not_nil (RootVolumeOpts.IOPS opts)
            && negb (String.eqb (StringValue (RootVolumeOpts.Type_ opts)) "gp2"));
    destruct (not_nil (RootVolumeOpts.Throughput opts)
              && String.eqb (StringValue (RootVolumeOpts.Type_ opts)) "gp3");
    reflexivity.
Qed.

Lemma buildEphemeralDevices_parts cloud machineType devices :
  outcome (buildEphemeralDevices cloud machineType) = Ok devices ->
  exists info,
    GetMachineTypeInfo cloud (StringValue machineType) = Ok info /\
    devices = map (fun ed =>
                     awstasks.BlockDeviceMapping.mk
                       (Some (awsup.EphemeralDevice.DeviceName ed))
                       (Some (awsup.EphemeralDevice.VirtualName ed))
                       None None None None None) info.
Proof.
  unfold buildEphemeralDevices, call. intros H.
  apply bind_Ok in H. destruct H as (info & Hinfo & H). apply ret_Ok in H.
  exists info. split; [exact Hinfo|congruence].
Qed.

Lemma blockDeviceMappings_parts cloud opts e mappings :
  outcome (blockDeviceMappings cloud opts e) = Ok mappings ->
  exists rootDevice ephemeralDevices,
    outcome (buildRootDevice cloud opts (Elastigroup.ImageID e)) = Ok rootDevice /\
    outcome (buildEphemeralDevices cloud (Elastigroup.OnDemandInstanceType e)) =
      Ok ephemeralDevices /\
    mappings = convertBlockDeviceMapping rootDevice
                 :: map convertBlockDeviceMapping ephemeralDevices.
Proof.
  unfold blockDeviceMappings. intros H.
  apply bind_Ok in H. destruct H as (rootDevice & Hroot & H).
  apply bind_Ok in H. destruct H as (ephemeralDevices & Hephemeral & H).
  apply ret_Ok in H. eauto.
Qed.

(** The devices sent to the provider, from the options of the root volume,
    the image and the machine type. *)
Lemma blockDeviceMappings_layout cloud opts e mappings :
  outcome (blockDeviceMappings cloud opts e) = Ok mappings ->
  exists image volumeOpts info,
    opts = Some volumeOpts /\
    outcome (resolveImage cloud (StringValue (Elastigroup.ImageID e))) = Ok image /\
    GetMachineTypeInfo cloud (StringValue (Elastigroup.OnDemandInstanceType e)) = Ok info /\
    mappings =
      aws.BlockDeviceMapping.mk (ec2.Image.RootDeviceName image) None
        (Some (aws.EBS.mk (Some true) (RootVolumeOpts.Type_ volumeOpts)
                 (Some (Int64Value (RootVolumeOpts.Size volumeOpts)))
                 (if not_nil (RootVolumeOpts.IOPS volumeOpts)
                     && negb (String.eqb (StringValue (RootVolumeOpts.Type_ volumeOpts)) "gp2")
                  then RootVolumeOpts.IOPS volumeOpts else None)
                 (if not_nil (RootVolumeOpts.Throughput volumeOpts)
                     && String.eqb (StringValue (RootVolumeOpts.Type_ volumeOpts)) "gp3"
                  then RootVolumeOpts.Throughput volumeOpts else None)
                 None))
      :: map (fun ed =>
                aws.BlockDeviceMapping.mk
                  (Some (awsup.EphemeralDevice.DeviceName ed))
                  (Some (awsup.EphemeralDevice.VirtualName ed)) None) info.
Proof.
  intros H. apply blockDeviceMappings_parts in H.
  destruct H as (rootDevice & ephemeralDevices & Hroot & Hephemeral & ->).
  apply buildRootDevice_parts in Hroot. destruct Hroot as (image & volumeOpts & -> & Himage & ->).
  apply buildEphemeralDevices_parts in Hephemeral. destruct Hephemeral as (info & Hinfo & ->).
  exists image, volumeOpts, info. repeat (split; [first [reflexivity|assumption]|]).
  rewrite map_map. f_equal.
  unfold convertBlockDeviceMapping, int_of_int64. cbn -[StringValue String.eqb].
  destruct (String.eqb (StringValue (RootVolumeOpts.Type_ volumeOpts)) "gp2");
    destruct (String.eqb (StringValue (RootVolumeOpts.Type_ volumeOpts)) "gp3");
    destruct (RootVolumeOpts.IOPS volumeOpts) as [iops|],
             (RootVolumeOpts.Throughput volumeOpts) as [throughput|];
    reflexivity.
Qed.

Lemma RenderTerraform_calls_rootVolume lib cloud t e role parts :
  outcome (RenderTerraform_calls lib cloud t e role) = Ok parts ->
  outcome (RenderTerraform_RootVolumeOpts cloud e) = Ok (snd parts).
Proof.
  unfold RenderTerraform_calls. intros H.
  apply bind_Ok in H. destruct H as (u1 & _ & H).
  apply bind_Ok in H. destruct H as (userData & _ & H).
  apply bind_Ok in H. destruct H as (u2 & _ & H).
  apply bind_Ok in H. destruct H as (rootVolume & Hroot & H).
  apply ret_Ok in H. subst parts. exact Hroot.
Qed.

(** X24.  The two renderers derive the device layout from the same
    lookups: for one task in one cloud, a group that [create] sends and a
    resource that [RenderTerraform] renders have the root device of the
    resolved image, with the type and size of the root volume options, the
    IOPS unless the type is gp2 and the throughput only for gp3, deleted on
    termination, followed by one device without EBS part per ephemeral
    device of the on-demand machine type.  They differ in two details:
    [create] sends size 0 for a missing size where Terraform writes none,
    and [create] never sends the EBS optimization that Terraform writes. *)
Theorem renderers_derive_the_same_devices
    lib rt cloud t fuel a a' e changes changes' g kind name tf :
  SpotinstCreate g ∈ fst (create lib rt cloud fuel a e changes) ->
  RenderResource kind name tf ∈ trace (RenderTerraform lib rt cloud t a' e changes') ->
  exists image opts info compute lc,
    Elastigroup.RootVolumeOpts e = Some opts /\
    outcome (resolveImage cloud (StringValue (Elastigroup.ImageID e))) = Ok image /\
    GetMachineTypeInfo cloud (StringValue (Elastigroup.OnDemandInstanceType e)) = Ok info /\
    aws.Group.Compute g = Some compute /\
    aws.Compute.LaunchSpecification compute = Some lc /\
    let iops :=
      if not_nil (RootVolumeOpts.IOPS opts)
         && negb (String.eqb (StringValue (RootVolumeOpts.Type_ opts)) "gp2")
      then RootVolumeOpts.IOPS opts else None in
    let throughput :=
      if not_nil (RootVolumeOpts.Throughput opts)
         && String.eqb (StringValue (RootVolumeOpts.Type_ opts)) "gp3"
      then RootVolumeOpts.Throughput opts else None in
    aws.LaunchSpecification.BlockDeviceMappings lc =
      Some (aws.BlockDeviceMapping.mk (ec2.Image.RootDeviceName image) None
              (Some (aws.EBS.mk (Some true) (RootVolumeOpts.Type_ opts)
                       (Some (Int64Value (RootVolumeOpts.Size opts)))
                       iops throughput None))
            :: map (fun ed =>
                      aws.BlockDeviceMapping.mk
                        (Some (awsup.EphemeralDevice.DeviceName ed))
                        (Some (awsup.EphemeralDevice.VirtualName ed)) None) info) /\
    terraformElastigroup.RootBlockDevice tf =
      Some (terraformElastigroupBlockDevice.mk (ec2.Image.RootDeviceName image) None
              (RootVolumeOpts.Type_ opts) (RootVolumeOpts.Size opts)
              iops throughput (Some true)) /\
    terraformElastigroup.EphemeralBlockDevice tf =
      appended (map (fun ed =>
                       terraformElastigroupBlockDevice.mk
                         (Some (awsup.EphemeralDevice.DeviceName ed))
                         (Some (awsup.EphemeralDevice.VirtualName ed))
                         None None None None None) info) /\
    aws.LaunchSpecification.EBSOptimized lc = None /\
    terraformElastigroup.EBSOptimized tf = RootVolumeOpts.Optimization opts.
Proof.
  intros Hcreate Hrender.
  apply create_sent in Hcreate. apply create_group_parts in Hcreate.
  destruct Hcreate as (minSize & maxSize & sshKey & mappings & image0 & lc
                       & _ & _ & _ & Hmappings & _ & _ & _ & _ & Hbdm & _ & _
                       & _ & Hopt & ->).
  apply RenderTerraform_rendered_parts in Hrender.
  destruct Hrender as (imageID & role & parts & _ & _ & Hparts & _ & _ & ->).
  apply RenderTerraform_calls_rootVolume in Hparts.
  apply blockDeviceMappings_layout in Hmappings.
  destruct Hmappings as (image & opts & info & Hopts & Himage & Hinfo & ->).
  unfold RenderTerraform_RootVolumeOpts in Hparts. rewrite Hopts in Hparts.
  apply bind_Ok in Hparts. destruct Hparts as (rootDevice & Hroot & Hparts).
  apply bind_Ok in Hparts. destruct Hparts as (ephemeralDevices & Hephemeral & Hparts).
  apply ret_Ok in Hparts.
  apply buildRootDevice_parts in Hroot.
  destruct Hroot as (image' & opts' & [= <-] & Himage' & ->).
  apply buildEphemeralDevices_parts in Hephemeral.
  destruct Hephemeral as (info' & Hinfo' & ->).
  assert (image' = image) by congruence. subst image'.
  assert (info' = info) by congruence. subst info'.
  rewrite applyDefaults_fields in Hopts, Himage, Hinfo.
  exists image, opts, info. eexists _, lc.
  split; [exact Hopts|]. split; [exact Himage|]. split; [exact Hinfo|].
  split; [reflexivity|]. split; [reflexivity|]. cbv zeta.
  split; [exact Hbdm|].
  cbn [RenderTerraform_tf terraformElastigroup.RootBlockDevice
       terraformElastigroup.EphemeralBlockDevice terraformElastigroup.EBSOptimized].
  rewrite <- Hparts. cbn [fst snd].
  split; [reflexivity|]. split; [rewrite map_map; reflexivity|].
  split; [exact Hopt|reflexivity].
Qed.

Lemma renderers_derive_the_same_devices_witness :
  exists g tf lc,
    SpotinstCreate g ∈
      fst (create exampleLibrary forwardRuntime emptyCloud 1 None nodes None) /\
    RenderResource "spotinst_elastigroup_aws" "nodes" tf ∈
      trace (RenderTerraform exampleLibrary forwardRuntime emptyCloud exampleTarget
                             None nodes None) /\
    (exists compute, aws.Group.Compute g = Some compute /\
                     aws.Compute.LaunchSpecification compute = Some lc) /\
    aws.LaunchSpecification.BlockDeviceMappings lc =
      Some [aws.BlockDeviceMapping.mk (Some "/dev/xvda") None
              (Some (aws.EBS.mk (Some true) (Some "gp2") (Some 64) None None None))] /\
    terraformElastigroup.RootBlockDevice tf =
      Some (terraformElastigroupBlockDevice.mk (Some "/dev/xvda") None (Some "gp2")
              (Some 64) None None (Some true)).
Proof.
  eexists. eexists.
  match goal with
  | |- exists lc, ?ev1 ∈ ?t1 /\ ?ev2 ∈ ?t2 /\ _ =>
      assert (Hc : ev1 ∈ t1);
      [|assert (Hr : ev2 ∈ t2)]
  end.
  - vm_compute.
    repeat first [apply list_elem_of_here | apply list_elem_of_further].
  - vm_compute.
    repeat first [apply list_elem_of_here | apply list_elem_of_further].
  - destruct (renderers_derive_the_same_devices _ _ _ _ _ _ _ _ _ _ _ _ _ _ Hc Hr)
      as (image & opts & info & compute & lc & Hopts & Himage & Hinfo & Hcompute & Hlc
          & Hbdm & Hroot & _).
    injection Hopts as <-. vm_compute in Himage. injection Himage as <-.
    vm_compute in Hinfo. injection Hinfo as <-.
    exists lc. split; [exact Hc|]. split; [exact Hr|].
    split; [exists compute; split; assumption|].
    split; [exact Hbdm|exact Hroot].
Defined.

(** ** Changes that update consumes without sending them *)

(** X25.  A change of the root volume throughput alone never reaches
    the provider: the block of the root volume rebuilds the device mappings
    only when the type, the size or the IOPS changed, so for a Delta that
    carries nothing but a throughput [update] makes no call after the
    lookup of the group, emits no warning and returns with the change
    cleared. *)
Theorem update_drops_a_throughput_only_change
    lib rt cloud a e name groups actual groupID throughput :
  Elastigroup.Name e = Some name ->
  List cloud = Ok groups ->
  find_in groups name = Some actual ->
  aws.Group.ID actual = Some groupID ->
  update lib rt cloud a e (deltaThroughput throughput) =
    ([SpotinstList], Ok Elastigroup.new).
Proof.
  intros Hname Hlist Hfind Hid.
  pose proof (find_listed cloud name groups actual Hlist Hfind) as Hf.
  assert (Hblocks :
    update_blocks lib rt cloud actual a e (update_start actual (deltaThroughput throughput)) =
    ret (mkUpdateState Elastigroup.new
           (aws.Group.set_ID (Some groupID) aws.Group.new) false)).
  { unfold update_start. rewrite Hid. reflexivity. }
  rewrite (update_run lib rt cloud a e _ name actual _ groupID Hname
             ltac:(rewrite Hf; reflexivity) ltac:(rewrite Hblocks; reflexivity) Hid).
  rewrite Hf, Hblocks. reflexivity.
Qed.

Lemma update_drops_a_throughput_only_change_witness :
  update exampleLibrary forwardRuntime exampleCloud nodes
         (Elastigroup.set_RootVolumeOpts
            (Some (RootVolumeOpts.mk (Some "gp3") (Some 64) None (Some 250) None)) nodes)
         (deltaThroughput 250) =
    ([SpotinstList], Ok Elastigroup.new).
Proof.
  apply (update_drops_a_throughput_only_change exampleLibrary forwardRuntime exampleCloud
           nodes _ "nodes" [liveGroup] liveGroup "sig-1" 250); reflexivity.
Defined.

(** ** The dependencies of the task *)

(** X26.  [GetDependencies] returns every task the Elastigroup refers
    to: a task is among its dependencies exactly when it is the instance
    profile, the load balancer, the SSH key, one of the subnets or one of the
    security groups of the task, or a dependency found in its user data.
    With no user data there are as many dependencies as references. *)
Theorem GetDependencies_lists_every_reference FindDependencies tasks e :
  (forall task,
     task ∈ GetDependencies FindDependencies tasks e <->
     (exists p, Elastigroup.IAMInstanceProfile e = Some p /\
                task = IAMInstanceProfileTask p) \/
     (exists lb, Elastigroup.LoadBalancer e = Some lb /\
                 task = ClassicLoadBalancerTask lb) \/
     (exists k, Elastigroup.SSHKey e = Some k /\ task = SSHKeyTask k) \/
     (exists subnet, subnet ∈ default [] (Elastigroup.Subnets e) /\
                     task = SubnetTask subnet) \/
     (exists sg, sg ∈ default [] (Elastigroup.SecurityGroups e) /\
                 task = SecurityGroupTask sg) \/
     (exists r, Elastigroup.UserData e = Some r /\ task ∈ FindDependencies tasks r)) /\
  (Elastigroup.UserData e = None ->
   length (GetDependencies FindDependencies tasks e) =
     (length (option_list (Elastigroup.IAMInstanceProfile e))
      + length (option_list (Elastigroup.LoadBalancer e))
      + length (option_list (Elastigroup.SSHKey e))
      + length (default [] (Elastigroup.Subnets e))
      + length (default [] (Elastigroup.SecurityGroups e)))%nat).
Proof.
  unfold GetDependencies. split.
  - intros task.
    destruct (Elastigroup.IAMInstanceProfile e) as [p|],
             (Elastigroup.LoadBalancer e) as [lb|],
             (Elastigroup.SSHKey e) as [k|],
             (Elastigroup.Subnets e) as [subnets|],
             (Elastigroup.SecurityGroups e) as [sgs|],
             (Elastigroup.UserData e) as [r|]; cbn [default];
      rewrite ?elem_of_app, ?list_elem_of_fmap, ?list_elem_of_singleton, ?elem_of_nil;
      (split; intros H;
       repeat match goal with
              | H : _ \/ _ |- _ => destruct H
              | H : exists _, _ |- _ => destruct H
              | H : _ /\ _ |- _ => destruct H
              | H : Some _ = Some _ |- _ => injection H as H
              | H : None = Some _ |- _ => discriminate H
              | H : False |- _ => destruct H
              | H : _ ∈ [] |- _ => apply elem_of_nil in H
              end; subst; eauto 12).
  - intros ->.
    destruct (Elastigroup.IAMInstanceProfile e) as [p|],
             (Elastigroup.LoadBalancer e) as [lb|],
             (Elastigroup.SSHKey e) as [k|],
             (Elastigroup.Subnets e) as [subnets|],
             (Elastigroup.SecurityGroups e) as [sgs|]; simpl;
      repeat rewrite length_app; repeat rewrite length_map; lia.
Qed.

(** ** What Find reads back *)

Lemma map_of_foldr (kvs : list (string * string)) : forall acc,
  fold_left (fun (m : gmap string string) (kv : option string * option string) =>
               <[StringValue (fst kv) := StringValue (snd kv)]> m)
            (map (fun kv : string * string => (Some (fst kv), Some (snd kv))) kvs) acc =
  fold_right (fun (p : string * string) (m : gmap string string) => <[fst p := snd p]> m)
             acc (rev kvs).
Proof.
  induction kvs as [|kv kvs IH]; intros acc; [reflexivity|].
  cbn [map fold_left rev]. rewrite IH, fold_right_app. reflexivity.
Qed.

(** The map rebuilt from the entries of a range over a map is that map. *)
Lemma map_of_range (rt : GoRuntime) site (m : gmap string string) :
  runtime_ok rt ->
  map_of (map (fun kv : string * string => (Some (fst kv), Some (snd kv)))
              (range_map rt site m)) = m.
Proof.
  intros Hrt. unfold map_of. rewrite map_of_foldr.
  change (fold_right (fun (p : string * string) (m0 : gmap string string) =>
                        <[fst p := snd p]> m0) ∅ (rev (range_map rt site m)))
    with (list_to_map (M := gmap string string) (rev (range_map rt site m))).
  rewrite <- (list_to_map_to_list m) at 2.
  apply list_to_map_proper.
  - apply (NoDup_Permutation_proper _ ((map_to_list m).*1)).
    + apply fmap_Permutation. rewrite <- Permutation_rev. apply Hrt.
    + apply NoDup_fst_map_to_list.
  - rewrite <- Permutation_rev. apply Hrt.
Qed.

(** What [Find] reports, field by field, from the group it found. *)
Lemma Find_parts lib cloud e actual :
  outcome (Find lib cloud e) = Ok actual ->
  exists name group capacity strategy compute instanceTypes lc,
    Elastigroup.Name e = Some name /\
    outcome (find cloud name) = Ok group /\
    aws.Group.Capacity group = Some capacity /\
    aws.Group.Strategy group = Some strategy /\
    aws.Group.Compute group = Some compute /\
    aws.Compute.InstanceTypes compute = Some instanceTypes /\
    aws.Compute.LaunchSpecification compute = Some lc /\
    Elastigroup.Name actual = aws.Group.Name group /\
    Elastigroup.Lifecycle actual = Elastigroup.Lifecycle e /\
    Elastigroup.ID actual = aws.Group.ID group /\
    Elastigroup.Region actual = aws.Group.Region group /\
    Elastigroup.MinSize actual = Some (IntValue (aws.Capacity.Minimum capacity)) /\
    Elastigroup.MaxSize actual = Some (IntValue (aws.Capacity.Maximum capacity)) /\
    Elastigroup.SpotPercentage actual = aws.Strategy.Risk strategy /\
    Elastigroup.UtilizeReservedInstances actual =
      aws.Strategy.UtilizeReservedInstances strategy /\
    Elastigroup.FallbackToOnDemand actual = aws.Strategy.FallbackToOnDemand strategy /\
    Elastigroup.DrainingTimeout actual = aws.Strategy.DrainingTimeout strategy /\
    Elastigroup.HealthCheckType actual = aws.LaunchSpecification.HealthCheckType lc /\
    Elastigroup.Product actual = aws.Compute.Product compute /\
    Elastigroup.Orientation actual = aws.Strategy.AvailabilityVsCost strategy /\
    Elastigroup.Tags actual =
      match aws.LaunchSpecification.Tags lc with
      | Some (tag :: tags') =>
          Some (map_of (map (fun tag => (aws.Tag.Key tag, aws.Tag.Value tag)) (tag :: tags')))
      | _ => None
      end /\
    Elastigroup.OnDemandInstanceType actual = aws.InstanceTypes.OnDemand instanceTypes /\
    Elastigroup.SpotInstanceTypes actual = aws.InstanceTypes.Spot instanceTypes /\
    Elastigroup.Monitoring actual = aws.LaunchSpecification.Monitoring lc /\
    Elastigroup.AssociatePublicIP actual =
      Some (existsb (fun iface =>
                       BoolValue (aws.NetworkInterface.AssociatePublicIPAddress iface))
                    (default [] (aws.LaunchSpecification.NetworkInterfaces lc))) /\
    Elastigroup.Tenancy actual = aws.LaunchSpecification.Tenancy lc /\
    outcome (Find_ImageID cloud e lc) = Ok (Elastigroup.ImageID actual) /\
    Elastigroup.RootVolumeOpts actual = Find_RootVolumeOpts lib lc /\
    Elastigroup.AutoScalerOpts actual = Find_AutoScalerOpts group.
Proof.
  unfold Find. intros H.
  apply bind_Ok in H. destruct H as (name & Hname & H). apply deref_Ok in Hname.
  apply bind_Ok in H. destruct H as (group & Hgroup & H).
  apply bind_Ok in H. destruct H as (capacity & Hcapacity & H). apply deref_Ok in Hcapacity.
  apply bind_Ok in H. destruct H as (strategy & Hstrategy & H). apply deref_Ok in Hstrategy.
  apply bind_Ok in H. destruct H as (compute & Hcompute & H). apply deref_Ok in Hcompute.
  apply bind_Ok in H. destruct H as (instanceTypes & Htypes & H). apply deref_Ok in Htypes.
  apply bind_Ok in H. destruct H as (same & Hsame & H).
  apply bind_Ok in H. destruct H as (lc & Hlc & H). apply deref_Ok in Hlc.
  apply bind_Ok in H. destruct H as (imageID & Himage & H).
  apply bind_Ok in H. destruct H as (userData & HuserData & H).
  apply bind_Ok in H. destruct H as (loadBalancer & Hlb & H).
  apply ret_Ok in H. subst actual.
  exists name, group, capacity, strategy, compute, instanceTypes, lc.
  cbn. unfold int64_of_int.
  repeat (split; [first [assumption | reflexivity]|]).
  split; [destruct (aws.Strategy.DrainingTimeout strategy); reflexivity|].
  repeat (split; [first [assumption | reflexivity]|]). reflexivity.
Qed.

Lemma create_group_interfaces lib rt cloud e g :
  outcome (create_group lib rt cloud e) = Ok g ->
  forall compute lc,
  aws.Group.Compute g = Some compute ->
  aws.Compute.LaunchSpecification compute = Some lc ->
  aws.LaunchSpecification.NetworkInterfaces lc =
    if not_nil (Elastigroup.AssociatePublicIP e)
    then Some [eth0 (Elastigroup.AssociatePublicIP e)] else None.
Proof.
  unfold create_group. intros H.
  repeat bind_inv H. apply ret_Ok in H. subst g. cbn.
  intros compute lc [= <-]. cbn. intros [= <-]. reflexivity.
Qed.

Lemma resolveImage_outcome cloud cloud' name :
  ResolveImage cloud' name = ResolveImage cloud name ->
  outcome (resolveImage cloud' name) = outcome (resolveImage cloud name).
Proof.
  intros H. unfold resolveImage, call, wrap_err. rewrite H.
  destruct (ResolveImage cloud name) as [[image|]| |]; reflexivity.
Qed.

(** The tags [Find] rebuilds from the tags [buildTags] sends. *)
Lemma Find_tags_of_buildTags (rt : GoRuntime) (tags : gmap string string) :
  runtime_ok rt -> tags <> ∅ ->
  match map (fun kv : string * string => aws.Tag.mk (Some (fst kv)) (Some (snd kv)))
            (range_map rt RangeBuildTags tags) with
  | tag :: tags' =>
      Some (map_of (map (fun tag => (aws.Tag.Key tag, aws.Tag.Value tag)) (tag :: tags')))
  | [] => None
  end = Some tags.
Proof.
  intros Hrt Hne. pose proof (map_of_range rt RangeBuildTags tags Hrt) as Hmap.
  destruct (range_map rt RangeBuildTags tags) as [|kv kvs] eqn:E.
  - exfalso. apply Hne. apply map_to_list_empty_iff.
    apply Permutation_nil_r. rewrite <- (Hrt RangeBuildTags tags), E. reflexivity.
  - cbn [map]. f_equal. etransitivity; [|exact Hmap].
    cbn [map]. rewrite map_map. reflexivity.
Qed.

(** X27.  What [create] sends is what [Find] reads back: when the
    provider lists, under some ID, the group that [create] sent for a task,
    a [Find] for the same task that succeeds reports that ID and the
    desired values with their defaults for the name, the region, MinSize
    and MaxSize, the strategy, the product, the instance types, the
    monitoring flag, the tenancy and the health check type, so that none of
    them shows up as a change in the next pass.  The tags come back as the
    same map when there is at least one, a public IP flag that is set comes
    back as it is, and the image comes back under the name the task uses
    when that name still resolves to the image that was sent.  The
    orientation comes back under the provider's name for it. *)
Theorem Find_reads_back_what_create_sent
    lib rt cloud cloud' fuel a e changes g name id groups actual :
  SpotinstCreate g ∈ fst (create lib rt cloud fuel a e changes) ->
  Elastigroup.Name e = Some name ->
  List cloud' = Ok groups ->
  find_in groups name = Some (aws.Group.set_ID (Some id) g) ->
  outcome (Find lib cloud' e) = Ok actual ->
  Elastigroup.Name actual = Elastigroup.Name e /\
  Elastigroup.Lifecycle actual = Elastigroup.Lifecycle e /\
  Elastigroup.ID actual = Some id /\
  Elastigroup.Region actual = Elastigroup.Region e /\
  Elastigroup.MinSize actual = Elastigroup.MinSize e /\
  Elastigroup.MaxSize actual = Elastigroup.MaxSize e /\
  Elastigroup.SpotPercentage actual = Elastigroup.SpotPercentage e /\
  Elastigroup.UtilizeReservedInstances actual =
    Elastigroup.UtilizeReservedInstances (applyDefaults e) /\
  Elastigroup.FallbackToOnDemand actual = Elastigroup.FallbackToOnDemand (applyDefaults e) /\
  Elastigroup.DrainingTimeout actual = Elastigroup.DrainingTimeout e /\
  Elastigroup.HealthCheckType actual = Elastigroup.HealthCheckType (applyDefaults e) /\
  Elastigroup.Product actual = Elastigroup.Product (applyDefaults e) /\
  Elastigroup.OnDemandInstanceType actual = Elastigroup.OnDemandInstanceType e /\
  Elastigroup.SpotInstanceTypes actual = Elastigroup.SpotInstanceTypes e /\
  Elastigroup.Monitoring actual = Elastigroup.Monitoring (applyDefaults e) /\
  Elastigroup.Tenancy actual = Elastigroup.Tenancy e /\
  Elastigroup.Orientation actual = Some (normalizeOrientation (Elastigroup.Orientation e)) /\
  (forall tags, runtime_ok rt -> Elastigroup.Tags e = Some tags -> tags <> ∅ ->
     Elastigroup.Tags actual = Some tags) /\
  (Elastigroup.AssociatePublicIP e <> None ->
   Elastigroup.AssociatePublicIP actual = Elastigroup.AssociatePublicIP e) /\
  (forall image imageID,
     Elastigroup.ImageID e <> None ->
     outcome (resolveImage cloud (StringValue (Elastigroup.ImageID e))) = Ok image ->
     ec2.Image.ImageId image = Some imageID ->
     ResolveImage cloud' (StringValue (Elastigroup.ImageID e)) =
       ResolveImage cloud (StringValue (Elastigroup.ImageID e)) ->
     Elastigroup.ImageID actual = Elastigroup.ImageID e).
Proof.
  intros Hcreate Hname Hlist Hfind HFind.
  apply create_sent in Hcreate.
  pose proof (create_group_interfaces _ _ _ _ _ Hcreate) as Hifaces.
  apply create_group_parts in Hcreate.
  destruct Hcreate as (minSize & maxSize & sshKey & mappings & image0 & lc
                       & Hmin & Hmax & _ & _ & Himage0 & Hmon & _ & Hten & _ & Hid & Hhc
                       & Htags & _ & ->).
  specialize (Hifaces _ lc eq_refl eq_refl).
  apply Find_parts in HFind.
  destruct HFind as (name' & group & capacity & strategy & compute & instanceTypes & lc'
                     & Hname' & Hgroup & Hcapacity & Hstrategy & Hcompute & Htypes & Hlc
                     & F).
  assert (name' = name) by congruence. subst name'.
  rewrite (find_listed cloud' name groups _ Hlist Hfind) in Hgroup.
  injection Hgroup as <-.
  cbn in Hcapacity, Hstrategy, Hcompute.
  injection Hcapacity as <-. injection Hstrategy as <-. injection Hcompute as <-.
  cbn in Htypes, Hlc. injection Htypes as <-. injection Hlc as <-.
  destruct F as (F1 & F2 & F3 & F4 & F5 & F6 & F7 & F8 & F9 & F10 & F11 & F12 & F13
                 & F14 & F15 & F16 & F17 & F18 & F19 & F20 & _).
  unfold buildTags in Htags. rewrite !applyDefaults_Tags in Htags.
  assert (HimageID : Elastigroup.ImageID (applyDefaults e) = Elastigroup.ImageID e)
    by (rewrite applyDefaults_fields; reflexivity).
  rewrite HimageID in Himage0. clear HimageID.
  rewrite applyDefaults_fields in Hmin, Hmax, Hten, Hifaces.
  rewrite applyDefaults_fields in F1, F4, F7, F10, F15, F16.
  cbn in Hmin, Hmax, Hten, Hifaces, F1, F4, F7, F10, F15, F16.
  rewrite F1, F2, F3, F4, F5, F6, F7, F8, F9, F10, F11, F12, F13, F15, F16, F17, F19.
  rewrite Hmin, Hmax, Hmon, Hhc, Hten. unfold IntValue. cbn [default].
  repeat (split; [reflexivity|]).
  split; [cbn [aws.Strategy.AvailabilityVsCost]; f_equal;
          apply normalizeOrientation_applyDefaults|].
  split; [|split].
  - intros tags Hrt Etags Hne. rewrite F14, Htags, Etags.
    exact (Find_tags_of_buildTags rt tags Hrt Hne).
  - intros Hset. rewrite F18, Hifaces.
    destruct (Elastigroup.AssociatePublicIP e) as [b|]; [|contradiction].
    cbn. rewrite orb_false_r. reflexivity.
  - intros image imageID Hset Himage Himg Hsame.
    assert (image0 = image) by congruence. subst image0.
    unfold Find_ImageID in F20. rewrite !Hid, !Himg in F20.
    destruct (Elastigroup.ImageID e) as [imageName|] eqn:Eimage; [|contradiction].
    cbn [not_nil is_nil negb andb StringValue default from_option Datatypes.id] in F20.
    cbn [StringValue default from_option Datatypes.id] in Himage, Hsame.
    destruct (String.eqb imageID imageName) eqn:Eeq; cbn [negb] in F20.
    + apply ret_Ok in F20. apply String.eqb_eq in Eeq. subst imageID.
      symmetry. exact F20.
    + apply bind_Ok in F20. destruct F20 as (image' & Himage' & F20).
      rewrite (resolveImage_outcome cloud cloud' imageName Hsame), Himage in Himage'.
      injection Himage' as <-. rewrite Himg in F20.
      cbn [StringValue default from_option Datatypes.id] in F20.
      rewrite String.eqb_refl in F20. apply ret_Ok in F20. symmetry. exact F20.
Qed.

Lemma Find_reads_back_what_create_sent_witness :
  exists actual,
    outcome (Find exampleLibrary createdCloud publicNodes) = Ok actual /\
    Elastigroup.ID actual = Some "sig-7" /\
    Elastigroup.MinSize actual = Some 2 /\
    Elastigroup.Product actual = Some "Linux/UNIX" /\
    Elastigroup.Tags actual = Some twoTags /\
    Elastigroup.AssociatePublicIP actual = Some true /\
    Elastigroup.ImageID actual = Some "ami-1".
Proof.
  destruct (Find exampleLibrary createdCloud publicNodes) as [t [actual|err|]] eqn:E;
    [|vm_compute in E; discriminate E..].
  exists actual.
  destruct (Find_reads_back_what_create_sent exampleLibrary forwardRuntime emptyCloud
              createdCloud 1 None publicNodes None createdGroup "nodes" "sig-7"
              [aws.Group.set_ID (Some "sig-7") createdGroup] actual)
    as (_ & _ & Hid & _ & Hmin & _ & _ & _ & _ & _ & _ & Hproduct & _ & _ & _ & _ & _
        & Htags & Hip & Himage).
  - vm_compute.
    repeat first [apply list_elem_of_here | apply list_elem_of_further].
  - reflexivity.
  - reflexivity.
  - reflexivity.
  - rewrite E. reflexivity.
  - split; [reflexivity|]. split; [exact Hid|]. split; [exact Hmin|].
    split; [exact Hproduct|]. split; [|split].
    + apply (Htags twoTags forwardRuntime_ok eq_refl).
      intros Hempty. apply (f_equal (fun m : gmap string string => m !! "a")) in Hempty.
      vm_compute in Hempty. discriminate Hempty.
    + apply Hip. discriminate.
    + apply (Himage exampleImage "ami-1"); [discriminate|reflexivity..].
Defined.

Lemma Find_RootVolumeOpts_layout lib lc image type size iops throughput info :
  aws.LaunchSpecification.BlockDeviceMappings lc =
    Some (aws.BlockDeviceMapping.mk (ec2.Image.RootDeviceName image) None
            (Some (aws.EBS.mk (Some true) type (Some size) iops throughput None))
          :: map (fun ed =>
                    aws.BlockDeviceMapping.mk
                      (Some (awsup.EphemeralDevice.DeviceName ed))
                      (Some (awsup.EphemeralDevice.VirtualName ed)) None) info) ->
  aws.LaunchSpecification.EBSOptimized lc = None ->
  Find_RootVolumeOpts lib lc =
    Some (RootVolumeOpts.mk
            (match type with Some ty => Some (strings_ToLower lib ty) | None => None end)
            (Some size) iops throughput None).
Proof.
  intros Hbdm Hopt. unfold Find_RootVolumeOpts. rewrite Hbdm, Hopt.
  cbn [default from_option Datatypes.id BoolValue fold_left aws.BlockDeviceMapping.EBS
       aws.EBS.SnapshotID not_nil is_nil negb].
  match goal with
  | |- fold_left ?step _ ?acc = _ =>
      assert (Hskip : forall l o,
                fold_left step
                  (map (fun ed =>
                          aws.BlockDeviceMapping.mk
                            (Some (awsup.EphemeralDevice.DeviceName ed))
                            (Some (awsup.EphemeralDevice.VirtualName ed)) None) l) o = o)
        by (induction l as [|ed l IH]; intros o; [reflexivity|]; cbn [map fold_left];
            apply IH);
      rewrite Hskip
  end.
  unfold int64_of_int.
  destruct type, iops, throughput; reflexivity.
Qed.

(** X28.  The root volume [Find] reads back after [create]: it takes the
    options from the root device alone (the ephemeral devices have no EBS
    part), with the type in lower case, the size sent (0 for a task without
    size), and the IOPS and throughput only where [create] sent them; the
    EBS optimization of the task is never read back, because [create] does
    not send it. *)
Theorem Find_reads_back_the_root_volume
    lib rt cloud cloud' fuel a e changes g name id groups actual :
  SpotinstCreate g ∈ fst (create lib rt cloud fuel a e changes) ->
  Elastigroup.Name e = Some name ->
  List cloud' = Ok groups ->
  find_in groups name = Some (aws.Group.set_ID (Some id) g) ->
  outcome (Find lib cloud' e) = Ok actual ->
  exists opts,
    Elastigroup.RootVolumeOpts e = Some opts /\
    Elastigroup.RootVolumeOpts actual =
      Some (RootVolumeOpts.mk
              (match RootVolumeOpts.Type_ opts with
               | Some ty => Some (strings_ToLower lib ty)
               | None => None
               end)
              (Some (Int64Value (RootVolumeOpts.Size opts)))
              (if not_nil (RootVolumeOpts.IOPS opts)
                  && negb (String.eqb (StringValue (RootVolumeOpts.Type_ opts)) "gp2")
               then RootVolumeOpts.IOPS opts else None)
              (if not_nil (RootVolumeOpts.Throughput opts)
                  && String.eqb (StringValue (RootVolumeOpts.Type_ opts)) "gp3"
               then RootVolumeOpts.Throughput opts else None)
              None).
Proof.
  intros Hcreate Hname Hlist Hfind HFind.
  apply create_sent in Hcreate. apply create_group_parts in Hcreate.
  destruct Hcreate as (minSize & maxSize & sshKey & mappings & image0 & lc
                       & _ & _ & _ & Hmappings & _ & _ & _ & _ & Hbdm & _ & _
                       & _ & Hopt & ->).
  apply Find_parts in HFind.
  destruct HFind as (name' & group & capacity & strategy & compute & instanceTypes & lc'
                     & Hname' & Hgroup & _ & _ & Hcompute & _ & Hlc & F).
  assert (name' = name) by congruence. subst name'.
  rewrite (find_listed cloud' name groups _ Hlist Hfind) in Hgroup.
  injection Hgroup as <-. cbn in Hcompute. injection Hcompute as <-.
  cbn in Hlc. injection Hlc as <-.
  do 20 (destruct F as (_ & F)). destruct F as (Hroot & _).
  apply blockDeviceMappings_layout in Hmappings.
  destruct Hmappings as (image & opts & info & Hopts & _ & _ & ->).
  rewrite applyDefaults_fields in Hopts.
  exists opts. split; [exact Hopts|].
  rewrite Hroot. apply (Find_RootVolumeOpts_layout lib lc image _ _ _ _ info Hbdm Hopt).
Qed.

Lemma Find_reads_back_the_root_volume_witness :
  exists actual,
    outcome (Find exampleLibrary createdCloud publicNodes) = Ok actual /\
    Elastigroup.RootVolumeOpts publicNodes =
      Some (RootVolumeOpts.mk (Some "gp2") (Some 64) (Some 3000) (Some 125) None) /\
    Elastigroup.RootVolumeOpts actual =
      Some (RootVolumeOpts.mk (Some "gp2") (Some 64) None None None).
Proof.
  destruct (Find exampleLibrary createdCloud publicNodes) as [t [actual|err|]] eqn:E;
    [|vm_compute in E; discriminate E..].
  exists actual.
  destruct (Find_reads_back_the_root_volume exampleLibrary forwardRuntime emptyCloud
              createdCloud 1 None publicNodes None createdGroup "nodes" "sig-7"
              [aws.Group.set_ID (Some "sig-7") createdGroup] actual)
    as (opts & Hopts & Hactual).
  - vm_compute.
    repeat first [apply list_elem_of_here | apply list_elem_of_further].
  - reflexivity.
  - reflexivity.
  - reflexivity.
  - rewrite E. reflexivity.
  - injection Hopts as <-. split; [reflexivity|]. split; [reflexivity|exact Hactual].
Defined.

Lemma deref_all_Some {A} (l : list A) : deref_all (map Some l) = ret l.
Proof.
  induction l as [|x l IH]; [reflexivity|].
  cbn [map deref_all deref]. rewrite bind_ret_l, IH, bind_ret_l. reflexivity.
Qed.

Lemma default_appended {A} (l : list A) : default [] (appended l) = l.
Proof. destruct l; reflexivity. Qed.

(** X29.  [Find] compares the subnets as sets: when the subnet IDs of
    the live group are, in any order, the IDs of the desired subnets (all of
    which have an ID), [Find] reports the desired subnets themselves, in the
    desired order, so that a mere reordering is no change; otherwise it
    reports the live subnets, by ID and in the provider's order, and nil when
    the live group has none. *)
Theorem Find_compares_subnets_as_sets lib cloud e actual :
  outcome (Find lib cloud e) = Ok actual ->
  exists name group compute,
    Elastigroup.Name e = Some name /\
    outcome (find cloud name) = Ok group /\
    aws.Group.Compute group = Some compute /\
    Elastigroup.Subnets actual =
      if forallb (fun subnet => not_nil (awstasks.Subnet.ID subnet))
                 (default [] (Elastigroup.Subnets e))
         && StringSlicesEqualIgnoreOrder lib
              (default [] (aws.Compute.SubnetIDs compute))
              (map (fun subnet => StringValue (awstasks.Subnet.ID subnet))
                   (default [] (Elastigroup.Subnets e)))
      then Elastigroup.Subnets e
      else appended (map (fun subnetID => awstasks.Subnet.mk (Some subnetID))
                         (default [] (aws.Compute.SubnetIDs compute))).
Proof.
  unfold Find. intros H.
  apply bind_Ok in H. destruct H as (name & Hname & H). apply deref_Ok in Hname.
  apply bind_Ok in H. destruct H as (group & Hgroup & H).
  apply bind_Ok in H. destruct H as (capacity & _ & H).
  apply bind_Ok in H. destruct H as (strategy & _ & H).
  apply bind_Ok in H. destruct H as (compute & Hcompute & H). apply deref_Ok in Hcompute.
  apply bind_Ok in H. destruct H as (instanceTypes & _ & H).
  apply bind_Ok in H. destruct H as (same & Hsame & H).
  apply bind_Ok in H. destruct H as (lc & _ & H).
  apply bind_Ok in H. destruct H as (imageID & _ & H).
  apply bind_Ok in H. destruct H as (userData & _ & H).
  apply bind_Ok in H. destruct H as (loadBalancer & _ & H).
  apply ret_Ok in H. subst actual.
  exists name, group, compute. repeat (split; [assumption|]).
  cbn [Elastigroup.Subnets].
  rewrite default_appended in Hsame. unfold subnetSlicesEqualIgnoreOrder in Hsame.
  rewrite map_map in Hsame. cbn [awstasks.Subnet.ID] in Hsame.
  change (map (fun x : string => Some x)) with (map (@Some string)) in Hsame.
  rewrite deref_all_Some, bind_ret_l in Hsame.
  destruct (forallb _ _); cbn [andb]; apply ret_Ok in Hsame; subst same; reflexivity.
Qed.

Lemma Find_compares_subnets_as_sets_witness :
  exists actual actual',
    outcome (Find swapLibrary (cloudInSubnets ["subnet-a"; "subnet-b"]) subnetNodes) =
      Ok actual /\
    Elastigroup.Subnets actual = Elastigroup.Subnets subnetNodes /\
    outcome (Find swapLibrary (cloudInSubnets ["subnet-a"; "subnet-c"]) subnetNodes) =
      Ok actual' /\
    Elastigroup.Subnets actual' =
      Some [awstasks.Subnet.mk (Some "subnet-a"); awstasks.Subnet.mk (Some "subnet-c")].
Proof.
  destruct (Find swapLibrary (cloudInSubnets ["subnet-a"; "subnet-b"]) subnetNodes)
    as [t [actual|err|]] eqn:E; [|vm_compute in E; discriminate E..].
  destruct (Find swapLibrary (cloudInSubnets ["subnet-a"; "subnet-c"]) subnetNodes)
    as [t' [actual'|err|]] eqn:E'; [|vm_compute in E'; discriminate E'..].
  exists actual, actual'.
  destruct (Find_compares_subnets_as_sets swapLibrary
              (cloudInSubnets ["subnet-a"; "subnet-b"]) subnetNodes actual)
    as (name & group & compute & Hname & Hgroup & Hcompute & Hsubnets);
    [rewrite E; reflexivity|].
  destruct (Find_compares_subnets_as_sets swapLibrary
              (cloudInSubnets ["subnet-a"; "subnet-c"]) subnetNodes actual')
    as (name' & group' & compute' & Hname' & Hgroup' & Hcompute' & Hsubnets');
    [rewrite E'; reflexivity|].
  injection Hname as <-. injection Hname' as <-.
  vm_compute in Hgroup, Hgroup'. injection Hgroup as <-. injection Hgroup' as <-.
  injection Hcompute as <-. injection Hcompute' as <-.
  split; [reflexivity|]. split; [exact Hsubnets|]. split; [reflexivity|exact Hsubnets'].
Defined.

(** The integration of the two renderers, for one task. *)
Lemma Integration_parity (rt : GoRuntime) (e : Elastigroup.t) :
  runtime_ok rt ->
  integration_equiv
    (match create_Integration rt e with
     | Some i => integration_as_terraform i
     | None => None
     end)
    (RenderTerraform_Integration rt e).
Proof.
  intros Hrt. unfold create_Integration, RenderTerraform_Integration.
  destruct (Elastigroup.AutoScalerOpts e) as [opts|]; [|exact I].
  destruct (AutoScalerOpts.Enabled opts) as [enabled|]; cbn [not_nil is_nil negb];
    [|split; [reflexivity|exact I]].
  destruct (AutoScalerOpts.Headroom opts) as [headroom|],
           (AutoScalerOpts.Down opts) as [down|],
           (AutoScalerOpts.Labels opts) as [labels|];
    (split; [reflexivity|]); cbn; try exact I.
  all: unfold buildAutoScaleLabels; rewrite map_map; cbn.
  all: apply Permutation_map; etransitivity; [apply Hrt|symmetry; apply Hrt].
Qed.

(** X30.  The two renderers describe the same auto scaler: for one task,
    the integration of a group that [create] sends and the integration
    block of a resource that [RenderTerraform] renders are both absent, or
    say the same thing: the mode "pod", the cluster identifier and, when
    the auto scaler is enabled or disabled explicitly, that flag, the cool
    down, the headroom with automatic configuration off (on without a
    headroom), the scale-down settings, and the same labels, which may come
    in a different order. *)
Theorem renderers_agree_on_the_auto_scaler
    lib rt cloud t fuel a a' e changes changes' g kind name tf :
  runtime_ok rt ->
  SpotinstCreate g ∈ fst (create lib rt cloud fuel a e changes) ->
  RenderResource kind name tf ∈ trace (RenderTerraform lib rt cloud t a' e changes') ->
  integration_equiv
    (match aws.Group.Integration g with
     | Some i => integration_as_terraform i
     | None => None
     end)
    (terraformElastigroup.Integration tf).
Proof.
  intros Hrt Hcreate Hrender.
  apply create_sent in Hcreate. apply create_group_parts in Hcreate.
  destruct Hcreate as (minSize & maxSize & sshKey & mappings & image & lc
                       & _ & _ & _ & _ & _ & _ & _ & _ & _ & _ & _ & _ & _ & ->).
  apply RenderTerraform_rendered_parts in Hrender.
  destruct Hrender as (imageID & role & parts & _ & _ & _ & _ & _ & ->).
  exact (Integration_parity rt (applyDefaults e) Hrt).
Qed.

Lemma renderers_agree_on_the_auto_scaler_witness :
  exists g tf i ti,
    SpotinstCreate g ∈
      fst (create exampleLibrary forwardRuntime emptyCloud 1 None scaledNodes None) /\
    RenderResource "spotinst_elastigroup_aws" "nodes" tf ∈
      trace (RenderTerraform exampleLibrary forwardRuntime emptyCloud exampleTarget
                             None scaledNodes None) /\
    aws.Group.Integration g = Some i /\
    terraformElastigroup.Integration tf = Some ti /\
    integration_equiv (integration_as_terraform i) (Some ti) /\
    terraformElastigroupIntegration.AutoConfig ti = Some false.
Proof.
  eexists. eexists.
  match goal with
  | |- exists i ti, ?ev1 ∈ ?t1 /\ ?ev2 ∈ ?t2 /\ _ =>
      assert (Hc : ev1 ∈ t1);
      [|assert (Hr : ev2 ∈ t2)]
  end.
  - vm_compute.
    repeat first [apply list_elem_of_here | apply list_elem_of_further].
  - vm_compute.
    repeat first [apply list_elem_of_here | apply list_elem_of_further].
  - pose proof (renderers_agree_on_the_auto_scaler _ _ _ _ _ _ _ _ _ _ _ _ _ _
                  forwardRuntime_ok Hc Hr) as Hparity.
    eexists. eexists.
    split; [exact Hc|]. split; [exact Hr|].
    split; [reflexivity|]. split; [reflexivity|]. split; [exact Hparity|reflexivity].
Defined.
